(** * Shortly: link shortener and click analytics

    A shallow embedding of the server of the Shortly repository
    (Express routes over Mongoose models) and the properties of its
    redirect pipeline, click logging, link CRUD, analytics overview,
    saved views / annotations and password-reset endpoint.

    Conventions of the embedding.
    - A Mongoose collection is a [list] of documents in insertion order;
      [findOne] returns the first document that matches.
    - JavaScript strings are [string]s of bytes; [null]/[undefined] fields
      are [option]s; numbers that the code keeps integral are [Z], a
      Number that can be infinite is a [Js.number];
      dates are [Z] milliseconds since the epoch.
    - What the repository imports from npm and from the platform (bcryptjs,
      sha.js, ua-parser-js, MongoDB's [$dateToString], the environment) is
      a field of the record [Externals]; what a request draws from the
      outside (nanoid codes, fetched page metadata, fresh ObjectIds, the
      clock, Joi's verdict on the body, failures of the database or of the
      mailer) is an explicit argument of its handler.
    - [await] is sequencing; the callback of [process.nextTick] is run as
      one step. *)

From Stdlib Require Import ZArith Lia Bool Ascii String List Sorted.
From stdpp Require Import base list strings gmap pretty.

Local Open Scope string_scope.
Local Open Scope list_scope.
Local Open Scope Z_scope.

(* ================================================================== *)
(** * JavaScript helpers *)
(* ================================================================== *)
(** Strings are read byte by byte: white space and letter case are those
    of ASCII. *)
Module Js.

(** Truthiness of a string (the empty string is falsy). *)
Definition truthy (s : string) : bool :=
  match s with EmptyString => false | String _ _ => true end.

(** Truthiness of [string | null | undefined]. *)
Definition truthy_opt (o : option string) : bool :=
  match o with Some s => truthy s | None => false end.

(** [o || d] for [o : string | null | undefined]. *)
Definition or_else (o : option string) (d : string) : string :=
  match o with
  | Some s => if truthy s then s else d
  | None => d
  end.

(** Truthiness of an integral number. *)
Definition truthy_num (n : Z) : bool := negb (Z.eqb n 0).

Definition is_space (c : ascii) : bool :=
  let n := nat_of_ascii c in
  (Nat.leb 9 n && Nat.leb n 13) || Nat.eqb n 32.

Fixpoint trimStart (s : string) : string :=
  match s with
  | String c s' => if is_space c then trimStart s' else s
  | EmptyString => EmptyString
  end.

Fixpoint rev_string (acc s : string) : string :=
  match s with
  | EmptyString => acc
  | String c s' => rev_string (String c acc) s'
  end.

Definition trimEnd (s : string) : string :=
  rev_string "" (trimStart (rev_string "" s)).

(** [String.prototype.trim] on ASCII white space. *)
Definition trim (s : string) : string := trimEnd (trimStart s).

Definition is_upper (c : ascii) : bool :=
  let n := nat_of_ascii c in Nat.leb 65 n && Nat.leb n 90.
Definition is_lower (c : ascii) : bool :=
  let n := nat_of_ascii c in Nat.leb 97 n && Nat.leb n 122.
Definition is_digit (c : ascii) : bool :=
  let n := nat_of_ascii c in Nat.leb 48 n && Nat.leb n 57.
(** A visible character of ASCII (33 to 126): one UTF-16 unit, and no
    white space for [trim]. The characters of a JWT (base64url and the
    dot) are among them. *)
Definition is_graph (c : ascii) : bool :=
  let n := nat_of_ascii c in Nat.leb 33 n && Nat.leb n 126.

Definition lower_char (c : ascii) : ascii :=
  if is_upper c then ascii_of_nat (nat_of_ascii c + 32) else c.
Definition upper_char (c : ascii) : ascii :=
  if is_lower c then ascii_of_nat (nat_of_ascii c - 32) else c.

Fixpoint map_string (f : ascii -> ascii) (s : string) : string :=
  match s with
  | EmptyString => EmptyString
  | String c s' => String (f c) (map_string f s')
  end.

Definition toLowerCase : string -> string := map_string lower_char.
Definition toUpperCase : string -> string := map_string upper_char.

Fixpoint filter_string (p : ascii -> bool) (s : string) : string :=
  match s with
  | EmptyString => EmptyString
  | String c s' => if p c then String c (filter_string p s') else filter_string p s'
  end.

(** [s.slice(0, n)]. *)
Fixpoint slice0 (n : nat) (s : string) : string :=
  match n, s with
  | S n', String c s' => String c (slice0 n' s')
  | _, _ => EmptyString
  end.

(** [s.split(",")[0]]. *)
Fixpoint before_comma (s : string) : string :=
  match s with
  | EmptyString => EmptyString
  | String c s' => if Ascii.eqb c "," then EmptyString else String c (before_comma s')
  end.

(** Digits of the longest decimal prefix, most significant first. *)
Fixpoint digits_prefix (s : string) : list Z :=
  match s with
  | String c s' =>
      if is_digit c then (Z.of_nat (nat_of_ascii c) - 48) :: digits_prefix s' else []
  | EmptyString => []
  end.

Definition digits_value (ds : list Z) : Z :=
  fold_left (fun acc d => 10 * acc + d) ds 0.

(** [parseInt(s, 10)]; [None] is [NaN]. *)
Definition parseInt (s : string) : option Z :=
  let t := trimStart s in
  let '(neg, body) :=
    match t with
    | String c r =>
        if Ascii.eqb c "-" then (true, r)
        else if Ascii.eqb c "+" then (false, r) else (false, t)
    | EmptyString => (false, t)
    end in
  match digits_prefix body with
  | [] => None
  | ds => Some (if neg then - digits_value ds else digits_value ds)
  end.

(** [parseInt(q || "0", 10) || 0]. *)
Definition parseInt_or0 (q : option string) : Z :=
  match parseInt (or_else q "0") with
  | Some n => n
  | None => 0
  end.

(** A Number that is integral or infinite: the values of [parseInt] other
    than [NaN]. *)
Inductive number : Type :=
| Fin (z : Z)
| PosInf
| NegInf.

Definition is_finite (n : number) : bool :=
  match n with Fin _ => true | _ => false end.

(** The Number value of a mathematical integer: the nearest double (53
    significant bits, ties to the even significand), an infinity from
    [2^1024 - 2^970] on. Integers below [2^53] are kept as they are. *)
Definition toNumber (z : Z) : number :=
  let a := Z.abs z in
  if a <? 2 ^ 53 then Fin z
  else
    let e := Z.log2 a - 52 in
    let q := Z.shiftr a e in
    let r := a - Z.shiftl q e in
    let half := Z.shiftl 1 (e - 1) in
    let q' := if (half <? r) || ((r =? half) && Z.odd q) then q + 1 else q in
    let m := Z.shiftl q' e in
    if 2 ^ 1024 <=? m then (if z <? 0 then NegInf else PosInf)
    else Fin (if z <? 0 then - m else m).

(** [parseInt(q || "0", 10) || 0] as the Number that it is: [NaN] and
    zero give 0, a digit string beyond the doubles gives an infinity
    (V8 rounds the exact value of the digits). *)
Definition parseNumber_or0 (q : option string) : number :=
  match parseInt (or_else q "0") with
  | Some n => toNumber n
  | None => Fin 0
  end.

(** [n || 0] for [n : number | null | undefined]. *)
Definition number_or0 (o : option number) : number :=
  match o with
  | Some n => n
  | None => Fin 0
  end.

(** A Number after [JSON.parse(JSON.stringify(n))]: [JSON.stringify]
    writes [null] for a Number that is not finite. *)
Definition json_number (n : number) : option number :=
  if is_finite n then Some n else None.

End Js.

(* ================================================================== *)
(** * Regular expressions of utils/validators.js *)
(* ================================================================== *)
Module Regex.

(** The fragment of JavaScript regular expressions that the URL safety
    patterns use: literals, sequence, alternation, [?] and character
    ranges (of digits, which the flag [i] leaves alone). *)
Inductive regex : Type :=
| Lit (s : string)
| Seq (r1 r2 : regex)
| Alt (r1 r2 : regex)
| Opt (r : regex)
| Range (lo hi : ascii).

(** [eat ci lit s]: the rest of [s] after the literal [lit]; with [ci]
    (flag [i]) letters are compared without case. *)
Fixpoint eat (ci : bool) (lit s : string) : option string :=
  match lit, s with
  | EmptyString, _ => Some s
  | String a lit', String b s' =>
      if (if ci then Ascii.eqb (Js.lower_char a) (Js.lower_char b) else Ascii.eqb a b)
      then eat ci lit' s' else None
  | String _ _, EmptyString => None
  end.

(** All the ways [r] can match at the start of [s]: the list of rests. *)
Fixpoint rests (ci : bool) (r : regex) (s : string) : list string :=
  match r with
  | Lit l => match eat ci l s with Some t => [t] | None => [] end
  | Seq r1 r2 => flat_map (rests ci r2) (rests ci r1 s)
  | Alt r1 r2 => rests ci r1 s ++ rests ci r2 s
  | Opt r1 => rests ci r1 s ++ [s]
  | Range lo hi =>
      match s with
      | String c t =>
          if Nat.leb (nat_of_ascii lo) (nat_of_ascii c) && Nat.leb (nat_of_ascii c) (nat_of_ascii hi)
          then [t] else []
      | EmptyString => []
      end
  end.

(** A pattern without letters, on which the flag [i] has no effect. *)
Fixpoint letter_free_lit (l : string) : bool :=
  match l with
  | EmptyString => true
  | String c l' => negb (Js.is_upper c) && negb (Js.is_lower c) && letter_free_lit l'
  end.

Fixpoint letter_free (r : regex) : bool :=
  match r with
  | Lit l => letter_free_lit l
  | Seq r1 r2 | Alt r1 r2 => letter_free r1 && letter_free r2
  | Opt r1 => letter_free r1
  | Range lo hi => Js.is_digit lo && Js.is_digit hi
  end.

(** [/^r/.test(s)], or [/^r/i.test(s)] when [ci]. *)
Definition test_anchored (ci : bool) (r : regex) (s : string) : bool :=
  match rests ci r s with [] => false | _ :: _ => true end.

End Regex.

(* ================================================================== *)
(** * utils/validators.js *)
(* ================================================================== *)
Module Validators.
Import Regex.

(** [http(s)?:\/\/] *)
Definition http_s : regex := Seq (Lit "http") (Seq (Opt (Lit "s")) (Lit "://")).

(** The table [privateNets]: each pattern with its [i] flag. *)
Definition privateNets : list (bool * regex) :=
  [ (true,  Seq http_s (Alt (Lit "localhost") (Alt (Lit "127.0.0.1") (Lit "0.0.0.0"))));
    (false, Seq http_s (Lit "10."));
    (false, Seq http_s (Lit "192.168."));
    (false, Seq http_s
              (Seq (Lit "172.")
                   (Seq (Alt (Seq (Lit "1") (Range "6" "9"))
                             (Alt (Seq (Lit "2") (Range "0" "9"))
                                  (Seq (Lit "3") (Range "0" "1"))))
                        (Lit "."))));
    (true,  Lit "javascript:") ].

(** [/^https?:\/\//i] *)
Definition https_q : regex := Seq (Lit "http") (Seq (Opt (Lit "s")) (Lit "://")).

Definition isSafeUrl (url : string) : bool :=
  let u := Js.trim url in
  if negb (test_anchored true https_q u) then false
  else negb (existsb (fun p => test_anchored (fst p) (snd p) u) privateNets).

(** The safety check as its documentation words it ("must be
    http/https; must not target private networks or javascript: URLs"):
    an unsafe URL does not begin with [http://] or [https://] in any
    letter case, or goes on, after that scheme, with [localhost],
    [127.0.0.1], [0.0.0.0], [10.], [192.168.] or [172.16.] to [172.31.],
    or is a [javascript:] URL. *)
Definition describedUnsafe (url : string) : bool :=
  let u := Js.trim url in
  negb (test_anchored true https_q u)
  || existsb (fun p => test_anchored true (snd p) u) privateNets.

(** The pattern [slug]: [/^[a-zA-Z0-9_-]{4,32}$/]. *)
Definition slug_char (c : ascii) : bool :=
  Js.is_lower c || Js.is_upper c || Js.is_digit c || Ascii.eqb c "_" || Ascii.eqb c "-".

Fixpoint all_chars (p : ascii -> bool) (s : string) : bool :=
  match s with
  | EmptyString => true
  | String c s' => p c && all_chars p s'
  end.

Definition slug (s : string) : bool :=
  all_chars slug_char s && Nat.leb 4 (String.length s) && Nat.leb (String.length s) 32.

End Validators.

(* ================================================================== *)
(** * Data model (models/Link.js, models/Click.js, models/User.js) *)
(* ================================================================== *)

(** A Mongo [ObjectId], as its hexadecimal string. *)
Definition ObjectId : Type := string.

Module Link.
Record Meta : Type := { title : option string; favicon : option string; notes : option string }.

Record t : Type := {
  _id : ObjectId;
  ownerId : ObjectId;
  code : string;
  longUrl : string;
  domain : string;
  isActive : bool;
  expiresAt : option Z;
  passwordHash : option string;
  maxClicks : Z;
  clicksCount : Z;
  meta : Meta;
  createdAt : Z;
  updatedAt : Z
}.
End Link.

Module Click.
Record Utm : Type := { source : option string; medium : option string; campaign : option string }.

(** The object that the redirect handler hands to [enqueueClick], and the
    copy of it that the worker reads from the job: [p_tzOffset] is a Number
    in the handler, and [null] in a copy whose Number JSON could not
    write. *)
Record Payload : Type := {
  p_linkId : ObjectId;
  p_referer : string;
  p_tzOffset : option Js.number;
  p_utm : option Utm;
  p_ipHash : string;
  p_ua : string;
  p_country : option string;
  p_device : string;
  p_browser : string
}.

(** A stored Click document ([clickSchema]); there is no field for the
    address of the visitor. *)
Record t : Type := {
  _id : ObjectId;
  linkId : ObjectId;
  ts : Z;
  referer : string;
  country : option string;
  ua : string;
  device : string;
  browser : string;
  ipHash : string;
  tzOffset : option Js.number;
  utm : option Utm
}.
End Click.

Module User.
Record t : Type := {
  _id : ObjectId;
  name : string;
  email : string;
  passwordHash : string;
  emailVerified : bool;
  verifyCode : option string;
  verifyCodeExpires : option Z;
  resetCode : option string;
  resetCodeExpires : option Z;
  role : string
}.

(** The validators of [userSchema] that [User.create] runs: [name],
    [email] and [passwordHash] are required (a string that is empty once
    the setters have trimmed it fails) and [name] has at most 120
    characters. *)
Definition validates (u : t) : bool :=
  Js.truthy (name u) && Nat.leb (String.length (name u)) 120
  && Js.truthy (email u) && Js.truthy (passwordHash u).
End User.

Module SavedView.
Record Filters : Type := {
  f_country : option string; f_device : option string; f_browser : option string;
  f_source : option string; f_medium : option string; f_campaign : option string
}.

Record t : Type := {
  _id : ObjectId;
  ownerId : ObjectId;
  name : string;
  range : string;
  compare : bool;
  filters : Filters;
  breakdown : string;
  updatedAt : Z
}.
End SavedView.

Module Annotation.
Record t : Type := {
  _id : ObjectId;
  ownerId : ObjectId;
  scope : string;
  ts : Z;
  label : string;
  color : string
}.
End Annotation.

(** The database: one list per collection. *)
Record Db : Type := {
  links : list Link.t;
  clicks : list Click.t;
  users : list User.t;
  savedViews : list SavedView.t;
  annotations : list Annotation.t
}.

Definition set_links (f : list Link.t -> list Link.t) (db : Db) : Db :=
  {| links := f (links db); clicks := clicks db; users := users db;
     savedViews := savedViews db; annotations := annotations db |}.
Definition set_clicks (f : list Click.t -> list Click.t) (db : Db) : Db :=
  {| links := links db; clicks := f (clicks db); users := users db;
     savedViews := savedViews db; annotations := annotations db |}.
Definition set_users (f : list User.t -> list User.t) (db : Db) : Db :=
  {| links := links db; clicks := clicks db; users := f (users db);
     savedViews := savedViews db; annotations := annotations db |}.
Definition set_savedViews (f : list SavedView.t -> list SavedView.t) (db : Db) : Db :=
  {| links := links db; clicks := clicks db; users := users db;
     savedViews := f (savedViews db); annotations := annotations db |}.
Definition set_annotations (f : list Annotation.t -> list Annotation.t) (db : Db) : Db :=
  {| links := links db; clicks := clicks db; users := users db;
     savedViews := savedViews db; annotations := f (annotations db) |}.

(** What the server imports from npm packages and from the platform. *)
Record Externals : Type := {
  (** [bcrypt.compareSync(pwd, hash)]; [None] when it throws. *)
  bcrypt_compareSync : string -> string -> option bool;
  (** [bcrypt.hashSync(pwd, BCRYPT_ROUNDS)]. *)
  bcrypt_hashSync : string -> string;
  (** [shajs("sha256").update(s).digest("hex")]. *)
  sha256_hex : string -> string;
  (** [new Date(ms).toISOString()]. *)
  toISOString : Z -> string;
  (** [new UAParser(ua)]: device type and browser name; [None] when it throws. *)
  UAParser : string -> option (option string * option string);
  (** MongoDB's [$dateToString] with a format. *)
  dateToString : string -> Z -> string;
  (** [env.JWT_SECRET], [env.BASE_PUBLIC_URL], [env.DEV_MAIL]. *)
  JWT_SECRET : string;
  BASE_PUBLIC_URL : string;
  DEV_MAIL : bool
}.

(** Collection helpers shared by the routes. *)
Module Mongo.

(** [Model.findOne(pred)]: the first matching document. *)
Definition findOne {A} (p : A -> bool) (docs : list A) : option A := List.find p docs.

(** [Model.find(pred)]. *)
Definition find_all {A} (p : A -> bool) (docs : list A) : list A := List.filter p docs.

(** [Model.updateOne(pred, u)] / [findOneAndUpdate]: the first matching
    document is replaced by its update; the others are kept. *)
Fixpoint updateOne {A} (p : A -> bool) (u : A -> A) (docs : list A) : list A :=
  match docs with
  | [] => []
  | d :: rest => if p d then u d :: rest else d :: updateOne p u rest
  end.

(** [Model.deleteOne(pred)]: the first matching document is removed. *)
Fixpoint deleteOne {A} (p : A -> bool) (docs : list A) : list A :=
  match docs with
  | [] => []
  | d :: rest => if p d then rest else d :: deleteOne p rest
  end.

(** Stable insertion sort for [.sort(...)] and [$sort]. *)
Fixpoint insert_by {A} (le : A -> A -> bool) (x : A) (l : list A) : list A :=
  match l with
  | [] => [x]
  | y :: rest => if le x y then x :: l else y :: insert_by le x rest
  end.

Definition sort_by {A} (le : A -> A -> bool) (l : list A) : list A :=
  fold_right (insert_by le) [] l.

End Mongo.

(* ================================================================== *)
(** * utils/crypto.js, utils/parse.js, utils/geo.js, utils/ua.js *)
(* ================================================================== *)
Module Utils.
Section WithExternals.
Variable ext : Externals.

Definition hashPassword (pwd : string) : string := bcrypt_hashSync ext pwd.

(** Safe compare: never throws. *)
Definition comparePassword (pwd : string) (hash : option string) : bool :=
  match hash with
  | Some h =>
      if negb (Js.truthy pwd) || negb (Js.truthy h) then false
      else match bcrypt_compareSync ext pwd h with
           | Some b => b
           | None => false
           end
  | None => false
  end.

(** Daily rotating hash of the address: the first 32 hex digits of
    sha256 of [ip|secret|YYYY-MM-DD]. *)
Definition ipHash (now : Z) (ip : string) : string :=
  let day := Js.slice0 10 (toISOString ext now) in
  Js.slice0 32 (sha256_hex ext (ip +:+ "|" +:+ JWT_SECRET ext +:+ "|" +:+ day)).

Definition parseUA (ua : string) : string * string :=
  match UAParser ext ua with
  | Some (ty, nm) =>
      let dev := Js.or_else ty "desktop" in
      (Js.or_else (Some dev) "other", Js.or_else nm "Unknown")
  | None => ("other", "Unknown")
  end.
End WithExternals.

Definition UTM_MAX_LEN : nat := 64.

Definition utm_field (q : option string) : option string :=
  match q with
  | Some s => if Js.truthy s then Some (Js.slice0 UTM_MAX_LEN s) else None
  | None => None
  end.

Definition parseUTM (query : gmap string string) : option Click.Utm :=
  let obj := {| Click.source := utm_field (query !! "utm_source");
                Click.medium := utm_field (query !! "utm_medium");
                Click.campaign := utm_field (query !! "utm_campaign") |} in
  match Click.source obj, Click.medium obj, Click.campaign obj with
  | None, None, None => None
  | _, _, _ => Some obj
  end.

Definition first_truthy (a b c : option string) : option string :=
  if Js.truthy_opt a then a else if Js.truthy_opt b then b else if Js.truthy_opt c then c else None.

Definition getCountryFromHeaders (headers : gmap string string) : option string :=
  match first_truthy (headers !! "cf-ipcountry") (headers !! "x-vercel-ip-country")
                     (headers !! "x-geo-country") with
  | Some s => let u := Js.toUpperCase s in if Js.truthy u then Some u else None
  | None => None
  end.
End Utils.

(* ================================================================== *)
(** * queue/index.js *)
(* ================================================================== *)
Module Queue.

(** A database call either returns or throws. *)
Inductive result (A : Type) : Type :=
| Ok (a : A)
| Throw.
Arguments Ok {A} a.
Arguments Throw {A}.

(** Which of the two database calls of one click log throws (connection
    loss, validation error): decided by the environment. *)
Record Faults : Type := { createThrows : bool; updateThrows : bool }.

Definition no_faults : Faults := {| createThrows := false; updateThrows := false |}.

(** The document that [Click.create(payload)] stores: the fields of the
    payload, a fresh [_id] and [ts] defaulting to the current time. *)
Definition click_of_payload (newId : ObjectId) (now : Z) (p : Click.Payload) : Click.t :=
  {| Click._id := newId;
     Click.linkId := Click.p_linkId p;
     Click.ts := now;
     Click.referer := Click.p_referer p;
     Click.country := Click.p_country p;
     Click.ua := Click.p_ua p;
     Click.device := Click.p_device p;
     Click.browser := Click.p_browser p;
     Click.ipHash := Click.p_ipHash p;
     Click.tzOffset := Click.p_tzOffset p;
     Click.utm := Click.p_utm p |}.

(** [await Click.create(payload)]. *)
Definition Click_create (fx : Faults) (newId : ObjectId) (now : Z)
           (p : Click.Payload) (db : Db) : result Db :=
  if createThrows fx then Throw
  else Ok (set_clicks (fun cs => cs ++ [click_of_payload newId now p]) db).

(** [{ $inc: { clicksCount: 1 } }] on a Link; the schema has
    [timestamps: true], so Mongoose also stamps [updatedAt]. *)
Definition inc_clicksCount (now : Z) (l : Link.t) : Link.t :=
  {| Link._id := Link._id l;
     Link.ownerId := Link.ownerId l;
     Link.code := Link.code l;
     Link.longUrl := Link.longUrl l;
     Link.domain := Link.domain l;
     Link.isActive := Link.isActive l;
     Link.expiresAt := Link.expiresAt l;
     Link.passwordHash := Link.passwordHash l;
     Link.maxClicks := Link.maxClicks l;
     Link.clicksCount := Link.clicksCount l + 1;
     Link.meta := Link.meta l;
     Link.createdAt := Link.createdAt l;
     Link.updatedAt := now |}.

(** [await Link.updateOne({ _id: payload.linkId }, { $inc: { clicksCount: 1 } })]. *)
Definition Link_incClicks (fx : Faults) (now : Z) (linkId : ObjectId) (db : Db) : result Db :=
  if updateThrows fx then Throw
  else Ok (set_links
             (Mongo.updateOne (fun l => String.eqb (Link._id l) linkId) (inc_clicksCount now))
             db).

(** The callback given to [process.nextTick] by the fallback:
    [try { create; updateOne } catch {}]. *)
Definition inlineFallback (fx : Faults) (newId : ObjectId) (now : Z)
           (p : Click.Payload) (db : Db) : Db :=
  match Click_create fx newId now p db with
  | Throw => db
  | Ok db1 =>
      match Link_incClicks fx now (Click.p_linkId p) db1 with
      | Throw => db1
      | Ok db2 => db2
      end
  end.

Record JobData : Type := { payload : option Click.Payload }.
Record Job : Type := { jobName : string; data : option JobData }.

(** [JSON.parse(JSON.stringify(payload))]: BullMQ keeps the data of a job
    in Redis as JSON text. Strings and [null] come back as they were (the
    ObjectId of [linkId] as its hex string, which Mongoose casts back); a
    Number that is not finite comes back as [null]. *)
Definition viaJSON (p : Click.Payload) : Click.Payload :=
  {| Click.p_linkId := Click.p_linkId p;
     Click.p_referer := Click.p_referer p;
     Click.p_tzOffset :=
       match Click.p_tzOffset p with
       | Some n => Js.json_number n
       | None => None
       end;
     Click.p_utm := Click.p_utm p;
     Click.p_ipHash := Click.p_ipHash p;
     Click.p_ua := Click.p_ua p;
     Click.p_country := Click.p_country p;
     Click.p_device := Click.p_device p;
     Click.p_browser := Click.p_browser p |}.

Definition QUEUE_NAME : string := "clicks".
Definition JOB_NAME : string := "log".

Inductive JobOutcome : Type := Completed | Failed.

(** The processor given to [new Worker(QUEUE_NAME, ...)]. *)
Definition workerBody (fx : Faults) (newId : ObjectId) (now : Z)
           (job : Job) (db : Db) : Db * JobOutcome :=
  match data job with
  | Some {| payload := Some p |} =>
      match Click_create fx newId now p db with
      | Throw => (db, Failed)
      | Ok db1 =>
          match Link_incClicks fx now (Click.p_linkId p) db1 with
          | Throw => (db1, Failed)
          | Ok db2 => (db2, Completed)
          end
      end
  | _ => (db, Completed)
  end.

(** The module state: [useQueue], [queue] (with the jobs waiting in
    Redis) and [warnedOnce]. *)
Record State : Type := {
  useQueue : bool;
  queue : option (list Job);
  warnedOnce : bool
}.

(** The state before [initQueue] runs: [let useQueue = false; let queue;]. *)
Definition initial : State := {| useQueue := false; queue := None; warnedOnce := false |}.

(** [initQueue()]: the queue is used when [env.REDIS_URL] is set and
    [bullmq] loads ([importThrows] says that the dynamic import fails). *)
Definition initQueue (REDIS_URL : option string) (importThrows : bool) (st : State) : State :=
  if negb (Js.truthy_opt (option_map Js.trim REDIS_URL))
  then {| useQueue := false; queue := queue st; warnedOnce := warnedOnce st |}
  else if importThrows
  then {| useQueue := false; queue := queue st; warnedOnce := true |}
  else {| useQueue := true; queue := Some []; warnedOnce := warnedOnce st |}.

Record Sys : Type := { db : Db; qstate : State }.

(** [enqueueClick(payload)]. [addThrows] says whether [queue.add] throws;
    the other oracles are those of the fallback, run on the next tick.
    The job that [queue.add] stores holds the payload as JSON. *)
Definition enqueueClick (addThrows : bool) (fx : Faults) (newId : ObjectId) (now : Z)
           (p : Click.Payload) (s : Sys) : Sys :=
  let fallback (q : State) :=
    {| db := inlineFallback fx newId now p (db s); qstate := q |} in
  match useQueue (qstate s), queue (qstate s) with
  | true, Some jobs =>
      if addThrows then
        fallback {| useQueue := true; queue := Some jobs; warnedOnce := true |}
      else
        {| db := db s;
           qstate := {| useQueue := true;
                        queue := Some (jobs ++ [{| jobName := JOB_NAME;
                                                   data := Some {| payload := Some (viaJSON p) |} |}]);
                        warnedOnce := warnedOnce (qstate s) |} |}
  | _, _ => fallback (qstate s)
  end.

(** The worker takes the oldest waiting job and runs the processor. *)
Definition workerStep (fx : Faults) (newId : ObjectId) (now : Z) (s : Sys) : Sys :=
  match queue (qstate s) with
  | Some (job :: rest) =>
      {| db := fst (workerBody fx newId now job (db s));
         qstate := {| useQueue := useQueue (qstate s); queue := Some rest;
                      warnedOnce := warnedOnce (qstate s) |} |}
  | _ => s
  end.

End Queue.

(* ================================================================== *)
(** * routes/redirect.routes.js *)
(* ================================================================== *)
Module Redirect.

Record Request : Type := {
  params_code : string;
  query : gmap string string;
  signedCookies : gmap string string;
  headers : gmap string string;
  remoteAddress : option string
}.

(** The arguments of [errorPage]; [brand] defaults to ["Shortly"]. *)
Record ErrorPage : Type := { title : string; subtitle : string; code : Z; brand : string }.

Definition errorPage (title subtitle : string) (code : Z) : ErrorPage :=
  {| title := title; subtitle := subtitle; code := code; brand := "Shortly" |}.

Inductive Response : Type :=
| Send (status : Z) (page : ErrorPage)
| RedirectTo (status : Z) (location : string).

Definition status_of (r : Response) : Z :=
  match r with Send s _ => s | RedirectTo s _ => s end.

(** What one run of the handler does: the response, the cookie it sets
    and the payload it passes to [enqueueClick]. *)
Record Outcome : Type := {
  response : Response;
  setCookie : option (string * string);
  enqueued : option Click.Payload
}.

Definition respond (r : Response) : Outcome :=
  {| response := r; setCookie := None; enqueued := None |}.

Definition notFound : Response :=
  Send 404 (errorPage "Link not found" "This short link is invalid or has been disabled." 404).
Definition expired : Response :=
  Send 410 (errorPage "Link expired" "The link has passed its expiry date." 410).
Definition maxReached : Response :=
  Send 429 (errorPage "Max clicks reached" "This link is no longer available." 429).

(** [/[^a-zA-Z0-9_-]/g] removed. *)
Definition cookie_char (c : ascii) : bool :=
  Js.is_lower c || Js.is_upper c || Js.is_digit c || Ascii.eqb c "_" || Ascii.eqb c "-".

Definition cookieKey (l : Link.t) : string :=
  Js.filter_string cookie_char ("sl_pw_ok_" +:+ Link._id l).

Definition opt_is (o : option string) (v : string) : bool :=
  match o with Some s => String.eqb s v | None => false end.

(** [req.get("referer")]: Express reads [referrer] or [referer]. *)
Definition get_referer (req : Request) : option string :=
  match headers req !! "referrer" with
  | Some s => if Js.truthy s then Some s else headers req !! "referer"
  | None => headers req !! "referer"
  end.

Definition client_ip (req : Request) : string :=
  let fwd := match headers req !! "x-forwarded-for" with
             | Some h => Js.trim (Js.before_comma h)
             | None => ""
             end in
  if Js.truthy fwd then fwd else Js.or_else (remoteAddress req) "0.0.0.0".

Section WithExternals.
Variable ext : Externals.

Definition okCookie (req : Request) (l : Link.t) : bool :=
  opt_is (signedCookies req !! cookieKey l) "1".

Definition query_pw (req : Request) : string := Js.or_else (query req !! "pw") "".

Definition okPw (req : Request) (l : Link.t) : bool :=
  if Js.truthy (query_pw req)
  then Utils.comparePassword ext (query_pw req) (Link.passwordHash l)
  else false.

Definition cameBackOk (req : Request) : bool := opt_is (query req !! "ok") "1".

Definition clickPayload (now : Z) (req : Request) (l : Link.t) : Click.Payload :=
  let uaStr := Js.or_else (headers req !! "user-agent") "" in
  {| Click.p_linkId := Link._id l;
     Click.p_referer := Js.or_else (get_referer req) "direct";
     Click.p_tzOffset := Some (Js.parseNumber_or0 (query req !! "tzOffset"));
     Click.p_utm := Utils.parseUTM (query req);
     Click.p_ipHash := Utils.ipHash ext now (client_ip req);
     Click.p_ua := uaStr;
     Click.p_country := Utils.getCountryFromHeaders (headers req);
     Click.p_device := fst (Utils.parseUA ext uaStr);
     Click.p_browser := snd (Utils.parseUA ext uaStr) |}.

(** The block "Optional password gate": [Some o] when one of its
    three early [return res.redirect(...)] fires, [None] when control
    falls through to the click log. *)
Definition passwordGate (code : string) (req : Request) (link : Link.t) : option Outcome :=
  if Js.truthy_opt (Link.passwordHash link) then
    if negb (okCookie req link) && negb (okPw req link)
    then Some (respond (RedirectTo 302 ("/r/" +:+ code +:+ "/unlock")))
    else if Js.truthy (query_pw req) && negb (okPw req link)
    then Some (respond (RedirectTo 302 ("/r/" +:+ code +:+ "/unlock?e=1")))
    else if okPw req link && negb (okCookie req link) && negb (cameBackOk req)
    then Some {| response := RedirectTo 302 ("/r/" +:+ code +:+ "?ok=1");
                 setCookie := Some (cookieKey link, "1");
                 enqueued := None |}
    else None
  else None.

(** The handler of [r.get("/:code", redirectLimiter, perLinkLimiter, ...)],
    run once the two limiters have called [next()]. *)
Definition handler (now : Z) (req : Request) (db : Db) : Outcome :=
  let code := Js.trim (params_code req) in
  match Mongo.findOne (fun l => String.eqb (Link.code l) code) (links db) with
  | None => respond notFound
  | Some link =>
      if negb (Link.isActive link) then respond notFound
      else if match Link.expiresAt link with
              | Some e => e <? now
              | None => false
              end then respond expired
      else if Js.truthy_num (Link.maxClicks link)
              && (Link.maxClicks link <=? Link.clicksCount link) then respond maxReached
      else
        match passwordGate code req link with
        | Some early => early
        | None =>
            {| response := RedirectTo 302 (Link.longUrl link);
               setCookie := None;
               enqueued := Some (clickPayload now req link) |}
        end
  end.

(** One request served: the handler, then [enqueueClick] on the payload. *)
Definition serve (addThrows : bool) (fx : Queue.Faults) (newId : ObjectId) (now : Z)
           (req : Request) (s : Queue.Sys) : Outcome * Queue.Sys :=
  let o := handler now req (Queue.db s) in
  match enqueued o with
  | Some p => (o, Queue.enqueueClick addThrows fx newId now p s)
  | None => (o, s)
  end.
End WithExternals.

(** Two requests that differ at most in where they come from: the
    [x-forwarded-for] header and the address of the socket. *)
Definition sameButAddress (r1 r2 : Request) : Prop :=
  params_code r1 = params_code r2
  /\ query r1 = query r2
  /\ signedCookies r1 = signedCookies r2
  /\ delete "x-forwarded-for" (headers r1) = delete "x-forwarded-for" (headers r2).

End Redirect.

(** The outcome of a Joi schema on a request body: an error message or
    the validated value. *)
Inductive Validation (A : Type) : Type :=
| Invalid (message : string)
| Valid (value : A).
Arguments Invalid {A} message.
Arguments Valid {A} value.

(* ================================================================== *)
(** * routes/links.routes.js *)
(* ================================================================== *)
Module Links.

(** The value of [createLinkSchema]. *)
Record CreateValue : Type := {
  c_longUrl : string;
  c_code : option string;
  c_notes : option string;
  c_expiresAt : option Z;
  c_password : option string;
  c_maxClicks : Z;
  c_domain : option string
}.

(** The value of [updateLinkSchema]: a key is [None] when the body does
    not have it; an inner [None] is [null]. *)
Record UpdateValue : Type := {
  u_longUrl : option string;
  u_notes : option (option string);
  u_isActive : option bool;
  u_expiresAt : option (option Z);
  u_password : option (option string);
  u_maxClicks : option Z;
  u_domain : option (option string);
  u_code : option string
}.

(** What [fetchPageMeta] resolves to: [title] and [favicon]. *)
Record PageMeta : Type := { pm_title : option string; pm_favicon : option string }.

Inductive Response : Type :=
| Error (status : Z) (message : string)
| LinkJson (doc : Link.t) (shortUrl : string).

Definition codeTaken (code : string) (db : Db) : option Link.t :=
  Mongo.findOne (fun l => String.eqb (Link.code l) code) (links db).

(** [do { code = genCode(); } while (await Link.findOne({ code }));]
    [gen i] is the [i]-th code that nanoid returns; [fuel] bounds the
    number of rounds, [None] meaning that the loop is still running. *)
Fixpoint genLoop (fuel : nat) (gen : nat -> string) (i : nat) (db : Db) : option string :=
  match fuel with
  | O => None
  | S fuel' =>
      let code := gen i in
      match codeTaken code db with
      | Some _ => genLoop fuel' gen (S i) db
      | None => Some code
      end
  end.

Section WithExternals.
Variable ext : Externals.

Definition buildShortUrl (doc : Link.t) : string :=
  let origin := if Js.truthy (Link.domain doc)
                then "https://" +:+ Link.domain doc
                else BASE_PUBLIC_URL ext in
  origin +:+ "/r/" +:+ Link.code doc.

(** The document of [Link.create({...})] with the schema defaults. *)
Definition newLink (user newId : ObjectId) (now : Z) (code : string)
           (meta : PageMeta) (v : CreateValue) : Link.t :=
  {| Link._id := newId;
     Link.ownerId := user;
     Link.code := code;
     Link.longUrl := c_longUrl v;
     Link.domain := Js.toLowerCase (Js.trim (Js.or_else (c_domain v) ""));
     Link.isActive := true;
     Link.expiresAt := c_expiresAt v;
     Link.passwordHash :=
       if Js.truthy_opt (c_password v)
       then Some (Utils.hashPassword ext (Js.or_else (c_password v) ""))
       else None;
     Link.maxClicks := c_maxClicks v;
     Link.clicksCount := 0;
     Link.meta := {| Link.title := pm_title meta;
                     Link.favicon := pm_favicon meta;
                     Link.notes := Some (Js.or_else (c_notes v) "") |};
     Link.createdAt := now;
     Link.updatedAt := now |}.

(** [r.post("/")]. [meta] is what [fetchPageMeta(...).catch(() => ({}))]
    gives. [None]: the code loop has not ended within [fuel] rounds. *)
Definition create (fuel : nat) (gen : nat -> string) (meta : PageMeta)
           (user newId : ObjectId) (now : Z)
           (body : Validation CreateValue) (db : Db) : option (Response * Db) :=
  match body with
  | Invalid msg => Some (Error 400 msg, db)
  | Valid value =>
      if negb (Validators.isSafeUrl (c_longUrl value)) then Some (Error 400 "Unsafe URL", db)
      else
        let supplied := Js.trim (Js.or_else (c_code value) "") in
        let chosen :=
          if negb (Js.truthy supplied) then
            match genLoop fuel gen 0 db with
            | Some c => Some (inr c)
            | None => None
            end
          else
            match codeTaken supplied db with
            | Some _ => Some (inl (Error 409 "Code already taken"))
            | None => Some (inr supplied)
            end in
        match chosen with
        | None => None
        | Some (inl err) => Some (err, db)
        | Some (inr code) =>
            let doc := newLink user newId now code meta value in
            Some (LinkJson doc (buildShortUrl doc), set_links (fun ls => ls ++ [doc]) db)
        end
  end.

(** The [$set] of [r.patch("/:id")] applied to a Link. The key [notes]
    of the body is not a path of [linkSchema] (the schema has
    [meta.notes]), so Mongoose drops it. [fetched] is the result of
    [fetchPageMeta], [None] when it throws. *)
Definition applySet (now : Z) (fetched : option PageMeta) (v : UpdateValue) (l : Link.t) : Link.t :=
  let refreshed :=
    match u_longUrl v with
    | Some u => if Js.truthy u then fetched else None
    | None => None
    end in
  {| Link._id := Link._id l;
     Link.ownerId := Link.ownerId l;
     Link.code := match u_code v with Some c => c | None => Link.code l end;
     Link.longUrl := match u_longUrl v with Some u => u | None => Link.longUrl l end;
     Link.domain := match u_domain v with
                    | Some d => Js.toLowerCase (Js.or_else d "")
                    | None => Link.domain l
                    end;
     Link.isActive := match u_isActive v with Some b => b | None => Link.isActive l end;
     Link.expiresAt := match u_expiresAt v with Some e => e | None => Link.expiresAt l end;
     Link.passwordHash :=
       match u_password v with
       | Some p => if Js.truthy_opt p
                   then Some (Utils.hashPassword ext (Js.or_else p ""))
                   else None
       | None => Link.passwordHash l
       end;
     Link.maxClicks := match u_maxClicks v with Some m => m | None => Link.maxClicks l end;
     Link.clicksCount := Link.clicksCount l;
     Link.meta :=
       {| Link.title :=
            match refreshed with
            | Some m => if Js.truthy_opt (pm_title m) then pm_title m
                        else Link.title (Link.meta l)
            | None => Link.title (Link.meta l)
            end;
          Link.favicon :=
            match refreshed with
            | Some m => if Js.truthy_opt (pm_favicon m) then pm_favicon m
                        else Link.favicon (Link.meta l)
            | None => Link.favicon (Link.meta l)
            end;
          Link.notes := Link.notes (Link.meta l) |};
     Link.createdAt := Link.createdAt l;
     Link.updatedAt := now |}.

(** [r.patch("/:id")]. *)
Definition update (fetched : option PageMeta) (user id : ObjectId) (now : Z)
           (body : Validation UpdateValue) (db : Db) : Response * Db :=
  match body with
  | Invalid msg => (Error 400 msg, db)
  | Valid value =>
      if Js.truthy_opt (u_longUrl value)
         && negb (Validators.isSafeUrl (Js.or_else (u_longUrl value) ""))
      then (Error 400 "Unsafe URL", db)
      else
        let conflict :=
          if Js.truthy_opt (u_code value) then
            match codeTaken (Js.or_else (u_code value) "") db with
            | Some other => negb (String.eqb (Link._id other) id)
            | None => false
            end
          else false in
        if conflict then (Error 409 "Code already taken", db)
        else
          let mine (l : Link.t) :=
            String.eqb (Link._id l) id && String.eqb (Link.ownerId l) user in
          match Mongo.findOne mine (links db) with
          | None => (Error 404 "Not found", db)
          | Some l =>
              let doc := applySet now fetched value l in
              (LinkJson doc (buildShortUrl doc),
               set_links (Mongo.updateOne mine (applySet now fetched value)) db)
          end
  end.
End WithExternals.

(** What the route relies on from [updateLinkSchema]: a [code] in the
    value matches the pattern [slug]. *)
Definition codeIsSlug (v : UpdateValue) : Prop :=
  forall c, u_code v = Some c -> Validators.slug c = true.

(** The invariant of the collection: no two links share a code. *)
Definition UniqueCodes (db : Db) : Prop := NoDup (map Link.code (links db)).

(** [_id] is the primary key of the collection. *)
Definition UniqueIds (db : Db) : Prop := NoDup (map Link._id (links db)).

End Links.

(* ================================================================== *)
(** * routes/analytics.routes.js *)
(* ================================================================== *)
Module Analytics.

Definition DEFAULT_ANNOTATION_COLOR : string := "#ef4444".
Definition MS_PER_MIN : Z := 60 * 1000.
Definition MS_PER_HOUR : Z := 60 * MS_PER_MIN.
Definition MS_PER_DAY : Z := 24 * MS_PER_HOUR.

Inductive RangeType : Type := Hours | Days.

Record Range : Type := { r_type : RangeType; r_hours : option Z; r_days : Z; r_label : string }.

Definition parseRange (range : option string) : Range :=
  let r := Js.toLowerCase (Js.or_else range "7d") in
  if String.eqb r "24h" then {| r_type := Hours; r_hours := Some 24; r_days := 1; r_label := "24h" |}
  else if String.eqb r "30d" then {| r_type := Days; r_hours := None; r_days := 30; r_label := "30d" |}
  else {| r_type := Days; r_hours := None; r_days := 7; r_label := "7d" |}.

(** [new Date(t - ...)] for the window of a range ending at [t]. *)
Definition windowStart (rng : Range) (t : Z) : Z :=
  match r_type rng with
  | Hours => t - (match r_hours rng with Some h => h | None => 24 end) * MS_PER_HOUR
  | Days => t - r_days rng * MS_PER_DAY
  end.

Definition dateFormatForRange (rng : Range) : string :=
  match r_type rng with Hours => "%Y-%m-%d %H:00" | Days => "%Y-%m-%d" end.

(** The Click filter that [commonFiltersFromQuery] builds: one optional
    equality per path. *)
Record ClickFilter : Type := {
  utm_source : option string; utm_medium : option string; utm_campaign : option string;
  country : option string; device : option string; browser : option string
}.

Definition queryField (q : gmap string string) (k : string) : option string :=
  match q !! k with
  | Some s => if Js.truthy s then Some s else None
  | None => None
  end.

Definition commonFiltersFromQuery (q : gmap string string) : ClickFilter :=
  {| utm_source := queryField q "source";
     utm_medium := queryField q "medium";
     utm_campaign := queryField q "campaign";
     country := option_map Js.toUpperCase (queryField q "country");
     device := queryField q "device";
     browser := queryField q "browser" |}.

(** An equality condition of a query on an optional string field. *)
Definition cond (want have : option string) : bool :=
  match want with
  | None => true
  | Some w => match have with Some h => String.eqb h w | None => false end
  end.

Definition utmPath (get : Click.Utm -> option string) (c : Click.t) : option string :=
  match Click.utm c with Some u => get u | None => None end.

Definition matchesFilter (f : ClickFilter) (c : Click.t) : bool :=
  cond (utm_source f) (utmPath Click.source c)
  && cond (utm_medium f) (utmPath Click.medium c)
  && cond (utm_campaign f) (utmPath Click.campaign c)
  && cond (country f) (Click.country c)
  && cond (device f) (Some (Click.device c))
  && cond (browser f) (Some (Click.browser c)).

(** [{ linkId: { $in: linkIds } }]. *)
Definition baseMatch (linkIds : list ObjectId) (c : Click.t) : bool :=
  existsb (String.eqb (Click.linkId c)) linkIds.

(** [{ ...baseMatch, ts: { $gte: since }, ...filters }]. *)
Definition matchNow (linkIds : list ObjectId) (since : Z) (f : ClickFilter) (c : Click.t) : bool :=
  baseMatch linkIds c && (since <=? Click.ts c) && matchesFilter f c.

(** [{ ...baseMatch, ts: { $gte: sincePrev, $lt: since }, ...filters }]. *)
Definition matchPrev (linkIds : list ObjectId) (sincePrev since : Z) (f : ClickFilter)
           (c : Click.t) : bool :=
  baseMatch linkIds c && (sincePrev <=? Click.ts c) && (Click.ts c <? since) && matchesFilter f c.

(** [{ $group: { _id: key, clicks: { $sum: 1 } } }]: one bucket per key,
    counting the documents that fall in it. *)
Fixpoint bump {K} (eqb : K -> K -> bool) (k : K) (acc : list (K * Z)) : list (K * Z) :=
  match acc with
  | [] => [(k, 1)]
  | (k', n) :: rest =>
      if eqb k k' then (k', n + 1) :: rest else (k', n) :: bump eqb k rest
  end.

Definition groupCount {A K} (eqb : K -> K -> bool) (key : A -> K) (docs : list A) : list (K * Z) :=
  fold_left (fun acc d => bump eqb (key d) acc) docs [].

(** [{ $sort: { "_id.day": 1 } }]. *)
Definition sortByDay (rows : list (string * Z)) : list (string * Z) :=
  Mongo.sort_by (fun a b => String.leb (fst a) (fst b)) rows.

(** [agg[0]?.clicks || 0]. *)
Definition firstClicks {K} (agg : list (K * Z)) : Z :=
  match agg with
  | [] => 0
  | (_, n) :: _ => if Js.truthy_num n then n else 0
  end.

Record DayRow : Type := { day : string; dayClicks : Z }.

Record AnnotationRow : Type := { a_id : string; a_ts : Z; a_label : string; a_color : string }.

Definition annotationRow (a : Annotation.t) : AnnotationRow :=
  {| a_id := Annotation._id a; a_ts := Annotation.ts a;
     a_label := Annotation.label a; a_color := Annotation.color a |}.

(** The overview payload: the time series, the totals, the annotations
    and the breakdown (the top lists, cohorts, UTM options and recent
    clicks are further aggregations over the same match). *)
(** One row of [breakdownSeries]: the day and the clicks per key. *)
Record SeriesRow : Type := { s_day : string; s_counts : list (string * Z) }.

Record Overview : Type := {
  byDay : list DayRow;
  totals_clicks : Z;
  totals_links : Z;
  byDayPrev : list DayRow;
  totalsPrev_clicks : Z;
  ov_annotations : list AnnotationRow;
  breakdownSeries : list SeriesRow;
  breakdownKeys : list string
}.

Definition sumCounts {K} (rows : list (K * Z)) : Z :=
  fold_right (fun r acc => snd r + acc) 0 rows.

(** The grouping field of a breakdown: [$device], [$browser] or, for any
    other name, [$country]. *)
Definition breakdownField (breakdown : string) (c : Click.t) : option string :=
  if String.eqb breakdown "device" then Some (Click.device c)
  else if String.eqb breakdown "browser" then Some (Click.browser c)
  else Click.country c.

(** [k || (breakdown === "country" ? null : "other")]. *)
Definition breakdownLabel (breakdown : string) (k : option string) : option string :=
  if Js.truthy_opt k then k
  else if String.eqb breakdown "country" then None else Some "other".

Definition opt_eqb (a b : option string) : bool :=
  match a, b with
  | Some x, Some y => String.eqb x y
  | None, None => true
  | _, _ => false
  end.

Definition wantsBreakdown (breakdown : string) : bool :=
  Js.truthy breakdown && negb (String.eqb breakdown "none").

(** [target[key] = (target[key] || 0) + n]. *)
Fixpoint addTo (key : string) (n : Z) (counts : list (string * Z)) : list (string * Z) :=
  match counts with
  | [] => [(key, n)]
  | (k, m) :: rest =>
      if String.eqb k key then (k, m + n) :: rest else (k, m) :: addTo key n rest
  end.

(** [map.get(day) || { day }], updated and stored back with [map.set]. *)
Fixpoint addToDay (d key : string) (n : Z) (rows : list SeriesRow) : list SeriesRow :=
  match rows with
  | [] => [{| s_day := d; s_counts := [(key, n)] |}]
  | r :: rest =>
      if String.eqb (s_day r) d
      then {| s_day := d; s_counts := addTo key n (s_counts r) |} :: rest
      else r :: addToDay d key n rest
  end.

Definition toDayRows (rows : list (string * Z)) : list DayRow :=
  map (fun d => {| day := fst d; dayClicks := snd d |}) rows.

Definition sumClicks (rows : list DayRow) : Z :=
  fold_right (fun r acc => dayClicks r + acc) 0 rows.

Section WithExternals.
Variable ext : Externals.

(** The time-series pipeline: [$match], [$addFields localTs], [$group]
    by formatted day, [$sort]. *)
Definition seriesByDay (m : Click.t -> bool) (fmt : string) (tzMin : Z)
           (cs : list Click.t) : list (string * Z) :=
  sortByDay
    (groupCount String.eqb
       (fun c => dateToString ext fmt (Click.ts c + tzMin * MS_PER_MIN))
       (Mongo.find_all m cs)).

(** [[{ $match }, { $group: { _id: null, clicks: { $sum: 1 } } }]]. *)
Definition totalsAgg (m : Click.t -> bool) (cs : list Click.t) : list (unit * Z) :=
  groupCount (fun _ _ => true) (fun _ => tt) (Mongo.find_all m cs).

(** The top breakdown keys: [$group] by the field, [$sort] by count
    descending, [$limit: 6], then the labels that are not [null]. *)
Definition topBreakdownKeys (breakdown : string) (m : Click.t -> bool)
           (cs : list Click.t) : list string :=
  if wantsBreakdown breakdown then
    let agg := groupCount opt_eqb (breakdownField breakdown) (Mongo.find_all m cs) in
    let top := firstn 6 (Mongo.sort_by (fun a b => snd b <=? snd a) agg) in
    omap (fun a => breakdownLabel breakdown (fst a)) top
  else [].

(** The breakdown pipeline ([$group] by day and key, [$sort] by day)
    and the loop that folds its rows into one object per day. *)
Definition breakdownRows (breakdown : string) (m : Click.t -> bool) (fmt : string)
           (tzMin : Z) (keys : list string) (cs : list Click.t) : list SeriesRow :=
  if wantsBreakdown breakdown then
    let agg :=
      Mongo.sort_by (fun a b => String.leb (fst (fst a)) (fst (fst b)))
        (groupCount
           (fun a b => String.eqb (fst a) (fst b) && opt_eqb (snd a) (snd b))
           (fun c => (dateToString ext fmt (Click.ts c + tzMin * MS_PER_MIN),
                      breakdownField breakdown c))
           (Mongo.find_all m cs)) in
    let step (rows : list SeriesRow) (row : (string * option string) * Z) :=
      match breakdownLabel breakdown (snd (fst row)) with
      | None => rows
      | Some key =>
          if negb (Nat.eqb (length keys) 0) && negb (existsb (String.eqb key) keys)
          then rows
          else addToDay (fst (fst row)) key (snd row) rows
      end in
    Mongo.sort_by (fun a b => String.leb (s_day a) (s_day b)) (fold_left step agg [])
  else [].

Definition buildOverviewPayload (now : Z) (ownerId : ObjectId) (range : option string)
           (compare : bool) (tzMin : Z) (filters : ClickFilter) (breakdown : string)
           (db : Db) : Overview :=
  let rng := parseRange range in
  let since := windowStart rng now in
  let sincePrev := windowStart rng since in
  let fmt := dateFormatForRange rng in
  let owned := Mongo.find_all (fun l => String.eqb (Link.ownerId l) ownerId) (links db) in
  let linkIds := map Link._id owned in
  match linkIds with
  | [] =>
      {| byDay := []; totals_clicks := 0; totals_links := 0;
         byDayPrev := []; totalsPrev_clicks := 0; ov_annotations := [];
         breakdownSeries := []; breakdownKeys := [] |}
  | _ :: _ =>
      let mNow := matchNow linkIds since filters in
      let mPrev := if compare then matchPrev linkIds sincePrev since filters
                   else (fun _ => false) in
      let keys := topBreakdownKeys breakdown mNow (clicks db) in
      {| byDay := toDayRows (seriesByDay mNow fmt tzMin (clicks db));
         totals_clicks := firstClicks (totalsAgg mNow (clicks db));
         totals_links := Z.of_nat (length owned);
         byDayPrev := toDayRows (seriesByDay mPrev fmt tzMin (clicks db));
         totalsPrev_clicks := firstClicks (totalsAgg mPrev (clicks db));
         ov_annotations :=
           map annotationRow
             (Mongo.sort_by (fun a b => Annotation.ts a <=? Annotation.ts b)
                (Mongo.find_all
                   (fun a => String.eqb (Annotation.ownerId a) ownerId
                             && (since <=? Annotation.ts a))
                   (annotations db)));
         breakdownSeries := breakdownRows breakdown mNow fmt tzMin keys (clicks db);
         breakdownKeys := keys |}
  end.

(** [r.get("/analytics/overview")]. *)
Definition getOverview (now : Z) (user : ObjectId) (q : gmap string string) (db : Db) : Overview :=
  let range := Js.or_else (q !! "range") "7d" in
  let tzMin := Js.parseInt_or0 (q !! "tz") in
  let compare := String.eqb (Js.or_else (q !! "compare") "0") "1" in
  let breakdown := Js.or_else (q !! "breakdown") "none" in
  buildOverviewPayload now user (Some range) compare tzMin (commonFiltersFromQuery q)
    breakdown db.
End WithExternals.

(* ---------------------------------------------------------------- *)
(** ** Saved views and annotations *)
(* ---------------------------------------------------------------- *)

Record ViewRow : Type := {
  v_id : string; v_name : string; v_range : string; v_compare : bool;
  v_filters : SavedView.Filters; v_breakdown : string; v_updatedAt : Z
}.

Definition viewRow (v : SavedView.t) : ViewRow :=
  {| v_id := SavedView._id v; v_name := SavedView.name v; v_range := SavedView.range v;
     v_compare := SavedView.compare v; v_filters := SavedView.filters v;
     v_breakdown := Js.or_else (Some (SavedView.breakdown v)) "none";
     v_updatedAt := SavedView.updatedAt v |}.

Definition noFilters : SavedView.Filters :=
  {| SavedView.f_country := None; SavedView.f_device := None; SavedView.f_browser := None;
     SavedView.f_source := None; SavedView.f_medium := None; SavedView.f_campaign := None |}.

(** The body of [POST /analytics/views]. *)
Record ViewBody : Type := {
  b_name : option string;
  b_range : option string;
  b_compare : bool;
  b_filters : option SavedView.Filters;
  b_breakdown : option string
}.

(** The body of [POST /analytics/annotations]; [b_ts] is [None] for a
    falsy [ts], else what [new Date(ts)] gives ([None]: Invalid Date). *)
Record AnnotationBody : Type := {
  b_ts : option (option Z);
  b_label : option string;
  b_color : option string
}.

Inductive Response : Type :=
| Views (rows : list ViewRow)
| Annotations (rows : list AnnotationRow)
| Created (id : string)
| Done
| BadRequest (message : string)
| Rejected.

Definition in_enum (s : string) (allowed : list string) : bool :=
  existsb (String.eqb s) allowed.

(** [r.get("/analytics/views")]. *)
Definition listViews (user : ObjectId) (db : Db) : Response :=
  Views (map viewRow
           (Mongo.sort_by (fun a b => SavedView.updatedAt b <=? SavedView.updatedAt a)
              (Mongo.find_all (fun v => String.eqb (SavedView.ownerId v) user) (savedViews db)))).

(** [r.post("/analytics/views")]; [Rejected] when the enum validators of
    the schema make [SavedView.create] reject. *)
Definition createView (user newId : ObjectId) (now : Z) (b : ViewBody) (db : Db) : Response * Db :=
  if negb (Js.truthy_opt (b_name b)) || negb (Js.truthy (Js.trim (Js.or_else (b_name b) "")))
  then (BadRequest "Name required", db)
  else
    let range := match b_range b with Some r => r | None => "7d" end in
    let breakdown := match b_breakdown b with Some k => k | None => "none" end in
    if in_enum range ["24h"; "7d"; "30d"]
       && in_enum breakdown ["none"; "device"; "browser"; "country"]
    then
      let v := {| SavedView._id := newId;
                  SavedView.ownerId := user;
                  SavedView.name := Js.trim (Js.or_else (b_name b) "");
                  SavedView.range := range;
                  SavedView.compare := b_compare b;
                  SavedView.filters := match b_filters b with Some f => f | None => noFilters end;
                  SavedView.breakdown := breakdown;
                  SavedView.updatedAt := now |} in
      (Created newId, set_savedViews (fun vs => vs ++ [v]) db)
    else (Rejected, db).

(** [r.delete("/analytics/views/:id")]. *)
Definition deleteView (user id : ObjectId) (db : Db) : Response * Db :=
  (Done,
   set_savedViews
     (Mongo.deleteOne (fun v => String.eqb (SavedView._id v) id
                                && String.eqb (SavedView.ownerId v) user))
     db).

(** [r.get("/analytics/annotations")]. *)
Definition listAnnotations (now : Z) (user : ObjectId) (range : option string) (db : Db) : Response :=
  let since := windowStart (parseRange range) now in
  Annotations
    (map annotationRow
       (Mongo.sort_by (fun a b => Annotation.ts a <=? Annotation.ts b)
          (Mongo.find_all
             (fun a => String.eqb (Annotation.ownerId a) user && (since <=? Annotation.ts a))
             (annotations db)))).

(** [r.post("/analytics/annotations")]; [Rejected] when the required
    date is invalid and [Annotation.create] rejects. *)
Definition createAnnotation (user newId : ObjectId) (b : AnnotationBody) (db : Db) : Response * Db :=
  match b_ts b with
  | Some date =>
      if Js.truthy_opt (b_label b) then
        match date with
        | Some ts =>
            let a := {| Annotation._id := newId;
                        Annotation.ownerId := user;
                        Annotation.scope := "overview";
                        Annotation.ts := ts;
                        Annotation.label := Js.or_else (b_label b) "";
                        Annotation.color := Js.or_else (b_color b) DEFAULT_ANNOTATION_COLOR |} in
            (Created newId, set_annotations (fun l => l ++ [a]) db)
        | None => (Rejected, db)
        end
      else (BadRequest "ts and label required", db)
  | None => (BadRequest "ts and label required", db)
  end.

(** [r.delete("/analytics/annotations/:id")]. *)
Definition deleteAnnotation (user id : ObjectId) (db : Db) : Response * Db :=
  (Done,
   set_annotations
     (Mongo.deleteOne (fun a => String.eqb (Annotation._id a) id
                                && String.eqb (Annotation.ownerId a) user))
     db).

(** One request to the six routes, with the oracles it consumes. *)
Inductive Op : Type :=
| ListViews
| CreateView (newId : ObjectId) (now : Z) (b : ViewBody)
| DeleteView (id : ObjectId)
| ListAnnotations (now : Z) (range : option string)
| CreateAnnotation (newId : ObjectId) (b : AnnotationBody)
| DeleteAnnotation (id : ObjectId).

(** [req.user._id] is the user that [requireAuth] authenticated. *)
Definition step (user : ObjectId) (op : Op) (db : Db) : Response * Db :=
  match op with
  | ListViews => (listViews user db, db)
  | CreateView newId now b => createView user newId now b db
  | DeleteView id => deleteView user id db
  | ListAnnotations now range => (listAnnotations now user range db, db)
  | CreateAnnotation newId b => createAnnotation user newId b db
  | DeleteAnnotation id => deleteAnnotation user id db
  end.

(** A sequence of requests by one user: the responses and the final
    database. *)
Fixpoint run (user : ObjectId) (ops : list Op) (db : Db) : list Response * Db :=
  match ops with
  | [] => ([], db)
  | op :: rest =>
      let '(r, db1) := step user op db in
      let '(rs, db2) := run user rest db1 in
      (r :: rs, db2)
  end.

(** The saved views and annotations that belong to a user. *)
Definition viewsOf (user : ObjectId) (db : Db) : list SavedView.t :=
  Mongo.find_all (fun v => String.eqb (SavedView.ownerId v) user) (savedViews db).
Definition annotationsOf (user : ObjectId) (db : Db) : list Annotation.t :=
  Mongo.find_all (fun a => String.eqb (Annotation.ownerId a) user) (annotations db).

End Analytics.

(* ================================================================== *)
(** * routes/auth.routes.js: forgot password *)
(* ================================================================== *)
Module Auth.

Definition RESET_CODE_EXP_MIN : Z := 10.

(** [Math.floor(100000 + Math.random() * 900000).toString()], where
    [rnd] is the integer part of [Math.random() * 900000]. *)
Definition sixDigits (rnd : Z) : string := pretty (100000 + rnd).

Definition addMinutes (date mins : Z) : Z := date + mins * 60 * 1000.

(** The JSON body of the answer: [message] and, in DEV mode, [devCode]. *)
Record Body : Type := { message : string; devCode : option string }.

Inductive Response : Type := Json (status : Z) (body : Body).

Record Mail : Type := { mail_to : string; mail_subject : string; mail_code : string }.

(** What one request does besides answering: the mails handed to
    [sendMail] and the lines written with [console.log]. *)
Record Effects : Type := { sent : list Mail; logged : list string }.

Definition setReset (code : string) (expires : Z) (u : User.t) : User.t :=
  {| User._id := User._id u;
     User.name := User.name u;
     User.email := User.email u;
     User.passwordHash := User.passwordHash u;
     User.emailVerified := User.emailVerified u;
     User.verifyCode := User.verifyCode u;
     User.verifyCodeExpires := User.verifyCodeExpires u;
     User.resetCode := Some code;
     User.resetCodeExpires := Some expires;
     User.role := User.role u |}.

Definition okMessage : string := "If the email exists, a code has been sent.".

Section WithExternals.
Variable ext : Externals.

(** [r.post("/forgot")]. [body] is the outcome of [forgotSchema] on the
    request body (the value is the email); [mailThrows] says whether
    [sendMail] rejects. *)
Definition forgot (rnd : Z) (mailThrows : bool) (now : Z)
           (body : Validation string) (db : Db) : Response * Db * Effects :=
  match body with
  | Invalid msg =>
      (Json 400 {| message := msg; devCode := None |}, db, {| sent := []; logged := [] |})
  | Valid raw =>
      let email := Js.toLowerCase (Js.trim raw) in
      match Mongo.findOne (fun u => String.eqb (User.email u) email) (users db) with
      | None =>
          (Json 200 {| message := okMessage; devCode := None |}, db,
           {| sent := []; logged := [] |})
      | Some user =>
          let code := sixDigits rnd in
          let db' :=
            set_users
              (Mongo.updateOne (fun u => String.eqb (User._id u) (User._id user))
                 (setReset code (addMinutes now RESET_CODE_EXP_MIN)))
              db in
          let fx :=
            if DEV_MAIL ext
            then {| sent := [];
                    logged := ["[DEV] RESET CODE for " +:+ email +:+ " => " +:+ code] |}
            else if mailThrows
            then {| sent := []; logged := ["[MAIL] forgot failed"] |}
            else {| sent := [{| mail_to := User.email user;
                                mail_subject := "Your password reset code";
                                mail_code := code |}];
                    logged := [] |} in
          (Json 200 {| message := okMessage;
                       devCode := if DEV_MAIL ext then Some code else None |},
           db', fx)
      end
  end.
(** The response alone. *)
Definition forgotResponse (rnd : Z) (mailThrows : bool) (now : Z)
           (body : Validation string) (db : Db) : Response :=
  fst (fst (forgot rnd mailThrows now body db)).
End WithExternals.

End Auth.

(* ================================================================== *)
(** * Sample data *)
(* ================================================================== *)
Module Sample.

(** Stand-ins for the npm packages: a bcrypt whose hash of [p] is
    ["$2a$" ++ p], a digest that is the identity, and so on. *)
Definition ext : Externals :=
  {| bcrypt_compareSync := fun pwd hash => Some (String.eqb ("$2a$" +:+ pwd) hash);
     bcrypt_hashSync := fun pwd => "$2a$" +:+ pwd;
     sha256_hex := fun s => "h:" +:+ s;
     toISOString := fun _ => "2024-05-01T10:00:00.000Z";
     UAParser := fun _ => Some (None, Some "Firefox");
     dateToString := fun _ t => pretty (t / 86400000);
     JWT_SECRET := "dev_jwt_secret";
     BASE_PUBLIC_URL := "https://sho.rt";
     DEV_MAIL := false |}.

Definition noMeta : Link.Meta := {| Link.title := None; Link.favicon := None; Link.notes := Some "" |}.

Definition mkLink (id owner code url : string) (active : bool) (exp : option Z)
           (pw : option string) (maxC count : Z) : Link.t :=
  {| Link._id := id; Link.ownerId := owner; Link.code := code; Link.longUrl := url;
     Link.domain := ""; Link.isActive := active; Link.expiresAt := exp;
     Link.passwordHash := pw; Link.maxClicks := maxC; Link.clicksCount := count;
     Link.meta := noMeta; Link.createdAt := 1000; Link.updatedAt := 1000 |}.

Definition plain : Link.t := mkLink "a1" "u1" "docs" "https://example.com/docs" true None None 0 7.
Definition locked : Link.t :=
  mkLink "a2" "u1" "vault" "https://example.com/vault" true None (Some "$2a$hunter2") 0 0.
Definition capped : Link.t := mkLink "a3" "u2" "promo" "https://example.com/promo" true None None 3 3.
Definition stale : Link.t :=
  mkLink "a4" "u2" "old1" "https://example.com/old" true (Some 500) (Some "$2a$pw") 1 5.
Definition disabled : Link.t :=
  mkLink "a5" "u2" "gone" "https://example.com/gone" false (Some 500) (Some "$2a$pw") 1 5.

Definition emptyDb : Db :=
  {| links := []; clicks := []; users := []; savedViews := []; annotations := [] |}.

Definition db0 : Db :=
  {| links := [plain; locked; capped; stale; disabled];
     clicks := []; users := []; savedViews := []; annotations := [] |}.

Definition get (code : string) (q : list (string * string)) (cookies : list (string * string))
  : Redirect.Request :=
  {| Redirect.params_code := code;
     Redirect.query := list_to_map q;
     Redirect.signedCookies := list_to_map cookies;
     Redirect.headers := list_to_map [("x-forwarded-for", "203.0.113.9, 10.0.0.1");
                                      ("user-agent", "Mozilla/5.0")];
     Redirect.remoteAddress := Some "198.51.100.2" |}.

Definition newLinkBody (url : string) (code : option string) : Links.CreateValue :=
  {| Links.c_longUrl := url; Links.c_code := code; Links.c_notes := None;
     Links.c_expiresAt := None; Links.c_password := None; Links.c_maxClicks := 0;
     Links.c_domain := None |}.

Definition noPageMeta : Links.PageMeta := {| Links.pm_title := None; Links.pm_favicon := None |}.

(** The codes that nanoid hands out in the examples: two taken ones, then
    a free one. *)
Definition codes (i : nat) : string :=
  match i with O => "docs" | S O => "promo" | _ => "x7Kp2Qa" end.

Definition alice : User.t :=
  {| User._id := "u1"; User.name := "Alice"; User.email := "alice@example.com";
     User.passwordHash := "$2a$secret"; User.emailVerified := true;
     User.verifyCode := None; User.verifyCodeExpires := None;
     User.resetCode := None; User.resetCodeExpires := None; User.role := "user" |}.

Definition dbWithAlice : Db :=
  {| links := []; clicks := []; users := [alice]; savedViews := []; annotations := [] |}.

Definition mkClick (id linkId : string) (ts : Z) (device : string) (country : option string)
  : Click.t :=
{| Click._id := id; Click.linkId := linkId; Click.ts := ts; Click.referer := "direct";
   Click.country := country; Click.ua := "Mozilla/5.0"; Click.device := device;
   Click.browser := "Firefox"; Click.ipHash := "9f86d081884c7d659a2feaa0c55ad015";
   Click.tzOffset := Some (Js.Fin 0); Click.utm := None |}.

Definition day_ms : Z := 86400000.

(** Clicks on the links of [u1] (a1, a2) and of [u2] (a3), on days 100
    to 103; "now" is the end of day 103. *)
Definition dbClicks : Db :=
  {| links := [plain; locked; capped];
     clicks := [mkClick "k1" "a1" (100 * day_ms + 5) "mobile" (Some "PK");
                mkClick "k2" "a1" (101 * day_ms + 7) "desktop" (Some "PK");
                mkClick "k3" "a2" (101 * day_ms + 9) "mobile" None;
                mkClick "k4" "a3" (101 * day_ms + 11) "mobile" (Some "US");
                mkClick "k5" "a1" (103 * day_ms + 1) "mobile" (Some "DE");
                mkClick "k6" "a2" (90 * day_ms) "desktop" (Some "PK")];
     users := []; savedViews := []; annotations := [] |}.

Definition anyFilter : Analytics.ClickFilter :=
  {| Analytics.utm_source := None; Analytics.utm_medium := None;
     Analytics.utm_campaign := None; Analytics.country := None;
     Analytics.device := None; Analytics.browser := None |}.

Definition mkView (id owner name : string) (updated : Z) : SavedView.t :=
  {| SavedView._id := id; SavedView.ownerId := owner; SavedView.name := name;
     SavedView.range := "7d"; SavedView.compare := false;
     SavedView.filters := Analytics.noFilters; SavedView.breakdown := "none";
     SavedView.updatedAt := updated |}.

Definition mkAnnotation (id owner label : string) (ts : Z) : Annotation.t :=
  {| Annotation._id := id; Annotation.ownerId := owner; Annotation.scope := "overview";
     Annotation.ts := ts; Annotation.label := label; Annotation.color := "#ef4444" |}.

Definition dbViews : Db :=
  {| links := []; clicks := []; users := [];
     savedViews := [mkView "v1" "u1" "Mobile PK" 10; mkView "v2" "u2" "Launch" 20;
                    mkView "v3" "u1" "All" 30];
     annotations := [mkAnnotation "n1" "u2" "release" (103 * day_ms);
                     mkAnnotation "n2" "u1" "campaign" (102 * day_ms)] |}.

Definition rename (code : string) : Links.UpdateValue :=
  {| Links.u_longUrl := None; Links.u_notes := None; Links.u_isActive := None;
     Links.u_expiresAt := None; Links.u_password := None; Links.u_maxClicks := None;
     Links.u_domain := None; Links.u_code := Some code |}.


Definition payload1 : Click.Payload :=
  {| Click.p_linkId := "a1"; Click.p_referer := "direct"; Click.p_tzOffset := Some (Js.Fin (-300));
     Click.p_utm := None; Click.p_ipHash := "9f86d081884c7d659a2feaa0c55ad015";
     Click.p_ua := "Mozilla/5.0"; Click.p_country := Some "PK";
     Click.p_device := "desktop"; Click.p_browser := "Firefox" |}.

End Sample.

(* ================================================================== *)
(** * routes/auth.routes.js: register, verify, login, reset *)
(* ================================================================== *)
Module AuthFlow.

Definition VERIFY_CODE_EXP_MIN : Z := 10.

(** The pattern of [code] in [verifySchema] and [resetSchema]:
    [Joi.string().length(6).pattern(/^\d{6}$/)]. *)
Definition sixDigitCode (s : string) : bool :=
  Nat.eqb (String.length s) 6 && Validators.all_chars Js.is_digit s.

(** The values of [registerSchema], [verifySchema], [loginSchema] and
    [resetSchema]. *)
Record RegisterValue : Type := { r_name : string; r_email : string; r_password : string }.
Record VerifyValue : Type := { v_email : string; v_code : string }.
Record LoginValue : Type := { l_email : string; l_password : string }.
Record ResetValue : Type := { x_email : string; x_code : string; x_newPassword : string }.

(** [Rejected]: a call that the handler does not catch threw, so the
    promise of the handler rejects and the route writes no response. *)
Inductive Response : Type :=
| Message (status : Z) (message : string) (devCode : option string)
| NeedVerify (message : string) (devCode : option string)
| NotVerified (message : string) (code : string)
| Session (token : string) (id : ObjectId) (name email : string)
| Rejected.

(** [String(email).trim().toLowerCase()]. *)
Definition normEmail (raw : string) : string := Js.toLowerCase (Js.trim raw).

Definition byEmail (email : string) (db : Db) : option User.t :=
  Mongo.findOne (fun u => String.eqb (User.email u) email) (users db).

(** [await user.save()]: the document with the [_id] of [user] is replaced. *)
Definition save (user : User.t) (db : Db) : Db :=
  set_users (Mongo.updateOne (fun u => String.eqb (User._id u) (User._id user)) (fun _ => user)) db.

Definition withVerifyCode (code : option string) (expires : option Z) (verified : bool)
           (u : User.t) : User.t :=
  {| User._id := User._id u;
     User.name := User.name u;
     User.email := User.email u;
     User.passwordHash := User.passwordHash u;
     User.emailVerified := verified;
     User.verifyCode := code;
     User.verifyCodeExpires := expires;
     User.resetCode := User.resetCode u;
     User.resetCodeExpires := User.resetCodeExpires u;
     User.role := User.role u |}.

(** The assignments of [POST /reset] before [user.save()]. *)
Definition afterReset (hash : string) (u : User.t) : User.t :=
  {| User._id := User._id u;
     User.name := User.name u;
     User.email := User.email u;
     User.passwordHash := hash;
     User.emailVerified := true;
     User.verifyCode := None;
     User.verifyCodeExpires := None;
     User.resetCode := None;
     User.resetCodeExpires := None;
     User.role := User.role u |}.

(** [asDate(v).getTime()]: [new Date(null)] is the epoch. *)
Definition timeOf (v : option Z) : Z := match v with Some t => t | None => 0 end.

Section WithExternals.
Variable ext : Externals.
(** [sign(user)]: [jwt.sign({ sub, email }, secret, { expiresIn })] at a
    given time. *)
Variable jwt_sign : ObjectId -> string -> Z -> string.

Definition sessionOf (now : Z) (u : User.t) : Response :=
  Session (jwt_sign (User._id u) (User.email u) now) (User._id u) (User.name u) (User.email u).

(** The [try { ... sendMail ... } catch] block shared by the routes. *)
Definition mailCode (mailThrows : bool) (to subject code logLine failLine : string)
  : Auth.Effects :=
  if DEV_MAIL ext
  then {| Auth.sent := []; Auth.logged := [logLine] |}
  else if mailThrows
  then {| Auth.sent := []; Auth.logged := [failLine] |}
  else {| Auth.sent := [{| Auth.mail_to := to; Auth.mail_subject := subject;
                           Auth.mail_code := code |}];
          Auth.logged := [] |}.

Definition noEffects : Auth.Effects := {| Auth.sent := []; Auth.logged := [] |}.

Definition devCodeOf (code : string) : option string :=
  if DEV_MAIL ext then Some code else None.

(** [r.post("/register")]. [User.create] runs the validators of the
    schema and is not inside a [try]: a name of white space passes
    [registerSchema], is trimmed to the empty string and fails
    [required]. *)
Definition register (rnd : Z) (mailThrows : bool) (newId : ObjectId) (now : Z)
           (body : Validation RegisterValue) (db : Db) : Response * Db * Auth.Effects :=
  match body with
  | Invalid msg => (Message 400 msg None, db, noEffects)
  | Valid value =>
      let email := normEmail (r_email value) in
      match byEmail email db with
      | Some _ => (Message 409 "Email already in use" None, db, noEffects)
      | None =>
          let code := Auth.sixDigits rnd in
          let user :=
            {| User._id := newId;
               User.name := Js.trim (r_name value);
               User.email := email;
               User.passwordHash := Utils.hashPassword ext (r_password value);
               User.emailVerified := false;
               User.verifyCode := Some code;
               User.verifyCodeExpires := Some (Auth.addMinutes now VERIFY_CODE_EXP_MIN);
               User.resetCode := None;
               User.resetCodeExpires := None;
               User.role := "user" |} in
          if negb (User.validates user) then (Rejected, db, noEffects)
          else
          (NeedVerify "Verification code sent. Please verify." (devCodeOf code),
           set_users (fun us => us ++ [user]) db,
           mailCode mailThrows email "Your verification code" code
             ("[DEV] VERIFY CODE for " +:+ email +:+ " => " +:+ code)
             "[MAIL] register send failed")
      end
  end.

(** [r.post("/verify")]. *)
Definition verify (now : Z) (body : Validation VerifyValue) (db : Db) : Response * Db :=
  match body with
  | Invalid msg => (Message 400 msg None, db)
  | Valid value =>
      let email := normEmail (v_email value) in
      let inputCode := Js.trim (v_code value) in
      match byEmail email db with
      | None => (Message 400 "Account not found" None, db)
      | Some user =>
          let storedCode := Js.or_else (User.verifyCode user) "" in
          if negb (Js.truthy storedCode)
             || negb (String.eqb storedCode inputCode)
             || (timeOf (User.verifyCodeExpires user) <? now)
          then (Message 400 "Invalid or expired code" None, db)
          else
            let user' := withVerifyCode None None true user in
            (sessionOf now user', save user' db)
      end
  end.

(** [r.post("/resend-verify")]; [raw] is [req.body?.email]. *)
Definition resendVerify (rnd : Z) (mailThrows : bool) (now : Z) (raw : option string) (db : Db)
  : Response * Db * Auth.Effects :=
  let email := normEmail (Js.or_else raw "") in
  match byEmail email db with
  | None => (Message 400 "Account not found" None, db, noEffects)
  | Some user =>
      if User.emailVerified user then (Message 200 "Already verified" None, db, noEffects)
      else
        let code := Auth.sixDigits rnd in
        let user' := withVerifyCode (Some code) (Some (Auth.addMinutes now VERIFY_CODE_EXP_MIN))
                       (User.emailVerified user) user in
        (Message 200 "Verification code re-sent" (devCodeOf code),
         save user' db,
         mailCode mailThrows (User.email user) "Your verification code" code
           ("[DEV] VERIFY CODE for " +:+ email +:+ " => " +:+ code)
           "[MAIL] resend failed")
  end.

(** [r.post("/login")]; it reads the database and writes nothing. *)
Definition login (now : Z) (body : Validation LoginValue) (db : Db) : Response :=
  match body with
  | Invalid msg => Message 400 msg None
  | Valid value =>
      let email := normEmail (l_email value) in
      match byEmail email db with
      | None => Message 401 "Invalid credentials" None
      | Some user =>
          if negb (Utils.comparePassword ext (l_password value) (Some (User.passwordHash user)))
          then Message 401 "Invalid credentials" None
          else if negb (User.emailVerified user)
          then NotVerified "Email not verified" "EMAIL_NOT_VERIFIED"
          else sessionOf now user
      end
  end.

(** [r.post("/reset")]. *)
Definition reset (now : Z) (body : Validation ResetValue) (db : Db) : Response * Db :=
  match body with
  | Invalid msg => (Message 400 msg None, db)
  | Valid value =>
      let email := normEmail (x_email value) in
      let inputCode := Js.trim (x_code value) in
      match byEmail email db with
      | None => (Message 400 "Invalid or expired code" None, db)
      | Some user =>
          match User.resetCode user, User.resetCodeExpires user with
          | Some storedCode, Some expiresAt =>
              if negb (Js.truthy storedCode)
                 || negb (String.eqb storedCode inputCode)
                 || (expiresAt <? now)
              then (Message 400 "Invalid or expired code" None, db)
              else
                (Message 200 "Password updated. You can log in now." None,
                 save (afterReset (Utils.hashPassword ext (x_newPassword value)) user) db)
          | _, _ => (Message 400 "Invalid or expired code" None, db)
          end
      end
  end.
End WithExternals.

Definition UniqueUserIds (db : Db) : Prop := NoDup (map User._id (users db)).

End AuthFlow.

(** More sample data: a second visitor, a token signer, request bodies. *)


(* ================================================================== *)
(** * Runs of the redirect service and of the click queue *)
(* ================================================================== *)
Module Traffic.

(** What one click log draws from outside: the faults of its two database
    calls, the [_id] of the new Click and the time of the write. *)
Record Arrival : Type := {
  a_fx : Queue.Faults;
  a_newId : ObjectId;
  a_now : Z;
  a_payload : Click.Payload
}.

(** [enqueueClick] called once per arrival, [queue.add] succeeding. *)
Definition enqueueAll (arrivals : list Arrival) (s : Queue.Sys) : Queue.Sys :=
  fold_left
    (fun s a => Queue.enqueueClick false (a_fx a) (a_newId a) (a_now a) (a_payload a) s)
    arrivals s.

(** What one run of the worker draws from outside: the faults of its
    database calls, the [_id] of the new Click and the time of the write,
    which is later than the click. *)
Record Run : Type := {
  w_fx : Queue.Faults;
  w_newId : ObjectId;
  w_now : Z
}.

(** The worker run once per [Run], oldest job first. *)
Definition drain (runs : list Run) (s : Queue.Sys) : Queue.Sys :=
  fold_left (fun s w => Queue.workerStep (w_fx w) (w_newId w) (w_now w) s) runs s.

(** The payload of an arrival written with what a run of the worker
    draws, and the JSON copy of it written so. *)
Definition retimed (w : Run) (a : Arrival) : Arrival :=
  {| a_fx := w_fx w; a_newId := w_newId w; a_now := w_now w; a_payload := a_payload a |}.

Definition worked (w : Run) (a : Arrival) : Arrival :=
  {| a_fx := w_fx w; a_newId := w_newId w; a_now := w_now w;
     a_payload := Queue.viaJSON (a_payload a) |}.

(** The fallback run once per arrival, in order. *)
Definition inlineAll (arrivals : list Arrival) (db : Db) : Db :=
  fold_left
    (fun db a => Queue.inlineFallback (a_fx a) (a_newId a) (a_now a) (a_payload a) db)
    arrivals db.

(** The jobs waiting in the queue, and the Click documents of a link. *)
Definition jobsWaiting (s : Queue.Sys) : nat :=
  match Queue.queue (Queue.qstate s) with Some js => length js | None => 0%nat end.

Definition clicksOf (id : ObjectId) (db : Db) : Z :=
  Z.of_nat (length (Mongo.find_all (fun c => String.eqb (Click.linkId c) id) (clicks db))).

(** One visit: the request, with the [_id] of the Click it may store and
    the time at which it is served. *)
Record Visit : Type := {
  v_newId : ObjectId;
  v_now : Z;
  v_req : Redirect.Request
}.

(** Visits served one after the other: the click of each is handed to
    [enqueueClick] (no faults) before the next request arrives; with the
    queue off, the fallback has logged it by then. *)
Fixpoint visits (ext : Externals) (vs : list Visit) (s : Queue.Sys)
  : list Redirect.Response * Queue.Sys :=
  match vs with
  | [] => ([], s)
  | v :: rest =>
      let '(o, s1) :=
        Redirect.serve ext false Queue.no_faults (v_newId v) (v_now v) (v_req v) s in
      let '(rs, s2) := visits ext rest s1 in
      (Redirect.response o :: rs, s2)
  end.

(** The counter of every link equals the number of its Click documents;
    the counter is never ahead of them. *)
Definition InSync (db : Db) : Prop :=
  forall l, In l (links db) -> Link.clicksCount l = clicksOf (Link._id l) db.

Definition NeverAhead (db : Db) : Prop :=
  forall l, In l (links db) -> Link.clicksCount l <= clicksOf (Link._id l) db.

End Traffic.

Module Sample2.

Definition jwt_sign (sub email : string) (now : Z) : string :=
  "jwt." +:+ sub +:+ "." +:+ email.


(** A link that may be followed twice, and a store whose counters agree
    with its Click documents. *)
Definition twice : Link.t :=
  Sample.mkLink "b1" "u1" "launch" "https://example.com/launch" true (Some 9000) None 2 0.

Definition dbSync : Db :=
  {| links := [twice; Sample.locked]; clicks := []; users := []; savedViews := [];
     annotations := [] |}.

Definition offline (db : Db) : Queue.Sys := {| Queue.db := db; Queue.qstate := Queue.initial |}.

Definition visit (id : ObjectId) (now : Z) (code : string) (q cookies : list (string * string))
  : Traffic.Visit :=
  {| Traffic.v_newId := id; Traffic.v_now := now; Traffic.v_req := Sample.get code q cookies |}.

Definition click_b1 : Click.Payload :=
  {| Click.p_linkId := "b1"; Click.p_referer := "direct"; Click.p_tzOffset := Some (Js.Fin 0);
     Click.p_utm := None; Click.p_ipHash := "9f86d081884c7d659a2feaa0c55ad015";
     Click.p_ua := "Mozilla/5.0"; Click.p_country := None;
     Click.p_device := "desktop"; Click.p_browser := "Firefox" |}.

End Sample2.

(* ================================================================== *)
(** * routes/links.routes.js: list, read, delete, QR *)
(* ================================================================== *)
Module LinkRoutes.

Definition LIST_SIZE_DEFAULT : Z := 10.
Definition LIST_SIZE_MIN : Z := 1.
Definition LIST_SIZE_MAX : Z := 50.
Definition QR_SIZE_DEFAULT : Z := 512.
Definition QR_SIZE_MAX : Z := 2048.

(** [parseInt(q, 10) || d]: [d] for a missing key, [NaN] and [0]. *)
Definition parseInt_or (q : option string) (d : Z) : Z :=
  match q with
  | Some s =>
      match Js.parseInt s with
      | Some n => if Js.truthy_num n then n else d
      | None => d
      end
  | None => d
  end.

Definition pageOf (query : gmap string string) : Z :=
  Z.max (parseInt_or (query !! "page") 1) 1.

Definition sizeOf (query : gmap string string) : Z :=
  Z.min (Z.max (parseInt_or (query !! "size") LIST_SIZE_DEFAULT) LIST_SIZE_MIN) LIST_SIZE_MAX.

Definition searchOf (query : gmap string string) : string :=
  Js.trim (Js.or_else (query !! "search") "").

(** The body of [GET /api/links]. *)
Record ListJson : Type := {
  items : list (Link.t * string);
  page : Z;
  size : Z;
  total : Z
}.

Inductive QrResponse : Type :=
| QrError (status : Z) (message : string)
| QrImage (contentType : string) (body : string).

Section WithExternals.
Variable ext : Externals.
(** MongoDB's [{ $regex: q, $options: "i" }] on a string field. *)
Variable regex_i : string -> string -> bool.
(** [QRCode.toString(text, { type: "svg", width })] and
    [QRCode.toBuffer(text, { type: "png", width })]. *)
Variable qr_svg : string -> Z -> string.
Variable qr_png : string -> Z -> string.

(** The filter of the list: the owner, and with a search term one of the
    four fields matching it; [meta.notes] may be [null]. *)
Definition listFilter (user : ObjectId) (q : string) (l : Link.t) : bool :=
  String.eqb (Link.ownerId l) user
  && (if Js.truthy q
      then regex_i q (Link.code l)
           || regex_i q (Link.longUrl l)
           || match Link.notes (Link.meta l) with Some n => regex_i q n | None => false end
           || regex_i q (Link.domain l)
      else true).

(** [.sort({ createdAt: -1 })]. *)
Definition newestFirst (a b : Link.t) : bool := Link.createdAt b <=? Link.createdAt a.

Definition withShortUrl (l : Link.t) : Link.t * string := (l, Links.buildShortUrl ext l).

(** [r.get("/")] for a search term that MongoDB accepts, with the
    matching documents in the order of a stable sort; [listFrom] below
    leaves the order among equal dates to the query. *)
Definition list (user : ObjectId) (query : gmap string string) (db : Db) : ListJson :=
  let page := pageOf query in
  let size := sizeOf query in
  let found := Mongo.find_all (listFilter user (searchOf query)) (links db) in
  {| items := map withShortUrl
                (firstn (Z.to_nat size)
                   (skipn (Z.to_nat ((page - 1) * size)) (Mongo.sort_by newestFirst found)));
     page := page;
     size := size;
     total := Z.of_nat (length found) |}.

(** What one run of [Link.find(filter).sort({ createdAt: -1 })] may
    return for the matching documents [found]: all of them, newest first.
    The sort has no second key, so MongoDB leaves the order of documents
    with equal [createdAt] open, and it may differ from one query to the
    next. *)
Definition NewestFirst (found answer : Datatypes.list Link.t) : Prop :=
  Permutation answer found
  /\ StronglySorted (fun a b => Link.createdAt b <= Link.createdAt a) answer.

(** [r.get("/")] when the query of the page sorts with [order]. MongoDB
    compiles the search term ([regex_ok] says whether it is a regular
    expression) and rejects the query otherwise; the handler has no
    [try], so its promise rejects then ([None]). *)
Definition listFrom (regex_ok : string -> bool)
           (order : Datatypes.list Link.t -> Datatypes.list Link.t)
           (user : ObjectId) (query : gmap string string) (db : Db) : option ListJson :=
  let page := pageOf query in
  let size := sizeOf query in
  let q := searchOf query in
  if Js.truthy q && negb (regex_ok q) then None
  else
    let found := Mongo.find_all (listFilter user q) (links db) in
    Some {| items := map withShortUrl
                       (firstn (Z.to_nat size)
                          (skipn (Z.to_nat ((page - 1) * size)) (order found)));
            page := page;
            size := size;
            total := Z.of_nat (length found) |}.

Definition mine (user id : ObjectId) (l : Link.t) : bool :=
  String.eqb (Link._id l) id && String.eqb (Link.ownerId l) user.

(** [r.get("/:id")]. *)
Definition read (user id : ObjectId) (db : Db) : Links.Response :=
  match Mongo.findOne (mine user id) (links db) with
  | None => Links.Error 404 "Not found"
  | Some doc => Links.LinkJson doc (Links.buildShortUrl ext doc)
  end.

(** [r.delete("/:id")]: [Link.deleteOne] with the owner in the filter,
    then [Click.deleteMany({ linkId })]; the answer is [{ ok: true }]. *)
Definition delete (user id : ObjectId) (db : Db) : Db :=
  set_clicks (Mongo.find_all (fun c => negb (String.eqb (Click.linkId c) id)))
    (set_links (Mongo.deleteOne (mine user id)) db).

(** [r.get("/:id/qr")]. *)
Definition qr (user id : ObjectId) (query : gmap string string) (db : Db) : QrResponse :=
  let format := Js.toLowerCase (Js.or_else (query !! "format") "png") in
  let size := Z.min (parseInt_or (query !! "size") QR_SIZE_DEFAULT) QR_SIZE_MAX in
  match Mongo.findOne (mine user id) (links db) with
  | None => QrError 404 "Not found"
  | Some link =>
      let shortUrl := Links.buildShortUrl ext link in
      if String.eqb format "svg"
      then QrImage "image/svg+xml" (qr_svg shortUrl size)
      else QrImage "image/png" (qr_png shortUrl size)
  end.

End WithExternals.
End LinkRoutes.

(* ================================================================== *)
(** * middlewares/auth.js, middlewares/admin.js, routes/admin.routes.js *)
(* ================================================================== *)
Module Guard.

(** [s.startsWith(p)] and [s.slice(n)]. *)
Fixpoint startsWith (p s : string) : bool :=
  match p, s with
  | EmptyString, _ => true
  | String a p', String b s' => Ascii.eqb a b && startsWith p' s'
  | String _ _, EmptyString => false
  end.

Fixpoint sliceFrom (n : nat) (s : string) : string :=
  match n, s with
  | O, _ => s
  | S n', String _ s' => sliceFrom n' s'
  | S _, EmptyString => EmptyString
  end.

Definition getBearerToken (headerValue : option string) : option string :=
  let h := Js.trim (Js.or_else headerValue "") in
  if negb (Js.truthy h) then None
  else if negb (startsWith "bearer " (Js.toLowerCase h)) then None
  else
    let t := Js.trim (sliceFrom 7 h) in
    if Js.truthy t then Some t else None.

(** What [jwt.verify] returns: the claims of the token; [sub] may be
    missing. *)
Record Claims : Type := { sub : option ObjectId }.

Inductive Outcome : Type :=
| Deny (status : Z) (message : string)
| Next (user : User.t).

Section WithJwt.
(** [jwt.verify(token, env.JWT_SECRET)]; [None] when it throws (bad
    signature, expired, malformed). *)
Variable jwt_verify : string -> option Claims.

(** [User.findById(id)]. *)
Definition findById (id : option ObjectId) (db : Db) : option User.t :=
  match id with
  | Some i => Mongo.findOne (fun u => String.eqb (User._id u) i) (users db)
  | None => None
  end.

(** [requireAuth]: [Next user] stands for [req.user = user; next()]. *)
Definition requireAuth (authorization : option string) (db : Db) : Outcome :=
  match getBearerToken authorization with
  | None => Deny 401 "Unauthorized"
  | Some token =>
      match jwt_verify token with
      | None => Deny 401 "Unauthorized"
      | Some payload =>
          match findById (sub payload) db with
          | None => Deny 401 "Unauthorized"
          | Some user => Next user
          end
      end
  end.

(** [requireAdmin] on the [req.user] left by the middlewares before it. *)
Definition requireAdmin (user : option User.t) : Outcome :=
  match user with
  | None => Deny 403 "Forbidden"
  | Some u =>
      if negb (String.eqb (User.role u) "admin") then Deny 403 "Forbidden" else Next u
  end.

(** [r.use(requireAuth, requireAdmin)]. *)
Definition adminGate (authorization : option string) (db : Db) : Outcome :=
  match requireAuth authorization db with
  | Next u => requireAdmin (Some u)
  | denied => denied
  end.
(** [r.get("/me", requireAuth, ...)] of routes/auth.routes.js. *)
Inductive MeResponse : Type :=
| MeDenied (status : Z) (message : string)
| MeUser (id : ObjectId) (name email : string).

Definition me (authorization : option string) (db : Db) : MeResponse :=
  match requireAuth authorization db with
  | Deny status message => MeDenied status message
  | Next u => MeUser (User._id u) (User.name u) (User.email u)
  end.

(** [r.get("/stats")] of routes/admin.routes.js: the three counts and the
    20 most recently updated disabled links (code and [updatedAt]). *)
Record Stats : Type := {
  st_users : Z;
  st_links : Z;
  st_clicks : Z;
  disabledExamples : list (string * Z)
}.

Inductive StatsResponse : Type :=
| StatsDenied (status : Z) (message : string)
| StatsJson (stats : Stats).

Definition stats (db : Db) : Stats :=
  {| st_users := Z.of_nat (length (users db));
     st_links := Z.of_nat (length (links db));
     st_clicks := Z.of_nat (length (clicks db));
     disabledExamples :=
       map (fun x => (Link.code x, Link.updatedAt x))
         (firstn 20
            (Mongo.sort_by (fun a b => Link.updatedAt b <=? Link.updatedAt a)
               (Mongo.find_all (fun l => negb (Link.isActive l)) (links db)))) |}.

Definition adminStats (authorization : option string) (db : Db) : StatsResponse :=
  match adminGate authorization db with
  | Deny status message => StatsDenied status message
  | Next _ => StatsJson (stats db)
  end.
End WithJwt.

(** No account has the role ["admin"]. *)
Definition NoAdmin (db : Db) : Prop :=
  forall u, In u (users db) -> User.role u <> "admin".

End Guard.

Module Sample3.

Fixpoint before_dot (s : string) : string :=
  match s with
  | EmptyString => EmptyString
  | String c s' => if Ascii.eqb c "." then EmptyString else String c (before_dot s')
  end.

(** The inverse of [Sample2.jwt_sign] on subjects without a dot. *)
Definition jwt_verify (token : string) : option Guard.Claims :=
  if Guard.startsWith "jwt." token
  then Some {| Guard.sub := Some (before_dot (Guard.sliceFrom 4 token)) |}
  else None.

Definition aliceLogin : AuthFlow.LoginValue :=
  {| AuthFlow.l_email := "Alice@Example.com "; AuthFlow.l_password := "secret" |}.

(** Three links of [u1] created at three different times, and one of
    [u2]. *)
Definition dated (id code : string) (owner : ObjectId) (created : Z) : Link.t :=
  {| Link._id := id; Link.ownerId := owner; Link.code := code;
     Link.longUrl := "https://example.com/" +:+ code; Link.domain := "";
     Link.isActive := true; Link.expiresAt := None; Link.passwordHash := None;
     Link.maxClicks := 0; Link.clicksCount := 0; Link.meta := Sample.noMeta;
     Link.createdAt := created; Link.updatedAt := created |}.

Definition dbDated : Db :=
  {| links := [dated "d1" "jan1" "u1" 1000; dated "d2" "feb2" "u2" 1500;
               dated "d3" "mar3" "u1" 3000; dated "d4" "apr4" "u1" 2000];
     clicks := []; users := []; savedViews := []; annotations := [] |}.

(** Two orders that a query may use: the stable sort, and the stable sort
    of the collection read backwards. *)
Definition stable (l : list Link.t) : list Link.t := Mongo.sort_by LinkRoutes.newestFirst l.
Definition backwards (l : list Link.t) : list Link.t :=
  Mongo.sort_by LinkRoutes.newestFirst (rev l).

End Sample3.

(* ================================================================== *)
(** * Invariants of the link collection *)
(* ================================================================== *)
Module Store.

(** Every stored long URL passes [isSafeUrl]. *)
Definition AllSafe (db : Db) : Prop :=
  forall l, In l (links db) -> Validators.isSafeUrl (Link.longUrl l) = true.

(** What no update may change in a link. *)
Definition fixedPart (l : Link.t) : ObjectId * ObjectId * Z * Z :=
  (Link._id l, Link.ownerId l, Link.clicksCount l, Link.createdAt l).

End Store.

(* ================================================================== *)
(** * routes/analytics.routes.js: per-link analytics and the panels *)
(* ================================================================== *)
Module LinkAnalytics.

Definition TOP_REFERRERS_LIMIT : nat := 5.
Definition TOP_REFERRERS_OVERVIEW_LIMIT : nat := 7.
Definition TOP_COUNTRIES_LIMIT : nat := 10.
Definition TOP_COUNTRIES_OVERVIEW_LIMIT : nat := 12.
Definition RECENT_CLICKS_LIMIT : nat := 200.
Definition TOP_LINKS_LIMIT : nat := 10.
Definition TOP_COHORTS_LIMIT : nat := 20.

(** [[{ $match }, { $group: { _id: key, count: { $sum: 1 } } },
    { $sort: { count: -1 } }]]. *)
Definition countBy {K} (eqb : K -> K -> bool) (key : Click.t -> K)
           (m : Click.t -> bool) (cs : list Click.t) : list (K * Z) :=
  Mongo.sort_by (fun a b => snd b <=? snd a)
    (Analytics.groupCount eqb key (Mongo.find_all m cs)).

(** [x._id || d] on the rows of an aggregation. *)
Definition labelled (d : string) (rows : list (string * Z)) : list (string * Z) :=
  map (fun r => (Js.or_else (Some (fst r)) d, snd r)) rows.

Definition referrers (limit : nat) (m : Click.t -> bool) (cs : list Click.t)
  : list (string * Z) :=
  labelled "direct" (firstn limit (countBy String.eqb Click.referer m cs)).

(** [byCountry.filter((x) => x._id).map(...)] after [$limit]. *)
Definition countries (limit : nat) (m : Click.t -> bool) (cs : list Click.t)
  : list (string * Z) :=
  omap (fun r => match fst r with
                 | Some c => if Js.truthy c then Some (c, snd r) else None
                 | None => None
                 end)
    (firstn limit (countBy Analytics.opt_eqb Click.country m cs)).

Definition devices (m : Click.t -> bool) (cs : list Click.t) : list (string * Z) :=
  labelled "other" (countBy String.eqb Click.device m cs).

Definition browsers (m : Click.t -> bool) (cs : list Click.t) : list (string * Z) :=
  labelled "Unknown" (countBy String.eqb Click.browser m cs).

(** [Click.find(match).sort({ ts: -1 }).limit(RECENT_CLICKS_LIMIT)]. *)
Definition recentClicks (m : Click.t -> bool) (cs : list Click.t) : list Click.t :=
  firstn RECENT_CLICKS_LIMIT
    (Mongo.sort_by (fun a b => Click.ts b <=? Click.ts a) (Mongo.find_all m cs)).

(** One row of [recent] in the per-link report. *)
Record RecentRow : Type := {
  rr_ts : Z;
  rr_referer : string;
  rr_ua : string;
  rr_tzOffset : Js.number;
  rr_utm : option Click.Utm;
  rr_country : option string;
  rr_device : string;
  rr_browser : string
}.

Definition recentRow (c : Click.t) : RecentRow :=
  {| rr_ts := Click.ts c;
     rr_referer := Js.or_else (Some (Click.referer c)) "direct";
     rr_ua := Js.or_else (Some (Click.ua c)) "";
     rr_tzOffset := Js.number_or0 (Click.tzOffset c);
     rr_utm := Click.utm c;
     rr_country := if Js.truthy_opt (Click.country c) then Click.country c else None;
     rr_device := Js.or_else (Some (Click.device c)) "other";
     rr_browser := Js.or_else (Some (Click.browser c)) "Unknown" |}.

(** [$addToSet]: the distinct values, in the order of first appearance. *)
Fixpoint addToSet (vals : list (option string)) (seen : list (option string))
  : list (option string) :=
  match vals with
  | [] => seen
  | v :: rest =>
      if existsb (Analytics.opt_eqb v) seen then addToSet rest seen
      else addToSet rest (seen ++ [v])
  end.

(** [(set || []).filter(Boolean).sort()]. *)
Definition options (get : Click.Utm -> option string) (m : Click.t -> bool)
           (cs : list Click.t) : list string :=
  Mongo.sort_by String.leb
    (omap (fun v => match v with
                    | Some s => if Js.truthy s then Some s else None
                    | None => None
                    end)
       (addToSet (map (Analytics.utmPath get) (Mongo.find_all m cs)) [])).

Record UtmOptions : Type := {
  sources : list string;
  mediums : list string;
  campaigns : list string
}.

Record Report : Type := {
  byDay : list Analytics.DayRow;
  rep_referrers : list (string * Z);
  rep_countries : list (string * Z);
  rep_devices : list (string * Z);
  rep_browsers : list (string * Z);
  recent : list RecentRow;
  utmOptions : UtmOptions
}.

Inductive Response : Type :=
| NotFound (status : Z) (message : string)
| ReportJson (report : Report).

(** [{ linkId: link._id, ts: { $gte: since }, ...filters }]. *)
Definition matchLink (id : ObjectId) (since : Z) (f : Analytics.ClickFilter) (c : Click.t)
  : bool :=
  String.eqb (Click.linkId c) id && (since <=? Click.ts c) && Analytics.matchesFilter f c.

Section WithExternals.
Variable ext : Externals.

(** [r.get("/links/:id/analytics")]. *)
Definition analytics (now : Z) (user id : ObjectId) (q : gmap string string) (db : Db)
  : Response :=
  let rng := Analytics.parseRange (q !! "range") in
  let tzMin := Js.parseInt_or0 (q !! "tz") in
  match Mongo.findOne (LinkRoutes.mine user id) (links db) with
  | None => NotFound 404 "Not found"
  | Some link =>
      let since := Analytics.windowStart rng now in
      let m := matchLink (Link._id link) since (Analytics.commonFiltersFromQuery q) in
      let all := fun c => String.eqb (Click.linkId c) (Link._id link) in
      let fmt := Analytics.dateFormatForRange rng in
      ReportJson
        {| byDay := Analytics.toDayRows (Analytics.seriesByDay ext m fmt tzMin (clicks db));
           rep_referrers := referrers TOP_REFERRERS_LIMIT m (clicks db);
           rep_countries := countries TOP_COUNTRIES_LIMIT m (clicks db);
           rep_devices := devices m (clicks db);
           rep_browsers := browsers m (clicks db);
           recent := map recentRow (recentClicks m (clicks db));
           utmOptions :=
             {| sources := options Click.source all (clicks db);
                mediums := options Click.medium all (clicks db);
                campaigns := options Click.campaign all (clicks db) |} |}
  end.
End WithExternals.

End LinkAnalytics.

Module Sample4.

(** Clicks on the link [a1] that came with a [utm_source]. *)
Definition tagged (id : string) (ts : Z) (src : string) : Click.t :=
  {| Click._id := id; Click.linkId := "a1"; Click.ts := ts; Click.referer := "direct";
     Click.country := Some "PK"; Click.ua := "Mozilla/5.0"; Click.device := "mobile";
     Click.browser := "Firefox"; Click.ipHash := "9f86d081884c7d659a2feaa0c55ad015";
     Click.tzOffset := Some (Js.Fin 0);
     Click.utm := Some {| Click.source := Some src; Click.medium := None;
                          Click.campaign := None |} |}.

Definition dbTagged : Db :=
  {| links := [Sample.plain];
     clicks := [tagged "k1" (100 * Sample.day_ms) "news";
                tagged "k2" (101 * Sample.day_ms) "ads";
                tagged "k3" (102 * Sample.day_ms) "news"];
     users := []; savedViews := []; annotations := [] |}.

End Sample4.

(* ================================================================== *)
(** * middlewares/rateLimit.js *)
(* ================================================================== *)
Module RateLimit.

Definition ONE_MIN_MS : Z := 60 * 1000.
Definition TEN_SEC_MS : Z := 10 * 1000.
Definition DEFAULT_WINDOW_REQUESTS : Z := 60.
Definition DEFAULT_REDIRECT_REQUESTS : Z := 50.

(** The [keyGenerator] of [perLinkLimiter]: the route parameter as sent
    and the first forwarded address (else the socket's, else
    ["0.0.0.0"]), joined by a bar. *)
Definition keyGenerator (req : Redirect.Request) : string :=
  let ip := Redirect.client_ip req in
  let code := Js.or_else (Some (Redirect.params_code req)) "" in
  code +:+ "|" +:+ ip.

(** The same request with another route parameter. *)
Definition withCode (code : string) (req : Redirect.Request) : Redirect.Request :=
  {| Redirect.params_code := code;
     Redirect.query := Redirect.query req;
     Redirect.signedCookies := Redirect.signedCookies req;
     Redirect.headers := Redirect.headers req;
     Redirect.remoteAddress := Redirect.remoteAddress req |}.

End RateLimit.

(* ================================================================== *)
(** * routes/analytics.routes.js: the shared overview *)
(* ================================================================== *)
Module Share.

(** The claims of a share token as [jwt.verify] returns them; [compare]
    is the truthiness of the claim, [filters] the string entries of the
    object. *)
Record Claims : Type := {
  sub : string;
  scope : option string;
  range : option string;
  compare : bool;
  filters : gmap string string;
  breakdown : option string
}.

Inductive Response : Type :=
| NotConfigured (status : Z) (message : string)
| Invalid (status : Z) (message : string)
| Shared (overview : Analytics.Overview).

(** The filters that the route copies from the token, key by key. *)
Definition claimFilter (f : gmap string string) : Analytics.ClickFilter :=
  {| Analytics.utm_source := Analytics.queryField f "utm.source";
     Analytics.utm_medium := Analytics.queryField f "utm.medium";
     Analytics.utm_campaign := Analytics.queryField f "utm.campaign";
     Analytics.country := Analytics.queryField f "country";
     Analytics.device := Analytics.queryField f "device";
     Analytics.browser := Analytics.queryField f "browser" |}.

Section WithExternals.
Variable ext : Externals.
(** [jwt && env.JWT_SECRET]. *)
Variable jwt_configured : bool.
(** [jwt.verify(token, env.JWT_SECRET)]; [None] when it throws. *)
Variable jwt_verify : string -> option Claims.
(** [new mongoose.Types.ObjectId(s)]; [None] when it throws. *)
Variable toObjectId : string -> option ObjectId.

(** [r.get("/analytics/share/:token/overview")]; a missing [breakdown]
    claim is passed on as the empty string, which is falsy like
    [undefined]. *)
Definition overview (now : Z) (token : string) (q : gmap string string) (db : Db) : Response :=
  if negb jwt_configured then NotConfigured 501 "JWT not configured on server"
  else
    match jwt_verify token with
    | None => Invalid 400 "Invalid or expired share token"
    | Some decoded =>
        if negb (Redirect.opt_is (scope decoded) "analytics:share")
        then Invalid 400 "Invalid or expired share token"
        else
          let tzMin := Js.parseInt_or0 (q !! "tz") in
          let range := if Js.truthy_opt (q !! "range") then q !! "range" else range decoded in
          let breakdown :=
            if Js.truthy_opt (q !! "breakdown") then Js.or_else (q !! "breakdown") ""
            else Js.or_else (breakdown decoded) "" in
          let compare :=
            String.eqb
              (if Js.truthy_opt (q !! "compare") then Js.or_else (q !! "compare") ""
               else if compare decoded then "1" else "0")
              "1" in
          match toObjectId (sub decoded) with
          | None => Invalid 400 "Invalid or expired share token"
          | Some owner =>
              Shared (Analytics.buildOverviewPayload ext now owner range compare tzMin
                        (claimFilter (filters decoded)) breakdown db)
          end
    end.
End WithExternals.

End Share.

Module Sample5.

(** A verifier that knows one share token, issued for [u1]. *)
Definition jwt_verify (token : string) : option Share.Claims :=
  if String.eqb token "share.u1"
  then Some {| Share.sub := "u1"; Share.scope := Some "analytics:share";
               Share.range := Some "30d"; Share.compare := false;
               Share.filters := ∅; Share.breakdown := Some "none" |}
  else None.

Definition query : gmap string string :=
  list_to_map [("range", "7d"); ("compare", "1"); ("breakdown", "device")].

End Sample5.

(* ================================================================== *)
(** * Properties of the redirect route *)
(* ================================================================== *)

Example handler_plain :
  Redirect.response (Redirect.handler Sample.ext 2000 (Sample.get " docs " [] []) Sample.db0)
  = Redirect.RedirectTo 302 "https://example.com/docs".
Proof. vm_compute. reflexivity. Qed.

Example handler_statuses :
  map (fun c => Redirect.status_of
                  (Redirect.response (Redirect.handler Sample.ext 2000 (Sample.get c [] []) Sample.db0)))
      ["nope"; "gone"; "old1"; "promo"; "vault"; "docs"]
  = [404; 404; 410; 429; 302; 302].
Proof. vm_compute. reflexivity. Qed.

(** [findOne] finds nothing exactly when no document satisfies the query. *)
Lemma findOne_None_iff {A} (p : A -> bool) (docs : list A) :
  Mongo.findOne p docs = None <-> forall d, In d docs -> p d = false.
Proof.
  unfold Mongo.findOne. split.
  - intros H d Hd. exact (find_none p docs H d Hd).
  - induction docs as [|d rest IH]; intros H; simpl; [reflexivity|].
    rewrite (H d (or_introl eq_refl)). apply IH. intros d' Hd'. apply H. now right.
Qed.

(** What [findOne] returns is in the collection and satisfies the query. *)
Lemma findOne_Some {A} (p : A -> bool) (docs : list A) (d : A) :
  Mongo.findOne p docs = Some d -> In d docs /\ p d = true.
Proof. unfold Mongo.findOne. apply find_some. Qed.

Section RedirectGuards.
Variable ext : Externals.
Variables (now : Z) (req : Redirect.Request) (db : Db).

Let code := Js.trim (Redirect.params_code req).
Let found := Mongo.findOne (fun l => String.eqb (Link.code l) code) (links db).
Let out := Redirect.handler ext now req db.

Lemma handler_unfold :
  out =
  match found with
  | None => Redirect.respond Redirect.notFound
  | Some link =>
      if negb (Link.isActive link) then Redirect.respond Redirect.notFound
      else if match Link.expiresAt link with Some e => e <? now | None => false end
           then Redirect.respond Redirect.expired
      else if Js.truthy_num (Link.maxClicks link)
              && (Link.maxClicks link <=? Link.clicksCount link)
           then Redirect.respond Redirect.maxReached
      else match Redirect.passwordGate ext code req link with
           | Some early => early
           | None => {| Redirect.response := Redirect.RedirectTo 302 (Link.longUrl link);
                        Redirect.setCookie := None;
                        Redirect.enqueued := Some (Redirect.clickPayload ext now req link) |}
           end
  end.
Proof. reflexivity. Qed.

(** The expiry test of the handler, as a proposition. *)
Lemma expired_test (link : Link.t) :
  match Link.expiresAt link with Some e => e <? now | None => false end = true
  <-> exists e, Link.expiresAt link = Some e /\ e < now.
Proof.
  destruct (Link.expiresAt link) as [e|]; split.
  - intros H. exists e. split; [reflexivity | now apply Z.ltb_lt].
  - intros [e' [[= <-] H]]. now apply Z.ltb_lt.
  - discriminate.
  - intros [e' [[=] _]].
Qed.

(** The click-cap test of the handler, as a proposition. *)
Lemma cap_test (link : Link.t) :
  Js.truthy_num (Link.maxClicks link) && (Link.maxClicks link <=? Link.clicksCount link) = true
  <-> Link.maxClicks link <> 0 /\ Link.maxClicks link <= Link.clicksCount link.
Proof.
  unfold Js.truthy_num. rewrite andb_true_iff, negb_true_iff, Z.eqb_neq, Z.leb_le. tauto.
Qed.

(** Every early return of the password gate is a 302. *)
Lemma passwordGate_status (link : Link.t) (o : Redirect.Outcome) :
  Redirect.passwordGate ext code req link = Some o ->
  Redirect.status_of (Redirect.response o) = 302 /\ Redirect.enqueued o = None.
Proof.
  unfold Redirect.passwordGate.
  repeat match goal with |- context [if ?b then _ else _] => destruct b end;
    intros [= <-]; split; reflexivity.
Qed.

(** C1. The guards of the redirect handler, in their order: an unknown
    code or an inactive link answers 404; otherwise an expiry date strictly
    before the current time answers 410; otherwise a nonzero cap reached by
    the click counter answers 429; otherwise, when the password gate lets
    the request through, the answer is a 302 to the long URL of the link
    (and the click is handed to the logger). *)
Theorem redirect_guard_order :
  (found = None <-> forall l, In l (links db) -> Link.code l <> code)
  /\ ((found = None \/ exists l, found = Some l /\ Link.isActive l = false) ->
      out = Redirect.respond Redirect.notFound
      /\ Redirect.status_of (Redirect.response out) = 404)
  /\ forall link, found = Some link -> Link.isActive link = true ->
     ((exists e, Link.expiresAt link = Some e /\ e < now) ->
      out = Redirect.respond Redirect.expired
      /\ Redirect.status_of (Redirect.response out) = 410)
     /\ (~ (exists e, Link.expiresAt link = Some e /\ e < now) ->
         ((Link.maxClicks link <> 0 /\ Link.maxClicks link <= Link.clicksCount link) ->
          out = Redirect.respond Redirect.maxReached
          /\ Redirect.status_of (Redirect.response out) = 429)
         /\ (~ (Link.maxClicks link <> 0 /\ Link.maxClicks link <= Link.clicksCount link) ->
             Redirect.passwordGate ext code req link = None ->
             Redirect.response out = Redirect.RedirectTo 302 (Link.longUrl link)
             /\ Redirect.enqueued out = Some (Redirect.clickPayload ext now req link))).
Proof.
  split; [|split].
  - unfold found. rewrite findOne_None_iff. split; intros H l Hl.
    + intros Hc. specialize (H l Hl). rewrite Hc, String.eqb_refl in H. discriminate.
    + apply String.eqb_neq. now apply H.
  - rewrite handler_unfold. intros [-> | [l [-> Hl]]]; [now split|].
    rewrite Hl. now split.
  - intros link Hf Ha. rewrite handler_unfold, Hf, Ha. simpl negb. cbv iota.
    split.
    + intros He. apply expired_test in He. rewrite He. now split.
    + intros He. rewrite <- expired_test in He. apply not_true_is_false in He.
      rewrite He. split.
      * intros Hc. apply cap_test in Hc. rewrite Hc. now split.
      * intros Hc. rewrite <- cap_test in Hc. apply not_true_is_false in Hc.
        rewrite Hc. intros ->. now split.
Qed.

(** C8. The 429 of the handler is the click-cap branch, and that branch
    needs a nonzero [maxClicks] that the counter has reached: a link whose
    [maxClicks] is 0 is never refused for its clicks, whatever the value of
    [clicksCount]. *)
Theorem zero_max_clicks_is_unlimited :
  (Redirect.status_of (Redirect.response out) = 429 <->
   exists link, found = Some link /\ Link.isActive link = true
                /\ ~ (exists e, Link.expiresAt link = Some e /\ e < now)
                /\ Link.maxClicks link <> 0
                /\ Link.maxClicks link <= Link.clicksCount link)
  /\ (forall link, found = Some link -> Link.maxClicks link = 0 ->
      Redirect.status_of (Redirect.response out) <> 429
      /\ Redirect.response out <> Redirect.maxReached).
Proof.
  assert (Hiff : Redirect.status_of (Redirect.response out) = 429 <->
   exists link, found = Some link /\ Link.isActive link = true
                /\ ~ (exists e, Link.expiresAt link = Some e /\ e < now)
                /\ Link.maxClicks link <> 0
                /\ Link.maxClicks link <= Link.clicksCount link).
  { rewrite handler_unfold. destruct found as [link|].
    - destruct (Link.isActive link) eqn:Ha; simpl negb; cbv iota.
      + destruct (match Link.expiresAt link with Some e => e <? now | None => false end) eqn:He.
        * split; [discriminate|]. intros [l [[= <-] [_ [Hn _]]]].
          exfalso. apply Hn. now apply expired_test.
        * destruct (Js.truthy_num (Link.maxClicks link)
                    && (Link.maxClicks link <=? Link.clicksCount link)) eqn:Hc.
          -- split; [|reflexivity]. intros _. exists link.
             apply cap_test in Hc. repeat split; try tauto.
             intros Hx. apply expired_test in Hx. congruence.
          -- split.
             ++ destruct (Redirect.passwordGate ext code req link) as [o|] eqn:Hg.
                ** apply passwordGate_status in Hg. destruct Hg as [Hg _]. rewrite Hg. discriminate.
                ** discriminate.
             ++ intros [l [[= <-] [_ [_ Hm]]]]. apply cap_test in Hm. congruence.
      + split; [discriminate|]. intros [l [[= <-] [Hx _]]]. congruence.
    - split; [discriminate|]. intros [l [[=] _]]. }
  split; [exact Hiff|].
  intros link Hf Hm.
  assert (Hs : Redirect.status_of (Redirect.response out) <> 429).
  { intros Hs. apply Hiff in Hs. destruct Hs as [l [Hl [_ [_ [Hnz _]]]]].
    rewrite Hf in Hl. injection Hl as <-. contradiction. }
  split; [exact Hs|]. intros Hr. apply Hs. rewrite Hr. reflexivity.
Qed.

End RedirectGuards.

(* ------------------------------------------------------------------ *)
(** ** Strings that start with a slash are not safe URLs *)
(* ------------------------------------------------------------------ *)

Lemma rev_string_split (s a b : string) :
  Js.rev_string (a +:+ b) s = Js.rev_string a s +:+ b.
Proof.
  revert a. induction s as [|c s IH]; intros a; simpl; [reflexivity|].
  exact (IH (String c a)).
Qed.

Lemma rev_string_acc (s acc : string) :
  Js.rev_string acc s = Js.rev_string "" s +:+ acc.
Proof. exact (rev_string_split s "" acc). Qed.

Lemma rev_string_app (a b acc : string) :
  Js.rev_string acc (a +:+ b) = Js.rev_string (Js.rev_string acc a) b.
Proof. revert acc. induction a as [|c a IH]; intros acc; simpl; [reflexivity | apply IH]. Qed.

Lemma trimStart_app_char (r : string) (c : ascii) :
  Js.is_space c = false ->
  Js.trimStart (r +:+ String c "") = (Js.trimStart r +:+ String c "")%string.
Proof.
  intros Hc. induction r as [|d r IH]; simpl.
  - now rewrite Hc.
  - destruct (Js.is_space d); [exact IH | reflexivity].
Qed.

Lemma trimEnd_keeps_first (c : ascii) (t : string) :
  Js.is_space c = false -> exists t', Js.trimEnd (String c t) = String c t'.
Proof.
  intros Hc. unfold Js.trimEnd.
  change (Js.rev_string "" (String c t)) with (Js.rev_string (String c "") t).
  rewrite (rev_string_acc t), (trimStart_app_char _ c Hc), rev_string_app.
  simpl. eauto.
Qed.

Lemma trim_keeps_first (c : ascii) (t : string) :
  Js.is_space c = false -> exists t', Js.trim (String c t) = String c t'.
Proof.
  intros Hc. unfold Js.trim. simpl Js.trimStart. rewrite Hc.
  now apply trimEnd_keeps_first.
Qed.

Lemma isSafeUrl_slash (t : string) : Validators.isSafeUrl (String "/" t) = false.
Proof.
  unfold Validators.isSafeUrl.
  destruct (trim_keeps_first "/" t eq_refl) as [t' ->]. reflexivity.
Qed.

Section PasswordGate.
Variable ext : Externals.
Variables (now : Z) (req : Redirect.Request) (db : Db).

Let code := Js.trim (Redirect.params_code req).
Let found := Mongo.findOne (fun l => String.eqb (Link.code l) code) (links db).
Let out := Redirect.handler ext now req db.

Lemma opt_is_iff (o : option string) (v : string) :
  Redirect.opt_is o v = true <-> o = Some v.
Proof.
  destruct o as [s|]; simpl; [|split; discriminate].
  rewrite String.eqb_eq. split; [now intros -> | now intros [= ->]].
Qed.

(** [okPw]: the request carries a non-empty [pw] that bcrypt accepts
    against the stored hash. *)
Lemma okPw_iff (link : Link.t) :
  Js.truthy_opt (Link.passwordHash link) = true ->
  (Redirect.okPw ext req link = true <->
   exists pw h, Redirect.query req !! "pw" = Some pw /\ pw <> ""
                /\ Link.passwordHash link = Some h
                /\ bcrypt_compareSync ext pw h = Some true).
Proof.
  unfold Redirect.okPw, Redirect.query_pw, Utils.comparePassword, Js.or_else.
  destruct (Link.passwordHash link) as [[|d h]|]; simpl; try discriminate. intros _.
  destruct (Redirect.query req !! "pw") as [[|c pw]|] eqn:Hq; simpl.
  - split; [discriminate|]. intros [pw [h' [[= <-] [Hne _]]]]. congruence.
  - destruct (bcrypt_compareSync ext (String c pw) (String d h)) as [[|]|] eqn:Hb.
    + split; [|reflexivity]. intros _. exists (String c pw), (String d h). now repeat split.
    + split; [discriminate|]. intros [pw' [h' [[= <-] [_ [[= <-] Hb']]]]]. congruence.
    + split; [discriminate|]. intros [pw' [h' [[= <-] [_ [[= <-] Hb']]]]]. congruence.
  - split; [discriminate|]. intros [pw [h' [[=] _]]].
Qed.

(** C2. For a link with a password hash, the handler sends the visitor
    to the long URL (and logs the click) only when the request carries the
    signed cookie [sl_pw_ok_<linkId>] with value ["1"], or a [pw] query
    parameter that bcrypt accepts against the stored hash; when it has
    neither, a link that passes the guards before the gate (active, not
    expired, below its click cap) answers with a 302 to its unlock page.
    The destination is recognised by the click that is logged with it, or
    by the location of the 302 when the long URL is one that [isSafeUrl]
    admits, as every stored long URL is (a string such as [/r/x/unlock]
    is not). *)
Theorem password_gate_protects (link : Link.t) :
  found = Some link ->
  Js.truthy_opt (Link.passwordHash link) = true ->
  let cookie_ok := Redirect.signedCookies req !! Redirect.cookieKey link = Some "1" in
  let pw_ok := exists pw h, Redirect.query req !! "pw" = Some pw /\ pw <> ""
                            /\ Link.passwordHash link = Some h
                            /\ bcrypt_compareSync ext pw h = Some true in
  ((Redirect.enqueued out <> None
    \/ (Validators.isSafeUrl (Link.longUrl link) = true
        /\ Redirect.response out = Redirect.RedirectTo 302 (Link.longUrl link))) ->
   cookie_ok \/ pw_ok)
  /\ (~ (cookie_ok \/ pw_ok) ->
      Link.isActive link = true ->
      ~ (exists e, Link.expiresAt link = Some e /\ e < now) ->
      ~ (Link.maxClicks link <> 0 /\ Link.maxClicks link <= Link.clicksCount link) ->
      out = Redirect.respond (Redirect.RedirectTo 302 ("/r/" +:+ code +:+ "/unlock"))).
Proof.
  intros Hf Hpw cookie_ok pw_ok.
  assert (Hc : Redirect.okCookie req link = true <-> cookie_ok) by apply opt_is_iff.
  assert (Hp : Redirect.okPw ext req link = true <-> pw_ok) by now apply okPw_iff.
  assert (Hgate : Redirect.okCookie req link = false -> Redirect.okPw ext req link = false ->
                  Redirect.passwordGate ext code req link
                  = Some (Redirect.respond (Redirect.RedirectTo 302 ("/r/" +:+ code +:+ "/unlock")))).
  { intros H1 H2. unfold Redirect.passwordGate. now rewrite Hpw, H1, H2. }
  split.
  - intros Hdest.
    destruct (Redirect.okCookie req link) eqn:Hk; [left; now apply Hc|].
    destruct (Redirect.okPw ext req link) eqn:Hq; [right; now apply Hp|].
    exfalso. specialize (Hgate eq_refl eq_refl).
    pose proof (handler_unfold ext now req db) as Hu. cbv zeta in Hu.
    fold code in Hu. fold found in Hu. fold out in Hu. rewrite Hf, Hgate in Hu.
    repeat match type of Hu with context [if ?b then _ else _] => destruct b end;
      rewrite Hu in Hdest; destruct Hdest as [Hd | [Hs Hd]];
      try (now apply Hd); try discriminate Hd.
    simpl in Hd. injection Hd as Hd. rewrite <- Hd in Hs.
    change ("/r/" +:+ code +:+ "/unlock") with (String "/" ("r/" +:+ code +:+ "/unlock")) in Hs.
    rewrite isSafeUrl_slash in Hs. discriminate.
  - intros Hno Ha He Hm.
    pose proof (handler_unfold ext now req db) as Hu. cbv zeta in Hu.
    fold code in Hu. fold found in Hu. fold out in Hu.
    rewrite Hf, Ha in Hu. simpl negb in Hu. cbv iota in Hu.
    rewrite <- expired_test in He. apply not_true_is_false in He. rewrite He in Hu.
    rewrite <- cap_test in Hm. apply not_true_is_false in Hm. rewrite Hm in Hu.
    rewrite Hgate in Hu; [exact Hu | |].
    + apply not_true_is_false. intros H. apply Hno. left. now apply Hc.
    + apply not_true_is_false. intros H. apply Hno. right. now apply Hp.
Qed.

End PasswordGate.

(** C2 at a request for the locked sample link that brings neither the
    cookie nor a password: the visitor is sent to the unlock page. *)
Lemma password_gate_protects_witness :
  (Mongo.findOne (fun l => String.eqb (Link.code l) "vault") (links Sample.db0) = Some Sample.locked
   /\ Js.truthy_opt (Link.passwordHash Sample.locked) = true)
  /\ Redirect.handler Sample.ext 2000 (Sample.get "vault" [] []) Sample.db0
     = Redirect.respond (Redirect.RedirectTo 302 "/r/vault/unlock").
Proof.
  split; [split; reflexivity|].
  refine (proj2 (password_gate_protects Sample.ext 2000 (Sample.get "vault" [] []) Sample.db0
                   Sample.locked eq_refl eq_refl) _ eq_refl _ _).
  - intros [H | [pw [h [H _]]]]; vm_compute in H; discriminate H.
  - intros [e [H _]]; discriminate H.
  - intros [H _]. now apply H.
Defined.

(** A disabled link with a password, asked for without cookie or
    password: the answer is the 404 of the first guard, not a redirect to
    the unlock page. *)
Lemma password_gate_comes_after_guards :
  Js.truthy_opt (Link.passwordHash Sample.disabled) = true
  /\ Redirect.okCookie (Sample.get "gone" [] []) Sample.disabled = false
  /\ Redirect.okPw Sample.ext (Sample.get "gone" [] []) Sample.disabled = false
  /\ Redirect.handler Sample.ext 2000 (Sample.get "gone" [] []) Sample.db0
     = Redirect.respond Redirect.notFound
  /\ Redirect.response (Redirect.handler Sample.ext 2000 (Sample.get "gone" [] []) Sample.db0)
     <> Redirect.RedirectTo 302 "/r/gone/unlock".
Proof. repeat split; try reflexivity. vm_compute. discriminate. Qed.

Example locked_with_password :
  Redirect.handler Sample.ext 2000 (Sample.get "vault" [("pw", "hunter2")] []) Sample.db0
  = {| Redirect.response := Redirect.RedirectTo 302 "/r/vault?ok=1";
       Redirect.setCookie := Some ("sl_pw_ok_a2", "1");
       Redirect.enqueued := None |}.
Proof. vm_compute. reflexivity. Qed.

Example locked_with_cookie :
  Redirect.response
    (Redirect.handler Sample.ext 2000 (Sample.get "vault" [] [("sl_pw_ok_a2", "1")]) Sample.db0)
  = Redirect.RedirectTo 302 "https://example.com/vault".
Proof. vm_compute. reflexivity. Qed.

Example locked_wrong_password_with_cookie :
  Redirect.response
    (Redirect.handler Sample.ext 2000
       (Sample.get "vault" [("pw", "guess")] [("sl_pw_ok_a2", "1")]) Sample.db0)
  = Redirect.RedirectTo 302 "/r/vault/unlock?e=1".
Proof. vm_compute. reflexivity. Qed.

(* ================================================================== *)
(** * Properties of click logging *)
(* ================================================================== *)

(** With a key that identifies documents, [updateOne] on that key is a
    pointwise update. *)
Lemma updateOne_by_key {A} (key : A -> string) (k : string) (u : A -> A) (docs : list A) :
  NoDup (map key docs) ->
  Mongo.updateOne (fun d => String.eqb (key d) k) u docs
  = map (fun d => if String.eqb (key d) k then u d else d) docs.
Proof.
  induction docs as [|d rest IH]; intros Hnd; simpl; [reflexivity|].
  inversion Hnd as [|? ? Hnotin Hrest]; subst.
  destruct (String.eqb (key d) k) eqn:Hk.
  - f_equal. apply String.eqb_eq in Hk. subst k.
    clear IH Hnd Hrest. induction rest as [|e rest IH]; simpl; [reflexivity|].
    destruct (String.eqb (key e) (key d)) eqn:He.
    + apply String.eqb_eq in He. exfalso. apply Hnotin. simpl. rewrite He.
      apply elem_of_cons. now left.
    + f_equal. apply IH. intros Hin. apply Hnotin. simpl. apply elem_of_cons. now right.
  - f_equal. now apply IH.
Qed.

(** [updateOne] keeps the number of documents. *)
Lemma updateOne_length {A} (p : A -> bool) (u : A -> A) (docs : list A) :
  length (Mongo.updateOne p u docs) = length docs.
Proof.
  induction docs as [|d rest IH]; simpl; [reflexivity|].
  destruct (p d); simpl; [reflexivity | now rewrite IH].
Qed.

Lemma sameButAddress_header (r1 r2 : Redirect.Request) (k : string) :
  Redirect.sameButAddress r1 r2 -> k <> "x-forwarded-for" ->
  Redirect.headers r1 !! k = Redirect.headers r2 !! k.
Proof.
  intros [_ [_ [_ H]]] Hk.
  rewrite <- (lookup_delete_ne (Redirect.headers r1) "x-forwarded-for" k) by congruence.
  rewrite <- (lookup_delete_ne (Redirect.headers r2) "x-forwarded-for" k) by congruence.
  now rewrite H.
Qed.

Lemma slice0_length (n : nat) (s : string) : (String.length (Js.slice0 n s) <= n)%nat.
Proof.
  revert s. induction n as [|n IH]; intros s; simpl; [lia|].
  destruct s as [|c s]; simpl; [lia|]. specialize (IH s). lia.
Qed.

Section ClickLog.
Variable ext : Externals.
Variables (newId : ObjectId) (now : Z) (p : Click.Payload) (db : Db).

Let db' := Queue.inlineFallback Queue.no_faults newId now p db.

(** C3. Logging one click through the inline fallback of [enqueueClick]
    appends one Click document made of the fields of the payload, with
    [ts] the current time, and adds exactly 1 to [clicksCount] of the link
    whose [_id] is [payload.linkId]; the other fields of that link (only
    Mongoose's [updatedAt] stamp moves), the other links and the other
    collections stay as they are. Of the address of the visitor the Click
    that the redirect handler logs holds the first 32 hex digits of
    [sha256(ip|JWT_SECRET|day)] in [ipHash] and nothing else: two
    requests that differ in their address only and agree on these digits
    leave the same database. *)
Theorem click_log_effect :
  Links.UniqueIds db ->
  (forall (addThrows : bool) (q : Queue.State),
      Queue.useQueue q = false ->
      Queue.db (Queue.enqueueClick addThrows Queue.no_faults newId now p
                  {| Queue.db := db; Queue.qstate := q |}) = db')
  /\ (exists c, clicks db' = clicks db ++ [c]
        /\ Click._id c = newId /\ Click.ts c = now
        /\ Click.linkId c = Click.p_linkId p
        /\ Click.referer c = Click.p_referer p
        /\ Click.tzOffset c = Click.p_tzOffset p
        /\ Click.utm c = Click.p_utm p
        /\ Click.ipHash c = Click.p_ipHash p
        /\ Click.ua c = Click.p_ua p
        /\ Click.country c = Click.p_country p
        /\ Click.device c = Click.p_device p
        /\ Click.browser c = Click.p_browser p)
  /\ length (links db') = length (links db)
  /\ (forall (i : nat) (l : Link.t), links db !! i = Some l ->
        exists l', links db' !! i = Some l'
          /\ (Link._id l = Click.p_linkId p -> Link.clicksCount l' = Link.clicksCount l + 1)
          /\ (Link._id l <> Click.p_linkId p -> l' = l)
          /\ Link._id l' = Link._id l /\ Link.ownerId l' = Link.ownerId l
          /\ Link.code l' = Link.code l /\ Link.longUrl l' = Link.longUrl l
          /\ Link.domain l' = Link.domain l /\ Link.isActive l' = Link.isActive l
          /\ Link.expiresAt l' = Link.expiresAt l
          /\ Link.passwordHash l' = Link.passwordHash l
          /\ Link.maxClicks l' = Link.maxClicks l /\ Link.meta l' = Link.meta l
          /\ Link.createdAt l' = Link.createdAt l)
  /\ users db' = users db /\ savedViews db' = savedViews db
  /\ annotations db' = annotations db
  /\ (forall (r : Redirect.Request) (l : Link.t),
        exists c,
          clicks (Queue.inlineFallback Queue.no_faults newId now
                    (Redirect.clickPayload ext now r l) db) = clicks db ++ [c]
          /\ Click.ipHash c
             = Js.slice0 32
                 (sha256_hex ext
                    (Redirect.client_ip r +:+ "|" +:+ JWT_SECRET ext +:+ "|"
                     +:+ Js.slice0 10 (toISOString ext now)))
          /\ (String.length (Click.ipHash c) <= 32)%nat)
  /\ (forall (r1 r2 : Redirect.Request) (l : Link.t),
        Redirect.sameButAddress r1 r2 ->
        Js.slice0 32
          (sha256_hex ext
             (Redirect.client_ip r1 +:+ "|" +:+ JWT_SECRET ext +:+ "|"
              +:+ Js.slice0 10 (toISOString ext now)))
        = Js.slice0 32
            (sha256_hex ext
               (Redirect.client_ip r2 +:+ "|" +:+ JWT_SECRET ext +:+ "|"
                +:+ Js.slice0 10 (toISOString ext now))) ->
        Queue.inlineFallback Queue.no_faults newId now (Redirect.clickPayload ext now r1 l) db
        = Queue.inlineFallback Queue.no_faults newId now (Redirect.clickPayload ext now r2 l) db).
Proof.
  intros Hids.
  split; [|split; [|split; [|split; [|split; [|split; [|split; [|split]]]]]]].
  - intros addThrows q Hq. unfold Queue.enqueueClick. simpl. now rewrite Hq.
  - eexists. split; [reflexivity|]. now repeat split.
  - simpl. apply updateOne_length.
  - intros i l Hi. subst db'. unfold Queue.inlineFallback. simpl.
    rewrite (updateOne_by_key Link._id) by exact Hids.
    rewrite list_lookup_fmap, Hi. simpl.
    destruct (String.eqb (Link._id l) (Click.p_linkId p)) eqn:He.
    + apply String.eqb_eq in He. eexists. split; [reflexivity|].
      split; [reflexivity|]. split; [congruence|]. now repeat split.
    + apply String.eqb_neq in He. exists l. split; [reflexivity|].
      split; [congruence|]. now repeat split.
  - reflexivity.
  - reflexivity.
  - reflexivity.
  - intros r l. eexists. split; [reflexivity|]. simpl.
    split; [reflexivity | apply slice0_length].
  - intros r1 r2 l Hs Hh.
    unfold Queue.inlineFallback, Queue.Click_create, Queue.Link_incClicks,
      Queue.click_of_payload, Redirect.clickPayload. simpl.
    unfold Redirect.get_referer, Utils.getCountryFromHeaders, Utils.ipHash.
    rewrite Hh.
    rewrite !(sameButAddress_header r1 r2 _ Hs) by discriminate.
    destruct Hs as [_ [-> _]]. reflexivity.
Qed.

End ClickLog.

(** C3 on the sample database: one click on the first link takes its
    counter from 7 to 8. *)
Lemma click_log_effect_witness :
  Links.UniqueIds Sample.db0
  /\ exists l', links (Queue.inlineFallback Queue.no_faults "c1" 2000 Sample.payload1 Sample.db0)
                  !! 0%nat = Some l'
               /\ Link.clicksCount l' = 8 /\ Link.code l' = "docs".
Proof.
  assert (H : Links.UniqueIds Sample.db0).
  { apply (bool_decide_unpack _). vm_compute. reflexivity. }
  split; [exact H|].
  destruct (click_log_effect Sample.ext "c1" 2000 Sample.payload1 Sample.db0 H)
    as (_ & _ & _ & Hl & _).
  destruct (Hl 0%nat Sample.plain eq_refl) as (l' & Hl' & Hinc & _ & _ & _ & Hcode & _).
  exists l'. split; [exact Hl'|]. split; [now rewrite Hinc | exact Hcode].
Defined.

Section QueueEquivalence.
Variables (fx : Queue.Faults) (newId : ObjectId) (now : Z) (p : Click.Payload) (db : Db).

(** The job that [queue.add(JOB_NAME, { payload })] stores. *)
Let job : Queue.Job :=
  {| Queue.jobName := Queue.JOB_NAME;
     Queue.data := Some {| Queue.payload := Some (Queue.viaJSON p) |} |}.

(** The database after one click log in which no call throws. *)
Let logged : Db :=
  {| links :=
       Mongo.updateOne (fun l => String.eqb (Link._id l) (Click.p_linkId p))
         (fun l =>
            {| Link._id := Link._id l; Link.ownerId := Link.ownerId l;
               Link.code := Link.code l; Link.longUrl := Link.longUrl l;
               Link.domain := Link.domain l; Link.isActive := Link.isActive l;
               Link.expiresAt := Link.expiresAt l;
               Link.passwordHash := Link.passwordHash l;
               Link.maxClicks := Link.maxClicks l;
               Link.clicksCount := Link.clicksCount l + 1;
               Link.meta := Link.meta l; Link.createdAt := Link.createdAt l;
               Link.updatedAt := now |})
         (links db);
     clicks :=
       clicks db
       ++ [{| Click._id := newId; Click.linkId := Click.p_linkId p; Click.ts := now;
              Click.referer := Click.p_referer p; Click.country := Click.p_country p;
              Click.ua := Click.p_ua p; Click.device := Click.p_device p;
              Click.browser := Click.p_browser p; Click.ipHash := Click.p_ipHash p;
              Click.tzOffset := Click.p_tzOffset p; Click.utm := Click.p_utm p |}];
     users := users db; savedViews := savedViews db; annotations := annotations db |}.


End QueueEquivalence.


(** The same click served with Redis configured and then processed by the
    worker, and served with no [REDIS_URL]: one database. *)
Example queue_on_and_off :
  let on_ := Queue.initQueue (Some "redis://127.0.0.1:6379") false Queue.initial in
  let off := Queue.initQueue None false Queue.initial in
  Queue.db (Queue.workerStep Queue.no_faults "c1" 2000
              (Queue.enqueueClick false Queue.no_faults "c1" 2000 Sample.payload1
                 {| Queue.db := Sample.db0; Queue.qstate := on_ |}))
  = Queue.db (Queue.enqueueClick false Queue.no_faults "c1" 2000 Sample.payload1
                {| Queue.db := Sample.db0; Queue.qstate := off |}).
Proof. reflexivity. Qed.

Example worker_skips_empty_job :
  Queue.workerBody Queue.no_faults "c1" 2000
    {| Queue.jobName := "log"; Queue.data := None |} Sample.db0
  = (Sample.db0, Queue.Completed).
Proof. reflexivity. Qed.

(* ================================================================== *)
(** * Properties of link creation and update *)
(* ================================================================== *)

Lemma codeTaken_None_iff (c : string) (db : Db) :
  Links.codeTaken c db = None <-> c ∉ map Link.code (links db).
Proof.
  unfold Links.codeTaken. rewrite findOne_None_iff, list_elem_of_fmap. split.
  - intros H (l & -> & Hl). apply list_elem_of_In in Hl.
    specialize (H l Hl). rewrite String.eqb_refl in H. discriminate.
  - intros H l Hl. apply String.eqb_neq. intros Hc. apply H. exists l.
    split; [now symmetry | now apply list_elem_of_In].
Qed.

Lemma codeTaken_Some (c : string) (db : Db) (l : Link.t) :
  Links.codeTaken c db = Some l -> l ∈ links db /\ Link.code l = c.
Proof.
  intros H. apply findOne_Some in H. destruct H as [Hin Hc].
  split; [now apply list_elem_of_In | now apply String.eqb_eq].
Qed.

(** The code loop only returns a code that no link has. *)
Lemma genLoop_fresh (fuel : nat) (gen : nat -> string) (i : nat) (db : Db) (c : string) :
  Links.genLoop fuel gen i db = Some c -> Links.codeTaken c db = None.
Proof.
  revert i. induction fuel as [|fuel IH]; intros i; simpl; [discriminate|].
  destruct (Links.codeTaken (gen i) db) eqn:Ht.
  - apply IH.
  - now intros [= <-].
Qed.

(** The code loop stops at the first candidate that no link has. *)
Lemma genLoop_finds (gen : nat -> string) (db : Db) (n : nat) :
  forall (fuel i : nat),
    (forall j, (i <= j < i + n)%nat -> Links.codeTaken (gen j) db <> None) ->
    Links.codeTaken (gen (i + n)%nat) db = None ->
    (n < fuel)%nat ->
    Links.genLoop fuel gen i db = Some (gen (i + n)%nat).
Proof.
  induction n as [|n IH]; intros fuel i Hbusy Hfree Hfuel.
  - destruct fuel as [|fuel]; [lia|]. simpl. rewrite Nat.add_0_r in Hfree.
    rewrite Hfree. now rewrite Nat.add_0_r.
  - destruct fuel as [|fuel]; [lia|]. simpl.
    destruct (Links.codeTaken (gen i) db) eqn:Ht.
    + replace (i + S n)%nat with (S i + n)%nat in * by lia.
      apply IH; [|exact Hfree|lia]. intros j Hj. apply Hbusy. lia.
    + exfalso. apply (Hbusy i); [lia | exact Ht].
Qed.

(** With [_id] a key, [updateOne] on a query that fixes [_id] is a
    pointwise update. *)
Lemma updateOne_pointwise {A} (key : A -> string) (k : string) (p : A -> bool)
      (u : A -> A) (docs : list A) :
  (forall d, p d = true -> key d = k) ->
  NoDup (map key docs) ->
  Mongo.updateOne p u docs = map (fun d => if p d then u d else d) docs.
Proof.
  intros Hp. induction docs as [|d rest IH]; intros Hnd; simpl; [reflexivity|].
  apply NoDup_cons in Hnd. destruct Hnd as [Hnotin Hrest].
  destruct (p d) eqn:Hd.
  - f_equal. apply Hp in Hd. clear IH Hrest.
    induction rest as [|e rest IH]; simpl; [reflexivity|].
    destruct (p e) eqn:He.
    + apply Hp in He. exfalso. apply Hnotin. simpl. rewrite Hd, <- He.
      apply elem_of_cons. now left.
    + f_equal. apply IH. intros Hin. apply Hnotin. simpl. apply elem_of_cons. now right.
  - f_equal. now apply IH.
Qed.

(** Two documents of a collection with the same key are the same. *)
Lemma NoDup_key_inj {A} (key : A -> string) (docs : list A) (x y : A) :
  NoDup (map key docs) -> x ∈ docs -> y ∈ docs -> key x = key y -> x = y.
Proof.
  induction docs as [|d rest IH]; intros Hnd Hx Hy Hk; [inversion Hx|].
  simpl in Hnd. apply NoDup_cons in Hnd. destruct Hnd as [Hnotin Hrest].
  apply elem_of_cons in Hx. apply elem_of_cons in Hy.
  destruct Hx as [-> | Hx], Hy as [-> | Hy]; [reflexivity | | | now apply IH].
  - exfalso. apply Hnotin. rewrite Hk. apply list_elem_of_fmap. now exists y.
  - exfalso. apply Hnotin. rewrite <- Hk. apply list_elem_of_fmap. now exists x.
Qed.

(** Renaming the one link with a given [_id] to a code that only that
    link may already have keeps the codes distinct. *)
Lemma rename_keeps_codes_unique (id c : string) (p : Link.t -> bool) (u : Link.t -> Link.t)
      (ls : list Link.t) :
  (forall l, p l = true -> Link._id l = id) ->
  (forall l, Link.code (u l) = c) ->
  (forall l, l ∈ ls -> Link.code l = c -> Link._id l = id) ->
  NoDup (map Link._id ls) -> NoDup (map Link.code ls) ->
  NoDup (map Link.code (map (fun l => if p l then u l else l) ls)).
Proof.
  intros Hp Hu. induction ls as [|x rest IH]; intros Hc Hids Hcodes; simpl; [constructor|].
  simpl in Hids, Hcodes. apply NoDup_cons in Hids. apply NoDup_cons in Hcodes.
  destruct Hids as [Hxid Hids], Hcodes as [Hxc Hcodes].
  apply NoDup_cons. split.
  - intros Hin. apply list_elem_of_fmap in Hin. destruct Hin as (y' & Hy' & Hin).
    apply list_elem_of_fmap in Hin. destruct Hin as (y & -> & Hy).
    assert (Hne : Link._id y <> Link._id x).
    { intros E. apply Hxid. rewrite <- E. apply list_elem_of_fmap. now exists y. }
    assert (Hcy : Link.code y = c -> Link._id y = id).
    { apply Hc. apply elem_of_cons. now right. }
    assert (Hcx : Link.code x = c -> Link._id x = id).
    { apply Hc. apply elem_of_cons. now left. }
    destruct (p x) eqn:Hpx, (p y) eqn:Hpy.
    + apply Hne. rewrite (Hp _ Hpx), (Hp _ Hpy). reflexivity.
    + rewrite Hu in Hy'. apply Hne. rewrite (Hp _ Hpx). now apply Hcy.
    + rewrite Hu in Hy'. apply Hne. rewrite (Hp _ Hpy). symmetry. now apply Hcx.
    + apply Hxc. rewrite Hy'. apply list_elem_of_fmap. now exists y.
  - apply IH; [|exact Hids|exact Hcodes]. intros l Hl. apply Hc. apply elem_of_cons. now right.
Qed.

Lemma slug_nonempty (c : string) : Validators.slug c = true -> Js.truthy c = true.
Proof.
  destruct c; [|reflexivity]. unfold Validators.slug. simpl. discriminate.
Qed.

Lemma snoc_keeps_codes_unique (ls : list Link.t) (doc : Link.t) :
  NoDup (map Link.code ls) -> Link.code doc ∉ map Link.code ls ->
  NoDup (map Link.code (ls ++ [doc])).
Proof.
  intros Hnd Hfresh. rewrite map_app. apply NoDup_app. split; [exact Hnd|]. split.
  - intros x Hx Hin. simpl in Hin. apply elem_of_cons in Hin.
    destruct Hin as [-> | Hin]; [contradiction | inversion Hin].
  - simpl. apply NoDup_cons. split; [intros H; inversion H | constructor].
Qed.

Section LinkCodes.
Variable ext : Externals.

(** Creation never breaks the uniqueness of codes. *)
Lemma create_keeps_unique (fuel : nat) (gen : nat -> string) (meta : Links.PageMeta)
      (user newId : ObjectId) (now : Z) (body : Validation Links.CreateValue)
      (db : Db) (r : Links.Response) (db' : Db) :
  Links.UniqueCodes db ->
  Links.create ext fuel gen meta user newId now body db = Some (r, db') ->
  Links.UniqueCodes db'.
Proof.
  intros Hinv. unfold Links.create.
  destruct body as [msg|v]; [now intros [= _ <-]|].
  destruct (negb (Validators.isSafeUrl (Links.c_longUrl v))); [now intros [= _ <-]|].
  destruct (negb (Js.truthy (Js.trim (Js.or_else (Links.c_code v) "")))).
  - destruct (Links.genLoop fuel gen 0 db) as [c|] eqn:Hg; [|discriminate].
    intros [= _ <-]. apply snoc_keeps_codes_unique; [exact Hinv|].
    simpl. apply codeTaken_None_iff. now apply genLoop_fresh in Hg.
  - destruct (Links.codeTaken (Js.trim (Js.or_else (Links.c_code v) "")) db) eqn:Ht.
    + now intros [= _ <-].
    + intros [= _ <-]. apply snoc_keeps_codes_unique; [exact Hinv|].
      simpl. now apply codeTaken_None_iff.
Qed.

(** An update never breaks the uniqueness of codes (nor of [_id]s). *)
Lemma update_keeps_unique (fetched : option Links.PageMeta) (user id : ObjectId) (now : Z)
      (body : Validation Links.UpdateValue) (db : Db) :
  Links.UniqueIds db -> Links.UniqueCodes db ->
  (forall v, body = Valid v -> Links.codeIsSlug v) ->
  Links.UniqueCodes (snd (Links.update ext fetched user id now body db))
  /\ Links.UniqueIds (snd (Links.update ext fetched user id now body db)).
Proof.
  intros Hids Hcodes Hslug. unfold Links.update.
  destruct body as [msg|v]; [now split|]. specialize (Hslug v eq_refl).
  destruct (Js.truthy_opt (Links.u_longUrl v)
            && negb (Validators.isSafeUrl (Js.or_else (Links.u_longUrl v) ""))); [now split|].
  match goal with |- context [if ?c then (Links.Error 409 _, _) else _] =>
    destruct c eqn:Hconf end; [now split|].
  set (mine := fun l : Link.t =>
                 String.eqb (Link._id l) id && String.eqb (Link.ownerId l) user).
  destruct (Mongo.findOne mine (links db)) as [l0|]; [|now split].
  assert (Hmine : forall l, mine l = true -> Link._id l = id).
  { intros l Hl. unfold mine in Hl. apply andb_true_iff in Hl.
    now apply String.eqb_eq. }
  simpl snd. unfold Links.UniqueCodes, Links.UniqueIds. simpl links.
  rewrite (updateOne_pointwise Link._id id mine _ _ Hmine Hids).
  split.
  - destruct (Links.u_code v) as [c|] eqn:Hc.
    + apply (rename_keeps_codes_unique id c); try assumption.
      * intros l. simpl. now rewrite Hc.
      * intros l Hl Hlc. pose proof (slug_nonempty c (Hslug c Hc)) as Htr.
        unfold Js.truthy_opt, Js.or_else in Hconf. rewrite Htr in Hconf.
        destruct (Links.codeTaken c db) as [other|] eqn:Ht.
        -- apply negb_false_iff, String.eqb_eq in Hconf.
           apply codeTaken_Some in Ht. destruct Ht as [Ho Hoc].
           rewrite <- Hconf. f_equal.
           apply (NoDup_key_inj Link.code (links db)); try assumption. congruence.
        -- exfalso. apply codeTaken_None_iff in Ht. apply Ht.
           apply list_elem_of_fmap. exists l. now split.
    + rewrite map_map. erewrite map_ext; [exact Hcodes|].
      intros l. simpl. destruct (mine l); [|reflexivity]. simpl. now rewrite Hc.
  - rewrite map_map. erewrite map_ext; [exact Hids|].
    intros l. simpl. now destruct (mine l).
Qed.

(** C5. Creating and updating links keep every short code unique. With
    no custom code, creation takes the first generated code that no link
    has, however many rounds that needs. A request whose code another
    link already has fails and leaves the collection as it was; its answer
    is 409 "Code already taken" once it has reached the code check, that
    is, unless the URL guard before it has answered 400. *)
Theorem short_codes_stay_unique :
  (forall fuel gen meta user newId now body db r db',
      Links.UniqueCodes db ->
      Links.create ext fuel gen meta user newId now body db = Some (r, db') ->
      Links.UniqueCodes db')
  /\ (forall fuel gen meta user newId now v db (n : nat),
        Validators.isSafeUrl (Links.c_longUrl v) = true ->
        Js.truthy (Js.trim (Js.or_else (Links.c_code v) "")) = false ->
        (forall j, (j < n)%nat -> Links.codeTaken (gen j) db <> None) ->
        Links.codeTaken (gen n) db = None ->
        (n < fuel)%nat ->
        exists doc,
          Links.create ext fuel gen meta user newId now (Valid v) db
          = Some (Links.LinkJson doc (Links.buildShortUrl ext doc),
                  set_links (fun ls => ls ++ [doc]) db)
          /\ Link.code doc = gen n
          /\ gen n ∉ map Link.code (links db))
  /\ (forall fuel gen meta user newId now v db other,
        Js.truthy (Js.trim (Js.or_else (Links.c_code v) "")) = true ->
        Links.codeTaken (Js.trim (Js.or_else (Links.c_code v) "")) db = Some other ->
        exists status msg,
          Links.create ext fuel gen meta user newId now (Valid v) db
          = Some (Links.Error status msg, db)
          /\ (Validators.isSafeUrl (Links.c_longUrl v) = true ->
              status = 409 /\ msg = "Code already taken"))
  /\ (forall fetched user id now v db c other,
        Links.u_code v = Some c -> Js.truthy c = true ->
        Links.codeTaken c db = Some other -> Link._id other <> id ->
        exists status msg,
          Links.update ext fetched user id now (Valid v) db = (Links.Error status msg, db)
          /\ ((forall u, Links.u_longUrl v = Some u -> Validators.isSafeUrl u = true) ->
              status = 409 /\ msg = "Code already taken"))
  /\ (forall fetched user id now body db,
        Links.UniqueIds db -> Links.UniqueCodes db ->
        (forall v, body = Valid v -> Links.codeIsSlug v) ->
        Links.UniqueCodes (snd (Links.update ext fetched user id now body db))
        /\ Links.UniqueIds (snd (Links.update ext fetched user id now body db))).
Proof.
  split; [|split; [|split; [|split]]].
  - intros. eapply create_keeps_unique; eassumption.
  - intros fuel gen meta user newId now v db n Hsafe Hnone Hbusy Hfree Hfuel.
    unfold Links.create. rewrite Hsafe, Hnone. simpl negb. cbv iota.
    rewrite (genLoop_finds gen db n fuel 0); [| |exact Hfree|exact Hfuel].
    + eexists. split; [reflexivity|]. split; [reflexivity|].
      now apply codeTaken_None_iff.
    + intros j Hj. apply Hbusy. lia.
  - intros fuel gen meta user newId now v db other Hsup Ht.
    unfold Links.create.
    destruct (Validators.isSafeUrl (Links.c_longUrl v)) eqn:Hsafe; simpl negb; cbv iota.
    + rewrite Hsup. simpl negb. cbv iota. rewrite Ht.
      exists 409, "Code already taken". now split.
    + exists 400, "Unsafe URL". split; [reflexivity | discriminate].
  - intros fetched user id now v db c other Hc Htr Ht Hne.
    unfold Links.update.
    destruct (Js.truthy_opt (Links.u_longUrl v)
              && negb (Validators.isSafeUrl (Js.or_else (Links.u_longUrl v) ""))) eqn:Hg.
    + exists 400, "Unsafe URL". split; [reflexivity|]. intros Hsafe. exfalso.
      destruct (Links.u_longUrl v) as [u|] eqn:Hu; [|discriminate].
      simpl in Hg. destruct (Js.truthy u); [|discriminate].
      simpl in Hg. now rewrite (Hsafe u eq_refl) in Hg.
    + rewrite Hc. simpl Js.truthy_opt. rewrite Htr. simpl Js.or_else. rewrite Htr, Ht.
      apply String.eqb_neq in Hne. rewrite Hne. simpl.
      exists 409, "Code already taken". now split.
  - intros. now apply update_keeps_unique.
Qed.

End LinkCodes.

(** C5 on the sample database: with no code in the body and a generator
    whose first two codes are taken, the link gets the third one. *)
Lemma short_codes_stay_unique_witness :
  exists doc db',
    Links.create Sample.ext 5 Sample.codes Sample.noPageMeta "u1" "a9" 3000
      (Valid (Sample.newLinkBody "https://example.com/new" None)) Sample.db0
    = Some (Links.LinkJson doc "https://sho.rt/r/x7Kp2Qa", db')
    /\ Link.code doc = "x7Kp2Qa" /\ Links.UniqueCodes db'.
Proof.
  destruct (short_codes_stay_unique Sample.ext) as (Hinv & Hgen & _).
  destruct (Hgen 5%nat Sample.codes Sample.noPageMeta "u1" "a9" 3000
              (Sample.newLinkBody "https://example.com/new" None) Sample.db0 2%nat)
    as (doc & Hc & Hcode & _).
  - reflexivity.
  - reflexivity.
  - intros j Hj. destruct j as [|[|j]]; [discriminate | discriminate | lia].
  - reflexivity.
  - lia.
  - exists doc, (set_links (fun ls => ls ++ [doc]) Sample.db0).
    assert (Hurl : Links.buildShortUrl Sample.ext doc = "https://sho.rt/r/x7Kp2Qa").
    { vm_compute in Hc. injection Hc as <-. reflexivity. }
    rewrite Hurl in Hc. split; [exact Hc|]. split; [exact Hcode|].
    refine (Hinv _ _ _ _ _ _ _ _ _ _ _ Hc).
    apply (bool_decide_unpack _). vm_compute. reflexivity.
Defined.

(** A code that is taken, sent with an unsafe URL: the answer is the 400
    of the URL guard, not the 409 of the code check. *)
Lemma taken_code_with_unsafe_url :
  Links.codeTaken "docs" Sample.db0 = Some Sample.plain
  /\ Links.create Sample.ext 5 Sample.codes Sample.noPageMeta "u2" "a9" 3000
       (Valid (Sample.newLinkBody "http://localhost:3000/admin" (Some "docs"))) Sample.db0
     = Some (Links.Error 400 "Unsafe URL", Sample.db0)
  /\ Links.Error 400 "Unsafe URL" <> Links.Error 409 "Code already taken".
Proof. split; [reflexivity|]. split; [reflexivity | discriminate]. Qed.

Example rename_to_taken_code :
  Links.update Sample.ext None "u1" "a2" 3000 (Valid (Sample.rename "docs")) Sample.db0
  = (Links.Error 409 "Code already taken", Sample.db0).
Proof. reflexivity. Qed.

Example rename_to_own_code :
  map Link.code
      (links (snd (Links.update Sample.ext None "u1" "a1" 3000 (Valid (Sample.rename "docs"))
                     Sample.db0)))
  = ["docs"; "vault"; "promo"; "old1"; "gone"]
  /\ map Link.code
        (links (snd (Links.update Sample.ext None "u1" "a2" 3000 (Valid (Sample.rename "safe"))
                       Sample.db0)))
     = ["docs"; "safe"; "promo"; "old1"; "gone"].
Proof. split; reflexivity. Qed.

Example taken_code_with_safe_url :
  Links.create Sample.ext 5 Sample.codes Sample.noPageMeta "u2" "a9" 3000
    (Valid (Sample.newLinkBody "https://example.com/x" (Some "docs"))) Sample.db0
  = Some (Links.Error 409 "Code already taken", Sample.db0).
Proof. reflexivity. Qed.

(* ================================================================== *)
(** * Properties of the URL guard *)
(* ================================================================== *)

Section UrlGuard.
Variable ext : Externals.

(** Creation answers 400 "Unsafe URL", leaving the database alone,
    exactly when [isSafeUrl] rejects the URL of a valid body. *)
Lemma create_unsafe_iff (fuel : nat) (gen : nat -> string) (meta : Links.PageMeta)
      (user newId : ObjectId) (now : Z) (v : Links.CreateValue) (db : Db) :
  Links.create ext fuel gen meta user newId now (Valid v) db
  = Some (Links.Error 400 "Unsafe URL", db)
  <-> Validators.isSafeUrl (Links.c_longUrl v) = false.
Proof.
  unfold Links.create.
  destruct (Validators.isSafeUrl (Links.c_longUrl v)); simpl negb; cbv iota.
  - split; [|discriminate].
    destruct (negb (Js.truthy (Js.trim (Js.or_else (Links.c_code v) "")))).
    + destruct (Links.genLoop fuel gen 0 db); discriminate.
    + destruct (Links.codeTaken _ db); discriminate.
  - split; reflexivity.
Qed.

(** An update that carries a long URL answers 400 "Unsafe URL", leaving
    the database alone, exactly when [isSafeUrl] rejects that URL. *)
Lemma update_unsafe_iff (fetched : option Links.PageMeta) (user id : ObjectId) (now : Z)
      (v : Links.UpdateValue) (u : string) (db : Db) :
  Links.u_longUrl v = Some u -> Js.truthy u = true ->
  (Links.update ext fetched user id now (Valid v) db = (Links.Error 400 "Unsafe URL", db)
   <-> Validators.isSafeUrl u = false).
Proof.
  intros Hu Ht. unfold Links.update. rewrite Hu. simpl. rewrite Ht. simpl.
  destruct (Validators.isSafeUrl u); simpl.
  - split; [|discriminate].
    match goal with |- context [if ?c then (Links.Error 409 _, _) else _] => destruct c end;
      [discriminate|].
    destruct (Mongo.findOne _ (links db)); discriminate.
  - split; reflexivity.
Qed.
End UrlGuard.

(* ------------------------------------------------------------------ *)
(** ** Where the coded check and the described check agree *)
(* ------------------------------------------------------------------ *)

Lemma lower_char_not_letter (a b : ascii) :
  Js.is_upper a = false -> Js.is_lower a = false ->
  Ascii.eqb (Js.lower_char a) (Js.lower_char b) = Ascii.eqb a b.
Proof.
  intros Hu Hl. unfold Js.lower_char at 1. rewrite Hu.
  unfold Js.lower_char. destruct (Js.is_upper b) eqn:Hb; [|reflexivity].
  destruct (Ascii.eqb_spec a b) as [->|Hne]; [congruence|].
  apply Ascii.eqb_neq. intros ->.
  unfold Js.is_upper in Hb. unfold Js.is_lower in Hl.
  apply andb_true_iff in Hb. destruct Hb as [H1 H2].
  apply Nat.leb_le in H1, H2.
  rewrite nat_ascii_embedding in Hl by lia.
  apply andb_false_iff in Hl. destruct Hl as [Hl|Hl]; apply Nat.leb_gt in Hl; lia.
Qed.

Lemma eat_letter_free (l s : string) :
  Regex.letter_free_lit l = true -> Regex.eat true l s = Regex.eat false l s.
Proof.
  revert s. induction l as [|a l IH]; intros s Hl; [reflexivity|].
  simpl in Hl. apply andb_true_iff in Hl. destruct Hl as [Ha Hl].
  apply andb_true_iff in Ha. destruct Ha as [Hu Hlo].
  apply negb_true_iff in Hu, Hlo.
  destruct s as [|b s]; [reflexivity|]. simpl.
  rewrite (lower_char_not_letter a b Hu Hlo). now rewrite IH.
Qed.

(** A pattern without letters matches the same with and without [i]. *)
Lemma rests_letter_free (r : Regex.regex) :
  Regex.letter_free r = true -> forall s, Regex.rests true r s = Regex.rests false r s.
Proof.
  induction r as [l|r1 IH1 r2 IH2|r1 IH1 r2 IH2|r1 IH1|lo hi]; simpl; intros H s.
  - now rewrite eat_letter_free.
  - apply andb_true_iff in H. destruct H as [H1 H2].
    rewrite (IH1 H1). apply flat_map_ext. intros t. now apply IH2.
  - apply andb_true_iff in H. destruct H as [H1 H2]. now rewrite (IH1 H1), (IH2 H2).
  - now rewrite (IH1 H).
  - reflexivity.
Qed.

(** After a scheme written in lower case, a letter-free host pattern is
    tested the same with and without [i]. *)
Lemma after_lowercase_scheme (x : Regex.regex) (t : string) :
  Regex.letter_free x = true ->
  Regex.test_anchored false (Regex.Seq Validators.http_s x) ("http://" +:+ t)
  = Regex.test_anchored true (Regex.Seq Validators.http_s x) ("http://" +:+ t)
  /\ Regex.test_anchored false (Regex.Seq Validators.http_s x) ("https://" +:+ t)
     = Regex.test_anchored true (Regex.Seq Validators.http_s x) ("https://" +:+ t).
Proof.
  intros Hx. unfold Regex.test_anchored. simpl. now rewrite !(rests_letter_free x Hx).
Qed.

(** On a URL whose scheme is written in lower case, [isSafeUrl] rejects
    exactly what the described check rejects. *)
Theorem coded_check_agrees_on_lowercase_scheme (u t : string) :
  Js.trim u = "http://" +:+ t \/ Js.trim u = "https://" +:+ t ->
  Validators.isSafeUrl u = negb (Validators.describedUnsafe u).
Proof.
  intros H. unfold Validators.isSafeUrl, Validators.describedUnsafe, Validators.privateNets.
  cbv zeta.
  set (x2 := Regex.Lit "10.").
  set (x3 := Regex.Lit "192.168.").
  set (x4 := Regex.Seq (Regex.Lit "172.") _).
  assert (H2 : Regex.letter_free x2 = true) by reflexivity.
  assert (H3 : Regex.letter_free x3 = true) by reflexivity.
  assert (H4 : Regex.letter_free x4 = true) by reflexivity.
  destruct (after_lowercase_scheme x2 t H2) as [A2 B2].
  destruct (after_lowercase_scheme x3 t H3) as [A3 B3].
  destruct (after_lowercase_scheme x4 t H4) as [A4 B4].
  unfold existsb, fst, snd.
  destruct H as [-> | ->].
  - rewrite A2, A3, A4. reflexivity.
  - rewrite B2, B3, B4. reflexivity.
Qed.

(** C9, where the code departs from it. The URL [HTTP://10.0.0.1/] begins
    with [http://] up to letter case and targets the 10.x range, so the
    described check calls it unsafe; [isSafeUrl] tests the 10.x pattern with
    the letter case of the scheme (only the [localhost] pattern has the [i]
    flag), finds the URL safe, and creation stores the link. *)
Theorem unsafe_url_guard_misses_uppercase_scheme :
  Validators.describedUnsafe "HTTP://10.0.0.1/" = true
  /\ Validators.isSafeUrl "HTTP://10.0.0.1/" = true
  /\ Validators.isSafeUrl "http://10.0.0.1/" = false
  /\ exists doc,
       Links.create Sample.ext 5 Sample.codes Sample.noPageMeta "u1" "a9" 3000
         (Valid (Sample.newLinkBody "HTTP://10.0.0.1/" (Some "intra"))) Sample.emptyDb
       = Some (Links.LinkJson doc "https://sho.rt/r/intra",
               set_links (fun ls => ls ++ [doc]) Sample.emptyDb)
       /\ Link.longUrl doc = "HTTP://10.0.0.1/".
Proof.
  split; [reflexivity|]. split; [reflexivity|]. split; [reflexivity|].
  eexists. split; reflexivity.
Qed.

Example described_and_coded_agree_on_lowercase :
  map (fun u => (Validators.describedUnsafe u, Validators.isSafeUrl u))
      ["https://example.com/"; "http://192.168.1.1/"; "ftp://example.com/";
       "https://172.20.0.1/"; "HTTPS://192.168.1.1/"; "Https://172.16.0.9/"]
  = [(false, true); (true, false); (true, false); (true, false); (true, true); (true, true)].
Proof. reflexivity. Qed.

(* ================================================================== *)
(** * Properties of the forgot-password route *)
(* ================================================================== *)

Section Forgot.
Variable ext : Externals.

(** C10. With [DEV_MAIL] off, [POST /auth/forgot] answers a valid email
    with status 200 and the one message "If the email exists, a code has
    been sent.", with no [devCode], whatever the database holds: two runs
    on the same email, one where the account exists and one where it does
    not, give the same response. *)
Theorem forgot_hides_account_existence (email : string) :
  DEV_MAIL ext = false ->
  (forall rnd mailThrows now db,
      Auth.forgotResponse ext rnd mailThrows now (Valid email) db
      = Auth.Json 200 {| Auth.message := "If the email exists, a code has been sent.";
                         Auth.devCode := None |})
  /\ (forall rnd1 rnd2 mail1 mail2 now1 now2 db1 db2,
        Auth.forgotResponse ext rnd1 mail1 now1 (Valid email) db1
        = Auth.forgotResponse ext rnd2 mail2 now2 (Valid email) db2).
Proof.
  intros Hdev.
  assert (H : forall rnd mailThrows now db,
             Auth.forgotResponse ext rnd mailThrows now (Valid email) db
             = Auth.Json 200 {| Auth.message := "If the email exists, a code has been sent.";
                                Auth.devCode := None |}).
  { intros rnd mailThrows now db. unfold Auth.forgotResponse, Auth.forgot.
    destruct (Mongo.findOne _ (users db)); simpl; [|reflexivity].
    now rewrite Hdev. }
  split; [exact H|]. intros. now rewrite !H.
Qed.
End Forgot.

(** C10 on the sample data: the answer for Alice, who has an account, and
    for an address nobody registered, on their own databases. *)
Lemma forgot_hides_account_existence_witness :
  DEV_MAIL Sample.ext = false
  /\ Mongo.findOne (fun u => String.eqb (User.email u) "alice@example.com")
       (users Sample.dbWithAlice) = Some Sample.alice
  /\ Auth.forgotResponse Sample.ext 23456 false 5000 (Valid " Alice@Example.com ") Sample.dbWithAlice
     = Auth.forgotResponse Sample.ext 0 true 9000 (Valid " Alice@Example.com ") Sample.emptyDb.
Proof.
  split; [reflexivity|]. split; [reflexivity|].
  apply (proj2 (forgot_hides_account_existence Sample.ext " Alice@Example.com " eq_refl)).
Defined.

Example forgot_sets_reset_code :
  Auth.forgot Sample.ext 23456 false 5000 (Valid " Alice@Example.com ") Sample.dbWithAlice
  = (Auth.Json 200 {| Auth.message := Auth.okMessage; Auth.devCode := None |},
     set_users (fun _ => [Auth.setReset "123456" 605000 Sample.alice]) Sample.dbWithAlice,
     {| Auth.sent := [{| Auth.mail_to := "alice@example.com";
                         Auth.mail_subject := "Your password reset code";
                         Auth.mail_code := "123456" |}];
        Auth.logged := [] |}).
Proof. vm_compute. reflexivity. Qed.

(* ================================================================== *)
(** * Properties of the analytics overview *)
(* ================================================================== *)

Lemma bump_sum {K} (eqb : K -> K -> bool) (k : K) (acc : list (K * Z)) :
  Analytics.sumCounts (Analytics.bump eqb k acc) = Analytics.sumCounts acc + 1.
Proof.
  induction acc as [|[k' n] rest IH]; simpl; [reflexivity|].
  destruct (eqb k k'); simpl; [lia|]. rewrite IH. lia.
Qed.

(** Grouping partitions the documents: the bucket counts add up to the
    number of documents grouped. *)
Lemma groupCount_sum {A K} (eqb : K -> K -> bool) (key : A -> K) (docs : list A) :
  Analytics.sumCounts (Analytics.groupCount eqb key docs) = Z.of_nat (length docs).
Proof.
  unfold Analytics.groupCount.
  enough (H : forall acc,
             Analytics.sumCounts (fold_left (fun acc d => Analytics.bump eqb (key d) acc) docs acc)
             = Analytics.sumCounts acc + Z.of_nat (length docs)).
  { rewrite H. reflexivity. }
  induction docs as [|d rest IH]; intros acc; simpl fold_left.
  - simpl. lia.
  - rewrite IH, bump_sum. simpl length. lia.
Qed.

Lemma insert_by_sum {K} (le : K * Z -> K * Z -> bool) (x : K * Z) (l : list (K * Z)) :
  Analytics.sumCounts (Mongo.insert_by le x l) = snd x + Analytics.sumCounts l.
Proof.
  induction l as [|y rest IH]; simpl; [reflexivity|].
  destruct (le x y); simpl; [reflexivity|]. rewrite IH. lia.
Qed.

(** Sorting moves the buckets around and keeps their total. *)
Lemma sort_by_sum {K} (le : K * Z -> K * Z -> bool) (l : list (K * Z)) :
  Analytics.sumCounts (Mongo.sort_by le l) = Analytics.sumCounts l.
Proof.
  induction l as [|x rest IH]; [reflexivity|].
  change (Mongo.sort_by le (x :: rest)) with (Mongo.insert_by le x (Mongo.sort_by le rest)).
  rewrite insert_by_sum, IH. reflexivity.
Qed.

Lemma sumClicks_toDayRows (rows : list (string * Z)) :
  Analytics.sumClicks (Analytics.toDayRows rows) = Analytics.sumCounts rows.
Proof. induction rows as [|r rest IH]; simpl; [reflexivity | now rewrite IH]. Qed.

(** Grouping under the [null] key gives at most one bucket, which counts
    every document. *)
Lemma group_null {A} (docs : list A) :
  Analytics.firstClicks (Analytics.groupCount (fun _ _ : unit => true) (fun _ => tt) docs)
  = Z.of_nat (length docs).
Proof.
  unfold Analytics.groupCount.
  assert (H : forall (rest : list A) (n : Z),
             fold_left (fun acc _ => Analytics.bump (fun _ _ : unit => true) tt acc) rest [(tt, n)]
             = [(tt, n + Z.of_nat (length rest))]).
  { induction rest as [|d rest IH]; intros n; simpl fold_left.
    - simpl. do 2 f_equal. lia.
    - simpl Analytics.bump. rewrite IH. simpl length. do 2 f_equal. lia. }
  destruct docs as [|d rest]; [reflexivity|].
  simpl fold_left. rewrite H. unfold Analytics.firstClicks, Js.truthy_num.
  destruct (Z.eqb_spec (1 + Z.of_nat (length rest)) 0) as [E|E]; simpl; simpl length; lia.
Qed.

Section Overview.
Variable ext : Externals.

(** The time series of a match adds up to the size of the match. *)
Lemma series_counts_match (m : Click.t -> bool) (fmt : string) (tzMin : Z) (cs : list Click.t) :
  Analytics.sumClicks (Analytics.toDayRows (Analytics.seriesByDay ext m fmt tzMin cs))
  = Analytics.firstClicks (Analytics.totalsAgg m cs).
Proof.
  rewrite sumClicks_toDayRows. unfold Analytics.seriesByDay, Analytics.sortByDay.
  rewrite sort_by_sum, groupCount_sum. unfold Analytics.totalsAgg.
  now rewrite group_null.
Qed.

(** C6. For every owner, range, comparison flag, time-zone offset, filter
    set and breakdown, over one state of the database, [totals.clicks] of
    the overview payload is the sum of [clicks] over its [byDay] buckets:
    both count the clicks of the same match, which the grouping by time
    bucket partitions. The same holds for the comparison window and for
    the payload of [GET /analytics/overview]. *)
Theorem overview_totals_match_series :
  (forall now ownerId range compare tzMin filters breakdown db,
      let o := Analytics.buildOverviewPayload ext now ownerId range compare tzMin
                 filters breakdown db in
      Analytics.totals_clicks o = Analytics.sumClicks (Analytics.byDay o)
      /\ Analytics.totalsPrev_clicks o = Analytics.sumClicks (Analytics.byDayPrev o)
      /\ 0 <= Analytics.totals_clicks o <= Z.of_nat (length (clicks db)))
  /\ (forall now user q db,
        let o := Analytics.getOverview ext now user q db in
        Analytics.totals_clicks o = Analytics.sumClicks (Analytics.byDay o)).
Proof.
  assert (H : forall now ownerId range compare tzMin filters breakdown db,
      let o := Analytics.buildOverviewPayload ext now ownerId range compare tzMin
                 filters breakdown db in
      Analytics.totals_clicks o = Analytics.sumClicks (Analytics.byDay o)
      /\ Analytics.totalsPrev_clicks o = Analytics.sumClicks (Analytics.byDayPrev o)
      /\ 0 <= Analytics.totals_clicks o <= Z.of_nat (length (clicks db))).
  { intros now ownerId range compare tzMin filters breakdown db. cbv zeta.
    unfold Analytics.buildOverviewPayload.
    destruct (map Link._id _) as [|i ids]; simpl.
    - repeat split; lia.
    - rewrite !series_counts_match. split; [reflexivity|]. split; [reflexivity|].
      unfold Analytics.totalsAgg. rewrite group_null. unfold Mongo.find_all.
      pose proof (List.filter_length_le
                    (Analytics.matchNow (i :: ids)
                       (Analytics.windowStart (Analytics.parseRange range) now) filters)
                    (clicks db)).
      lia. }
  split; [exact H|].
  intros now user q db. cbv zeta. unfold Analytics.getOverview. apply H.
Qed.
End Overview.

Example overview_sample :
  let o := Analytics.buildOverviewPayload Sample.ext (104 * Sample.day_ms) "u1" (Some "7d")
             false 0 Sample.anyFilter "device" Sample.dbClicks in
  Analytics.byDay o
  = [{| Analytics.day := "100"; Analytics.dayClicks := 1 |};
     {| Analytics.day := "101"; Analytics.dayClicks := 2 |};
     {| Analytics.day := "103"; Analytics.dayClicks := 1 |}]
  /\ Analytics.totals_clicks o = 4 /\ Analytics.totals_links o = 2
  /\ Analytics.breakdownKeys o = ["mobile"; "desktop"]
  /\ Analytics.breakdownSeries o
     = [{| Analytics.s_day := "100"; Analytics.s_counts := [("mobile", 1)] |};
        {| Analytics.s_day := "101"; Analytics.s_counts := [("desktop", 1); ("mobile", 1)] |};
        {| Analytics.s_day := "103"; Analytics.s_counts := [("mobile", 1)] |}].
Proof. vm_compute. repeat split; reflexivity. Qed.

(* ================================================================== *)
(** * Properties of saved views and annotations *)
(* ================================================================== *)

Lemma find_all_snoc {A} (q : A -> bool) (l : list A) (v : A) :
  Mongo.find_all q (l ++ [v]) = Mongo.find_all q l ++ (if q v then [v] else []).
Proof. unfold Mongo.find_all. rewrite List.filter_app. reflexivity. Qed.

(** Deleting a document that a query does not select leaves the result of
    the query as it was. *)
Lemma find_all_deleteOne_other {A} (p q : A -> bool) (l : list A) :
  (forall d, p d = true -> q d = false) ->
  Mongo.find_all q (Mongo.deleteOne p l) = Mongo.find_all q l.
Proof.
  intros H. induction l as [|d rest IH]; simpl; [reflexivity|].
  destruct (p d) eqn:Hp.
  - now rewrite (H d Hp).
  - simpl. now rewrite IH.
Qed.

(** Deleting a document that a query selects commutes with the query. *)
Lemma find_all_deleteOne_own {A} (p q : A -> bool) (l : list A) :
  (forall d, p d = true -> q d = true) ->
  Mongo.find_all q (Mongo.deleteOne p l) = Mongo.deleteOne p (Mongo.find_all q l).
Proof.
  intros H. induction l as [|d rest IH]; simpl; [reflexivity|].
  destruct (p d) eqn:Hp.
  - rewrite (H d Hp). simpl. now rewrite Hp.
  - simpl. destruct (q d) eqn:Hq; simpl; [rewrite Hp|]; now rewrite IH.
Qed.

Lemma find_all_andb {A} (p q : A -> bool) (l : list A) :
  Mongo.find_all (fun a => p a && q a) l = Mongo.find_all q (Mongo.find_all p l).
Proof.
  induction l as [|d rest IH]; simpl; [reflexivity|].
  destruct (p d); simpl; [|exact IH]. destruct (q d); simpl; now rewrite IH.
Qed.

Lemma find_all_In {A} (q : A -> bool) (l : list A) (x : A) :
  In x (Mongo.find_all q l) -> In x l /\ q x = true.
Proof. unfold Mongo.find_all. apply List.filter_In. Qed.

Lemma insert_by_In {A} (le : A -> A -> bool) (x y : A) (l : list A) :
  In y (Mongo.insert_by le x l) -> y = x \/ In y l.
Proof.
  induction l as [|z rest IH]; simpl.
  - intros [<- | []]. now left.
  - destruct (le x z); simpl.
    + intros [<- | H]; [now left | now right].
    + intros [<- | H]; [right; now left|]. destruct (IH H) as [-> | H']; [now left|].
      right. now right.
Qed.

(** [sort] returns documents of its input. *)
Lemma sort_by_In {A} (le : A -> A -> bool) (l : list A) (y : A) :
  In y (Mongo.sort_by le l) -> In y l.
Proof.
  induction l as [|x rest IH]; [intros []|].
  change (Mongo.sort_by le (x :: rest)) with (Mongo.insert_by le x (Mongo.sort_by le rest)).
  intros H. apply insert_by_In in H. destruct H as [-> | H]; [now left | right; now apply IH].
Qed.

(** [deleteOne] removes nothing, or one document that satisfies the query. *)
Lemma deleteOne_spec {A} (p : A -> bool) (l : list A) :
  Mongo.deleteOne p l = l
  \/ exists pre v post, l = pre ++ v :: post /\ Mongo.deleteOne p l = pre ++ post /\ p v = true.
Proof.
  induction l as [|d rest IH]; simpl; [now left|].
  destruct (p d) eqn:Hp.
  - right. exists [], d, rest. now repeat split.
  - destruct IH as [-> | (pre & v & post & -> & -> & Hv)]; [now left|].
    right. exists (d :: pre), v, post. now repeat split.
Qed.

Section PerUser.
Variable user : ObjectId.

Let ownView (v : SavedView.t) : bool := String.eqb (SavedView.ownerId v) user.
Let ownAnnotation (a : Annotation.t) : bool := String.eqb (Annotation.ownerId a) user.

(** One request of [user] leaves the documents of any other user alone. *)
Lemma step_keeps_others (other : ObjectId) (op : Analytics.Op) (db : Db) :
  other <> user ->
  Analytics.viewsOf other (snd (Analytics.step user op db)) = Analytics.viewsOf other db
  /\ Analytics.annotationsOf other (snd (Analytics.step user op db))
     = Analytics.annotationsOf other db.
Proof.
  intros Hne. apply String.eqb_neq in Hne.
  assert (Hne' : String.eqb user other = false) by now rewrite String.eqb_sym.
  destruct op as [|newId now b|id|now range|newId b|id]; simpl; try (now split).
  - unfold Analytics.createView.
    repeat match goal with |- context [if ?c then _ else _] => destruct c end;
      simpl; try (now split).
    unfold Analytics.viewsOf. simpl. rewrite find_all_snoc. simpl. rewrite Hne'.
    now rewrite app_nil_r.
  - unfold Analytics.viewsOf. simpl. split; [|reflexivity].
    apply find_all_deleteOne_other. intros d Hd. apply andb_true_iff in Hd.
    destruct Hd as [_ Hd]. apply String.eqb_eq in Hd. now rewrite Hd.
  - unfold Analytics.createAnnotation.
    destruct (Analytics.b_ts b) as [[ts|]|]; try (now split);
      destruct (Js.truthy_opt (Analytics.b_label b)); simpl; try (now split).
    unfold Analytics.annotationsOf. simpl. rewrite find_all_snoc. simpl. rewrite Hne'.
    now rewrite app_nil_r.
  - unfold Analytics.annotationsOf. simpl. split; [reflexivity|].
    apply find_all_deleteOne_other. intros d Hd. apply andb_true_iff in Hd.
    destruct Hd as [_ Hd]. apply String.eqb_eq in Hd. now rewrite Hd.
Qed.

(** What one request of [user] answers, and what it leaves of the
    documents of [user], depends on the documents of [user] only. *)
Lemma step_reads_own (op : Analytics.Op) (db1 db2 : Db) :
  Analytics.viewsOf user db1 = Analytics.viewsOf user db2 ->
  Analytics.annotationsOf user db1 = Analytics.annotationsOf user db2 ->
  fst (Analytics.step user op db1) = fst (Analytics.step user op db2)
  /\ Analytics.viewsOf user (snd (Analytics.step user op db1))
     = Analytics.viewsOf user (snd (Analytics.step user op db2))
  /\ Analytics.annotationsOf user (snd (Analytics.step user op db1))
     = Analytics.annotationsOf user (snd (Analytics.step user op db2)).
Proof.
  intros Hv Ha. unfold Analytics.viewsOf, Analytics.annotationsOf in *.
  destruct op as [|newId now b|id|now range|newId b|id]; simpl.
  - unfold Analytics.listViews. now rewrite Hv.
  - unfold Analytics.createView.
    repeat match goal with |- context [if ?c then _ else _] => destruct c end;
      simpl; try (now split).
    rewrite !find_all_snoc, Hv. now split.
  - split; [reflexivity|]. split; [|exact Ha].
    rewrite !find_all_deleteOne_own, Hv; [reflexivity| |];
      intros d Hd; apply andb_true_iff in Hd; tauto.
  - unfold Analytics.listAnnotations. rewrite !find_all_andb, Ha. now split.
  - unfold Analytics.createAnnotation.
    destruct (Analytics.b_ts b) as [[ts|]|]; try (now split);
      destruct (Js.truthy_opt (Analytics.b_label b)); simpl; try (now split).
    rewrite !find_all_snoc, Ha. now split.
  - split; [reflexivity|]. split; [exact Hv|].
    rewrite !find_all_deleteOne_own, Ha; [reflexivity| |];
      intros d Hd; apply andb_true_iff in Hd; tauto.
Qed.

Lemma run_cons (op : Analytics.Op) (ops : list Analytics.Op) (db : Db) :
  Analytics.run user (op :: ops) db
  = (fst (Analytics.step user op db)
       :: fst (Analytics.run user ops (snd (Analytics.step user op db))),
     snd (Analytics.run user ops (snd (Analytics.step user op db)))).
Proof.
  simpl. destruct (Analytics.step user op db) as [r db1]. simpl.
  now destruct (Analytics.run user ops db1).
Qed.

(** C7. Saved views and annotations are per user. A listing returns
    documents of the store whose [ownerId] is the caller; a creation adds
    one document stamped with the caller as [ownerId]; a deletion by id
    removes at most one document, whose [ownerId] is the caller. Hence no
    sequence of requests to these routes by one user changes the documents
    of another user, and what such a sequence answers does not depend on
    the documents of other users. *)
Theorem views_and_annotations_are_per_user :
  (forall db, exists vs,
      Analytics.listViews user db = Analytics.Views (map Analytics.viewRow vs)
      /\ forall v, In v vs -> In v (savedViews db) /\ SavedView.ownerId v = user)
  /\ (forall now range db, exists l,
        Analytics.listAnnotations now user range db
        = Analytics.Annotations (map Analytics.annotationRow l)
        /\ forall a, In a l -> In a (annotations db) /\ Annotation.ownerId a = user)
  /\ (forall newId now b db id db',
        Analytics.createView user newId now b db = (Analytics.Created id, db') ->
        exists v, savedViews db' = savedViews db ++ [v]
                  /\ SavedView.ownerId v = user /\ SavedView._id v = id
                  /\ annotations db' = annotations db)
  /\ (forall newId b db id db',
        Analytics.createAnnotation user newId b db = (Analytics.Created id, db') ->
        exists a, annotations db' = annotations db ++ [a]
                  /\ Annotation.ownerId a = user /\ Annotation._id a = id
                  /\ savedViews db' = savedViews db)
  /\ (forall id db,
        let db' := snd (Analytics.deleteView user id db) in
        annotations db' = annotations db
        /\ (savedViews db' = savedViews db
            \/ exists pre v post,
                 savedViews db = pre ++ v :: post /\ savedViews db' = pre ++ post
                 /\ SavedView._id v = id /\ SavedView.ownerId v = user))
  /\ (forall id db,
        let db' := snd (Analytics.deleteAnnotation user id db) in
        savedViews db' = savedViews db
        /\ (annotations db' = annotations db
            \/ exists pre a post,
                 annotations db = pre ++ a :: post /\ annotations db' = pre ++ post
                 /\ Annotation._id a = id /\ Annotation.ownerId a = user))
  /\ (forall other ops db,
        other <> user ->
        Analytics.viewsOf other (snd (Analytics.run user ops db)) = Analytics.viewsOf other db
        /\ Analytics.annotationsOf other (snd (Analytics.run user ops db))
           = Analytics.annotationsOf other db)
  /\ (forall ops db1 db2,
        Analytics.viewsOf user db1 = Analytics.viewsOf user db2 ->
        Analytics.annotationsOf user db1 = Analytics.annotationsOf user db2 ->
        fst (Analytics.run user ops db1) = fst (Analytics.run user ops db2)).
Proof.
  split; [|split; [|split; [|split; [|split; [|split; [|split]]]]]].
  - intros db. eexists. split; [reflexivity|].
    intros v Hv. apply sort_by_In, find_all_In in Hv. destruct Hv as [Hin Ho].
    split; [exact Hin | now apply String.eqb_eq].
  - intros now range db. eexists. split; [reflexivity|].
    intros a Ha. apply sort_by_In, find_all_In in Ha. destruct Ha as [Hin Ho].
    apply andb_true_iff in Ho. split; [exact Hin | now apply String.eqb_eq].
  - intros newId now b db id db'. unfold Analytics.createView.
    repeat match goal with |- context [if ?c then _ else _] => destruct c end;
      intros [= <- <-]. eexists. now repeat split.
  - intros newId b db id db'. unfold Analytics.createAnnotation.
    destruct (Analytics.b_ts b) as [[ts|]|]; try discriminate;
      destruct (Js.truthy_opt (Analytics.b_label b)); try discriminate.
    intros [= <- <-]. eexists. now repeat split.
  - intros id db. cbv zeta. simpl. split; [reflexivity|].
    destruct (deleteOne_spec
                (fun v => String.eqb (SavedView._id v) id && String.eqb (SavedView.ownerId v) user)
                (savedViews db)) as [H | (pre & v & post & H1 & H2 & H3)]; [now left|].
    right. exists pre, v, post. apply andb_true_iff in H3. destruct H3 as [Hi Ho].
    apply String.eqb_eq in Hi, Ho. now repeat split.
  - intros id db. cbv zeta. simpl. split; [reflexivity|].
    destruct (deleteOne_spec
                (fun a => String.eqb (Annotation._id a) id && String.eqb (Annotation.ownerId a) user)
                (annotations db)) as [H | (pre & a & post & H1 & H2 & H3)]; [now left|].
    right. exists pre, a, post. apply andb_true_iff in H3. destruct H3 as [Hi Ho].
    apply String.eqb_eq in Hi, Ho. now repeat split.
  - intros other ops db Hne. revert db.
    induction ops as [|op ops IH]; intros db; [now split|].
    rewrite run_cons. simpl snd.
    destruct (IH (snd (Analytics.step user op db))) as [H1 H2].
    destruct (step_keeps_others other op db Hne) as [H3 H4].
    split; congruence.
  - intros ops. induction ops as [|op ops IH]; intros db1 db2 Hv Ha; [reflexivity|].
    rewrite !run_cons. simpl fst.
    destruct (step_reads_own op db1 db2 Hv Ha) as (Hr & Hv' & Ha').
    rewrite Hr. f_equal. now apply IH.
Qed.
End PerUser.

Example views_sample :
  Analytics.run "u1"
    [Analytics.ListViews; Analytics.DeleteView "v2"; Analytics.DeleteView "v1";
     Analytics.ListViews; Analytics.ListAnnotations (104 * Sample.day_ms) (Some "7d")]
    Sample.dbViews
  = ([Analytics.Views [Analytics.viewRow (Sample.mkView "v3" "u1" "All" 30);
                       Analytics.viewRow (Sample.mkView "v1" "u1" "Mobile PK" 10)];
      Analytics.Done; Analytics.Done;
      Analytics.Views [Analytics.viewRow (Sample.mkView "v3" "u1" "All" 30)];
      Analytics.Annotations
        [Analytics.annotationRow (Sample.mkAnnotation "n2" "u1" "campaign" (102 * Sample.day_ms))]],
     set_savedViews (fun _ => [Sample.mkView "v2" "u2" "Launch" 20; Sample.mkView "v3" "u1" "All" 30])
       Sample.dbViews).
Proof. vm_compute. reflexivity. Qed.

(* ================================================================== *)
(** * Properties of the account routes *)
(* ================================================================== *)

Lemma pretty_N_char_digit (k : N) : (k < 10)%N -> Js.is_digit (pretty_N_char k) = true.
Proof.
  intros Hk.
  assert (H : (k = 0 \/ k = 1 \/ k = 2 \/ k = 3 \/ k = 4 \/ k = 5 \/ k = 6 \/ k = 7
               \/ k = 8 \/ k = 9)%N) by lia.
  repeat (destruct H as [-> | H]; [reflexivity|]). now subst.
Qed.

(** The decimal numeral of a number with six digits. *)
Lemma pretty_N_six (x : N) :
  (100000 <= x < 1000000)%N ->
  pretty x
  = String (pretty_N_char (N.modulo (N.div x 100000) 10))
      (String (pretty_N_char (N.modulo (N.div x 10000) 10))
         (String (pretty_N_char (N.modulo (N.div x 1000) 10))
            (String (pretty_N_char (N.modulo (N.div x 100) 10))
               (String (pretty_N_char (N.modulo (N.div x 10) 10))
                  (String (pretty_N_char (N.modulo x 10)) ""))))).
Proof.
  intros Hx. unfold pretty, pretty_N. destruct (decide (x = 0%N)) as [->|_]; [lia|].
  rewrite pretty_N_go_step by lia.
  rewrite pretty_N_go_step by (apply N.div_str_pos; lia).
  rewrite pretty_N_go_step by (rewrite N.Div0.div_div; apply N.div_str_pos; lia).
  rewrite pretty_N_go_step by (rewrite !N.Div0.div_div; apply N.div_str_pos; lia).
  rewrite pretty_N_go_step by (rewrite !N.Div0.div_div; apply N.div_str_pos; lia).
  rewrite pretty_N_go_step by (rewrite !N.Div0.div_div; apply N.div_str_pos; lia).
  rewrite !N.Div0.div_div.
  change (10 * 10)%N with 100%N. change (10 * 100)%N with 1000%N.
  change (10 * 1000)%N with 10000%N. change (10 * 10000)%N with 100000%N.
  change (10 * 100000)%N with 1000000%N.
  rewrite (N.div_small x 1000000) by lia. now rewrite pretty_N_go_0.
Qed.

Lemma all_chars_app (p : ascii -> bool) (a b : string) :
  Validators.all_chars p (a +:+ b) = Validators.all_chars p a && Validators.all_chars p b.
Proof. induction a as [|c a IH]; simpl; [reflexivity|]. now rewrite IH, andb_assoc. Qed.

Lemma all_chars_rev (p : ascii -> bool) (s : string) :
  Validators.all_chars p (Js.rev_string "" s) = Validators.all_chars p s.
Proof.
  induction s as [|c s IH]; simpl; [reflexivity|].
  rewrite rev_string_acc, all_chars_app, IH. simpl. rewrite andb_true_r. apply andb_comm.
Qed.

Lemma rev_string_involutive (s : string) : Js.rev_string "" (Js.rev_string "" s) = s.
Proof.
  induction s as [|c s IH]; simpl; [reflexivity|].
  rewrite (rev_string_acc s (String c "")), rev_string_app, IH. reflexivity.
Qed.

Lemma trimStart_no_space (s : string) :
  Validators.all_chars (fun c => negb (Js.is_space c)) s = true -> Js.trimStart s = s.
Proof.
  destruct s as [|c s]; simpl; [reflexivity|].
  intros H. apply andb_true_iff in H. destruct H as [H _].
  apply negb_true_iff in H. now rewrite H.
Qed.

(** [trim] leaves a string without white space as it is. *)
Lemma trim_no_space (s : string) :
  Validators.all_chars (fun c => negb (Js.is_space c)) s = true -> Js.trim s = s.
Proof.
  intros H. unfold Js.trim, Js.trimEnd. rewrite (trimStart_no_space s H).
  rewrite trimStart_no_space by now rewrite all_chars_rev.
  apply rev_string_involutive.
Qed.

Lemma all_chars_impl (p q : ascii -> bool) (s : string) :
  (forall c, p c = true -> q c = true) ->
  Validators.all_chars p s = true -> Validators.all_chars q s = true.
Proof.
  intros Hpq. induction s as [|c s IH]; simpl; [reflexivity|].
  intros H. apply andb_true_iff in H. destruct H as [H1 H2].
  now rewrite (Hpq c H1), IH.
Qed.

Lemma digit_not_space (c : ascii) : Js.is_digit c = true -> negb (Js.is_space c) = true.
Proof.
  unfold Js.is_digit, Js.is_space. intros H. apply andb_true_iff in H. destruct H as [H1 H2].
  apply Nat.leb_le in H1, H2. apply negb_true_iff, orb_false_iff. split.
  - apply andb_false_iff. right. apply Nat.leb_gt. lia.
  - apply Nat.eqb_neq. lia.
Qed.

Lemma sixDigits_digits (rnd : Z) :
  0 <= rnd < 900000 ->
  AuthFlow.sixDigitCode (Auth.sixDigits rnd) = true
  /\ exists c rest, Auth.sixDigits rnd = String c rest /\ c <> "0"%char.
Proof.
  intros Hr. unfold Auth.sixDigits.
  destruct (100000 + rnd) as [|x|x] eqn:Hx; try lia.
  change (pretty (Z.pos x)) with (pretty (N.pos x)).
  rewrite pretty_N_six by lia. split.
  - unfold AuthFlow.sixDigitCode. simpl.
    rewrite !pretty_N_char_digit by (apply N.mod_lt; lia). reflexivity.
  - do 2 eexists. split; [reflexivity|].
    assert (Hq : (1 <= N.div (N.pos x) 100000 < 10)%N).
    { split; [apply N.div_le_lower_bound; lia | apply N.Div0.div_lt_upper_bound; lia]. }
    rewrite N.mod_small by lia.
    assert (H : (N.div (N.pos x) 100000 = 1 \/ N.div (N.pos x) 100000 = 2
                 \/ N.div (N.pos x) 100000 = 3 \/ N.div (N.pos x) 100000 = 4
                 \/ N.div (N.pos x) 100000 = 5 \/ N.div (N.pos x) 100000 = 6
                 \/ N.div (N.pos x) 100000 = 7 \/ N.div (N.pos x) 100000 = 8
                 \/ N.div (N.pos x) 100000 = 9)%N) by lia.
    repeat (destruct H as [-> | H]; [discriminate|]). rewrite H. discriminate.
Qed.

Lemma digits_survive_trim (s : string) :
  Validators.all_chars Js.is_digit s = true -> Js.trim s = s.
Proof.
  intros H. apply trim_no_space. revert H. apply all_chars_impl. exact digit_not_space.
Qed.

(** What the routes that store a code and read it back rely on. *)
Lemma sixDigits_stored (rnd : Z) :
  0 <= rnd < 900000 ->
  Js.trim (Auth.sixDigits rnd) = Auth.sixDigits rnd /\ Js.truthy (Auth.sixDigits rnd) = true.
Proof.
  intros Hr. destruct (sixDigits_digits rnd Hr) as [Hcode (c & rest & Heq & _)]. split.
  - apply digits_survive_trim. unfold AuthFlow.sixDigitCode in Hcode.
    apply andb_true_iff in Hcode. apply Hcode.
  - now rewrite Heq.
Qed.

(** X1. [sixDigits] gives six decimal digits, the first of which is not 0,
    so the code passes the pattern of [verifySchema] and [resetSchema] and
    survives the [trim] of the routes that read it back; distinct draws
    give distinct codes. *)
Theorem sixDigits_is_a_six_digit_code (rnd : Z) :
  0 <= rnd < 900000 ->
  AuthFlow.sixDigitCode (Auth.sixDigits rnd) = true
  /\ (exists c rest, Auth.sixDigits rnd = String c rest /\ c <> "0"%char)
  /\ Js.trim (Auth.sixDigits rnd) = Auth.sixDigits rnd
  /\ Js.truthy (Auth.sixDigits rnd) = true
  /\ (forall rnd', Auth.sixDigits rnd' = Auth.sixDigits rnd -> rnd' = rnd).
Proof.
  intros Hr. destruct (sixDigits_digits rnd Hr) as [Hcode Hfirst].
  split; [exact Hcode|]. split; [exact Hfirst|].
  split; [|split].
  - apply digits_survive_trim. unfold AuthFlow.sixDigitCode in Hcode.
    apply andb_true_iff in Hcode. apply Hcode.
  - destruct Hfirst as (c & rest & -> & _). reflexivity.
  - unfold Auth.sixDigits. intros rnd' H. apply (inj pretty) in H. lia.
Qed.

(** The code for a draw in range: what [Math.random() * 900000] can give. *)
Lemma sixDigits_is_a_six_digit_code_witness :
  (0 <= 23456 < 900000)
  /\ AuthFlow.sixDigitCode (Auth.sixDigits 23456) = true
  /\ Js.trim (Auth.sixDigits 23456) = "123456".
Proof.
  assert (H : 0 <= 23456 < 900000) by lia.
  destruct (sixDigits_is_a_six_digit_code 23456 H) as (H1 & _ & H3 & _).
  split; [exact H|]. split; [exact H1|]. rewrite H3. reflexivity.
Defined.

Lemma findOne_snoc_fresh {A} (p : A -> bool) (l : list A) (x : A) :
  Mongo.findOne p l = None -> p x = true -> Mongo.findOne p (l ++ [x]) = Some x.
Proof.
  unfold Mongo.findOne. induction l as [|d rest IH]; simpl; intros Hn Hx.
  - now rewrite Hx.
  - destruct (p d); [discriminate | now apply IH].
Qed.


(** Updating by key the document that a query finds first: with unique
    keys the query then finds the updated document, if it still matches. *)
Lemma findOne_after_update {A} (key : A -> string) (p : A -> bool) (f : A -> A)
      (l : list A) (u : A) (k : string) :
  NoDup (map key l) -> Mongo.findOne p l = Some u -> k = key u -> p (f u) = true ->
  Mongo.findOne p (Mongo.updateOne (fun d => String.eqb (key d) k) f l) = Some (f u).
Proof.
  intros Hnd Hf -> Hp. unfold Mongo.findOne in *.
  induction l as [|d rest IH]; simpl in *; [discriminate|].
  apply NoDup_cons in Hnd. destruct Hnd as [Hnotin Hnd].
  destruct (p d) eqn:Hd.
  - injection Hf as ->. rewrite String.eqb_refl. simpl. now rewrite Hp.
  - destruct (String.eqb (key d) (key u)) eqn:He.
    + exfalso. apply String.eqb_eq in He. apply Hnotin. rewrite He.
      apply list_elem_of_fmap. exists u. split; [reflexivity|].
      apply list_elem_of_In. exact (proj1 (find_some _ _ Hf)).
    + simpl. rewrite Hd. now apply IH.
Qed.

(** Updating by key a document of the collection: a field that the update
    keeps on that document is kept on the whole collection. *)
Lemma updateOne_found_keeps {A B} (key : A -> string) (g : A -> B) (f : A -> A)
      (l : list A) (u : A) :
  NoDup (map key l) -> In u l -> g (f u) = g u ->
  map g (Mongo.updateOne (fun d => String.eqb (key d) (key u)) f l) = map g l.
Proof.
  intros Hnd Hin Hg.
  rewrite (updateOne_pointwise key (key u)); [|intros d Hd; now apply String.eqb_eq|exact Hnd].
  rewrite map_map. apply map_ext_in. intros d Hd.
  destruct (String.eqb (key d) (key u)) eqn:He; [|reflexivity].
  apply String.eqb_eq in He.
  assert (d = u) as ->; [|exact Hg].
  apply (NoDup_key_inj key l); try assumption; now apply list_elem_of_In.
Qed.

(** Replacing a document by a copy with the same key keeps the keys. *)
Lemma updateOne_keeps_keys {A} (key : A -> string) (q : A -> bool) (f : A -> A) (l : list A) :
  (forall d, key (f d) = key d) -> map key (Mongo.updateOne q f l) = map key l.
Proof.
  intros Hf. induction l as [|d rest IH]; simpl; [reflexivity|].
  destruct (q d); simpl; [now rewrite Hf | now rewrite IH].
Qed.



Section Accounts.
Variable ext : Externals.
Variable jwt_sign : ObjectId -> string -> Z -> string.


(** X3. Logging in. Unknown address and wrong password give the same 401;
    with the right password an unverified account gets the 403
    "Email not verified", and a session is opened only for a verified
    account whose password bcrypt accepts. *)
Theorem login_needs_password_and_verification (now : Z) (value : AuthFlow.LoginValue) (db : Db) :
  let r := AuthFlow.login ext jwt_sign now (Valid value) db in
  let account := AuthFlow.byEmail (AuthFlow.normEmail (AuthFlow.l_email value)) db in
  let accepted (u : User.t) :=
    Utils.comparePassword ext (AuthFlow.l_password value) (Some (User.passwordHash u)) = true in
  (account = None -> r = AuthFlow.Message 401 "Invalid credentials" None)
  /\ (forall u, account = Some u -> ~ accepted u ->
        r = AuthFlow.Message 401 "Invalid credentials" None)
  /\ (forall u, account = Some u -> accepted u -> User.emailVerified u = false ->
        r = AuthFlow.NotVerified "Email not verified" "EMAIL_NOT_VERIFIED")
  /\ (forall u, account = Some u -> accepted u -> User.emailVerified u = true ->
        r = AuthFlow.sessionOf jwt_sign now u)
  /\ (forall token id name email, r = AuthFlow.Session token id name email ->
        exists u, account = Some u /\ accepted u /\ User.emailVerified u = true
                  /\ id = User._id u /\ email = User.email u
                  /\ bcrypt_compareSync ext (AuthFlow.l_password value) (User.passwordHash u)
                     = Some true).
Proof.
  cbv zeta. unfold AuthFlow.login.
  destruct (AuthFlow.byEmail _ db) as [u|].
  - split; [discriminate|].
    destruct (Utils.comparePassword ext (AuthFlow.l_password value) (Some (User.passwordHash u)))
      eqn:Hc; cbn [negb].
    + split; [intros u' [= <-] Hn; now destruct Hn|].
      destruct (User.emailVerified u) eqn:Hv; cbn [negb].
      * split; [intros u' [= <-] _ H; congruence|].
        split; [now intros u' [= <-] _ _|].
        intros token id name email [= <- <- <- <-]. exists u.
        repeat split; try assumption; try reflexivity.
        unfold Utils.comparePassword in Hc.
        destruct (negb _ || negb _); [discriminate|].
        destruct (bcrypt_compareSync ext _ _) as [[|]|]; congruence.
      * split; [now intros u' [= <-] _ _|].
        split; [intros u' [= <-] _ H; congruence|]. discriminate.
    + split; [now intros u' _ _|]. split; [intros u' [= <-] H; congruence|].
      split; [intros u' [= <-] H; congruence|]. discriminate.
  - split; [reflexivity|]. repeat split; try discriminate.
Qed.
End Accounts.

Section PasswordReset.
Variable ext : Externals.
Variable jwt_sign : ObjectId -> string -> Z -> string.

(** X4. Forgot password followed by reset. For an existing account the code
    that [POST /forgot] stores lets [POST /reset] replace the password up to
    ten minutes later; that marks the account verified and clears the code,
    so the code works once. A late request or a wrong code answers 400 and
    changes nothing. When bcrypt accepts a password against its own hash,
    the new password then opens a session. *)
Theorem forgot_then_reset (rnd : Z) (mailThrows : bool) (now : Z) (raw pw : string)
        (user : User.t) (db : Db) :
  AuthFlow.UniqueUserIds db ->
  AuthFlow.byEmail (AuthFlow.normEmail raw) db = Some user ->
  0 <= rnd < 900000 ->
  let code := Auth.sixDigits rnd in
  let db1 := snd (fst (Auth.forgot ext rnd mailThrows now (Valid raw) db)) in
  let attempt (c : string) :=
    Valid {| AuthFlow.x_email := raw; AuthFlow.x_code := c; AuthFlow.x_newPassword := pw |} in
  let user' := AuthFlow.afterReset (Utils.hashPassword ext pw) user in
  let refused := AuthFlow.Message 400 "Invalid or expired code" None in
  (exists db2,
      (forall t, t <= now + 600000 ->
         AuthFlow.reset ext t (attempt code) db1
         = (AuthFlow.Message 200 "Password updated. You can log in now." None, db2))
      /\ AuthFlow.byEmail (AuthFlow.normEmail raw) db2 = Some user'
      /\ User.emailVerified user' = true /\ User.resetCode user' = None
      /\ map User.email (users db2) = map User.email (users db)
      /\ (forall t c, AuthFlow.reset ext t (attempt c) db2 = (refused, db2))
      /\ (Js.truthy pw = true -> Js.truthy (bcrypt_hashSync ext pw) = true ->
          bcrypt_compareSync ext pw (bcrypt_hashSync ext pw) = Some true ->
          forall t,
            AuthFlow.login ext jwt_sign t
              (Valid {| AuthFlow.l_email := raw; AuthFlow.l_password := pw |}) db2
            = AuthFlow.sessionOf jwt_sign t user'))
  /\ (forall t, now + 600000 < t -> AuthFlow.reset ext t (attempt code) db1 = (refused, db1))
  /\ (forall t c, Js.trim c <> code -> AuthFlow.reset ext t (attempt c) db1 = (refused, db1)).
Proof.
  intros Hids Huser Hr code db1 attempt user' refused.
  destruct (sixDigits_stored rnd Hr) as [Htrim Htruthy].
  subst code. set (email := AuthFlow.normEmail raw) in *.
  pose (user1 := Auth.setReset (Auth.sixDigits rnd)
                   (Auth.addMinutes now Auth.RESET_CODE_EXP_MIN) user).
  assert (Hdb1 : db1 = set_users
                   (Mongo.updateOne (fun u => String.eqb (User._id u) (User._id user))
                      (Auth.setReset (Auth.sixDigits rnd)
                         (Auth.addMinutes now Auth.RESET_CODE_EXP_MIN))) db).
  { subst db1. unfold Auth.forgot. fold (AuthFlow.normEmail raw). fold email.
    unfold AuthFlow.byEmail in Huser. now rewrite Huser. }
  assert (Hemail : User.email user = email).
  { apply findOne_Some in Huser. destruct Huser as [_ H]. now apply String.eqb_eq in H. }
  assert (Hfind1 : AuthFlow.byEmail email db1 = Some user1).
  { rewrite Hdb1. unfold AuthFlow.byEmail. simpl users.
    apply (findOne_after_update User._id); try assumption; try reflexivity.
    simpl. rewrite Hemail. apply String.eqb_refl. }
  assert (Hids1 : NoDup (map User._id (users db1))).
  { rewrite Hdb1. simpl users. rewrite updateOne_keeps_keys; [exact Hids | reflexivity]. }
  assert (Hstep : forall t c,
            AuthFlow.reset ext t (attempt c) db1
            = if negb (String.eqb (Auth.sixDigits rnd) (Js.trim c)) || (now + 600000 <? t)
              then (refused, db1)
              else (AuthFlow.Message 200 "Password updated. You can log in now." None,
                    AuthFlow.save user' db1)).
  { intros t c. unfold AuthFlow.reset, attempt. simpl AuthFlow.x_email. simpl AuthFlow.x_code.
    fold email. rewrite Hfind1. unfold user1, Auth.setReset.
    cbn [User.resetCode User.resetCodeExpires]. rewrite Htruthy. cbn [negb orb].
    unfold Auth.addMinutes, Auth.RESET_CODE_EXP_MIN.
    replace (now + 10 * 60 * 1000) with (now + 600000) by lia.
    destruct (negb (String.eqb (Auth.sixDigits rnd) (Js.trim c)) || (now + 600000 <? t));
      reflexivity. }
  split; [|split].
  - exists (AuthFlow.save user' db1).
    assert (Hfind2 : AuthFlow.byEmail email (AuthFlow.save user' db1) = Some user').
    { unfold AuthFlow.save, AuthFlow.byEmail. simpl users.
      apply (findOne_after_update User._id _ (fun _ => user') _ user1);
        try assumption; try reflexivity.
      simpl. rewrite Hemail. apply String.eqb_refl. }
    split; [|split; [|split; [|split; [|split; [|split]]]]].
    + intros t Ht. rewrite Hstep, Htrim, String.eqb_refl. simpl.
      destruct (Z.ltb_spec (now + 600000) t); [lia | reflexivity].
    + exact Hfind2.
    + reflexivity.
    + reflexivity.
    + unfold AuthFlow.save. simpl users.
      transitivity (map User.email (users db1)).
      * apply (updateOne_found_keeps User._id User.email (fun _ => user') _ user1);
          [exact Hids1 | | reflexivity].
        unfold AuthFlow.byEmail in Hfind1. apply findOne_Some in Hfind1. tauto.
      * rewrite Hdb1. simpl users.
        apply (updateOne_found_keeps User._id User.email); [exact Hids | | reflexivity].
        unfold AuthFlow.byEmail in Huser. apply findOne_Some in Huser. tauto.
    + intros t c. unfold AuthFlow.reset, attempt. simpl AuthFlow.x_email.
      fold email. rewrite Hfind2. reflexivity.
    + intros Hpw Hhash Hcmp t. unfold AuthFlow.login. simpl AuthFlow.l_email.
      fold email. rewrite Hfind2. simpl AuthFlow.l_password.
      unfold Utils.comparePassword. simpl User.passwordHash. unfold Utils.hashPassword.
      rewrite Hpw, Hhash, Hcmp. reflexivity.
  - intros t Ht. rewrite Hstep, Htrim, String.eqb_refl. simpl.
    destruct (Z.ltb_spec (now + 600000) t); [reflexivity | lia].
  - intros t c Hc. rewrite Hstep.
    assert (He : String.eqb (Auth.sixDigits rnd) (Js.trim c) = false)
      by (apply String.eqb_neq; congruence).
    now rewrite He.
Qed.
End PasswordReset.


(** Alice forgets her password and resets it five seconds later. *)
Lemma forgot_then_reset_witness :
  (AuthFlow.UniqueUserIds Sample.dbWithAlice
   /\ AuthFlow.byEmail (AuthFlow.normEmail "ALICE@example.com ") Sample.dbWithAlice
      = Some Sample.alice
   /\ 0 <= 23456 < 900000)
  /\ exists db2,
       AuthFlow.reset Sample.ext 10000
         (Valid {| AuthFlow.x_email := "ALICE@example.com "; AuthFlow.x_code := "123456";
                   AuthFlow.x_newPassword := "tr0ub4dor" |})
         (snd (fst (Auth.forgot Sample.ext 23456 false 5000 (Valid "ALICE@example.com ")
                      Sample.dbWithAlice)))
       = (AuthFlow.Message 200 "Password updated. You can log in now." None, db2)
       /\ AuthFlow.login Sample.ext Sample2.jwt_sign 11000
            (Valid {| AuthFlow.l_email := "ALICE@example.com "; AuthFlow.l_password := "tr0ub4dor" |})
            db2
          = AuthFlow.Session "jwt.u1.alice@example.com" "u1" "Alice" "alice@example.com".
Proof.
  assert (H1 : AuthFlow.UniqueUserIds Sample.dbWithAlice).
  { apply (bool_decide_unpack _). vm_compute. reflexivity. }
  assert (H2 : AuthFlow.byEmail (AuthFlow.normEmail "ALICE@example.com ") Sample.dbWithAlice
               = Some Sample.alice) by reflexivity.
  assert (H3 : 0 <= 23456 < 900000) by lia.
  split; [now repeat split|].
  destruct (forgot_then_reset Sample.ext Sample2.jwt_sign 23456 false 5000 "ALICE@example.com "
              "tr0ub4dor" Sample.alice Sample.dbWithAlice H1 H2 H3)
    as ((db2 & Hok & _ & _ & _ & _ & _ & Hlogin) & _).
  exists db2. split.
  - assert (Ht : 10000 <= 5000 + 600000) by lia.
    change "123456" with (Auth.sixDigits 23456). exact (Hok 10000 Ht).
  - rewrite (Hlogin eq_refl eq_refl eq_refl 11000). reflexivity.
Defined.



Section AccountIdentity.
Variable ext : Externals.
Variable jwt_sign : ObjectId -> string -> Z -> string.

End AccountIdentity.

(* ================================================================== *)
(** * Properties of runs of the click queue *)
(* ================================================================== *)

Lemma workerBody_fallback (fx : Queue.Faults) (newId : ObjectId) (now : Z)
      (p : Click.Payload) (db : Db) :
  fst (Queue.workerBody fx newId now
         {| Queue.jobName := Queue.JOB_NAME;
            Queue.data := Some {| Queue.payload := Some p |} |} db)
  = Queue.inlineFallback fx newId now p db.
Proof.
  unfold Queue.workerBody, Queue.inlineFallback. simpl.
  destruct (Queue.Click_create fx newId now p db) as [db1|]; [|reflexivity].
  destruct (Queue.Link_incClicks fx now (Click.p_linkId p) db1); reflexivity.
Qed.

Lemma viaJSON_finite (p : Click.Payload) :
  (forall n, Click.p_tzOffset p = Some n -> Js.is_finite n = true) -> Queue.viaJSON p = p.
Proof.
  unfold Queue.viaJSON, Js.json_number. destruct p as [lid rf tz u ih ua co dv br]. simpl.
  intros H. destruct tz as [n|]; [|reflexivity]. now rewrite (H n eq_refl).
Qed.

Section QueueRuns.

(** The job that [queue.add] stores for an arrival. *)
Let jobOf (a : Traffic.Arrival) : Queue.Job :=
  {| Queue.jobName := Queue.JOB_NAME;
     Queue.data := Some {| Queue.payload := Some (Queue.viaJSON (Traffic.a_payload a)) |} |}.

Lemma enqueueAll_queues (arrivals : list Traffic.Arrival) (db : Db) (js : list Queue.Job)
      (warned : bool) :
  Traffic.enqueueAll arrivals
    {| Queue.db := db;
       Queue.qstate := {| Queue.useQueue := true; Queue.queue := Some js;
                          Queue.warnedOnce := warned |} |}
  = {| Queue.db := db;
       Queue.qstate := {| Queue.useQueue := true; Queue.queue := Some (js ++ map jobOf arrivals);
                          Queue.warnedOnce := warned |} |}.
Proof.
  revert js. induction arrivals as [|a rest IH]; intros js; simpl.
  - now rewrite app_nil_r.
  - unfold Traffic.enqueueAll in IH. unfold Queue.enqueueClick at 1. simpl.
    rewrite IH. now rewrite <- app_assoc.
Qed.

Lemma drain_runs_fallbacks (runs : list Traffic.Run) :
  forall (arrivals : list Traffic.Arrival) (db : Db) (warned : bool),
  Traffic.drain runs
    {| Queue.db := db;
       Queue.qstate := {| Queue.useQueue := true; Queue.queue := Some (map jobOf arrivals);
                          Queue.warnedOnce := warned |} |}
  = {| Queue.db := Traffic.inlineAll (zip_with Traffic.worked runs arrivals) db;
       Queue.qstate := {| Queue.useQueue := true;
                          Queue.queue := Some (map jobOf (skipn (length runs) arrivals));
                          Queue.warnedOnce := warned |} |}.
Proof.
  induction runs as [|w rest IH]; intros arrivals db warned; [reflexivity|].
  destruct arrivals as [|a arrivals].
  - simpl. clear IH. induction rest as [|w' rest IH]; [reflexivity | exact IH].
  - simpl. unfold Traffic.drain in IH. unfold Queue.workerStep at 1. simpl.
    unfold jobOf at 1. rewrite workerBody_fallback. apply IH.
Qed.

Lemma enqueueAll_without_queue (arrivals : list Traffic.Arrival) (db : Db) (st : Queue.State) :
  Queue.useQueue st = false \/ Queue.queue st = None ->
  Traffic.enqueueAll arrivals {| Queue.db := db; Queue.qstate := st |}
  = {| Queue.db := Traffic.inlineAll arrivals db; Queue.qstate := st |}.
Proof.
  intros Hoff. revert db. induction arrivals as [|a rest IH]; intros db; simpl; [reflexivity|].
  unfold Traffic.enqueueAll in IH.
  assert (Hstep : Queue.enqueueClick false (Traffic.a_fx a) (Traffic.a_newId a) (Traffic.a_now a)
                    (Traffic.a_payload a) {| Queue.db := db; Queue.qstate := st |}
                  = {| Queue.db := Queue.inlineFallback (Traffic.a_fx a) (Traffic.a_newId a)
                                     (Traffic.a_now a) (Traffic.a_payload a) db;
                       Queue.qstate := st |}).
  { unfold Queue.enqueueClick. simpl. destruct Hoff as [-> | ->]; [reflexivity|].
    destruct (Queue.useQueue st); reflexivity. }
  rewrite Hstep. apply IH.
Qed.

Lemma worked_finite (runs : list Traffic.Run) : forall (arrivals : list Traffic.Arrival),
  (forall a n, In a arrivals -> Click.p_tzOffset (Traffic.a_payload a) = Some n ->
               Js.is_finite n = true) ->
  zip_with Traffic.worked runs arrivals = zip_with Traffic.retimed runs arrivals.
Proof.
  induction runs as [|w rest IH]; intros arrivals Hfin; [reflexivity|].
  destruct arrivals as [|a arrivals]; [reflexivity|]. simpl. f_equal.
  - unfold Traffic.worked, Traffic.retimed. f_equal. apply viaJSON_finite.
    intros n. apply (Hfin a n). now left.
  - apply IH. intros a' n Hin. apply (Hfin a' n). now right.
Qed.

(** X6. A burst of clicks put on the queue leaves the database untouched
    and the queue one job longer per click. Run by run, oldest job first,
    the worker then leaves the database that the inline fallback leaves
    when it logs the JSON copies of the payloads with the clock values,
    ObjectIds and database faults of the worker's runs; the jobs not yet
    run stay in the queue. When every [tzOffset] is finite the copies are
    the payloads, and the queue switched off gives the same database for
    clicks that arrive when the worker would have written them. *)
Theorem queue_drain_matches_inline (arrivals : list Traffic.Arrival) (runs : list Traffic.Run)
        (db : Db) (warned : bool) (off : Queue.State) :
  let on := {| Queue.useQueue := true; Queue.queue := Some []; Queue.warnedOnce := warned |} in
  let queued := Traffic.enqueueAll arrivals {| Queue.db := db; Queue.qstate := on |} in
  Queue.db queued = db
  /\ Traffic.jobsWaiting queued = length arrivals
  /\ Queue.db (Traffic.drain runs queued)
     = Traffic.inlineAll (zip_with Traffic.worked runs arrivals) db
  /\ Traffic.jobsWaiting (Traffic.drain runs queued) = (length arrivals - length runs)%nat
  /\ Queue.useQueue (Queue.qstate (Traffic.drain runs queued)) = true
  /\ ((forall a n, In a arrivals -> Click.p_tzOffset (Traffic.a_payload a) = Some n ->
                   Js.is_finite n = true) ->
      Queue.useQueue off = false \/ Queue.queue off = None ->
      Queue.db (Traffic.enqueueAll (zip_with Traffic.retimed runs arrivals)
                  {| Queue.db := db; Queue.qstate := off |})
      = Queue.db (Traffic.drain runs queued)).
Proof.
  intros on queued. unfold queued, on. rewrite enqueueAll_queues. simpl.
  split; [reflexivity|]. split; [unfold Traffic.jobsWaiting; simpl; apply length_map|].
  rewrite drain_runs_fallbacks. simpl. split; [reflexivity|].
  split; [unfold Traffic.jobsWaiting; simpl; now rewrite length_map, length_skipn|].
  split; [reflexivity|].
  intros Hfin Hoff. rewrite (enqueueAll_without_queue _ db off Hoff). simpl.
  now rewrite (worked_finite runs arrivals Hfin).
Qed.

End QueueRuns.

(** X7. [enqueueClick] neither drops nor duplicates a click while
    [Click.create] works: the click is either one more waiting job or one
    more Click document, whether the queue is on, off, or [queue.add]
    throws.  When [Click.create] throws in the fallback the click is lost
    without a trace. *)
Theorem enqueue_stores_or_queues_once (addThrows : bool) (fx : Queue.Faults) (newId : ObjectId)
        (now : Z) (p : Click.Payload) (s : Queue.Sys) :
  let s' := Queue.enqueueClick addThrows fx newId now p s in
  let stored (t : Queue.Sys) := (length (clicks (Queue.db t)) + Traffic.jobsWaiting t)%nat in
  (Queue.createThrows fx = false -> stored s' = S (stored s))
  /\ (Queue.createThrows fx = true ->
      stored s' = stored s \/
      (Queue.useQueue (Queue.qstate s) = true /\ addThrows = false /\ stored s' = S (stored s)))
  /\ (Traffic.jobsWaiting s' = S (Traffic.jobsWaiting s) <->
      Queue.useQueue (Queue.qstate s) = true /\ Queue.queue (Queue.qstate s) <> None
      /\ addThrows = false)
  /\ (Traffic.jobsWaiting s' = S (Traffic.jobsWaiting s) -> Queue.db s' = Queue.db s).
Proof.
  intros s' stored. unfold s', stored, Queue.enqueueClick, Traffic.jobsWaiting,
    Queue.inlineFallback, Queue.Click_create, Queue.Link_incClicks.
  destruct s as [db [uq q w]]. simpl.
  destruct uq, q as [js|], addThrows, (Queue.createThrows fx) eqn:Hc,
    (Queue.updateThrows fx) eqn:Hu; simpl;
    rewrite ?length_app; simpl;
    repeat split; try intros; try discriminate; try lia; auto;
    try (match goal with H : _ /\ _ |- _ => destruct H as (? & ? & ?) end);
    try congruence; try (right; repeat split; lia).
Qed.

(* ================================================================== *)
(** * The click counter and the Click documents *)
(* ================================================================== *)

Lemma updateOne_In {A} (q : A -> bool) (f : A -> A) (l : list A) (y : A) :
  In y (Mongo.updateOne q f l) ->
  In y l \/ exists x, In x l /\ q x = true /\ y = f x.
Proof.
  induction l as [|d rest IH]; simpl; [tauto|].
  destruct (q d) eqn:Hq; simpl.
  - intros [<- | H]; [right; exists d; auto | left; auto].
  - intros [<- | H]; [left; auto|].
    destruct (IH H) as [H1 | (x & H1 & H2 & H3)]; [left; auto | right; exists x; auto].
Qed.

Lemma clicksOf_logged (id : ObjectId) (c : Click.t) (db : Db) (f : list Link.t -> list Link.t) :
  Traffic.clicksOf id (set_links f (set_clicks (fun cs => cs ++ [c]) db))
  = Traffic.clicksOf id db + (if String.eqb (Click.linkId c) id then 1 else 0).
Proof.
  unfold Traffic.clicksOf. simpl. rewrite find_all_snoc, length_app.
  destruct (String.eqb (Click.linkId c) id); simpl; lia.
Qed.

Lemma clicksOf_created (id : ObjectId) (c : Click.t) (db : Db) :
  Traffic.clicksOf id (set_clicks (fun cs => cs ++ [c]) db)
  = Traffic.clicksOf id db + (if String.eqb (Click.linkId c) id then 1 else 0).
Proof.
  unfold Traffic.clicksOf. simpl. rewrite find_all_snoc, length_app.
  destruct (String.eqb (Click.linkId c) id); simpl; lia.
Qed.

Lemma fallback_never_ahead (fx : Queue.Faults) (newId : ObjectId) (now : Z)
      (p : Click.Payload) (db : Db) :
  Traffic.NeverAhead db -> Traffic.NeverAhead (Queue.inlineFallback fx newId now p db).
Proof.
  intros Hdb. unfold Queue.inlineFallback, Queue.Click_create, Queue.Link_incClicks.
  destruct (Queue.createThrows fx); [exact Hdb|].
  destruct (Queue.updateThrows fx).
  - intros l Hl. rewrite clicksOf_created. simpl in Hl. specialize (Hdb l Hl).
    destruct (String.eqb _ _); lia.
  - intros l Hl. rewrite clicksOf_logged. simpl in Hl.
    apply updateOne_In in Hl. destruct Hl as [Hl | (x & Hx & Hq & ->)].
    + specialize (Hdb l Hl). destruct (String.eqb _ _); lia.
    + specialize (Hdb x Hx). simpl. apply String.eqb_eq in Hq. rewrite Hq in *.
      rewrite String.eqb_refl. lia.
Qed.

Lemma fallback_in_sync (newId : ObjectId) (now : Z) (p : Click.Payload) (db : Db) :
  Links.UniqueIds db -> Traffic.InSync db ->
  Traffic.InSync (Queue.inlineFallback Queue.no_faults newId now p db).
Proof.
  intros Hid Hdb. unfold Queue.inlineFallback, Queue.Click_create, Queue.Link_incClicks. simpl.
  intros l Hl. rewrite clicksOf_logged. simpl in Hl.
  rewrite (updateOne_by_key Link._id) in Hl by exact Hid.
  apply in_map_iff in Hl. destruct Hl as (x & <- & Hx). specialize (Hdb x Hx).
  destruct (String.eqb (Link._id x) (Click.p_linkId p)) eqn:Hq; simpl.
  - apply String.eqb_eq in Hq. rewrite Hq in *. rewrite String.eqb_refl. lia.
  - rewrite String.eqb_sym, Hq. lia.
Qed.

Lemma fallback_keeps_ids (fx : Queue.Faults) (newId : ObjectId) (now : Z)
      (p : Click.Payload) (db : Db) :
  map Link._id (links (Queue.inlineFallback fx newId now p db)) = map Link._id (links db).
Proof.
  unfold Queue.inlineFallback, Queue.Click_create, Queue.Link_incClicks.
  destruct (Queue.createThrows fx); [reflexivity|].
  destruct (Queue.updateThrows fx); [reflexivity|]. simpl.
  apply updateOne_keeps_keys. reflexivity.
Qed.

(** X8. The counter [clicksCount] of a link never runs ahead of the Click
    documents stored for it, whatever calls fail; while no database call
    fails it equals their number.  When [Link.updateOne] throws after
    [Click.create] has stored the click, the counter of that link falls
    behind by one, and the fallback reports nothing. *)
Theorem click_counter_tracks_documents (arrivals : list Traffic.Arrival) (db : Db) :
  Links.UniqueIds db ->
  Traffic.InSync db ->
  Traffic.NeverAhead (Traffic.inlineAll arrivals db)
  /\ ((forall a, In a arrivals -> Traffic.a_fx a = Queue.no_faults) ->
      Traffic.InSync (Traffic.inlineAll arrivals db))
  /\ (forall fx newId now p l,
        Queue.createThrows fx = false -> Queue.updateThrows fx = true ->
        In l (links db) -> Link._id l = Click.p_linkId p ->
        let db' := Queue.inlineFallback fx newId now p db in
        In l (links db') /\ Traffic.clicksOf (Link._id l) db' = Link.clicksCount l + 1).
Proof.
  intros Hid Hsync. split; [|split].
  - assert (Hna : Traffic.NeverAhead db) by (intros l Hl; rewrite (Hsync l Hl); lia).
    clear Hid Hsync. revert db Hna. induction arrivals as [|a rest IH]; intros db Hna; simpl.
    + exact Hna.
    + apply IH, fallback_never_ahead, Hna.
  - revert db Hid Hsync. induction arrivals as [|a rest IH]; intros db Hid Hsync Hfx; simpl.
    + exact Hsync.
    + apply IH.
      * unfold Links.UniqueIds. rewrite fallback_keeps_ids. exact Hid.
      * rewrite (Hfx a) by (left; reflexivity). apply fallback_in_sync; assumption.
      * intros a' Ha'. apply Hfx. right. exact Ha'.
  - intros fx newId now p l Hc Hu Hl Hp db'. subst db'.
    unfold Queue.inlineFallback, Queue.Click_create, Queue.Link_incClicks.
    rewrite Hc, Hu. split; [exact Hl|]. rewrite clicksOf_created. simpl.
    rewrite Hp, String.eqb_refl. rewrite <- Hp. rewrite (Hsync l Hl). reflexivity.
Qed.

(** Two clicks on the link [b1], the second with a failing update. *)
Lemma click_counter_tracks_documents_witness :
  Links.UniqueIds Sample2.dbSync /\ Traffic.InSync Sample2.dbSync
  /\ Traffic.NeverAhead
       (Traffic.inlineAll
          [{| Traffic.a_fx := Queue.no_faults; Traffic.a_newId := "k1"; Traffic.a_now := 5000;
              Traffic.a_payload := Sample2.click_b1 |};
           {| Traffic.a_fx := {| Queue.createThrows := false; Queue.updateThrows := true |};
              Traffic.a_newId := "k2"; Traffic.a_now := 5001;
              Traffic.a_payload := Sample2.click_b1 |}]
          Sample2.dbSync).
Proof.
  assert (Hid : Links.UniqueIds Sample2.dbSync).
  { apply (bool_decide_unpack _). vm_compute. reflexivity. }
  assert (Hs : Traffic.InSync Sample2.dbSync).
  { intros l [<- | [<- | []]]; reflexivity. }
  split; [exact Hid|]. split; [exact Hs|].
  exact (proj1 (click_counter_tracks_documents _ _ Hid Hs)).
Defined.

(* ================================================================== *)
(** * The click cap over a run of visits *)
(* ================================================================== *)

Section ClickCap.
Variable ext : Externals.
Variable code : string.

(** A visit asks for [code] and arrives before the link expires. *)
Let inTime (link : Link.t) (v : Traffic.Visit) : Prop :=
  Js.trim (Redirect.params_code (Traffic.v_req v)) = code
  /\ match Link.expiresAt link with Some e => e <? Traffic.v_now v | None => false end = false.

Let byCode (db : Db) : option Link.t :=
  Mongo.findOne (fun l => String.eqb (Link.code l) code) (links db).

Lemma visit_at_cap (v : Traffic.Visit) (s : Queue.Sys) (link : Link.t) :
  byCode (Queue.db s) = Some link ->
  Link.isActive link = true ->
  inTime link v ->
  0 < Link.maxClicks link <= Link.clicksCount link ->
  Redirect.serve ext false Queue.no_faults (Traffic.v_newId v) (Traffic.v_now v)
    (Traffic.v_req v) s
  = (Redirect.respond Redirect.maxReached, s).
Proof.
  intros Hfind Hact [Hcode Hexp] Hcap.
  unfold Redirect.serve, Redirect.handler. rewrite Hcode. unfold byCode in Hfind.
  rewrite Hfind, Hact, Hexp. simpl negb. cbv iota.
  assert (Ht : Js.truthy_num (Link.maxClicks link)
               && (Link.maxClicks link <=? Link.clicksCount link) = true).
  { apply andb_true_iff. split; [|apply Z.leb_le; lia].
    unfold Js.truthy_num. apply negb_true_iff, Z.eqb_neq. lia. }
  rewrite Ht. reflexivity.
Qed.

Lemma visit_below_cap (v : Traffic.Visit) (s : Queue.Sys) (link : Link.t) :
  byCode (Queue.db s) = Some link ->
  Link.isActive link = true ->
  Js.truthy_opt (Link.passwordHash link) = false ->
  inTime link v ->
  Link.clicksCount link < Link.maxClicks link ->
  Redirect.serve ext false Queue.no_faults (Traffic.v_newId v) (Traffic.v_now v)
    (Traffic.v_req v) s
  = ({| Redirect.response := Redirect.RedirectTo 302 (Link.longUrl link);
        Redirect.setCookie := None;
        Redirect.enqueued :=
          Some (Redirect.clickPayload ext (Traffic.v_now v) (Traffic.v_req v) link) |},
     Queue.enqueueClick false Queue.no_faults (Traffic.v_newId v) (Traffic.v_now v)
       (Redirect.clickPayload ext (Traffic.v_now v) (Traffic.v_req v) link) s).
Proof.
  intros Hfind Hact Hpw [Hcode Hexp] Hcap.
  unfold Redirect.serve, Redirect.handler. rewrite Hcode. unfold byCode in Hfind.
  rewrite Hfind, Hact, Hexp. simpl negb. cbv iota.
  assert (Ht : Js.truthy_num (Link.maxClicks link)
               && (Link.maxClicks link <=? Link.clicksCount link) = false).
  { apply andb_false_iff. right. apply Z.leb_gt. lia. }
  rewrite Ht. unfold Redirect.passwordGate. rewrite Hpw. reflexivity.
Qed.

Lemma logged_inline (id : ObjectId) (now : Z) (p : Click.Payload) (s : Queue.Sys) (link : Link.t) :
  Queue.useQueue (Queue.qstate s) = false ->
  Links.UniqueIds (Queue.db s) ->
  byCode (Queue.db s) = Some link ->
  Click.p_linkId p = Link._id link ->
  let s' := Queue.enqueueClick false Queue.no_faults id now p s in
  Queue.useQueue (Queue.qstate s') = false
  /\ Links.UniqueIds (Queue.db s')
  /\ byCode (Queue.db s') = Some (Queue.inc_clicksCount now link).
Proof.
  intros Hoff Hid Hfind Hp s'. subst s'. unfold Queue.enqueueClick. rewrite Hoff.
  cbn [Queue.db Queue.qstate]. split; [exact Hoff|]. split.
  - unfold Links.UniqueIds. rewrite fallback_keeps_ids. exact Hid.
  - unfold byCode, Queue.inlineFallback, Queue.Click_create, Queue.Link_incClicks. simpl.
    apply (findOne_after_update Link._id); auto.
    simpl. unfold byCode in Hfind. apply findOne_Some in Hfind. apply Hfind.
Qed.

Lemma visits_capped (vs : list Traffic.Visit) : forall (s : Queue.Sys) (link : Link.t),
  Queue.useQueue (Queue.qstate s) = false ->
  Links.UniqueIds (Queue.db s) ->
  byCode (Queue.db s) = Some link ->
  Link.isActive link = true ->
  Js.truthy_opt (Link.passwordHash link) = false ->
  0 < Link.maxClicks link ->
  Forall (inTime link) vs ->
  let k := Nat.min (length vs) (Z.to_nat (Link.maxClicks link - Link.clicksCount link)) in
  fst (Traffic.visits ext vs s)
  = repeat (Redirect.RedirectTo 302 (Link.longUrl link)) k
    ++ repeat Redirect.maxReached (length vs - k)
  /\ exists link', byCode (Queue.db (snd (Traffic.visits ext vs s))) = Some link'
                   /\ Link.clicksCount link' = Link.clicksCount link + Z.of_nat k
                   /\ Link.maxClicks link' = Link.maxClicks link.
Proof.
  induction vs as [|v rest IH]; intros s link Hoff Hid Hfind Hact Hpw Hmax Hvs k.
  - subst k. simpl. split; [reflexivity|]. exists link. repeat split; [exact Hfind | lia].
  - apply Forall_cons in Hvs. destruct Hvs as [Hv Hrest].
    destruct (Z.lt_ge_cases (Link.clicksCount link) (Link.maxClicks link)) as [Hlt | Hge].
    + cbn [Traffic.visits]. rewrite (visit_below_cap v s link) by assumption.
      destruct (logged_inline (Traffic.v_newId v) (Traffic.v_now v)
                  (Redirect.clickPayload ext (Traffic.v_now v) (Traffic.v_req v) link)
                  s link Hoff Hid Hfind eq_refl) as (Hoff' & Hid' & Hfind').
      specialize (IH _ _ Hoff' Hid' Hfind' Hact Hpw Hmax Hrest).
      cbn [Queue.inc_clicksCount Link.clicksCount Link.maxClicks Link.longUrl] in IH.
      destruct (Traffic.visits ext rest _) as [rs s2]. cbn [fst snd] in *.
      destruct IH as [IH1 (link' & IH2 & IH3 & IH4)].
      assert (Hk : k = S (Nat.min (length rest)
                            (Z.to_nat (Link.maxClicks link - (Link.clicksCount link + 1))))).
      { subst k. cbn [length]. lia. }
      rewrite Hk. split.
      * cbn [length Nat.sub repeat app]. rewrite IH1. reflexivity.
      * exists link'. repeat split; [exact IH2 | lia | exact IH4].
    + cbn [Traffic.visits]. rewrite (visit_at_cap v s link) by (try assumption; lia).
      specialize (IH _ _ Hoff Hid Hfind Hact Hpw Hmax Hrest).
      destruct (Traffic.visits ext rest s) as [rs s2]. cbn [fst snd] in *.
      destruct IH as [IH1 (link' & IH2 & IH3 & IH4)].
      assert (Hk : k = 0%nat) by (subst k; lia).
      assert (Hk' : Nat.min (length rest)
                      (Z.to_nat (Link.maxClicks link - Link.clicksCount link)) = 0%nat) by lia.
      rewrite Hk' in *. rewrite Hk. split.
      * cbn [length Nat.sub repeat app Redirect.respond Redirect.response].
        rewrite IH1. cbn [repeat app]. rewrite Nat.sub_0_r. reflexivity.
      * exists link'. repeat split; [exact IH2 | lia | exact IH4].
Qed.

Lemma visits_queued (vs : list Traffic.Visit) : forall (s : Queue.Sys) (link : Link.t)
                                                        (js : list Queue.Job),
  Queue.useQueue (Queue.qstate s) = true ->
  Queue.queue (Queue.qstate s) = Some js ->
  byCode (Queue.db s) = Some link ->
  Link.isActive link = true ->
  Js.truthy_opt (Link.passwordHash link) = false ->
  Link.clicksCount link < Link.maxClicks link ->
  Forall (inTime link) vs ->
  fst (Traffic.visits ext vs s) = repeat (Redirect.RedirectTo 302 (Link.longUrl link)) (length vs)
  /\ Queue.db (snd (Traffic.visits ext vs s)) = Queue.db s
  /\ Traffic.jobsWaiting (snd (Traffic.visits ext vs s)) = (length js + length vs)%nat.
Proof.
  induction vs as [|v rest IH]; intros s link js Hon Hq Hfind Hact Hpw Hlt Hvs.
  - simpl. unfold Traffic.jobsWaiting. rewrite Hq. repeat split. lia.
  - apply Forall_cons in Hvs. destruct Hvs as [Hv Hrest].
    cbn [Traffic.visits]. rewrite (visit_below_cap v s link) by assumption.
    unfold Queue.enqueueClick. rewrite Hon, Hq.
    match goal with |- context [Traffic.visits ext rest ?s1] =>
      specialize (IH s1 link _ eq_refl eq_refl Hfind Hact Hpw Hlt Hrest);
      destruct (Traffic.visits ext rest s1) as [rs s2] end.
    cbn [fst snd Queue.db] in *. destruct IH as (IH1 & IH2 & IH3).
    split; [cbn [length repeat]; now rewrite IH1|]. split; [exact IH2|].
    rewrite IH3, length_app. simpl. lia.
Qed.

(** X9. A link with a click cap is followed exactly as many more times as
    the cap leaves room for when each click is logged before the next
    visit (queue off): the first [maxClicks - clicksCount] visits get the
    302 to the long URL and every later one gets 429, the counter ending
    at the cap.  With the queue on and the worker idle the counter does
    not move, so every visit gets the 302, also beyond the cap. *)
Theorem click_cap_over_visits (vs : list Traffic.Visit) (s : Queue.Sys) (link : Link.t) :
  Links.UniqueIds (Queue.db s) ->
  Mongo.findOne (fun l => String.eqb (Link.code l) code) (links (Queue.db s)) = Some link ->
  Link.isActive link = true ->
  Js.truthy_opt (Link.passwordHash link) = false ->
  0 < Link.maxClicks link ->
  Forall (fun v =>
            Js.trim (Redirect.params_code (Traffic.v_req v)) = code
            /\ match Link.expiresAt link with
               | Some e => e <? Traffic.v_now v
               | None => false
               end = false) vs ->
  let left := Z.to_nat (Link.maxClicks link - Link.clicksCount link) in
  (Queue.useQueue (Queue.qstate s) = false ->
   fst (Traffic.visits ext vs s)
   = repeat (Redirect.RedirectTo 302 (Link.longUrl link)) (Nat.min (length vs) left)
     ++ repeat Redirect.maxReached (length vs - left)
   /\ exists link',
       Mongo.findOne (fun l => String.eqb (Link.code l) code)
         (links (Queue.db (snd (Traffic.visits ext vs s)))) = Some link'
       /\ Link.clicksCount link'
          = Link.clicksCount link + Z.of_nat (Nat.min (length vs) left))
  /\ (forall js,
        Queue.useQueue (Queue.qstate s) = true -> Queue.queue (Queue.qstate s) = Some js ->
        Link.clicksCount link < Link.maxClicks link ->
        fst (Traffic.visits ext vs s)
        = repeat (Redirect.RedirectTo 302 (Link.longUrl link)) (length vs)
        /\ Queue.db (snd (Traffic.visits ext vs s)) = Queue.db s
        /\ Traffic.jobsWaiting (snd (Traffic.visits ext vs s)) = (length js + length vs)%nat).
Proof.
  intros Hid Hfind Hact Hpw Hmax Hvs left. split.
  - intros Hoff.
    destruct (visits_capped vs s link Hoff Hid Hfind Hact Hpw Hmax Hvs)
      as [H1 (link' & H2 & H3 & _)].
    split.
    + rewrite H1. f_equal. f_equal. subst left. lia.
    + exists link'. split; [exact H2 | exact H3].
  - intros js Hon Hq Hlt. exact (visits_queued vs s link js Hon Hq Hfind Hact Hpw Hlt Hvs).
Qed.

End ClickCap.

(** Three visits to a link with room for two. *)
Lemma click_cap_over_visits_witness :
  fst (Traffic.visits Sample.ext
         [Sample2.visit "k1" 5000 "launch" [] []; Sample2.visit "k2" 5001 " launch" [] [];
          Sample2.visit "k3" 5002 "launch" [] []]
         (Sample2.offline Sample2.dbSync))
  = [Redirect.RedirectTo 302 "https://example.com/launch";
     Redirect.RedirectTo 302 "https://example.com/launch";
     Redirect.maxReached].
Proof.
  assert (Hid : Links.UniqueIds (Queue.db (Sample2.offline Sample2.dbSync))).
  { apply (bool_decide_unpack _). vm_compute. reflexivity. }
  assert (Hvs : Forall (fun v =>
            Js.trim (Redirect.params_code (Traffic.v_req v)) = "launch"
            /\ match Link.expiresAt Sample2.twice with
               | Some e => e <? Traffic.v_now v
               | None => false
               end = false)
            [Sample2.visit "k1" 5000 "launch" [] []; Sample2.visit "k2" 5001 " launch" [] [];
             Sample2.visit "k3" 5002 "launch" [] []]).
  { repeat constructor. }
  exact (proj1 (proj1 (click_cap_over_visits Sample.ext "launch" _
                         (Sample2.offline Sample2.dbSync) Sample2.twice
                         Hid eq_refl eq_refl eq_refl eq_refl Hvs) eq_refl)).
Defined.

(* ================================================================== *)
(** * Unlocking a password-protected link *)
(* ================================================================== *)

Lemma filter_string_all (p : ascii -> bool) (s : string) :
  Validators.all_chars p s = true -> Js.filter_string p s = s.
Proof.
  induction s as [|c s IH]; simpl; [reflexivity|].
  intros H. apply andb_true_iff in H. destruct H as [-> H]. now rewrite IH.
Qed.

Lemma okCookie_false (req : Redirect.Request) (link : Link.t) :
  Redirect.signedCookies req !! Redirect.cookieKey link <> Some "1" ->
  Redirect.okCookie req link = false.
Proof.
  intros H. unfold Redirect.okCookie.
  destruct (Redirect.opt_is _ _) eqn:E; [|reflexivity].
  apply opt_is_iff in E. contradiction.
Qed.

Lemma okCookie_true (req : Redirect.Request) (link : Link.t) :
  Redirect.signedCookies req !! Redirect.cookieKey link = Some "1" ->
  Redirect.okCookie req link = true.
Proof. intros H. unfold Redirect.okCookie. now apply opt_is_iff. Qed.

Lemma cameBackOk_false (req : Redirect.Request) :
  Redirect.query req !! "ok" <> Some "1" -> Redirect.cameBackOk req = false.
Proof.
  intros H. unfold Redirect.cameBackOk.
  destruct (Redirect.opt_is _ _) eqn:E; [|reflexivity].
  apply opt_is_iff in E. contradiction.
Qed.

Section Unlock.
Variable ext : Externals.
Variables (now : Z) (db : Db) (link : Link.t) (code h pw : string).

Hypothesis Hfind :
  Mongo.findOne (fun l => String.eqb (Link.code l) code) (links db) = Some link.
Hypothesis Hactive : Link.isActive link = true.
Hypothesis Hfresh :
  match Link.expiresAt link with Some e => e <? now | None => false end = false.
Hypothesis Hroom :
  Js.truthy_num (Link.maxClicks link) && (Link.maxClicks link <=? Link.clicksCount link) = false.
Hypothesis Hhash : Link.passwordHash link = Some h.
Hypothesis Hh : h <> "".
Hypothesis Hpw : pw <> "".
Hypothesis Hright : bcrypt_compareSync ext pw h = Some true.

Lemma handler_at_gate (req : Redirect.Request) :
  Js.trim (Redirect.params_code req) = code ->
  Redirect.handler ext now req db
  = match Redirect.passwordGate ext code req link with
    | Some early => early
    | None => {| Redirect.response := Redirect.RedirectTo 302 (Link.longUrl link);
                 Redirect.setCookie := None;
                 Redirect.enqueued := Some (Redirect.clickPayload ext now req link) |}
    end.
Proof.
  intros Hcode. rewrite handler_unfold, Hcode, Hfind, Hactive, Hfresh, Hroom. reflexivity.
Qed.

Lemma hash_truthy : Js.truthy_opt (Link.passwordHash link) = true.
Proof. rewrite Hhash. simpl. destruct h; [contradiction | reflexivity]. Qed.

Lemma okPw_right (req : Redirect.Request) :
  Redirect.query req !! "pw" = Some pw -> Redirect.okPw ext req link = true.
Proof.
  intros Hq. apply okPw_iff; [exact hash_truthy|]. exists pw, h. auto.
Qed.

Lemma okPw_none (req : Redirect.Request) :
  Redirect.query req !! "pw" = None -> Redirect.query_pw req = "" /\ Redirect.okPw ext req link = false.
Proof.
  intros Hq. unfold Redirect.okPw, Redirect.query_pw. rewrite Hq. simpl. auto.
Qed.

Lemma okPw_wrong (req : Redirect.Request) (w : string) :
  Redirect.query req !! "pw" = Some w -> w <> "" -> bcrypt_compareSync ext w h <> Some true ->
  Js.truthy (Redirect.query_pw req) = true /\ Redirect.okPw ext req link = false.
Proof.
  intros Hq Hw Hbad.
  assert (Ht : Js.truthy (Redirect.query_pw req) = true).
  { unfold Redirect.query_pw. rewrite Hq. simpl. destruct w; [contradiction | reflexivity]. }
  split; [exact Ht|].
  destruct (Redirect.okPw ext req link) eqn:E; [|reflexivity].
  apply (okPw_iff ext req link hash_truthy) in E.
  destruct E as (pw' & h' & E1 & _ & E3 & E4). rewrite Hq in E1. rewrite Hhash in E3.
  congruence.
Qed.

(** X10. Unlocking a password-protected link that is active, not expired
    and below its cap.  A request with the right [pw] and no cookie is
    answered with the signed cookie of the link and a 302 back to
    [/r/<code>?ok=1], and logs no click; the request that comes back with
    that cookie gets the 302 to the long URL and logs the click.
    [?ok=1] alone opens nothing: without the cookie and without [pw] the
    visitor is sent to the unlock page.  With the cookie, a wrong [pw]
    still sends the visitor to [/unlock?e=1]; with the right [pw] and
    [ok=1] but no cookie the destination is served without a cookie. *)
Theorem unlock_round_trip :
  (forall req,
      Js.trim (Redirect.params_code req) = code ->
      Redirect.query req !! "pw" = Some pw ->
      Redirect.signedCookies req !! Redirect.cookieKey link <> Some "1" ->
      Redirect.query req !! "ok" <> Some "1" ->
      Redirect.handler ext now req db
      = {| Redirect.response := Redirect.RedirectTo 302 ("/r/" +:+ code +:+ "?ok=1");
           Redirect.setCookie := Some (Redirect.cookieKey link, "1");
           Redirect.enqueued := None |})
  /\ (forall req,
         Js.trim (Redirect.params_code req) = code ->
         Redirect.signedCookies req !! Redirect.cookieKey link = Some "1" ->
         Redirect.query req !! "pw" = None \/ Redirect.query req !! "pw" = Some pw ->
         Redirect.handler ext now req db
         = {| Redirect.response := Redirect.RedirectTo 302 (Link.longUrl link);
              Redirect.setCookie := None;
              Redirect.enqueued := Some (Redirect.clickPayload ext now req link) |})
  /\ (forall req,
         Js.trim (Redirect.params_code req) = code ->
         Redirect.signedCookies req !! Redirect.cookieKey link <> Some "1" ->
         Redirect.query req !! "pw" = None ->
         Redirect.handler ext now req db
         = Redirect.respond (Redirect.RedirectTo 302 ("/r/" +:+ code +:+ "/unlock")))
  /\ (forall req w,
         Js.trim (Redirect.params_code req) = code ->
         Redirect.query req !! "pw" = Some w -> w <> "" ->
         bcrypt_compareSync ext w h <> Some true ->
         Redirect.handler ext now req db
         = Redirect.respond
             (Redirect.RedirectTo 302
                (if Redirect.okCookie req link
                 then "/r/" +:+ code +:+ "/unlock?e=1"
                 else "/r/" +:+ code +:+ "/unlock")))
  /\ (forall req,
         Js.trim (Redirect.params_code req) = code ->
         Redirect.query req !! "pw" = Some pw ->
         Redirect.signedCookies req !! Redirect.cookieKey link <> Some "1" ->
         Redirect.query req !! "ok" = Some "1" ->
         Redirect.handler ext now req db
         = {| Redirect.response := Redirect.RedirectTo 302 (Link.longUrl link);
              Redirect.setCookie := None;
              Redirect.enqueued := Some (Redirect.clickPayload ext now req link) |}).
Proof.
  pose proof hash_truthy as Ht.
  split; [|split; [|split; [|split]]].
  - intros req Hcode Hq Hck Hok. rewrite (handler_at_gate req Hcode).
    unfold Redirect.passwordGate.
    rewrite Ht, (okCookie_false req link Hck), (okPw_right req Hq), (cameBackOk_false req Hok).
    simpl. rewrite andb_false_r. reflexivity.
  - intros req Hcode Hck Hq. rewrite (handler_at_gate req Hcode).
    unfold Redirect.passwordGate. rewrite Ht, (okCookie_true req link Hck). simpl.
    destruct Hq as [Hq | Hq].
    + destruct (okPw_none req Hq) as [-> ->]. reflexivity.
    + rewrite (okPw_right req Hq). simpl. rewrite andb_false_r. reflexivity.
  - intros req Hcode Hck Hq. rewrite (handler_at_gate req Hcode).
    unfold Redirect.passwordGate.
    rewrite Ht, (okCookie_false req link Hck). destruct (okPw_none req Hq) as [_ ->].
    reflexivity.
  - intros req w Hcode Hq Hw Hbad. rewrite (handler_at_gate req Hcode).
    unfold Redirect.passwordGate. destruct (okPw_wrong req w Hq Hw Hbad) as [-> ->].
    rewrite Ht. destruct (Redirect.okCookie req link); reflexivity.
  - intros req Hcode Hq Hck Hok. rewrite (handler_at_gate req Hcode).
    unfold Redirect.passwordGate.
    rewrite Ht, (okCookie_false req link Hck), (okPw_right req Hq).
    unfold Redirect.cameBackOk. rewrite Hok. simpl. rewrite andb_false_r. reflexivity.
Qed.

End Unlock.

(** The link [vault] of the sample store, unlocked with its password. *)
Lemma unlock_round_trip_witness :
  Redirect.handler Sample.ext 2000 (Sample.get "vault" [("pw", "hunter2")] []) Sample.db0
  = {| Redirect.response := Redirect.RedirectTo 302 "/r/vault?ok=1";
       Redirect.setCookie := Some ("sl_pw_ok_a2", "1");
       Redirect.enqueued := None |}.
Proof.
  refine (proj1 (unlock_round_trip Sample.ext 2000 Sample.db0 Sample.locked "vault"
                   "$2a$hunter2" "hunter2" eq_refl eq_refl eq_refl eq_refl eq_refl _ _ eq_refl)
                (Sample.get "vault" [("pw", "hunter2")] []) eq_refl eq_refl _ _);
    discriminate.
Defined.

(** X11. The unlock cookie is per link.  For ids made of letters, digits,
    [_] and [-] (ObjectIds are hexadecimal) the cookie is named
    [sl_pw_ok_<id>], two links share the name only if they share the id,
    and a jar that holds the cookie of one link does not pass for
    another. *)
Theorem unlock_cookie_is_per_link (a b : Link.t) :
  Validators.all_chars Redirect.cookie_char (Link._id a) = true ->
  Validators.all_chars Redirect.cookie_char (Link._id b) = true ->
  Redirect.cookieKey a = "sl_pw_ok_" +:+ Link._id a
  /\ (Redirect.cookieKey a = Redirect.cookieKey b -> Link._id a = Link._id b)
  /\ (forall req,
        Link._id a <> Link._id b ->
        Redirect.signedCookies req = {[ Redirect.cookieKey a := "1" ]} ->
        Redirect.okCookie req a = true /\ Redirect.okCookie req b = false).
Proof.
  intros Ha Hb.
  assert (Hkey : forall l, Validators.all_chars Redirect.cookie_char (Link._id l) = true ->
                           Redirect.cookieKey l = "sl_pw_ok_" +:+ Link._id l).
  { intros l Hl. unfold Redirect.cookieKey. apply filter_string_all. simpl. exact Hl. }
  assert (Hinj : Redirect.cookieKey a = Redirect.cookieKey b -> Link._id a = Link._id b).
  { rewrite (Hkey a Ha), (Hkey b Hb). intros H. cbv [String.append] in H. repeat injection H as H. exact H. }
  split; [exact (Hkey a Ha)|]. split; [exact Hinj|].
  intros req Hne Hjar. split.
  - apply okCookie_true. rewrite Hjar. apply lookup_singleton_eq.
  - apply okCookie_false. rewrite Hjar. rewrite lookup_singleton_ne; [discriminate|].
    intros H. apply Hne, Hinj, H.
Qed.

Lemma unlock_cookie_is_per_link_witness :
  Redirect.cookieKey Sample.locked = "sl_pw_ok_a2"
  /\ (Redirect.cookieKey Sample.locked = Redirect.cookieKey Sample.stale -> "a2" = "a4").
Proof.
  destruct (unlock_cookie_is_per_link Sample.locked Sample.stale eq_refl eq_refl) as (H1 & H2 & _).
  split; [exact H1 | exact H2].
Defined.

(* ================================================================== *)
(** * Properties of the link routes: list, read, delete, QR *)
(* ================================================================== *)

Lemma insert_by_perm {A} (le : A -> A -> bool) (x : A) (l : list A) :
  Permutation (Mongo.insert_by le x l) (x :: l).
Proof.
  induction l as [|y rest IH]; simpl; [reflexivity|].
  destruct (le x y); [reflexivity|].
  rewrite IH. apply perm_swap.
Qed.

Lemma sort_by_perm {A} (le : A -> A -> bool) (l : list A) :
  Permutation (Mongo.sort_by le l) l.
Proof.
  induction l as [|x rest IH]; [reflexivity|].
  change (Mongo.sort_by le (x :: rest)) with (Mongo.insert_by le x (Mongo.sort_by le rest)).
  rewrite insert_by_perm. now apply perm_skip.
Qed.

Lemma insert_by_sorted {A} (le : A -> A -> bool) (x : A) (l : list A) :
  (forall a b, le a b = false -> le b a = true) ->
  (forall a b c, le a b = true -> le b c = true -> le a c = true) ->
  StronglySorted (fun a b => le a b = true) l ->
  StronglySorted (fun a b => le a b = true) (Mongo.insert_by le x l).
Proof.
  intros Htot Htrans. induction l as [|y rest IH]; intros Hs; simpl.
  - constructor; constructor.
  - inversion Hs as [|? ? Hrest Hy]; subst.
    destruct (le x y) eqn:Hxy.
    + constructor; [exact Hs|]. constructor; [exact Hxy|].
      eapply List.Forall_impl; [|exact Hy]. intros z Hz. exact (Htrans _ _ _ Hxy Hz).
    + constructor; [apply IH; exact Hrest|].
      apply List.Forall_forall. intros z Hz. apply insert_by_In in Hz.
      destruct Hz as [-> | Hz]; [apply Htot, Hxy|].
      rewrite List.Forall_forall in Hy. apply Hy, Hz.
Qed.

Lemma sort_by_sorted {A} (le : A -> A -> bool) (l : list A) :
  (forall a b, le a b = false -> le b a = true) ->
  (forall a b c, le a b = true -> le b c = true -> le a c = true) ->
  StronglySorted (fun a b => le a b = true) (Mongo.sort_by le l).
Proof.
  intros Htot Htrans. induction l as [|x rest IH]; [constructor|].
  change (Mongo.sort_by le (x :: rest)) with (Mongo.insert_by le x (Mongo.sort_by le rest)).
  now apply insert_by_sorted.
Qed.

Lemma In_of_firstn {A} (n : nat) (l : list A) (x : A) : In x (firstn n l) -> In x l.
Proof. intros H. rewrite <- (firstn_skipn n l). apply in_or_app. now left. Qed.

Lemma In_of_skipn {A} (n : nat) (l : list A) (x : A) : In x (skipn n l) -> In x l.
Proof. intros H. rewrite <- (firstn_skipn n l). apply in_or_app. now right. Qed.

Lemma StronglySorted_skipn {A} (R : A -> A -> Prop) (n : nat) (l : list A) :
  StronglySorted R l -> StronglySorted R (skipn n l).
Proof.
  revert l. induction n as [|n IH]; intros l Hs; [exact Hs|].
  destruct l as [|x rest]; [exact Hs|]. simpl. apply IH. now inversion Hs.
Qed.

Lemma StronglySorted_firstn {A} (R : A -> A -> Prop) (n : nat) (l : list A) :
  StronglySorted R l -> StronglySorted R (firstn n l).
Proof.
  revert l. induction n as [|n IH]; intros l Hs; [constructor|].
  destruct l as [|x rest]; [constructor|]. simpl.
  inversion Hs as [|? ? Hrest Hx]; subst. constructor; [apply IH, Hrest|].
  apply List.Forall_forall. intros z Hz. rewrite List.Forall_forall in Hx.
  apply Hx. eapply In_of_firstn; exact Hz.
Qed.

Lemma StronglySorted_weaken {A} (R S : A -> A -> Prop) (l : list A) :
  (forall a b, R a b -> S a b) -> StronglySorted R l -> StronglySorted S l.
Proof.
  intros HRS. induction 1 as [|x rest Hs IH Hx]; constructor; [exact IH|].
  eapply List.Forall_impl; [|exact Hx]. intros z. apply HRS.
Qed.

Lemma StronglySorted_map {A B} (R : B -> B -> Prop) (f : A -> B) (l : list A) :
  StronglySorted (fun a b => R (f a) (f b)) l -> StronglySorted R (map f l).
Proof.
  induction 1 as [|x rest Hs IH Hx]; simpl; constructor; [exact IH|].
  apply List.Forall_forall. intros z Hz. apply in_map_iff in Hz.
  destruct Hz as (y & <- & Hy). rewrite List.Forall_forall in Hx. apply Hx, Hy.
Qed.

Lemma find_all_length_mono {A} (p q : A -> bool) (l : list A) :
  (forall x, p x = true -> q x = true) ->
  (length (Mongo.find_all p l) <= length (Mongo.find_all q l))%nat.
Proof.
  intros Hpq. unfold Mongo.find_all. induction l as [|x rest IH]; simpl; [lia|].
  destruct (p x) eqn:Hp.
  - rewrite (Hpq x Hp). simpl. lia.
  - destruct (q x); simpl; lia.
Qed.

Lemma list_items_owned (ext : Externals) (regex_i : string -> string -> bool)
      (user : ObjectId) (query : gmap string string) (db : Db) :
  Forall (fun it => In (fst it) (links db) /\ Link.ownerId (fst it) = user
                    /\ snd it = Links.buildShortUrl ext (fst it))
    (LinkRoutes.items (LinkRoutes.list ext regex_i user query db)).
Proof.
  unfold LinkRoutes.list. cbn [LinkRoutes.items].
  apply List.Forall_forall. intros it Hit. apply in_map_iff in Hit.
  destruct Hit as (l & <- & Hl). simpl.
  apply In_of_firstn, In_of_skipn, sort_by_In in Hl.
  apply find_all_In in Hl. destruct Hl as [Hl Hf]. unfold LinkRoutes.listFilter in Hf.
  apply andb_true_iff in Hf. destruct Hf as [Hf _]. apply String.eqb_eq in Hf. auto.
Qed.

(** X12. [GET /api/links] for any query string: the page is at least 1 and
    the page size lies in 1..50; the answer holds at most [size] links,
    all of them links of the caller taken from the collection, newest
    first, each with its short URL; [total] counts the caller's matching
    links whatever page is asked for, and is not above the number of
    links the caller owns. *)
Theorem list_page_is_bounded_and_owned (ext : Externals) (regex_i : string -> string -> bool)
        (user : ObjectId) (query : gmap string string) (db : Db) :
  let r := LinkRoutes.list ext regex_i user query db in
  1 <= LinkRoutes.page r
  /\ 1 <= LinkRoutes.size r <= 50
  /\ Z.of_nat (length (LinkRoutes.items r)) <= LinkRoutes.size r
  /\ Z.of_nat (length (LinkRoutes.items r)) <= LinkRoutes.total r
  /\ Forall (fun it => In (fst it) (links db) /\ Link.ownerId (fst it) = user
                       /\ snd it = Links.buildShortUrl ext (fst it)) (LinkRoutes.items r)
  /\ StronglySorted (fun a b => Link.createdAt (fst b) <= Link.createdAt (fst a))
       (LinkRoutes.items r)
  /\ (forall query',
        LinkRoutes.searchOf query' = LinkRoutes.searchOf query ->
        LinkRoutes.total (LinkRoutes.list ext regex_i user query' db) = LinkRoutes.total r)
  /\ LinkRoutes.total r
     <= Z.of_nat (length (Mongo.find_all (fun l => String.eqb (Link.ownerId l) user) (links db))).
Proof.
  intros r. subst r. unfold LinkRoutes.list. cbn [LinkRoutes.page LinkRoutes.size
    LinkRoutes.items LinkRoutes.total].
  set (found := Mongo.find_all (LinkRoutes.listFilter regex_i user (LinkRoutes.searchOf query))
                  (links db)).
  assert (Hsize : 1 <= LinkRoutes.sizeOf query <= 50).
  { unfold LinkRoutes.sizeOf, LinkRoutes.LIST_SIZE_MIN, LinkRoutes.LIST_SIZE_MAX. lia. }
  split; [unfold LinkRoutes.pageOf; lia|]. split; [exact Hsize|].
  split; [rewrite length_map, length_firstn; lia|].
  split.
  { rewrite length_map, length_firstn, length_skipn.
    rewrite (Permutation_length (sort_by_perm LinkRoutes.newestFirst found)). lia. }
  split; [exact (list_items_owned ext regex_i user query db)|].
  split.
  { apply (StronglySorted_map
             (fun a b : Link.t * string => Link.createdAt (fst b) <= Link.createdAt (fst a))
             (LinkRoutes.withShortUrl ext)).
    simpl. apply StronglySorted_firstn, StronglySorted_skipn.
    assert (Hs := sort_by_sorted LinkRoutes.newestFirst found).
    eapply StronglySorted_weaken; [|apply Hs].
    - intros a b H. unfold LinkRoutes.newestFirst in H. apply Z.leb_le, H.
    - intros a b H. unfold LinkRoutes.newestFirst in *. apply Z.leb_gt in H.
      apply Z.leb_le. lia.
    - intros a b c H1 H2. unfold LinkRoutes.newestFirst in *.
      apply Z.leb_le in H1, H2. apply Z.leb_le. lia. }
  split.
  { intros query' Hq. rewrite Hq. reflexivity. }
  unfold found. apply Nat2Z.inj_le, find_all_length_mono.
  intros l Hl. unfold LinkRoutes.listFilter in Hl. apply andb_true_iff in Hl. apply Hl.
Qed.

Lemma pages_concat {A} (all : list A) (s k : nat) :
  concat (map (fun i => firstn s (skipn (i * s) all)) (seq 0 k)) = firstn (k * s) all.
Proof.
  induction k as [|k IH]; [reflexivity|].
  rewrite seq_S, map_app, concat_app, IH. simpl. rewrite app_nil_r.
  rewrite take_take_drop. f_equal. lia.
Qed.

Lemma map_by_index {A B} (f : A -> B) (l : list A) : forall (g : nat -> B),
  (forall i a, nth_error l i = Some a -> f a = g i) ->
  map f l = map g (seq 0 (length l)).
Proof.
  induction l as [|x rest IH]; intros g Hg; [reflexivity|].
  cbn [length seq map]. rewrite (Hg 0%nat x eq_refl). f_equal.
  rewrite <- seq_shift, map_map. apply IH. intros i a Hi. apply (Hg (S i)). exact Hi.
Qed.

(** Pages 1, 2, ..., k cut by one stable sort put end to end. *)
Lemma stable_pages_cover (ext : Externals)
        (regex_i : string -> string -> bool) (user : ObjectId) (db : Db)
        (qs : list (gmap string string)) (s : Z) (search : string) :
  (forall i q, nth_error qs i = Some q ->
               LinkRoutes.pageOf q = Z.of_nat i + 1
               /\ LinkRoutes.sizeOf q = s /\ LinkRoutes.searchOf q = search) ->
  let pages := map (fun q => LinkRoutes.items (LinkRoutes.list ext regex_i user q db)) qs in
  let matching := Mongo.find_all (LinkRoutes.listFilter regex_i user search) (links db) in
  exists rest,
    Permutation (map fst (concat pages) ++ rest) matching
    /\ (Z.of_nat (length matching) <= Z.of_nat (length qs) * s -> rest = []).
Proof.
  intros Hqs pages matching.
  set (sorted := Mongo.sort_by LinkRoutes.newestFirst matching).
  assert (Hpages : concat pages
                   = map (LinkRoutes.withShortUrl ext)
                       (firstn (length qs * Z.to_nat s) sorted)).
  { rewrite <- pages_concat, concat_map. f_equal. rewrite map_map. unfold pages.
    apply map_by_index. intros i q Hi. destruct (Hqs i q Hi) as (Hp & Hs & Hq).
    unfold LinkRoutes.list. cbn [LinkRoutes.items]. rewrite Hp, Hs, Hq.
    fold matching. fold sorted. do 3 f_equal.
    assert (Hs0 : 1 <= s) by (rewrite <- Hs; unfold LinkRoutes.sizeOf,
      LinkRoutes.LIST_SIZE_MIN, LinkRoutes.LIST_SIZE_MAX; lia).
    replace (Z.of_nat i + 1 - 1) with (Z.of_nat i) by lia.
    rewrite Z2Nat.inj_mul by lia. now rewrite Nat2Z.id. }
  exists (skipn (length qs * Z.to_nat s) sorted). split.
  - rewrite Hpages, map_map. cbn [LinkRoutes.withShortUrl fst]. rewrite map_id.
    rewrite firstn_skipn. apply sort_by_perm.
  - intros Hall. apply skipn_all2.
    unfold sorted. rewrite (Permutation_length (sort_by_perm LinkRoutes.newestFirst matching)).
    destruct qs as [|q0 qs']; [simpl in *; lia|].
    destruct (Hqs 0%nat q0 eq_refl) as (_ & Hs & _).
    assert (Hs0 : 1 <= s) by (rewrite <- Hs; unfold LinkRoutes.sizeOf,
      LinkRoutes.LIST_SIZE_MIN, LinkRoutes.LIST_SIZE_MAX; lia).
    apply Nat2Z.inj_le. rewrite Nat2Z.inj_mul, Z2Nat.id by lia. exact Hall.
Qed.


(** Among documents with distinct keys there is one way to be sorted. *)
Lemma sorted_perm_unique {A} (R : A -> A -> Prop) (l1 : list A) : forall l2,
  (forall a b, In a l1 -> In b l1 -> R a b -> R b a -> a = b) ->
  Permutation l1 l2 -> StronglySorted R l1 -> StronglySorted R l2 -> l1 = l2.
Proof.
  induction l1 as [|a l1 IH]; intros l2 Hanti Hp H1 H2.
  - apply Permutation_nil in Hp. now subst.
  - destruct l2 as [|b l2]; [apply Permutation_sym, Permutation_nil in Hp; discriminate|].
    inversion H1 as [|? ? H1' Ha]; subst. inversion H2 as [|? ? H2' Hb]; subst.
    rewrite List.Forall_forall in Ha, Hb.
    assert (Hab : a = b).
    { assert (Hin_a : In a (b :: l2)) by (eapply Permutation_in; [exact Hp | now left]).
      assert (Hin_b : In b (a :: l1))
        by (eapply Permutation_in; [apply Permutation_sym; exact Hp | now left]).
      destruct Hin_a as [<- | Hin_a]; [reflexivity|].
      destruct Hin_b as [<- | Hin_b]; [reflexivity|].
      apply Hanti; [now left | now right | now apply Ha | now apply Hb]. }
    subst b. f_equal. apply IH; [| now apply Permutation_cons_inv in Hp | exact H1' | exact H2'].
    intros x y Hx Hy. apply Hanti; now right.
Qed.

Lemma newestFirst_stable (found : list Link.t) :
  LinkRoutes.NewestFirst found (Mongo.sort_by LinkRoutes.newestFirst found).
Proof.
  split; [apply sort_by_perm|].
  assert (Hs := sort_by_sorted LinkRoutes.newestFirst found).
  eapply StronglySorted_weaken; [|apply Hs].
  - intros a b H. unfold LinkRoutes.newestFirst in H. apply Z.leb_le, H.
  - intros a b H. unfold LinkRoutes.newestFirst in *. apply Z.leb_gt in H.
    apply Z.leb_le. lia.
  - intros a b c H1 H2. unfold LinkRoutes.newestFirst in *.
    apply Z.leb_le in H1, H2. apply Z.leb_le. lia.
Qed.

(** With distinct creation times every query returns the same order. *)
Lemma newestFirst_unique (found answer : list Link.t) :
  NoDup (map Link.createdAt found) ->
  LinkRoutes.NewestFirst found answer ->
  answer = Mongo.sort_by LinkRoutes.newestFirst found.
Proof.
  intros Hnd [Hp Hs]. destruct (newestFirst_stable found) as [Hp' Hs'].
  apply (sorted_perm_unique (fun a b => Link.createdAt b <= Link.createdAt a)); auto.
  - intros a b Ha Hb H1 H2.
    assert (Hk : Z.eqb (Link.createdAt a) (Link.createdAt b) = true) by (apply Z.eqb_eq; lia).
    apply Z.eqb_eq in Hk.
    assert (Ha' : In a found) by (eapply Permutation_in; [exact Hp | exact Ha]).
    assert (Hb' : In b found) by (eapply Permutation_in; [exact Hp | exact Hb]).
    clear - Hnd Ha' Hb' Hk. induction found as [|d rest IH]; [destruct Ha'|].
    simpl in Hnd. apply NoDup_cons in Hnd. destruct Hnd as [Hnotin Hrest].
    destruct Ha' as [-> | Ha'], Hb' as [-> | Hb']; [reflexivity | | | now apply IH].
    + exfalso. apply Hnotin. rewrite Hk. apply list_elem_of_fmap. exists b.
      split; [reflexivity | now apply list_elem_of_In].
    + exfalso. apply Hnotin. rewrite <- Hk. apply list_elem_of_fmap. exists a.
      split; [reflexivity | now apply list_elem_of_In].
  - now rewrite Hp, Hp'.
Qed.

(** X13. Paging through [GET /api/links] with pages 1, 2, ..., k of one
    size and one search term, each page being one query that sorts by
    [createdAt] alone, in whatever order MongoDB picks among equal dates.
    When the caller's matching links have pairwise distinct creation
    times (and the search term, if any, is a regular expression), every
    request is answered and the pages list the links without repeating
    or skipping any: the pages put end to end, together with the links
    not yet reached, are a rearrangement of the caller's matching links,
    no link occurs twice, and nothing is left once [k * size] reaches
    [total]. *)
Theorem list_pages_cover_each_link_once (ext : Externals)
        (regex_i : string -> string -> bool) (regex_ok : string -> bool)
        (user : ObjectId) (db : Db)
        (rs : list ((list Link.t -> list Link.t) * gmap string string))
        (s : Z) (search : string) :
  let matching := Mongo.find_all (LinkRoutes.listFilter regex_i user search) (links db) in
  (forall i r, nth_error rs i = Some r ->
               LinkRoutes.NewestFirst matching (fst r matching)
               /\ LinkRoutes.pageOf (snd r) = Z.of_nat i + 1
               /\ LinkRoutes.sizeOf (snd r) = s /\ LinkRoutes.searchOf (snd r) = search) ->
  (search <> "" -> regex_ok search = true) ->
  NoDup (map Link.createdAt matching) ->
  Z.of_nat (length rs) * s < 2 ^ 53 ->
  exists pages rest,
    map (fun r => LinkRoutes.listFrom ext regex_i regex_ok (fst r) user (snd r) db) rs
    = map Some pages
    /\ Forall (fun p => LinkRoutes.size p = s
                        /\ LinkRoutes.total p = Z.of_nat (length matching)) pages
    /\ Permutation (map fst (concat (map LinkRoutes.items pages)) ++ rest) matching
    /\ NoDup (map fst (concat (map LinkRoutes.items pages)))
    /\ (Z.of_nat (length matching) <= Z.of_nat (length rs) * s -> rest = []).
Proof.
  intros matching Hrs Hre Hnd _.
  assert (Hok : Js.truthy search && negb (regex_ok search) = false).
  { destruct search as [|c w]; [reflexivity|]. rewrite Hre by discriminate. reflexivity. }
  assert (Hanswer : forall i r, nth_error rs i = Some r ->
            LinkRoutes.listFrom ext regex_i regex_ok (fst r) user (snd r) db
            = Some (LinkRoutes.list ext regex_i user (snd r) db)).
  { intros i r Hi. destruct (Hrs i r Hi) as (Ho & _ & _ & Hq).
    unfold LinkRoutes.listFrom, LinkRoutes.list. rewrite Hq, Hok. fold matching.
    now rewrite (newestFirst_unique matching (fst r matching) Hnd Ho). }
  assert (Hqs : forall i q, nth_error (map snd rs) i = Some q ->
            LinkRoutes.pageOf q = Z.of_nat i + 1
            /\ LinkRoutes.sizeOf q = s /\ LinkRoutes.searchOf q = search).
  { intros i q Hi. rewrite nth_error_map in Hi.
    destruct (nth_error rs i) as [r|] eqn:Hr; [|discriminate]. injection Hi as <-.
    destruct (Hrs i r Hr) as (_ & H). exact H. }
  destruct (stable_pages_cover ext regex_i user db (map snd rs) s search Hqs)
    as (rest & Hperm & Hrest).
  fold matching in Hperm, Hrest. rewrite length_map in Hrest.
  exists (map (fun r => LinkRoutes.list ext regex_i user (snd r) db) rs), rest.
  assert (Hpages : map LinkRoutes.items
                     (map (fun r => LinkRoutes.list ext regex_i user (snd r) db) rs)
                   = map (fun q => LinkRoutes.items (LinkRoutes.list ext regex_i user q db))
                       (map snd rs)) by now rewrite !map_map.
  rewrite Hpages.
  split; [|split; [|split; [exact Hperm|split; [|exact Hrest]]]].
  - rewrite map_map. apply nth_error_ext. intros i. rewrite !nth_error_map.
    destruct (nth_error rs i) as [r|] eqn:Hr; [|reflexivity]. simpl. f_equal.
    exact (Hanswer i r Hr).
  - apply List.Forall_forall. intros pg Hpg. apply in_map_iff in Hpg.
    destruct Hpg as (r & <- & Hr). apply In_nth_error in Hr. destruct Hr as [i Hi].
    destruct (Hrs i r Hi) as (_ & _ & Hs & Hq).
    unfold LinkRoutes.list. cbn [LinkRoutes.size LinkRoutes.total]. rewrite Hq. auto.
  - assert (Hm : NoDup matching).
    { clear - Hnd. induction matching as [|d rest IH]; [constructor|].
      simpl in Hnd. apply NoDup_cons in Hnd. destruct Hnd as [Hnotin Hrest].
      apply NoDup_cons. split; [|now apply IH].
      intros Hin. apply Hnotin. apply list_elem_of_fmap. now exists d. }
    rewrite <- Hperm in Hm. apply NoDup_app in Hm. apply Hm.
Qed.

(** The three links of [u1] in a store with distinct creation times, one
    per page, the second page sorted by a query that read the collection
    backwards. *)
Lemma list_pages_cover_each_link_once_witness :
  exists pages,
    map (fun r => LinkRoutes.listFrom Sample.ext (fun _ _ => true) (fun _ => true)
                    (fst r) "u1" (snd r) Sample3.dbDated)
      [(Sample3.stable, list_to_map [("page", "1"); ("size", "1")]);
       (Sample3.backwards, list_to_map [("page", "2"); ("size", "1")]);
       (Sample3.stable, list_to_map [("page", "3"); ("size", "1")])]
    = map Some pages
    /\ map (Link.code ∘ fst) (concat (map LinkRoutes.items pages)) = ["mar3"; "apr4"; "jan1"].
Proof.
  destruct (list_pages_cover_each_link_once Sample.ext (fun _ _ => true) (fun _ => true)
              "u1" Sample3.dbDated
              [(Sample3.stable, list_to_map [("page", "1"); ("size", "1")]);
               (Sample3.backwards, list_to_map [("page", "2"); ("size", "1")]);
               (Sample3.stable, list_to_map [("page", "3"); ("size", "1")])] 1 "")
    as (pages & rest & Hpages & _).
  - intros i r Hi. destruct i as [|[|[|i]]]; simpl in Hi.
    + injection Hi as <-. split; [apply newestFirst_stable|]. repeat split; vm_compute; reflexivity.
    + injection Hi as <-. split.
      * cbn [fst]. unfold Sample3.backwards. split.
        -- etransitivity; [apply sort_by_perm | apply Permutation_sym, Permutation_rev].
        -- apply (proj2 (newestFirst_stable _)).
      * repeat split; vm_compute; reflexivity.
    + injection Hi as <-. split; [apply newestFirst_stable|]. repeat split; vm_compute; reflexivity.
    + destruct i; discriminate.
  - intros H. now contradiction H.
  - apply (bool_decide_unpack _). vm_compute. reflexivity.
  - vm_compute. reflexivity.
  - exists pages. split; [exact Hpages|].
    cbn [map] in Hpages.
    destruct pages as [|p1 [|p2 [|p3 [|p4 pages]]]]; try discriminate.
    vm_compute in Hpages. inversion Hpages. reflexivity.
Defined.

(** Without distinct creation times a link can come twice: two links of
    [u1] in the sample store were created at the same time, and a second
    query that orders them the other way round serves on page 2 the link
    that page 1 showed. *)
Example tied_links_can_repeat :
  let matching :=
    Mongo.find_all (LinkRoutes.listFilter (fun _ _ => true) "u1" "") (links Sample.db0) in
  let page (order : list Link.t -> list Link.t) (n : string) :=
    option_map (fun p => map (Link.code ∘ fst) (LinkRoutes.items p))
      (LinkRoutes.listFrom Sample.ext (fun _ _ => true) (fun _ => true) order "u1"
         (list_to_map [("page", n); ("size", "1")]) Sample.db0) in
  LinkRoutes.NewestFirst matching (Sample3.stable matching)
  /\ LinkRoutes.NewestFirst matching (rev matching)
  /\ page Sample3.stable "1" = Some ["docs"]
  /\ page (@rev Link.t) "2" = Some ["docs"].
Proof.
  intros matching page. split; [apply newestFirst_stable|].
  split; [|split; vm_compute; reflexivity].
  split; [apply Permutation_sym, Permutation_rev|].
  vm_compute. repeat constructor; discriminate.
Qed.

Lemma deleteOne_none {A} (p : A -> bool) (l : list A) :
  (forall d, In d l -> p d = false) -> Mongo.deleteOne p l = l.
Proof.
  induction l as [|d rest IH]; intros H; simpl; [reflexivity|].
  rewrite (H d) by (left; reflexivity). f_equal. apply IH. intros d' Hd'. apply H. now right.
Qed.

Lemma filter_keeps_all {A} (f : A -> bool) (l : list A) :
  (forall x, In x l -> f x = true) -> List.filter f l = l.
Proof.
  induction l as [|x rest IH]; intros H; simpl; [reflexivity|].
  rewrite (H x) by (left; reflexivity). f_equal. apply IH. intros y Hy. apply H. now right.
Qed.

Lemma deleteOne_by_key {A} (key : A -> string) (k : string) (p : A -> bool) (l : list A) :
  (forall d, p d = true -> key d = k) ->
  NoDup (map key l) ->
  Mongo.deleteOne p l = List.filter (fun d => negb (p d)) l.
Proof.
  intros Hp. induction l as [|d rest IH]; intros Hnd; simpl; [reflexivity|].
  apply NoDup_cons in Hnd. destruct Hnd as [Hd Hnd].
  destruct (p d) eqn:Hpd; simpl; [|f_equal; apply IH, Hnd].
  symmetry. apply filter_keeps_all. intros d' Hd'. apply negb_true_iff.
  destruct (p d') eqn:Hpd'; [|reflexivity]. exfalso. apply Hd.
  apply list_elem_of_fmap. exists d'. split.
  - rewrite (Hp d Hpd), (Hp d' Hpd'). reflexivity.
  - apply list_elem_of_In. exact Hd'.
Qed.

Lemma mine_unique (db : Db) (l : Link.t) (user : ObjectId) :
  Links.UniqueIds db -> In l (links db) ->
  forall d, In d (links db) -> LinkRoutes.mine user (Link._id l) d = true ->
            d = l /\ Link.ownerId l = user.
Proof.
  intros Hid Hl d Hd Hm. unfold LinkRoutes.mine in Hm. apply andb_true_iff in Hm.
  destruct Hm as [H1 H2]. apply String.eqb_eq in H1, H2.
  assert (d = l).
  { apply (NoDup_key_inj Link._id (links db)); auto; apply list_elem_of_In; assumption. }
  subst d. auto.
Qed.

Lemma mine_none_for_stranger (db : Db) (l : Link.t) (user : ObjectId) :
  Links.UniqueIds db -> In l (links db) -> Link.ownerId l <> user ->
  forall d, In d (links db) -> LinkRoutes.mine user (Link._id l) d = false.
Proof.
  intros Hid Hl Hne d Hd. destruct (LinkRoutes.mine user (Link._id l) d) eqn:Hm; [|reflexivity].
  destruct (mine_unique db l user Hid Hl d Hd Hm) as [_ H]. contradiction.
Qed.

(** X14. A link is reachable through the link routes by its owner only.
    For a link in the collection and a caller who is not its owner, read
    and QR answer 404, the list never shows it, update answers with an
    error and changes nothing, and delete leaves the link in place; the
    owner reads the link back with its short URL. *)
Theorem link_routes_serve_the_owner_only (ext : Externals) (regex_i : string -> string -> bool)
        (qr_svg qr_png : string -> Z -> string) (db : Db) (l : Link.t) (user : ObjectId) :
  Links.UniqueIds db ->
  In l (links db) ->
  Link.ownerId l <> user ->
  LinkRoutes.read ext user (Link._id l) db = Links.Error 404 "Not found"
  /\ (forall query,
        LinkRoutes.qr ext qr_svg qr_png user (Link._id l) query db
        = LinkRoutes.QrError 404 "Not found")
  /\ (forall query,
        ~ In l (map fst (LinkRoutes.items (LinkRoutes.list ext regex_i user query db))))
  /\ (forall fetched now body,
        snd (Links.update ext fetched user (Link._id l) now body db) = db
        /\ exists status message,
            fst (Links.update ext fetched user (Link._id l) now body db)
            = Links.Error status message)
  /\ links (LinkRoutes.delete user (Link._id l) db) = links db
  /\ LinkRoutes.read ext (Link.ownerId l) (Link._id l) db
     = Links.LinkJson l (Links.buildShortUrl ext l).
Proof.
  intros Hid Hl Hne.
  assert (Hnone : Mongo.findOne (LinkRoutes.mine user (Link._id l)) (links db) = None).
  { apply findOne_None_iff. apply mine_none_for_stranger; assumption. }
  split; [unfold LinkRoutes.read; now rewrite Hnone|].
  split; [intros query; unfold LinkRoutes.qr; now rewrite Hnone|].
  split.
  { intros query Hin.
    pose proof (list_items_owned ext regex_i user query db) as Hall.
    rewrite List.Forall_forall in Hall. apply in_map_iff in Hin.
    destruct Hin as (it & <- & Hit). destruct (Hall it Hit) as (_ & Ho & _). contradiction. }
  split.
  { intros fetched now body. unfold Links.update.
    destruct body as [msg|value]; [split; [reflexivity | eauto]|].
    destruct (_ && _); [split; [reflexivity | eauto]|].
    match goal with |- context [if ?c then _ else _] => destruct c end;
      [split; [reflexivity | eauto]|].
    change (fun l0 : Link.t => String.eqb (Link._id l0) (Link._id l)
                               && String.eqb (Link.ownerId l0) user)
      with (LinkRoutes.mine user (Link._id l)).
    rewrite Hnone. split; [reflexivity | eauto]. }
  split.
  { unfold LinkRoutes.delete. simpl. apply deleteOne_none.
    apply mine_none_for_stranger; assumption. }
  unfold LinkRoutes.read.
  destruct (Mongo.findOne (LinkRoutes.mine (Link.ownerId l) (Link._id l)) (links db))
    as [d|] eqn:Hf.
  - apply findOne_Some in Hf. destruct Hf as [Hd Hm].
    destruct (mine_unique db l (Link.ownerId l) Hid Hl d Hd Hm) as [-> _]. reflexivity.
  - rewrite findOne_None_iff in Hf. specialize (Hf l Hl). unfold LinkRoutes.mine in Hf.
    rewrite !String.eqb_refl in Hf. discriminate.
Qed.

Lemma link_routes_serve_the_owner_only_witness :
  LinkRoutes.read Sample.ext "u2" "a1" Sample.db0 = Links.Error 404 "Not found"
  /\ LinkRoutes.read Sample.ext "u1" "a1" Sample.db0
     = Links.LinkJson Sample.plain "https://sho.rt/r/docs".
Proof.
  assert (Hid : Links.UniqueIds Sample.db0).
  { apply (bool_decide_unpack _). vm_compute. reflexivity. }
  assert (Hin : In Sample.plain (links Sample.db0)) by (left; reflexivity).
  assert (Hne : Link.ownerId Sample.plain <> "u2") by discriminate.
  destruct (link_routes_serve_the_owner_only Sample.ext (fun _ _ => true)
              (fun _ _ => "") (fun _ _ => "") Sample.db0 Sample.plain "u2" Hid Hin Hne)
    as (H1 & _ & _ & _ & _ & H6).
  split; [exact H1 | exact H6].
Defined.

(** X15. [DELETE /api/links/:id] removes the link only when the caller owns
    it, but removes the Click documents of that id in every case: after
    the call no click of the id is left, also when the link belongs to
    someone else and stays in the collection with its counter.  Clicks of
    other links and all other collections are untouched. *)
Theorem delete_erases_the_clicks_of_any_link (user id : ObjectId) (db : Db) :
  let db' := LinkRoutes.delete user id db in
  Traffic.clicksOf id db' = 0
  /\ (forall id', id' <> id ->
        Mongo.find_all (fun c => String.eqb (Click.linkId c) id') (clicks db')
        = Mongo.find_all (fun c => String.eqb (Click.linkId c) id') (clicks db))
  /\ (Links.UniqueIds db ->
      forall l, In l (links db') <->
                In l (links db) /\ ~ (Link._id l = id /\ Link.ownerId l = user))
  /\ (Links.UniqueIds db ->
      forall l, In l (links db) -> Link._id l = id -> Link.ownerId l <> user ->
                In l (links db') /\ Traffic.clicksOf (Link._id l) db' = 0)
  /\ users db' = users db /\ savedViews db' = savedViews db
  /\ annotations db' = annotations db.
Proof.
  intros db'. subst db'. unfold LinkRoutes.delete.
  assert (Hzero : Traffic.clicksOf id
                    (set_clicks
                       (Mongo.find_all (fun c => negb (String.eqb (Click.linkId c) id)))
                       (set_links (Mongo.deleteOne (LinkRoutes.mine user id)) db)) = 0).
  { unfold Traffic.clicksOf. simpl. rewrite <- find_all_andb.
    unfold Mongo.find_all. induction (clicks db) as [|c rest IH]; simpl; [reflexivity|].
    destruct (String.eqb (Click.linkId c) id); simpl; exact IH. }
  assert (Hlinks : Links.UniqueIds db ->
      forall l, In l (Mongo.deleteOne (LinkRoutes.mine user id) (links db)) <->
                In l (links db) /\ ~ (Link._id l = id /\ Link.ownerId l = user)).
  { intros Hid l. rewrite (deleteOne_by_key Link._id id) by
      (try exact Hid; intros d Hd; unfold LinkRoutes.mine in Hd;
       apply andb_true_iff in Hd; destruct Hd as [Hd _]; now apply String.eqb_eq in Hd).
    rewrite List.filter_In. unfold LinkRoutes.mine.
    rewrite negb_true_iff, andb_false_iff.
    split; intros [H1 H2]; (split; [exact H1|]).
    - intros [H3 H4]. rewrite H3, H4, !String.eqb_refl in H2. destruct H2; discriminate.
    - destruct (String.eqb (Link._id l) id) eqn:E1; [|now left].
      destruct (String.eqb (Link.ownerId l) user) eqn:E2; [|now right].
      apply String.eqb_eq in E1, E2. exfalso. apply H2. auto. }
  split; [exact Hzero|]. split.
  { intros id' Hne. simpl. rewrite <- find_all_andb. unfold Mongo.find_all.
    apply List.filter_ext. intros c.
    destruct (String.eqb (Click.linkId c) id) eqn:E; simpl; [|reflexivity].
    apply String.eqb_eq in E. rewrite E.
    destruct (String.eqb id id') eqn:E'; [|reflexivity].
    apply String.eqb_eq in E'. congruence. }
  split; [exact Hlinks|]. split.
  { intros Hid l Hl Hl_id Hown. split.
    - apply (Hlinks Hid l). split; [exact Hl|]. intros [_ H]. contradiction.
    - rewrite Hl_id. exact Hzero. }
  repeat split.
Qed.

(* ================================================================== *)
(** * Properties of the auth and admin guards *)
(* ================================================================== *)

Lemma append_cons (x : ascii) (a b : string) : String x a +:+ b = String x (a +:+ b).
Proof. reflexivity. Qed.

Lemma append_nil_r (a : string) : a +:+ "" = a.
Proof. induction a as [|x a IH]; [reflexivity | now rewrite append_cons, IH]. Qed.

Lemma append_assoc (a b c : string) : (a +:+ b) +:+ c = a +:+ (b +:+ c).
Proof. induction a as [|x a IH]; [reflexivity | now rewrite !append_cons, IH]. Qed.

Lemma trimStart_spaces (ws s : string) :
  Validators.all_chars Js.is_space ws = true -> Js.trimStart (ws +:+ s) = Js.trimStart s.
Proof.
  induction ws as [|c ws IH]; simpl; [reflexivity|].
  intros H. apply andb_true_iff in H. destruct H as [-> H]. apply IH, H.
Qed.

Lemma rev_string_append (a b : string) :
  Js.rev_string "" (a +:+ b) = Js.rev_string "" b +:+ Js.rev_string "" a.
Proof. rewrite rev_string_app. apply rev_string_acc. Qed.

Lemma trimEnd_spaces (s ws : string) :
  Validators.all_chars Js.is_space ws = true -> Js.trimEnd (s +:+ ws) = Js.trimEnd s.
Proof.
  intros H. unfold Js.trimEnd. rewrite rev_string_append, trimStart_spaces; [reflexivity|].
  now rewrite all_chars_rev.
Qed.

Lemma trimStart_starts_no_space (x y : string) :
  x <> "" -> Validators.all_chars (fun c => negb (Js.is_space c)) x = true ->
  Js.trimStart (x +:+ y) = x +:+ y.
Proof.
  destruct x as [|c x]; [contradiction|]. simpl. intros _ H.
  apply andb_true_iff in H. destruct H as [H _]. apply negb_true_iff in H. now rewrite H.
Qed.

Lemma trimEnd_ends_no_space (a t : string) :
  t <> "" -> Validators.all_chars (fun c => negb (Js.is_space c)) t = true ->
  Js.trimEnd (a +:+ t) = a +:+ t.
Proof.
  intros Ht Hall. unfold Js.trimEnd. rewrite rev_string_append.
  rewrite trimStart_starts_no_space.
  - rewrite <- rev_string_append. apply rev_string_involutive.
  - intros H. apply Ht. rewrite <- (rev_string_involutive t), H. reflexivity.
  - now rewrite all_chars_rev.
Qed.

Lemma map_string_app (f : ascii -> ascii) (a b : string) :
  Js.map_string f (a +:+ b) = Js.map_string f a +:+ Js.map_string f b.
Proof. induction a as [|x a IH]; simpl; [reflexivity | now rewrite append_cons, IH]. Qed.

Lemma map_string_length (f : ascii -> ascii) (a : string) :
  String.length (Js.map_string f a) = String.length a.
Proof. induction a as [|x a IH]; simpl; [reflexivity | now rewrite IH]. Qed.

Lemma sliceFrom_app (a b : string) : Guard.sliceFrom (String.length a) (a +:+ b) = b.
Proof. induction a as [|x a IH]; simpl; [now destruct b | exact IH]. Qed.

Lemma lower_b_not_space (c : ascii) : Js.lower_char c = "b"%char -> Js.is_space c = false.
Proof.
  destruct c as [[] [] [] [] [] [] [] []]; intros H; try reflexivity;
    vm_compute in H; discriminate.
Qed.

Lemma bearer_header_trimmed (scheme t ws1 ws2 ws3 : string) :
  Js.toLowerCase scheme = "bearer" ->
  t <> "" ->
  Validators.all_chars (fun c => negb (Js.is_space c)) t = true ->
  Validators.all_chars Js.is_space ws1 = true ->
  Validators.all_chars Js.is_space ws3 = true ->
  Js.trim (ws1 +:+ scheme +:+ " " +:+ ws2 +:+ t +:+ ws3) = scheme +:+ " " +:+ ws2 +:+ t.
Proof.
  intros Hs Ht Hall H1 H3.
  unfold Js.trim. rewrite trimStart_spaces by exact H1.
  assert (Hst : Js.trimStart (scheme +:+ " " +:+ ws2 +:+ t +:+ ws3)
                = scheme +:+ " " +:+ ws2 +:+ t +:+ ws3).
  { destruct scheme as [|c sch]; [discriminate|]. simpl.
    unfold Js.toLowerCase in Hs. simpl in Hs. injection Hs as Hc _.
    now rewrite (lower_b_not_space c Hc). }
  rewrite Hst.
  replace (scheme +:+ " " +:+ ws2 +:+ t +:+ ws3)
    with ((scheme +:+ " " +:+ ws2 +:+ t) +:+ ws3)
    by (now rewrite !append_assoc).
  rewrite trimEnd_spaces by exact H3.
  replace (scheme +:+ " " +:+ ws2 +:+ t)
    with ((scheme +:+ " " +:+ ws2) +:+ t)
    by (now rewrite !append_assoc).
  now apply trimEnd_ends_no_space.
Qed.

Lemma bearer_token_cut (scheme t ws2 : string) :
  Js.toLowerCase scheme = "bearer" ->
  Validators.all_chars (fun c => negb (Js.is_space c)) t = true ->
  Validators.all_chars Js.is_space ws2 = true ->
  let h := scheme +:+ " " +:+ ws2 +:+ t in
  Js.truthy h = true
  /\ Guard.startsWith "bearer " (Js.toLowerCase h) = true
  /\ Js.trim (Guard.sliceFrom 7 h) = t.
Proof.
  intros Hs Hall H2 h. subst h.
  assert (Hlen : String.length scheme = 6%nat).
  { unfold Js.toLowerCase in Hs. rewrite <- (map_string_length Js.lower_char), Hs. reflexivity. }
  split; [destruct scheme; [discriminate | reflexivity]|]. split.
  - unfold Js.toLowerCase in *. rewrite map_string_app, Hs. reflexivity.
  - assert (Hsl : Guard.sliceFrom 7 (scheme +:+ " " +:+ ws2 +:+ t) = ws2 +:+ t).
    { replace (scheme +:+ " " +:+ ws2 +:+ t) with ((scheme +:+ " ") +:+ (ws2 +:+ t))
        by (now rewrite !append_assoc).
      replace 7%nat with (String.length (scheme +:+ " ")); [apply sliceFrom_app|].
      clear -Hlen. revert Hlen. generalize 6%nat as n. induction scheme as [|c s IH]; simpl.
      - intros n <-. reflexivity.
      - intros [|n] H; [discriminate|]. injection H as H. f_equal. now apply IH. }
    rewrite Hsl. unfold Js.trim. rewrite trimStart_spaces by exact H2.
    exact (trim_no_space t Hall).
Qed.

(** The header that the clients of the API send. *)
Lemma bearer_plain (t : string) :
  t <> "" ->
  Validators.all_chars (fun c => negb (Js.is_space c)) t = true ->
  Guard.getBearerToken (Some ("Bearer " +:+ t)) = Some t.
Proof.
  intros Ht Hall.
  assert (Hh : Js.trim ("Bearer " +:+ t) = "Bearer" +:+ " " +:+ "" +:+ t).
  { rewrite <- (append_nil_r t) at 1.
    exact (bearer_header_trimmed "Bearer" t "" "" "" eq_refl Ht Hall eq_refl eq_refl). }
  destruct (bearer_token_cut "Bearer" t "" eq_refl Hall eq_refl) as (Htr & Hsw & Hcut).
  unfold Guard.getBearerToken. cbn [Js.or_else].
  change (Js.truthy ("Bearer " +:+ t)) with true. cbv iota. rewrite Hh.
  rewrite Htr, Hsw, Hcut. cbn [negb]. destruct t; [contradiction | reflexivity].
Qed.

Lemma graph_not_space (c : ascii) : Js.is_graph c = true -> negb (Js.is_space c) = true.
Proof.
  unfold Js.is_graph, Js.is_space. intros H. apply andb_true_iff in H. destruct H as [H1 H2].
  apply Nat.leb_le in H1, H2. apply negb_true_iff, orb_false_iff. split.
  - apply andb_false_iff. right. apply Nat.leb_gt. lia.
  - apply Nat.eqb_neq. lia.
Qed.

(** X16. [getBearerToken] reads the token out of an [Authorization] header
    whose scheme is [bearer] in any letter case, with blanks, tabs and
    line breaks allowed around the header and around the token: it
    returns the token itself, for every non-empty token made of visible
    ASCII characters (33 to 126), as a JWT is.  It never returns an
    empty token, and returns nothing when the header is missing. *)
Theorem bearer_token_round_trip (scheme t ws1 ws2 ws3 : string) :
  Js.toLowerCase scheme = "bearer" ->
  t <> "" ->
  Validators.all_chars Js.is_graph t = true ->
  Validators.all_chars Js.is_space ws1 = true ->
  Validators.all_chars Js.is_space ws2 = true ->
  Validators.all_chars Js.is_space ws3 = true ->
  Guard.getBearerToken (Some (ws1 +:+ scheme +:+ " " +:+ ws2 +:+ t +:+ ws3)) = Some t
  /\ Guard.getBearerToken None = None
  /\ (forall header token, Guard.getBearerToken header = Some token -> token <> "").
Proof.
  intros Hs Ht Hgraph H1 H2 H3.
  assert (Hall : Validators.all_chars (fun c => negb (Js.is_space c)) t = true)
    by (revert Hgraph; apply all_chars_impl; exact graph_not_space).
  split; [|split; [reflexivity|]].
  - unfold Guard.getBearerToken. cbn [Js.or_else].
    assert (Hne : Js.truthy (ws1 +:+ scheme +:+ " " +:+ ws2 +:+ t +:+ ws3) = true).
    { destruct ws1 as [|c w]; [|reflexivity]. destruct scheme; [discriminate | reflexivity]. }
    rewrite Hne, (bearer_header_trimmed scheme t ws1 ws2 ws3 Hs Ht Hall H1 H3).
    destruct (bearer_token_cut scheme t ws2 Hs Hall H2) as (Htr & Hsw & Hcut).
    rewrite Htr, Hsw, Hcut. cbn [negb]. destruct t; [contradiction | reflexivity].
  - intros header token. unfold Guard.getBearerToken.
    set (h := Js.trim (Js.or_else header "")). set (tok := Js.trim (Guard.sliceFrom 7 h)).
    destruct (negb (Js.truthy h)); [discriminate|].
    destruct (negb (Guard.startsWith _ _)); [discriminate|].
    destruct tok; simpl; [discriminate|]. intros [= <-]. discriminate.
Qed.

Lemma bearer_token_round_trip_witness :
  Guard.getBearerToken (Some "  BEARER   eyJhbGci.e30.c2ln ") = Some "eyJhbGci.e30.c2ln".
Proof.
  exact (proj1 (bearer_token_round_trip "BEARER" "eyJhbGci.e30.c2ln" "  " "  " " "
                  eq_refl ltac:(discriminate) eq_refl eq_refl eq_refl eq_refl)).
Defined.

Lemma findById_unique (db : Db) (u : User.t) :
  AuthFlow.UniqueUserIds db -> In u (users db) ->
  Guard.findById (Some (User._id u)) db = Some u.
Proof.
  intros Hid Hu. unfold Guard.findById.
  destruct (Mongo.findOne _ (users db)) as [v|] eqn:Hf.
  - apply findOne_Some in Hf. destruct Hf as [Hv Heq]. apply String.eqb_eq in Heq.
    f_equal. apply (NoDup_key_inj User._id (users db)); auto; now apply list_elem_of_In.
  - rewrite findOne_None_iff in Hf. specialize (Hf u Hu). rewrite String.eqb_refl in Hf.
    discriminate.
Qed.

Section Sessions.
Variable ext : Externals.
Variable jwt_sign : ObjectId -> string -> Z -> string.
Variable jwt_verify : string -> option Guard.Claims.

(** X17. The session token that [POST /login] hands out opens the guarded
    routes for that account: sent as [Authorization: Bearer <token>] it
    passes [requireAuth], which attaches the verified account the login
    found, and [GET /me] answers with the same id, name and email as the
    login did.  Once no account has that [_id] any more, the same token
    gets 401. *)
Theorem login_token_passes_the_guard (now : Z) (value : AuthFlow.LoginValue) (db : Db)
        (token : string) (id : ObjectId) (name email : string) :
  AuthFlow.UniqueUserIds db ->
  AuthFlow.login ext jwt_sign now (Valid value) db = AuthFlow.Session token id name email ->
  token <> "" ->
  Validators.all_chars (fun c => negb (Js.is_space c)) token = true ->
  jwt_verify token = Some {| Guard.sub := Some id |} ->
  (exists u,
      In u (users db) /\ User._id u = id /\ User.emailVerified u = true
      /\ token = jwt_sign id (User.email u) now
      /\ Guard.requireAuth jwt_verify (Some ("Bearer " +:+ token)) db = Guard.Next u)
  /\ Guard.me jwt_verify (Some ("Bearer " +:+ token)) db = Guard.MeUser id name email
  /\ (forall db',
        (forall u, In u (users db') -> User._id u <> id) ->
        Guard.me jwt_verify (Some ("Bearer " +:+ token)) db'
        = Guard.MeDenied 401 "Unauthorized").
Proof.
  intros Hid Hlogin Htok Hall Hver.
  assert (Hbearer : Guard.getBearerToken (Some ("Bearer " +:+ token)) = Some token).
  { exact (bearer_plain token Htok Hall). }
  unfold AuthFlow.login in Hlogin.
  destruct (AuthFlow.byEmail _ db) as [u|] eqn:Hf; [|discriminate].
  destruct (negb (Utils.comparePassword _ _ _)); [discriminate|].
  destruct (User.emailVerified u) eqn:Hv; [|discriminate]. simpl in Hlogin.
  unfold AuthFlow.sessionOf in Hlogin. injection Hlogin as Ht Hi Hn He.
  apply findOne_Some in Hf. destruct Hf as [Hu _].
  assert (Hauth : Guard.requireAuth jwt_verify (Some ("Bearer " +:+ token)) db = Guard.Next u).
  { unfold Guard.requireAuth. rewrite Hbearer, Hver. cbn [Guard.sub]. rewrite <- Hi.
    now rewrite (findById_unique db u Hid Hu). }
  split; [|split].
  - exists u. repeat split; auto. now rewrite <- Ht, Hi.
  - unfold Guard.me. rewrite Hauth. now rewrite Hi, Hn, He.
  - intros db' Hgone. unfold Guard.me, Guard.requireAuth. rewrite Hbearer, Hver.
    cbn [Guard.sub Guard.findById].
    destruct (Mongo.findOne _ (users db')) as [v|] eqn:Hf'; [|reflexivity].
    apply findOne_Some in Hf'. destruct Hf' as [Hv' Heq]. apply String.eqb_eq in Heq.
    exfalso. exact (Hgone v Hv' Heq).
Qed.

(** X18. The admin route needs an account with the role ["admin"], and no
    route of the API makes one.  [GET /admin/stats] answers with the
    counts exactly when the header carries a bearer token that verifies
    and whose [sub] is the [_id] of a stored account with the role
    ["admin"]; a token of an account with another role gets 403, and a
    header without a token that verifies and names an account gets 401.
    Register stores the role ["user"] and verify, resend-verify, forgot
    and reset leave the role of every account alone, so that a store
    without an admin stays without one and the route answers 401 or 403
    to every header. *)
Theorem admin_route_needs_an_admin_account :
  (forall authorization db s,
      Guard.adminStats jwt_verify authorization db = Guard.StatsJson s ->
      s = Guard.stats db
      /\ exists token payload id u,
           Guard.getBearerToken authorization = Some token
           /\ jwt_verify token = Some payload
           /\ Guard.sub payload = Some id
           /\ Mongo.findOne (fun v => String.eqb (User._id v) id) (users db) = Some u
           /\ In u (users db) /\ User._id u = id /\ User.role u = "admin")
  /\ (forall authorization db token payload id u,
        Guard.getBearerToken authorization = Some token ->
        jwt_verify token = Some payload ->
        Guard.sub payload = Some id ->
        Mongo.findOne (fun v => String.eqb (User._id v) id) (users db) = Some u ->
        Guard.adminStats jwt_verify authorization db
        = (if String.eqb (User.role u) "admin" then Guard.StatsJson (Guard.stats db)
           else Guard.StatsDenied 403 "Forbidden"))
  /\ (forall authorization db,
        (forall token payload id,
            Guard.getBearerToken authorization = Some token ->
            jwt_verify token = Some payload ->
            Guard.sub payload = Some id ->
            Mongo.findOne (fun v => String.eqb (User._id v) id) (users db) = None) ->
        Guard.adminStats jwt_verify authorization db = Guard.StatsDenied 401 "Unauthorized")
  /\ (forall authorization db,
        Guard.NoAdmin db ->
        Guard.adminStats jwt_verify authorization db = Guard.StatsDenied 401 "Unauthorized"
        \/ Guard.adminStats jwt_verify authorization db = Guard.StatsDenied 403 "Forbidden")
  /\ (forall db,
        Guard.NoAdmin db ->
        (forall rnd mailThrows newId now body,
            Guard.NoAdmin (snd (fst (AuthFlow.register ext rnd mailThrows newId now body db))))
        /\ (forall now body, Guard.NoAdmin (snd (AuthFlow.verify jwt_sign now body db)))
        /\ (forall rnd mailThrows now raw,
               Guard.NoAdmin (snd (fst (AuthFlow.resendVerify ext rnd mailThrows now raw db))))
        /\ (forall rnd mailThrows now body,
               Guard.NoAdmin (snd (fst (Auth.forgot ext rnd mailThrows now body db))))
        /\ (forall now body, Guard.NoAdmin (snd (AuthFlow.reset ext now body db)))).
Proof.
  assert (Hgate : forall authorization db u,
             Guard.adminGate jwt_verify authorization db = Guard.Next u ->
             exists token payload id,
               Guard.getBearerToken authorization = Some token
               /\ jwt_verify token = Some payload
               /\ Guard.sub payload = Some id
               /\ Mongo.findOne (fun v => String.eqb (User._id v) id) (users db) = Some u
               /\ In u (users db) /\ User._id u = id /\ User.role u = "admin").
  { intros authorization db u. unfold Guard.adminGate, Guard.requireAuth.
    destruct (Guard.getBearerToken authorization) as [tok|]; [|discriminate].
    destruct (jwt_verify tok) as [payload|] eqn:Hv; [|discriminate].
    destruct (Guard.findById (Guard.sub payload) db) as [v|] eqn:Hf; [|discriminate].
    unfold Guard.requireAdmin. destruct (String.eqb (User.role v) "admin") eqn:Hr;
      [|discriminate]. simpl. intros [= <-]. apply String.eqb_eq in Hr.
    unfold Guard.findById in Hf. destruct (Guard.sub payload) as [id|] eqn:Hs; [|discriminate].
    exists tok, payload, id. destruct (findOne_Some _ _ _ Hf) as [Hin Hid].
    apply String.eqb_eq in Hid. now repeat split. }
  assert (Hdeny : forall authorization db st msg,
             Guard.adminGate jwt_verify authorization db = Guard.Deny st msg ->
             (st = 401 /\ msg = "Unauthorized") \/ (st = 403 /\ msg = "Forbidden")).
  { intros authorization db st msg. unfold Guard.adminGate, Guard.requireAuth.
    destruct (Guard.getBearerToken authorization) as [tok|]; [|intros [= <- <-]; auto].
    destruct (jwt_verify tok) as [payload|]; [|intros [= <- <-]; auto].
    destruct (Guard.findById (Guard.sub payload) db) as [v|]; [|intros [= <- <-]; auto].
    unfold Guard.requireAdmin. destruct (negb _); [intros [= <- <-]; auto | discriminate]. }
  assert (Hsave : forall db user user',
             Guard.NoAdmin db -> In user (users db) -> User.role user' = User.role user ->
             Guard.NoAdmin (AuthFlow.save user' db)).
  { intros db user user' Hna Hin Hrole u Hu. unfold AuthFlow.save in Hu. simpl in Hu.
    apply updateOne_In in Hu. destruct Hu as [Hu | (x & _ & _ & ->)]; [exact (Hna u Hu)|].
    rewrite Hrole. exact (Hna user Hin). }
  split; [|split; [|split; [|split]]].
  - intros authorization db s. unfold Guard.adminStats.
    destruct (Guard.adminGate jwt_verify authorization db) as [st msg|u] eqn:Hg; [discriminate|].
    intros [= <-]. split; [reflexivity|].
    destruct (Hgate _ _ _ Hg) as (token & payload & id & H). exists token, payload, id, u. exact H.
  - intros authorization db token payload id u Hb Hv Hs Hf.
    unfold Guard.adminStats, Guard.adminGate, Guard.requireAuth, Guard.findById.
    rewrite Hb, Hv, Hs, Hf. unfold Guard.requireAdmin.
    destruct (String.eqb (User.role u) "admin"); reflexivity.
  - intros authorization db Hnone.
    unfold Guard.adminStats, Guard.adminGate, Guard.requireAuth, Guard.findById.
    destruct (Guard.getBearerToken authorization) as [tok|] eqn:Hb; [|reflexivity].
    destruct (jwt_verify tok) as [payload|] eqn:Hv; [|reflexivity].
    destruct (Guard.sub payload) as [id|] eqn:Hs; [|reflexivity].
    now rewrite (Hnone tok payload id eq_refl Hv Hs).
  - intros authorization db Hna. unfold Guard.adminStats.
    destruct (Guard.adminGate jwt_verify authorization db) as [st msg|u] eqn:Hg.
    + destruct (Hdeny _ _ _ _ Hg) as [[-> ->] | [-> ->]]; auto.
    + destruct (Hgate _ _ _ Hg) as (_ & _ & _ & _ & _ & _ & _ & Hu & _ & Hr).
      exfalso. exact (Hna u Hu Hr).
  - intros db Hna.
    assert (Hfound : forall e u, AuthFlow.byEmail e db = Some u -> In u (users db)).
    { intros e u H. exact (proj1 (findOne_Some _ _ _ H)). }
    split; [|split; [|split; [|split]]].
    + intros rnd mt newId now body. unfold AuthFlow.register.
      destruct body as [msg|value]; [exact Hna|].
      destruct (AuthFlow.byEmail _ db); [exact Hna|].
      destruct (negb (User.validates _)); [exact Hna|]. simpl.
      intros u Hu. apply in_app_or in Hu. destruct Hu as [Hu | [<- | []]];
        [exact (Hna u Hu) | discriminate].
    + intros now body. unfold AuthFlow.verify. destruct body as [msg|value]; [exact Hna|].
      destruct (AuthFlow.byEmail _ db) as [u|] eqn:Hf; [|exact Hna].
      destruct (_ || _); [exact Hna|]. simpl snd. apply (Hsave db u); eauto.
    + intros rnd mt now raw. unfold AuthFlow.resendVerify.
      destruct (AuthFlow.byEmail _ db) as [u|] eqn:Hf; [|exact Hna].
      destruct (User.emailVerified u); [exact Hna|]. simpl snd. apply (Hsave db u); eauto.
    + intros rnd mt now body. unfold Auth.forgot. destruct body as [msg|raw]; [exact Hna|].
      destruct (Mongo.findOne _ (users db)) as [u|] eqn:Hf; [|exact Hna].
      simpl. intros v Hv. apply updateOne_In in Hv.
      destruct Hv as [Hv | (x & Hx & _ & ->)]; [exact (Hna v Hv) | exact (Hna x Hx)].
    + intros now body. unfold AuthFlow.reset. destruct body as [msg|value]; [exact Hna|].
      destruct (AuthFlow.byEmail _ db) as [u|] eqn:Hf; [|exact Hna].
      destruct (User.resetCode u) as [c|]; [|exact Hna].
      destruct (User.resetCodeExpires u) as [e|]; [|exact Hna].
      destruct (_ || _); [exact Hna|]. simpl snd. apply (Hsave db u); eauto.
Qed.

End Sessions.

(** Alice logs in and asks for [/me] with the token she got. *)
Lemma login_token_passes_the_guard_witness :
  Guard.me Sample3.jwt_verify (Some "Bearer jwt.u1.alice@example.com") Sample.dbWithAlice
  = Guard.MeUser "u1" "Alice" "alice@example.com".
Proof.
  assert (Hid : AuthFlow.UniqueUserIds Sample.dbWithAlice).
  { apply (bool_decide_unpack _). vm_compute. reflexivity. }
  exact (proj1 (proj2 (login_token_passes_the_guard Sample.ext Sample2.jwt_sign
                         Sample3.jwt_verify 2000 Sample3.aliceLogin Sample.dbWithAlice
                         "jwt.u1.alice@example.com" "u1" "Alice" "alice@example.com"
                         Hid eq_refl ltac:(discriminate) eq_refl eq_refl))).
Defined.

(* ================================================================== *)
(** * Invariants of the link collection *)
(* ================================================================== *)

Lemma updateOne_map_inv {A B} (g : A -> B) (q : A -> bool) (f : A -> A) (l : list A) :
  (forall d, g (f d) = g d) -> map g (Mongo.updateOne q f l) = map g l.
Proof.
  intros Hg. induction l as [|d rest IH]; simpl; [reflexivity|].
  destruct (q d); simpl; [now rewrite Hg | now rewrite IH].
Qed.

Lemma updateOne_keeps_others {A} (q : A -> bool) (f : A -> A) (l : list A) (x : A) :
  In x l -> q x = false -> In x (Mongo.updateOne q f l).
Proof.
  induction l as [|d rest IH]; simpl; [tauto|]. intros [-> | Hx] Hq.
  - rewrite Hq. now left.
  - destruct (q d); right; [exact Hx | now apply IH].
Qed.

Section LinkStore.
Variable ext : Externals.

(** X19. No route stores a long URL that [isSafeUrl] rejects, and the
    redirect endpoint sends visitors nowhere else.  If every stored long
    URL passes the check, it still does after create, after update (with
    a body whose [longUrl], if present, is not empty, as the schema
    demands), after delete and after a click is logged; and every
    redirect the handler issues goes either to a URL that passes the
    check or to a path under [/r/]. *)
Theorem stored_urls_stay_safe (db : Db) :
  Store.AllSafe db ->
  (forall fuel gen meta user newId now body r db',
      Links.create ext fuel gen meta user newId now body db = Some (r, db') ->
      Store.AllSafe db')
  /\ (forall fetched user id now body,
         (forall v, body = Valid v -> Links.u_longUrl v <> Some "") ->
         Store.AllSafe (snd (Links.update ext fetched user id now body db)))
  /\ (forall user id, Store.AllSafe (LinkRoutes.delete user id db))
  /\ (forall fx newId now p, Store.AllSafe (Queue.inlineFallback fx newId now p db))
  /\ (forall now req status location,
         Redirect.response (Redirect.handler ext now req db)
         = Redirect.RedirectTo status location ->
         status = 302
         /\ (Validators.isSafeUrl location = true
             \/ Guard.startsWith "/r/" location = true)).
Proof.
  intros Hsafe. split; [|split; [|split; [|split]]].
  - intros fuel gen meta user newId now body r db'. unfold Links.create.
    destruct body as [msg|v]; [now intros [= _ <-]|].
    destruct (Validators.isSafeUrl (Links.c_longUrl v)) eqn:Hu; simpl negb; cbv iota;
      [|now intros [= _ <-]].
    assert (Hnew : forall code,
               Store.AllSafe
                 (set_links (fun ls => ls ++ [Links.newLink ext user newId now code meta v]) db)).
    { intros code l Hl. simpl in Hl. apply in_app_or in Hl.
      destruct Hl as [Hl | [<- | []]]; [exact (Hsafe l Hl) | exact Hu]. }
    destruct (negb (Js.truthy (Js.trim (Js.or_else (Links.c_code v) "")))).
    + destruct (Links.genLoop fuel gen 0 db) as [c|]; [|discriminate].
      intros [= _ <-]. apply Hnew.
    + destruct (Links.codeTaken _ db); [now intros [= _ <-]|].
      intros [= _ <-]. apply Hnew.
  - intros fetched user id now body Hbody. unfold Links.update.
    destruct body as [msg|v]; [exact Hsafe|]. specialize (Hbody v eq_refl).
    destruct (Js.truthy_opt (Links.u_longUrl v)
              && negb (Validators.isSafeUrl (Js.or_else (Links.u_longUrl v) ""))) eqn:Hg;
      [exact Hsafe|].
    match goal with |- context [if ?c then (Links.Error 409 _, _) else _] => destruct c end;
      [exact Hsafe|].
    destruct (Mongo.findOne _ (links db)) as [l0|]; [|exact Hsafe].
    simpl snd. intros l Hl. simpl in Hl. apply updateOne_In in Hl.
    destruct Hl as [Hl | (x & Hx & _ & ->)]; [exact (Hsafe l Hl)|].
    simpl. destruct (Links.u_longUrl v) as [u|]; [|exact (Hsafe x Hx)].
    simpl in Hg. destruct u as [|c u]; [contradiction|]. simpl in Hg.
    now apply negb_false_iff in Hg.
  - intros user id l Hl. unfold LinkRoutes.delete in Hl. simpl in Hl.
    destruct (deleteOne_spec (LinkRoutes.mine user id) (links db))
      as [Heq | (pre & v & post & Hsplit & Heq & _)]; rewrite Heq in Hl.
    + exact (Hsafe l Hl).
    + apply Hsafe. rewrite Hsplit. apply in_app_or in Hl. apply in_or_app.
      destruct Hl; [now left | right; now right].
  - intros fx newId now p l Hl.
    unfold Queue.inlineFallback, Queue.Click_create, Queue.Link_incClicks in Hl.
    destruct (Queue.createThrows fx); [exact (Hsafe l Hl)|].
    destruct (Queue.updateThrows fx); [exact (Hsafe l Hl)|].
    simpl in Hl. apply updateOne_In in Hl.
    destruct Hl as [Hl | (x & Hx & _ & ->)]; [exact (Hsafe l Hl) | exact (Hsafe x Hx)].
  - intros now req status location. rewrite handler_unfold.
    destruct (Mongo.findOne _ (links db)) as [link|] eqn:Hf; [|discriminate].
    apply findOne_Some in Hf. destruct Hf as [Hin _].
    destruct (negb (Link.isActive link)); [discriminate|].
    destruct (match Link.expiresAt link with Some e => e <? now | None => false end);
      [discriminate|].
    destruct (_ && _); [discriminate|].
    unfold Redirect.passwordGate.
    destruct (Js.truthy_opt (Link.passwordHash link)).
    + destruct (negb _ && negb _); [intros [= <- <-]; auto|].
      destruct (Js.truthy _ && negb _); [intros [= <- <-]; auto|].
      destruct (_ && negb _ && negb _); [intros [= <- <-]; auto|].
      intros [= <- <-]. split; [reflexivity|]. left. exact (Hsafe link Hin).
    + intros [= <- <-]. split; [reflexivity|]. left. exact (Hsafe link Hin).
Qed.

(** X20. [PATCH /api/links/:id] changes at most the link with that id that
    the caller owns.  Whatever the body, the collection keeps its length
    and order, every link keeps its [_id], owner, click counter and
    creation time, every link that has another id or another owner is
    still there unchanged, and the other collections are untouched. *)
Theorem update_touches_only_the_callers_link (fetched : option Links.PageMeta)
        (user id : ObjectId) (now : Z) (body : Validation Links.UpdateValue) (db : Db) :
  let db' := snd (Links.update ext fetched user id now body db) in
  map Store.fixedPart (links db') = map Store.fixedPart (links db)
  /\ (forall l, In l (links db) -> Link._id l <> id \/ Link.ownerId l <> user ->
                In l (links db'))
  /\ (forall l', In l' (links db') ->
                 In l' (links db) \/ (Link._id l' = id /\ Link.ownerId l' = user))
  /\ clicks db' = clicks db /\ users db' = users db
  /\ savedViews db' = savedViews db /\ annotations db' = annotations db.
Proof.
  intros db'. subst db'. unfold Links.update.
  destruct body as [msg|v]; [repeat split; auto|].
  destruct (_ && _); [repeat split; auto|].
  match goal with |- context [if ?c then (Links.Error 409 _, _) else _] => destruct c end;
    [repeat split; auto|].
  destruct (Mongo.findOne _ (links db)) as [l0|]; [|repeat split; auto].
  simpl snd. split; [|split; [|split]].
  - simpl. apply updateOne_map_inv. reflexivity.
  - intros l Hl Hother. simpl. apply updateOne_keeps_others; [exact Hl|].
    apply andb_false_iff. destruct Hother as [H | H]; [left | right];
      now apply String.eqb_neq.
  - intros l' Hl'. simpl in Hl'. apply updateOne_In in Hl'.
    destruct Hl' as [Hl' | (x & Hx & Hq & ->)]; [now left|]. right.
    apply andb_true_iff in Hq. destruct Hq as [H1 H2]. apply String.eqb_eq in H1, H2.
    simpl. auto.
  - repeat split.
Qed.

End LinkStore.

Lemma stored_urls_stay_safe_witness :
  Store.AllSafe Sample.db0
  /\ Store.AllSafe (LinkRoutes.delete "u1" "a1" Sample.db0).
Proof.
  assert (H : Store.AllSafe Sample.db0).
  { intros l Hl. simpl in Hl.
    repeat (destruct Hl as [<- | Hl]; [vm_compute; reflexivity|]). destruct Hl. }
  split; [exact H|].
  exact (proj1 (proj2 (proj2 (stored_urls_stay_safe Sample.ext Sample.db0 H))) "u1" "a1").
Defined.

(* ================================================================== *)
(** * The payload of a logged click *)
(* ================================================================== *)

Lemma or_else_truthy (o : option string) (d : string) :
  d <> "" -> Js.or_else o d <> "".
Proof.
  intros Hd. unfold Js.or_else. destruct o as [s|]; [|exact Hd].
  destruct s; simpl; [exact Hd | discriminate].
Qed.

Lemma upper_char_idem (c : ascii) : Js.upper_char (Js.upper_char c) = Js.upper_char c.
Proof. destruct c as [[] [] [] [] [] [] [] []]; vm_compute; reflexivity. Qed.

Lemma toUpperCase_idem (s : string) : Js.toUpperCase (Js.toUpperCase s) = Js.toUpperCase s.
Proof.
  unfold Js.toUpperCase. induction s as [|c s IH]; simpl; [reflexivity|].
  now rewrite upper_char_idem, IH.
Qed.

Lemma utm_field_spec (q : option string) (s : string) :
  Utils.utm_field q = Some s ->
  s <> "" /\ (String.length s <= 64)%nat /\ exists v, q = Some v /\ s = Js.slice0 64 v.
Proof.
  unfold Utils.utm_field. destruct q as [v|]; [|discriminate].
  destruct v as [|c v]; simpl; [discriminate|]. intros [= <-].
  split; [discriminate|]. split.
  - exact (slice0_length 64 (String c v)).
  - exists (String c v). split; reflexivity.
Qed.

Lemma truthy_nonempty (s : string) : Js.truthy s = true -> s <> "".
Proof. destruct s; [discriminate | discriminate]. Qed.

Lemma parseUA_nonempty (ext : Externals) (ua : string) :
  fst (Utils.parseUA ext ua) <> "" /\ snd (Utils.parseUA ext ua) <> "".
Proof.
  unfold Utils.parseUA. destruct (UAParser ext ua) as [[ty nm]|]; simpl;
    [|split; discriminate].
  split; [|apply or_else_truthy; discriminate].
  destruct (Js.truthy (Js.or_else ty "desktop")) eqn:Ht;
    [now apply truthy_nonempty | discriminate].
Qed.

Lemma parseUTM_spec (q : gmap string string) :
  match Utils.parseUTM q with
  | None =>
      Utils.utm_field (q !! "utm_source") = None
      /\ Utils.utm_field (q !! "utm_medium") = None
      /\ Utils.utm_field (q !! "utm_campaign") = None
  | Some u =>
      Click.source u = Utils.utm_field (q !! "utm_source")
      /\ Click.medium u = Utils.utm_field (q !! "utm_medium")
      /\ Click.campaign u = Utils.utm_field (q !! "utm_campaign")
      /\ (Click.source u <> None \/ Click.medium u <> None \/ Click.campaign u <> None)
  end.
Proof.
  unfold Utils.parseUTM. cbn [Click.source Click.medium Click.campaign].
  destruct (Utils.utm_field (q !! "utm_source")) as [a|];
    destruct (Utils.utm_field (q !! "utm_medium")) as [b|];
    destruct (Utils.utm_field (q !! "utm_campaign")) as [c|];
    cbn [Click.source Click.medium Click.campaign]; repeat split;
    try (left; discriminate); try (right; left; discriminate);
    try (right; right; discriminate).
Qed.

Lemma utm_field_truthy (q : option string) :
  Utils.utm_field q = None <-> Js.truthy_opt q = false.
Proof.
  unfold Utils.utm_field. destruct q as [[|c v]|]; simpl; split; try reflexivity;
    discriminate.
Qed.

(** X21. What the redirect handler hands to the click log is well formed
    for every request: the click carries the id of the link served, a
    non-empty referer ("direct" when the header is missing or empty), a
    non-empty device and browser, an address digest of at most 32
    characters, a country that is absent or a non-empty upper-case code,
    and UTM fields that are absent or non-empty prefixes, of at most 64
    characters, of the query parameters; [utm] is [null] exactly when
    none of the three parameters is set. *)
Theorem click_payload_is_well_formed (ext : Externals) (now : Z) (req : Redirect.Request)
        (link : Link.t) :
  let p := Redirect.clickPayload ext now req link in
  let q := Redirect.query req in
  Click.p_linkId p = Link._id link
  /\ Click.p_referer p <> ""
  /\ Click.p_device p <> "" /\ Click.p_browser p <> ""
  /\ (String.length (Click.p_ipHash p) <= 32)%nat
  /\ (forall c, Click.p_country p = Some c -> c <> "" /\ Js.toUpperCase c = c)
  /\ (Click.p_utm p = None <->
      Js.truthy_opt (q !! "utm_source") = false
      /\ Js.truthy_opt (q !! "utm_medium") = false
      /\ Js.truthy_opt (q !! "utm_campaign") = false)
  /\ (forall u, Click.p_utm p = Some u ->
        (forall s, Click.source u = Some s ->
           s <> "" /\ (String.length s <= 64)%nat
           /\ exists v, q !! "utm_source" = Some v /\ s = Js.slice0 64 v)
        /\ (forall s, Click.medium u = Some s ->
              s <> "" /\ (String.length s <= 64)%nat
              /\ exists v, q !! "utm_medium" = Some v /\ s = Js.slice0 64 v)
        /\ (forall s, Click.campaign u = Some s ->
              s <> "" /\ (String.length s <= 64)%nat
              /\ exists v, q !! "utm_campaign" = Some v /\ s = Js.slice0 64 v)).
Proof.
  intros p q. subst p q. unfold Redirect.clickPayload. cbn [Click.p_linkId Click.p_referer
    Click.p_device Click.p_browser Click.p_ipHash Click.p_country Click.p_utm].
  split; [reflexivity|]. split; [apply or_else_truthy; discriminate|].
  split; [apply parseUA_nonempty|]. split; [apply parseUA_nonempty|].
  split; [unfold Utils.ipHash; apply slice0_length|].
  split.
  { intros c. unfold Utils.getCountryFromHeaders.
    destruct (Utils.first_truthy _ _ _) as [s|]; [|discriminate].
    destruct (Js.truthy (Js.toUpperCase s)) eqn:Ht; [|discriminate].
    intros [= <-]. split; [now apply truthy_nonempty | apply toUpperCase_idem]. }
  pose proof (parseUTM_spec (Redirect.query req)) as Hspec.
  destruct (Utils.parseUTM (Redirect.query req)) as [u|].
  - destruct Hspec as (Hs & Hm & Hc & Hany). split.
    + split; [discriminate|]. intros (H1 & H2 & H3). exfalso.
      apply utm_field_truthy in H1, H2, H3. rewrite Hs, Hm, Hc in Hany.
      destruct Hany as [H | [H | H]]; contradiction.
    + intros u' [= <-]. rewrite Hs, Hm, Hc.
      split; [|split]; intros s0 Hfield; now apply utm_field_spec in Hfield.
  - destruct Hspec as (Hs & Hm & Hc). split; [|discriminate].
    split; [|reflexivity]. intros _. now rewrite <- !utm_field_truthy.
Qed.

(* ================================================================== *)
(** * Properties of the analytics panels *)
(* ================================================================== *)

Lemma ascii_compare_refl (a : ascii) : Ascii.compare a a = Eq.
Proof. unfold Ascii.compare. apply N.compare_refl. Qed.

Lemma ascii_compare_lt_trans (a b c : ascii) :
  Ascii.compare a b = Lt -> Ascii.compare b c = Lt -> Ascii.compare a c = Lt.
Proof.
  unfold Ascii.compare. rewrite !N.compare_lt_iff. apply N.lt_trans.
Qed.

Lemma string_compare_le_trans (s1 : string) : forall s2 s3,
  String.compare s1 s2 <> Gt -> String.compare s2 s3 <> Gt -> String.compare s1 s3 <> Gt.
Proof.
  induction s1 as [|a s1 IH]; intros [|b s2] [|c s3]; simpl; try congruence.
  destruct (Ascii.compare a b) eqn:Hab; [| |congruence];
    destruct (Ascii.compare b c) eqn:Hbc; try congruence.
  - apply Ascii.compare_eq_iff in Hab, Hbc. subst. rewrite ascii_compare_refl. apply IH.
  - apply Ascii.compare_eq_iff in Hab. subst. now rewrite Hbc.
  - apply Ascii.compare_eq_iff in Hbc. subst. now rewrite Hab.
  - now rewrite (ascii_compare_lt_trans a b c Hab Hbc).
Qed.

Lemma string_leb_trans (a b c : string) :
  String.leb a b = true -> String.leb b c = true -> String.leb a c = true.
Proof.
  unfold String.leb. intros H1 H2.
  pose proof (string_compare_le_trans a b c) as H.
  destruct (String.compare a b); destruct (String.compare b c);
    destruct (String.compare a c); try reflexivity; try discriminate;
    exfalso; apply H; congruence.
Qed.

Lemma string_leb_total (a b : string) : String.leb a b = false -> String.leb b a = true.
Proof. intros H. destruct (String.leb_total a b) as [H' | H']; congruence. Qed.

(** The buckets of a [$group]: one per key, each counting at least one
    document. *)
Lemma bump_keys {K} (eqb : K -> K -> bool) (k : K) (acc : list (K * Z)) :
  (forall a b, eqb a b = true <-> a = b) ->
  NoDup (map fst acc) ->
  NoDup (map fst (Analytics.bump eqb k acc))
  /\ (forall x, In x (map fst (Analytics.bump eqb k acc)) <-> x = k \/ In x (map fst acc)).
Proof.
  intros Heq. induction acc as [|[k' n] rest IH]; simpl; intros Hnd.
  - split; [apply NoDup_singleton|]. intros x. split; [intros [<- | []]; auto|].
    intros [-> | []]. now left.
  - apply NoDup_cons in Hnd. destruct Hnd as [Hk' Hnd].
    destruct (eqb k k') eqn:Hkk; simpl.
    + apply Heq in Hkk. subst k'. split; [apply NoDup_cons; auto|].
      intros x. split; [tauto|]. intros [-> | H]; auto.
    + destruct (IH Hnd) as [IH1 IH2]. split.
      * apply NoDup_cons. split; [|exact IH1]. intros Hin. apply list_elem_of_In in Hin.
        apply IH2 in Hin. destruct Hin as [-> | Hin].
        -- assert (eqb k k = true) by now apply Heq. congruence.
        -- apply Hk'. now apply list_elem_of_In.
      * intros x. rewrite IH2. tauto.
Qed.

Lemma groupCount_keys {A K} (eqb : K -> K -> bool) (key : A -> K) (docs : list A) :
  (forall a b, eqb a b = true <-> a = b) ->
  NoDup (map fst (Analytics.groupCount eqb key docs))
  /\ (forall x, In x (map fst (Analytics.groupCount eqb key docs)) <-> In x (map key docs)).
Proof.
  intros Heq. unfold Analytics.groupCount.
  assert (Hgen : forall acc, NoDup (map fst acc) ->
            NoDup (map fst (fold_left (fun acc d => Analytics.bump eqb (key d) acc) docs acc))
            /\ (forall x, In x (map fst (fold_left (fun acc d => Analytics.bump eqb (key d) acc)
                                           docs acc))
                          <-> In x (map key docs) \/ In x (map fst acc))).
  { induction docs as [|d rest IH]; intros acc Hacc; simpl.
    - split; [exact Hacc|]. intros x. tauto.
    - destruct (bump_keys eqb (key d) acc Heq Hacc) as [H1 H2].
      destruct (IH _ H1) as [H3 H4]. split; [exact H3|].
      intros x. rewrite H4, H2. split; intros H; intuition auto. }
  destruct (Hgen [] (NoDup_nil_2)) as [H1 H2]. split; [exact H1|].
  intros x. rewrite H2. simpl. tauto.
Qed.

Lemma bump_positive {K} (eqb : K -> K -> bool) (k : K) (acc : list (K * Z)) :
  Forall (fun r => 1 <= snd r) acc -> Forall (fun r => 1 <= snd r) (Analytics.bump eqb k acc).
Proof.
  induction acc as [|[k' n] rest IH]; simpl; intros H.
  - constructor; [simpl; lia | constructor].
  - inversion H as [|? ? Hn Hrest]; subst. simpl in Hn.
    destruct (eqb k k'); constructor; simpl; auto; lia.
Qed.

Lemma groupCount_positive {A K} (eqb : K -> K -> bool) (key : A -> K) (docs : list A) :
  Forall (fun r => 1 <= snd r) (Analytics.groupCount eqb key docs).
Proof.
  unfold Analytics.groupCount.
  assert (Hgen : forall acc, Forall (fun r : K * Z => 1 <= snd r) acc ->
            Forall (fun r => 1 <= snd r)
              (fold_left (fun acc d => Analytics.bump eqb (key d) acc) docs acc)).
  { induction docs as [|d rest IH]; intros acc Hacc; simpl; [exact Hacc|].
    apply IH, bump_positive, Hacc. }
  apply Hgen. constructor.
Qed.

Lemma sort_by_Forall {A} (le : A -> A -> bool) (P : A -> Prop) (l : list A) :
  Forall P l -> Forall P (Mongo.sort_by le l).
Proof.
  intros H. apply List.Forall_forall. intros x Hx. apply sort_by_In in Hx.
  rewrite List.Forall_forall in H. auto.
Qed.

Lemma sort_by_NoDup {A B} (le : A -> A -> bool) (f : A -> B) (l : list A) :
  NoDup (map f l) -> NoDup (map f (Mongo.sort_by le l)).
Proof.
  intros H. eapply NoDup_Permutation_proper; [|exact H].
  apply Permutation_map, sort_by_perm.
Qed.

Lemma strictly_sorted {A} (key : A -> string) (l : list A) :
  StronglySorted (fun a b => String.leb (key a) (key b) = true) l ->
  NoDup (map key l) ->
  StronglySorted (fun a b => String.leb (key a) (key b) = true /\ key a <> key b) l.
Proof.
  induction 1 as [|x rest Hs IH Hx]; intros Hnd; [constructor|].
  simpl in Hnd. apply NoDup_cons in Hnd. destruct Hnd as [Hnx Hnd].
  constructor; [apply IH, Hnd|].
  apply List.Forall_forall. intros y Hy. rewrite List.Forall_forall in Hx.
  split; [apply Hx, Hy|]. intros Heq. apply Hnx. rewrite Heq.
  apply list_elem_of_In, in_map, Hy.
Qed.

Lemma string_eqb_iff (a b : string) : String.eqb a b = true <-> a = b.
Proof. apply String.eqb_eq. Qed.

Lemma series_sorted (ext : Externals) (m : Click.t -> bool) (fmt : string) (tzMin : Z)
      (cs : list Click.t) :
  StronglySorted (fun a b => String.leb (fst a) (fst b) = true /\ fst a <> fst b)
    (Analytics.seriesByDay ext m fmt tzMin cs)
  /\ Forall (fun r => 1 <= snd r) (Analytics.seriesByDay ext m fmt tzMin cs).
Proof.
  unfold Analytics.seriesByDay, Analytics.sortByDay. split.
  - apply (strictly_sorted fst).
    + apply (sort_by_sorted (fun a b : string * Z => String.leb (fst a) (fst b))).
      * intros a b. apply string_leb_total.
      * intros a b c. apply string_leb_trans.
    + apply sort_by_NoDup. apply groupCount_keys. exact string_eqb_iff.
  - apply sort_by_Forall, groupCount_positive.
Qed.

Lemma opt_eqb_iff (a b : option string) : Analytics.opt_eqb a b = true <-> a = b.
Proof.
  destruct a as [x|], b as [y|]; simpl; split; try discriminate; try reflexivity.
  - intros H. apply String.eqb_eq in H. now subst.
  - intros [= ->]. apply String.eqb_refl.
Qed.

Lemma addToDay_days (d key : string) (n : Z) (rows : list Analytics.SeriesRow) :
  NoDup (map Analytics.s_day rows) ->
  NoDup (map Analytics.s_day (Analytics.addToDay d key n rows))
  /\ (forall x, In x (map Analytics.s_day (Analytics.addToDay d key n rows))
                <-> x = d \/ In x (map Analytics.s_day rows)).
Proof.
  induction rows as [|r rest IH]; simpl; intros Hnd.
  - split; [apply NoDup_singleton|]. intros x. split; [intros [<- | []]; auto|].
    intros [-> | []]. now left.
  - apply NoDup_cons in Hnd. destruct Hnd as [Hr Hnd].
    destruct (String.eqb (Analytics.s_day r) d) eqn:Hd; simpl.
    + apply String.eqb_eq in Hd. subst d. split; [apply NoDup_cons; auto|].
      intros x. split; [tauto|]. intros [-> | H]; auto.
    + destruct (IH Hnd) as [IH1 IH2]. split.
      * apply NoDup_cons. split; [|exact IH1]. intros Hin. apply list_elem_of_In in Hin.
        apply IH2 in Hin. destruct Hin as [Heq | Hin].
        -- rewrite Heq, String.eqb_refl in Hd. discriminate.
        -- apply Hr. now apply list_elem_of_In.
      * intros x. rewrite IH2. tauto.
Qed.

Lemma addTo_In (key : string) (n : Z) (counts : list (string * Z)) (k : string) (v : Z) :
  In (k, v) (Analytics.addTo key n counts) ->
  In (k, v) counts \/ (k = key /\ (v = n \/ exists m, In (k, m) counts /\ v = m + n)).
Proof.
  induction counts as [|[k' m] rest IH]; simpl.
  - intros [[= <- <-] | []]. right. auto.
  - destruct (String.eqb k' key) eqn:Hk; simpl.
    + apply String.eqb_eq in Hk. subst k'.
      intros [[= <- <-] | H]; [|left; now right]. right. split; [reflexivity|].
      right. exists m. split; [now left | reflexivity].
    + intros [[= <- <-] | H]; [left; now left|].
      destruct (IH H) as [H' | (-> & [-> | (m' & Hm' & ->)])].
      * left. now right.
      * right. auto.
      * right. split; [reflexivity|]. right. exists m'. split; [now right | reflexivity].
Qed.

Lemma addToDay_In (d key : string) (n : Z) (rows : list Analytics.SeriesRow)
      (row : Analytics.SeriesRow) (k : string) (v : Z) :
  In row (Analytics.addToDay d key n rows) -> In (k, v) (Analytics.s_counts row) ->
  (exists row0, In row0 rows /\ In (k, v) (Analytics.s_counts row0))
  \/ (k = key /\ (v = n \/ exists row0 m, In row0 rows /\ In (k, m) (Analytics.s_counts row0)
                                          /\ v = m + n)).
Proof.
  induction rows as [|r rest IH]; simpl.
  - intros [<- | []]. simpl. intros [[= <- <-] | []]. right. auto.
  - destruct (String.eqb (Analytics.s_day r) d); simpl.
    + intros [<- | H] Hk.
      * simpl in Hk. apply addTo_In in Hk.
        destruct Hk as [Hk | (-> & [-> | (m & Hm & ->)])].
        -- left. exists r. split; [now left | exact Hk].
        -- right. auto.
        -- right. split; [reflexivity|]. right. exists r, m. repeat split; auto.
      * left. exists row. split; [now right | exact Hk].
    + intros [<- | H] Hk.
      * left. exists r. split; [now left | exact Hk].
      * destruct (IH H Hk) as [(row0 & H0 & H1) | (-> & [-> | (row0 & m & H0 & H1 & ->)])].
        -- left. exists row0. split; [now right | exact H1].
        -- right. auto.
        -- right. split; [reflexivity|]. right. exists row0, m. repeat split; auto.
Qed.

Lemma omap_nil_inv {A B} (f : A -> option B) (l : list A) :
  omap f l = [] -> forall x, In x l -> f x = None.
Proof.
  induction l as [|a rest IH]; simpl; [tauto|].
  destruct (f a) eqn:Hfa; [discriminate|]. intros H x [<- | Hx]; auto.
Qed.

Lemma omap_length_le {A B} (f : A -> option B) (l : list A) :
  (length (omap f l) <= length l)%nat.
Proof.
  induction l as [|a rest IH]; simpl; [lia|].
  change (list_omap A B f rest) with (omap f rest). destruct (f a); simpl; lia.
Qed.

Lemma falsy_keys_are_few (l : list (option string)) :
  NoDup l -> (forall v, In v l -> Js.truthy_opt v = false) -> (length l <= 2)%nat.
Proof.
  intros Hnd Hall.
  assert (Hcases : forall v, In v l -> v = None \/ v = Some "").
  { intros v Hv. specialize (Hall v Hv). destruct v as [[|c s]|]; auto. discriminate. }
  destruct l as [|a [|b [|c rest]]]; simpl; try lia. exfalso.
  apply NoDup_cons in Hnd. destruct Hnd as [Ha Hnd].
  apply NoDup_cons in Hnd. destruct Hnd as [Hb Hnd].
  apply NoDup_cons in Hnd. destruct Hnd as [Hc _].
  rewrite !elem_of_cons in Ha. rewrite !elem_of_cons in Hb.
  destruct (Hcases a) as [-> | ->]; [now left|..];
    destruct (Hcases b) as [-> | ->]; try (right; now left); try tauto;
    destruct (Hcases c) as [-> | ->]; try (right; right; now left); tauto.
Qed.

Section Breakdown.
Variable ext : Externals.

Lemma top_keys_cover (breakdown : string) (m : Click.t -> bool) (cs : list Click.t)
      (c : Click.t) (k : string) :
  Analytics.wantsBreakdown breakdown = true ->
  In c (Mongo.find_all m cs) ->
  Analytics.breakdownLabel breakdown (Analytics.breakdownField breakdown c) = Some k ->
  Analytics.topBreakdownKeys breakdown m cs <> [].
Proof.
  intros Hw Hc Hlabel Hnil. unfold Analytics.topBreakdownKeys in Hnil. rewrite Hw in Hnil.
  set (G := Analytics.groupCount Analytics.opt_eqb (Analytics.breakdownField breakdown)
              (Mongo.find_all m cs)) in *.
  set (S := Mongo.sort_by (fun a b : option string * Z => snd b <=? snd a) G) in *.
  pose proof (omap_nil_inv _ _ Hnil) as Hnone.
  destruct (groupCount_keys Analytics.opt_eqb (Analytics.breakdownField breakdown)
              (Mongo.find_all m cs) opt_eqb_iff) as [Hnd Hkeys]. fold G in Hnd, Hkeys.
  assert (HndS : NoDup (map fst S)) by (apply sort_by_NoDup, Hnd).
  assert (HinS : In (Analytics.breakdownField breakdown c) (map fst S)).
  { apply (Permutation_in (l := map fst G)).
    - apply Permutation_map. symmetry. apply sort_by_perm.
    - apply Hkeys. apply in_map, Hc. }
  destruct (Nat.le_gt_cases (length S) 6) as [Hle | Hgt].
  - rewrite firstn_all2 in Hnone by exact Hle.
    apply in_map_iff in HinS. destruct HinS as (a & Ha & HaS).
    specialize (Hnone a HaS). simpl in Hnone. rewrite Ha, Hlabel in Hnone. discriminate.
  - assert (Hlen : length (map fst (firstn 6 S)) = 6%nat)
      by (rewrite length_map, length_firstn; lia).
    assert (Hfew : (length (map fst (firstn 6 S)) <= 2)%nat).
    { apply falsy_keys_are_few.
      - rewrite <- firstn_map. eapply sublist_NoDup; [exact HndS | apply sublist_take].
      - intros v Hv. apply in_map_iff in Hv. destruct Hv as (a & <- & Ha).
        specialize (Hnone a Ha). simpl in Hnone. unfold Analytics.breakdownLabel in Hnone.
        destruct (Js.truthy_opt (fst a)) eqn:Ht; [|reflexivity].
        destruct (fst a); discriminate. }
    lia.
Qed.

(** X22. The breakdown of the overview is consistent with its legend:
    [breakdownKeys] holds at most 6 keys, and every key that carries a
    count in a row of [breakdownSeries] is one of them; the counts are
    positive and the rows come one per day, in increasing order of the
    day. *)
Theorem breakdown_series_use_the_listed_keys (now : Z) (ownerId : ObjectId)
        (range : option string) (compare : bool) (tzMin : Z)
        (filters : Analytics.ClickFilter) (breakdown : string) (db : Db) :
  let o := Analytics.buildOverviewPayload ext now ownerId range compare tzMin filters
             breakdown db in
  (length (Analytics.breakdownKeys o) <= 6)%nat
  /\ (forall row k n,
        In row (Analytics.breakdownSeries o) -> In (k, n) (Analytics.s_counts row) ->
        In k (Analytics.breakdownKeys o) /\ 1 <= n)
  /\ StronglySorted
       (fun a b => String.leb (Analytics.s_day a) (Analytics.s_day b) = true
                   /\ Analytics.s_day a <> Analytics.s_day b)
       (Analytics.breakdownSeries o).
Proof.
  intros o. subst o. unfold Analytics.buildOverviewPayload.
  destruct (map Link._id _) as [|i0 ids] eqn:Hids; cbn [Analytics.breakdownKeys
    Analytics.breakdownSeries];
    [split; [simpl; lia | split; [intros ? ? ? [] | constructor]]|].
  set (mNow := Analytics.matchNow (i0 :: ids) _ filters).
  set (fmt := Analytics.dateFormatForRange _).
  set (keys := Analytics.topBreakdownKeys breakdown mNow (clicks db)).
  split.
  { unfold keys, Analytics.topBreakdownKeys. destruct (Analytics.wantsBreakdown breakdown);
      [|simpl; lia].
    etransitivity; [apply omap_length_le|]. rewrite length_firstn. lia. }
  unfold Analytics.breakdownRows.
  destruct (Analytics.wantsBreakdown breakdown) eqn:Hw;
    [|split; [intros ? ? ? [] | constructor]].
  set (agg := Mongo.sort_by _ (Analytics.groupCount _ _ (Mongo.find_all mNow (clicks db)))).
  match goal with |- context [fold_left ?f agg []] => set (step := f) end.
  assert (Hagg : forall a, In a agg ->
             1 <= snd a
             /\ exists c, In c (Mongo.find_all mNow (clicks db))
                          /\ Analytics.breakdownField breakdown c = snd (fst a)).
  { intros a Ha. unfold agg in Ha. split.
    - pose proof (sort_by_Forall
                    (fun a b : (string * option string) * Z =>
                       String.leb (fst (fst a)) (fst (fst b)))
                    (fun r => 1 <= snd r) _
                    (groupCount_positive
                       (fun a b => String.eqb (fst a) (fst b)
                                   && Analytics.opt_eqb (snd a) (snd b))
                       (fun c => (dateToString ext fmt
                                    (Click.ts c + tzMin * Analytics.MS_PER_MIN),
                                  Analytics.breakdownField breakdown c))
                       (Mongo.find_all mNow (clicks db)))) as Hpos.
      rewrite List.Forall_forall in Hpos. apply Hpos, Ha.
    - apply sort_by_In in Ha.
      assert (Hk : In (fst a)
                     (map fst
                        (Analytics.groupCount
                           (fun a b => String.eqb (fst a) (fst b)
                                       && Analytics.opt_eqb (snd a) (snd b))
                           (fun c => (dateToString ext fmt
                                        (Click.ts c + tzMin * Analytics.MS_PER_MIN),
                                      Analytics.breakdownField breakdown c))
                           (Mongo.find_all mNow (clicks db)))))
        by (apply in_map, Ha).
      apply groupCount_keys in Hk.
      + apply in_map_iff in Hk. destruct Hk as (c & Hc & Hin). exists c.
        split; [exact Hin|]. now rewrite <- Hc.
      + intros [d1 v1] [d2 v2]. simpl. rewrite andb_true_iff, String.eqb_eq, opt_eqb_iff.
        split; [intros [-> ->]; reflexivity | intros [= -> ->]; auto]. }
  assert (Hinv : forall (l : list ((string * option string) * Z)) rows,
             (forall a, In a l -> In a agg) ->
             (forall row k n, In row rows -> In (k, n) (Analytics.s_counts row) ->
                              In k keys /\ 1 <= n) ->
             NoDup (map Analytics.s_day rows) ->
             (forall row k n, In row (fold_left step l rows) ->
                              In (k, n) (Analytics.s_counts row) -> In k keys /\ 1 <= n)
             /\ NoDup (map Analytics.s_day (fold_left step l rows))).
  { induction l as [|a rest IH]; intros rows Hsub Hrows Hnd; simpl; [split; assumption|].
    apply IH.
    - intros a' Ha'. apply Hsub. now right.
    - unfold step at 1.
      destruct (Analytics.breakdownLabel breakdown (snd (fst a))) as [key|] eqn:Hlab;
        [|exact Hrows].
      destruct (negb (Nat.eqb (length keys) 0) && negb (existsb (String.eqb key) keys))
        eqn:Hskip; [exact Hrows|].
      destruct (Hagg a (Hsub a (or_introl eq_refl))) as [Hpos (c & Hc & Hfield)].
      assert (Hkey : In key keys).
      { apply andb_false_iff in Hskip. destruct Hskip as [H | H].
        - apply negb_false_iff, Nat.eqb_eq in H. exfalso.
          apply (top_keys_cover breakdown mNow (clicks db) c key Hw Hc).
          + now rewrite Hfield.
          + fold keys. now destruct keys.
        - apply negb_false_iff, existsb_exists in H. destruct H as (x & Hx & Heq).
          apply String.eqb_eq in Heq. now subst. }
      intros row k n Hrow Hk. apply (addToDay_In _ _ _ _ _ _ _ Hrow) in Hk.
      destruct Hk as [(row0 & H0 & H1) | (-> & [-> | (row0 & m0 & H0 & H1 & ->)])].
      + exact (Hrows row0 k n H0 H1).
      + auto.
      + split; [exact Hkey|]. destruct (Hrows row0 key m0 H0 H1). lia.
    - unfold step at 1.
      destruct (Analytics.breakdownLabel breakdown (snd (fst a))) as [key|]; [|exact Hnd].
      destruct (negb _ && negb _); [exact Hnd|]. now apply addToDay_days. }
  destruct (Hinv agg [] (fun a H => H) (fun row k n H => match H with end) (NoDup_nil_2))
    as [Hkeys Hnd].
  split.
  - intros row k n Hrow Hk. apply sort_by_In in Hrow. exact (Hkeys row k n Hrow Hk).
  - apply (strictly_sorted Analytics.s_day).
    + apply (sort_by_sorted
               (fun a b : Analytics.SeriesRow =>
                  String.leb (Analytics.s_day a) (Analytics.s_day b))).
      * intros a b. apply string_leb_total.
      * intros a b c. apply string_leb_trans.
    + apply sort_by_NoDup, Hnd.
Qed.

End Breakdown.

(** X23. The time series of the overview and of the per-link report list
    every day once: the rows of [byDay] (and of [byDayPrev]) come in
    strictly increasing order of the day, and no row has a count below
    1, so a day without clicks has no row at all. *)
Theorem series_days_are_distinct_and_ordered (ext : Externals) (now : Z) (ownerId : ObjectId)
        (range : option string) (compare : bool) (tzMin : Z)
        (filters : Analytics.ClickFilter) (breakdown : string) (db : Db) :
  let ordered (rows : list Analytics.DayRow) :=
    StronglySorted
      (fun a b => String.leb (Analytics.day a) (Analytics.day b) = true
                  /\ Analytics.day a <> Analytics.day b) rows
    /\ Forall (fun r => 1 <= Analytics.dayClicks r) rows in
  let o := Analytics.buildOverviewPayload ext now ownerId range compare tzMin filters
             breakdown db in
  ordered (Analytics.byDay o)
  /\ ordered (Analytics.byDayPrev o)
  /\ (forall user id q rep,
        LinkAnalytics.analytics ext now user id q db = LinkAnalytics.ReportJson rep ->
        ordered (LinkAnalytics.byDay rep)).
Proof.
  intros ordered o.
  assert (Hrows : forall m fmt tz cs,
             ordered (Analytics.toDayRows (Analytics.seriesByDay ext m fmt tz cs))).
  { intros m fmt tz cs. destruct (series_sorted ext m fmt tz cs) as [Hs Hp]. split.
    - unfold Analytics.toDayRows.
      apply (StronglySorted_map
               (fun a b => String.leb (Analytics.day a) (Analytics.day b) = true
                           /\ Analytics.day a <> Analytics.day b)). exact Hs.
    - unfold Analytics.toDayRows. apply List.Forall_forall. intros r Hr.
      apply in_map_iff in Hr. destruct Hr as (d & <- & Hd).
      rewrite List.Forall_forall in Hp. exact (Hp d Hd). }
  assert (Hnil : ordered []) by (split; constructor).
  subst o. unfold Analytics.buildOverviewPayload.
  split; [|split].
  - destruct (map Link._id _); cbn [Analytics.byDay]; [exact Hnil | apply Hrows].
  - destruct (map Link._id _); cbn [Analytics.byDayPrev]; [exact Hnil | apply Hrows].
  - intros user id q rep. unfold LinkAnalytics.analytics.
    destruct (Mongo.findOne _ (links db)); [|discriminate].
    intros [= <-]. cbn [LinkAnalytics.byDay]. apply Hrows.
Qed.

Lemma sumCounts_labelled (d : string) (rows : list (string * Z)) :
  Analytics.sumCounts (LinkAnalytics.labelled d rows) = Analytics.sumCounts rows.
Proof.
  unfold LinkAnalytics.labelled, Analytics.sumCounts.
  induction rows as [|r rest IH]; simpl; [reflexivity|]. f_equal. exact IH.
Qed.

Lemma sumCounts_nonneg {K} (rows : list (K * Z)) :
  Forall (fun r => 1 <= snd r) rows -> 0 <= Analytics.sumCounts rows.
Proof. induction 1 as [|r rest Hr _ IH]; simpl; lia. Qed.

Lemma sumCounts_firstn_le {K} (n : nat) (rows : list (K * Z)) :
  Forall (fun r => 1 <= snd r) rows ->
  Analytics.sumCounts (firstn n rows) <= Analytics.sumCounts rows.
Proof.
  revert rows. induction n as [|n IH]; intros rows H; simpl.
  - now apply sumCounts_nonneg.
  - destruct rows as [|r rest]; simpl; [lia|].
    inversion H; subst. specialize (IH rest ltac:(assumption)). lia.
Qed.

Lemma Forall_firstn {A} (P : A -> Prop) (n : nat) (l : list A) :
  Forall P l -> Forall P (firstn n l).
Proof.
  intros H. apply List.Forall_forall. intros x Hx. apply In_of_firstn in Hx.
  rewrite List.Forall_forall in H. auto.
Qed.

Lemma countBy_sum {K} (eqb : K -> K -> bool) (key : Click.t -> K) (m : Click.t -> bool)
      (cs : list Click.t) :
  Analytics.sumCounts (LinkAnalytics.countBy eqb key m cs)
  = Z.of_nat (length (Mongo.find_all m cs))
  /\ Forall (fun r => 1 <= snd r) (LinkAnalytics.countBy eqb key m cs).
Proof.
  unfold LinkAnalytics.countBy. split.
  - now rewrite sort_by_sum, groupCount_sum.
  - apply sort_by_Forall, groupCount_positive.
Qed.

Lemma labelled_named (d : string) (rows : list (string * Z)) :
  d <> "" -> Forall (fun r => 1 <= snd r) rows ->
  Forall (fun r => fst r <> "" /\ 1 <= snd r) (LinkAnalytics.labelled d rows).
Proof.
  intros Hd H. unfold LinkAnalytics.labelled. apply List.Forall_forall. intros r Hr.
  apply in_map_iff in Hr. destruct Hr as (r0 & <- & Hr0). simpl.
  rewrite List.Forall_forall in H. split; [|exact (H r0 Hr0)].
  destruct (fst r0); simpl; [exact Hd | discriminate].
Qed.

Lemma countries_spec (limit : nat) (m : Click.t -> bool) (cs : list Click.t) :
  Analytics.sumCounts (LinkAnalytics.countries limit m cs)
  <= Z.of_nat (length (Mongo.find_all m cs))
  /\ (length (LinkAnalytics.countries limit m cs) <= limit)%nat
  /\ Forall (fun r => fst r <> "" /\ 1 <= snd r) (LinkAnalytics.countries limit m cs).
Proof.
  unfold LinkAnalytics.countries.
  destruct (countBy_sum Analytics.opt_eqb Click.country m cs) as [Hsum Hpos].
  set (rows := LinkAnalytics.countBy Analytics.opt_eqb Click.country m cs) in *.
  set (f := fun r : option string * Z =>
              match fst r with
              | Some c => if Js.truthy c then Some (c, snd r) else None
              | None => None
              end).
  assert (Hle : forall l : list (option string * Z),
             Forall (fun r => 1 <= snd r) l ->
             Analytics.sumCounts (omap f l) <= Analytics.sumCounts l
             /\ Forall (fun r => fst r <> "" /\ 1 <= snd r) (omap f l)).
  { induction 1 as [|r rest Hr Hrest IH]; [split; [simpl; lia | constructor]|].
    destruct IH as [IH1 IH2].
    change (Analytics.sumCounts (r :: rest)) with (snd r + Analytics.sumCounts rest).
    change (omap f (r :: rest))
      with (match f r with Some y => y :: omap f rest | None => omap f rest end).
    assert (Hrest0 := sumCounts_nonneg rest Hrest).
    destruct (f r) as [y|] eqn:Hfr; [|split; [lia | exact IH2]].
    change (Analytics.sumCounts (y :: omap f rest))
      with (snd y + Analytics.sumCounts (omap f rest)).
    unfold f in Hfr. destruct (fst r) as [c|]; [|discriminate].
    destruct (Js.truthy c) eqn:Ht; [|discriminate]. injection Hfr as <-. simpl.
    split; [lia|]. constructor; [|exact IH2]. simpl.
    split; [now apply truthy_nonempty | exact Hr]. }
  destruct (Hle (firstn limit rows) (Forall_firstn _ _ _ Hpos)) as [H1 H2].
  split; [|split; [|exact H2]].
  - rewrite <- Hsum. etransitivity; [exact H1|]. now apply sumCounts_firstn_le.
  - etransitivity; [apply omap_length_le|]. rewrite length_firstn. lia.
Qed.

(** X24. The panels of [GET /links/:id/analytics] agree with each other.
    The route answers 404 unless the caller owns a link with that id.
    Otherwise, with [n] the number of clicks of the link in the window
    that pass the filters: the day series, the device panel and the
    browser panel each add up to [n]; the top referrers (at most 5) and
    the countries (at most 10, unknown country left out) add up to at
    most [n]; [recent] holds [min n 200] rows, newest first; and every
    row of a panel has a non-empty name and a count of at least 1. *)
Theorem link_report_panels_agree (ext : Externals) (now : Z) (user id : ObjectId)
        (q : gmap string string) (db : Db) :
  match LinkAnalytics.analytics ext now user id q db with
  | LinkAnalytics.NotFound status message =>
      status = 404
      /\ forall l, In l (links db) -> ~ (Link._id l = id /\ Link.ownerId l = user)
  | LinkAnalytics.ReportJson rep =>
      let since := Analytics.windowStart (Analytics.parseRange (q !! "range")) now in
      let counted :=
        Mongo.find_all
          (LinkAnalytics.matchLink id since (Analytics.commonFiltersFromQuery q)) (clicks db) in
      let n := Z.of_nat (length counted) in
      let named (rows : list (string * Z)) :=
        Forall (fun r => fst r <> "" /\ 1 <= snd r) rows in
      (exists link, In link (links db) /\ Link._id link = id /\ Link.ownerId link = user)
      /\ Analytics.sumClicks (LinkAnalytics.byDay rep) = n
      /\ Analytics.sumCounts (LinkAnalytics.rep_devices rep) = n
      /\ Analytics.sumCounts (LinkAnalytics.rep_browsers rep) = n
      /\ Analytics.sumCounts (LinkAnalytics.rep_referrers rep) <= n
      /\ Analytics.sumCounts (LinkAnalytics.rep_countries rep) <= n
      /\ (length (LinkAnalytics.rep_referrers rep) <= 5)%nat
      /\ (length (LinkAnalytics.rep_countries rep) <= 10)%nat
      /\ Z.of_nat (length (LinkAnalytics.recent rep)) = Z.min n 200
      /\ StronglySorted (fun a b => LinkAnalytics.rr_ts b <= LinkAnalytics.rr_ts a)
           (LinkAnalytics.recent rep)
      /\ named (LinkAnalytics.rep_devices rep) /\ named (LinkAnalytics.rep_browsers rep)
      /\ named (LinkAnalytics.rep_referrers rep) /\ named (LinkAnalytics.rep_countries rep)
  end.
Proof.
  unfold LinkAnalytics.analytics.
  destruct (Mongo.findOne (LinkRoutes.mine user id) (links db)) as [link|] eqn:Hf.
  - apply findOne_Some in Hf. destruct Hf as [Hin Hm]. unfold LinkRoutes.mine in Hm.
    apply andb_true_iff in Hm. destruct Hm as [H1 H2]. apply String.eqb_eq in H1, H2.
    rewrite H1.
    set (m := LinkAnalytics.matchLink id _ _).
    cbn [LinkAnalytics.byDay LinkAnalytics.rep_devices LinkAnalytics.rep_browsers
         LinkAnalytics.rep_referrers LinkAnalytics.rep_countries LinkAnalytics.recent].
    destruct (countBy_sum String.eqb Click.device m (clicks db)) as [Hd Hdp].
    destruct (countBy_sum String.eqb Click.browser m (clicks db)) as [Hb Hbp].
    destruct (countBy_sum String.eqb Click.referer m (clicks db)) as [Hr Hrp].
    destruct (countries_spec LinkAnalytics.TOP_COUNTRIES_LIMIT m (clicks db))
      as (Hc1 & Hc2 & Hc3).
    split; [exists link; auto|].
    split.
    { rewrite series_counts_match. unfold Analytics.totalsAgg. apply group_null. }
    split; [unfold LinkAnalytics.devices; now rewrite sumCounts_labelled|].
    split; [unfold LinkAnalytics.browsers; now rewrite sumCounts_labelled|].
    split.
    { unfold LinkAnalytics.referrers. rewrite sumCounts_labelled, <- Hr.
      now apply sumCounts_firstn_le. }
    split; [exact Hc1|].
    split.
    { unfold LinkAnalytics.referrers, LinkAnalytics.labelled.
      rewrite length_map, length_firstn. unfold LinkAnalytics.TOP_REFERRERS_LIMIT. lia. }
    split; [exact Hc2|].
    split.
    { unfold LinkAnalytics.recentClicks. rewrite length_map, length_firstn.
      rewrite (Permutation_length (sort_by_perm _ (Mongo.find_all m (clicks db)))).
      unfold LinkAnalytics.RECENT_CLICKS_LIMIT. lia. }
    split.
    { apply (StronglySorted_map
               (fun a b => LinkAnalytics.rr_ts b <= LinkAnalytics.rr_ts a)
               LinkAnalytics.recentRow).
      unfold LinkAnalytics.recentClicks. apply StronglySorted_firstn. simpl.
      eapply StronglySorted_weaken;
        [|apply (sort_by_sorted (fun a b : Click.t => Click.ts b <=? Click.ts a))].
      - intros a b H. apply Z.leb_le, H.
      - intros a b H. apply Z.leb_gt in H. apply Z.leb_le. lia.
      - intros a b c Hab Hbc. apply Z.leb_le in Hab, Hbc. apply Z.leb_le. lia. }
    split; [apply labelled_named; [discriminate | exact Hdp]|].
    split; [apply labelled_named; [discriminate | exact Hbp]|].
    split; [|exact Hc3].
    apply labelled_named; [discriminate|]. now apply Forall_firstn.
  - split; [reflexivity|]. intros l Hl [H1 H2]. rewrite findOne_None_iff in Hf.
    specialize (Hf l Hl). unfold LinkRoutes.mine in Hf.
    rewrite H1, H2, !String.eqb_refl in Hf. discriminate.
Qed.

Lemma addToSet_spec (vals : list (option string)) : forall seen,
  NoDup seen ->
  NoDup (LinkAnalytics.addToSet vals seen)
  /\ (forall x, In x (LinkAnalytics.addToSet vals seen) <-> In x vals \/ In x seen).
Proof.
  induction vals as [|v rest IH]; intros seen Hnd; simpl.
  - split; [exact Hnd|]. intros x. tauto.
  - destruct (existsb (Analytics.opt_eqb v) seen) eqn:He.
    + destruct (IH seen Hnd) as [H1 H2]. split; [exact H1|].
      intros x. rewrite H2. apply existsb_exists in He. destruct He as (y & Hy & Heq).
      apply opt_eqb_iff in Heq. subst y. split; [tauto|].
      intros [[<- | H] | H]; auto.
    + assert (Hv : ~ In v seen).
      { intros Hin. assert (existsb (Analytics.opt_eqb v) seen = true); [|congruence].
        apply existsb_exists. exists v. split; [exact Hin | now apply opt_eqb_iff]. }
      assert (Hnd' : NoDup (seen ++ [v])).
      { apply NoDup_app. split; [exact Hnd|]. split; [|apply NoDup_singleton].
        intros x Hx Hx'. apply list_elem_of_singleton in Hx'. subst x.
        apply Hv. now apply list_elem_of_In. }
      destruct (IH _ Hnd') as [H1 H2]. split; [exact H1|].
      intros x. rewrite H2, in_app_iff. simpl. tauto.
Qed.

Lemma options_spec (get : Click.Utm -> option string) (m : Click.t -> bool)
      (cs : list Click.t) :
  (forall s, In s (LinkAnalytics.options get m cs) <->
             s <> "" /\ exists c, In c cs /\ m c = true /\ Analytics.utmPath get c = Some s)
  /\ StronglySorted (fun a b => String.leb a b = true /\ a <> b)
       (LinkAnalytics.options get m cs).
Proof.
  unfold LinkAnalytics.options.
  set (f := fun v : option string =>
              match v with
              | Some s => if Js.truthy s then Some s else None
              | None => None
              end).
  set (vals := map (Analytics.utmPath get) (Mongo.find_all m cs)).
  destruct (addToSet_spec vals [] (NoDup_nil_2)) as [Hnd Hin].
  assert (Hf : forall v s, f v = Some s <-> v = Some s /\ s <> "").
  { intros v s. unfold f. destruct v as [[|c t]|]; simpl; split;
      try discriminate; try (intros [H ?]; discriminate).
    - intros [[= <-] H]. contradiction.
    - intros [= <-]. split; [reflexivity | discriminate].
    - intros [[= <-] _]. reflexivity. }
  assert (Hmem : forall s, In s (omap f (LinkAnalytics.addToSet vals [])) <->
                           s <> "" /\ In (Some s) vals).
  { intros s. rewrite <- list_elem_of_In, list_elem_of_omap. split.
    - intros (v & Hv & Hfv). apply Hf in Hfv. destruct Hfv as [-> Hs].
      split; [exact Hs|]. apply list_elem_of_In, Hin in Hv. simpl in Hv. tauto.
    - intros [Hs Hv]. exists (Some s). split; [|now apply Hf].
      apply list_elem_of_In, Hin. now left. }
  assert (Hnd' : NoDup (omap f (LinkAnalytics.addToSet vals []))).
  { clear Hin Hmem. induction Hnd as [|v l Hv Hl IH]; simpl; [constructor|].
    change (list_omap _ _ f l) with (omap f l).
    destruct (f v) as [s|] eqn:Hfv; [|exact IH]. apply NoDup_cons. split; [|exact IH].
    intros Hs. apply list_elem_of_omap in Hs. destruct Hs as (v' & Hv' & Hfv').
    apply Hf in Hfv, Hfv'. destruct Hfv as [-> _]. destruct Hfv' as [-> _]. contradiction. }
  split.
  - intros s. split.
    + intros Hs. apply sort_by_In, Hmem in Hs. destruct Hs as [Hne Hv].
      split; [exact Hne|]. unfold vals in Hv. apply in_map_iff in Hv.
      destruct Hv as (c & Hc & Hcin). apply find_all_In in Hcin. destruct Hcin as [Hcin Hmc].
      exists c. auto.
    + intros (Hne & c & Hc & Hmc & Hp).
      apply (Permutation_in (l := omap f (LinkAnalytics.addToSet vals []))).
      * symmetry. apply sort_by_perm.
      * apply Hmem. split; [exact Hne|]. unfold vals. apply in_map_iff. exists c.
        split; [exact Hp|]. unfold Mongo.find_all. apply List.filter_In. auto.
  - apply (strictly_sorted (fun s : string => s)).
    + apply (sort_by_sorted String.leb).
      * intros a b. apply string_leb_total.
      * intros a b c. apply string_leb_trans.
    + rewrite map_id. eapply NoDup_Permutation_proper; [|exact Hnd'].
      apply sort_by_perm.
Qed.

(** X25. The UTM option lists of the per-link report hold exactly the
    values seen on the link: a string is listed under [sources] if and
    only if it is not empty and some click of the link, of any date,
    carries it as [utm.source]; likewise [mediums] and [campaigns].
    Each list is in strictly increasing order, so no value is listed
    twice. *)
Theorem utm_options_list_the_values_seen (ext : Externals) (now : Z) (user id : ObjectId)
        (q : gmap string string) (db : Db) (rep : LinkAnalytics.Report) :
  LinkAnalytics.analytics ext now user id q db = LinkAnalytics.ReportJson rep ->
  let seen (get : Click.Utm -> option string) (s : string) :=
    s <> "" /\ exists c, In c (clicks db) /\ Click.linkId c = id
                         /\ Analytics.utmPath get c = Some s in
  let increasing := StronglySorted (fun a b => String.leb a b = true /\ a <> b) in
  (forall s, In s (LinkAnalytics.sources (LinkAnalytics.utmOptions rep))
             <-> seen Click.source s)
  /\ (forall s, In s (LinkAnalytics.mediums (LinkAnalytics.utmOptions rep))
                <-> seen Click.medium s)
  /\ (forall s, In s (LinkAnalytics.campaigns (LinkAnalytics.utmOptions rep))
                <-> seen Click.campaign s)
  /\ increasing (LinkAnalytics.sources (LinkAnalytics.utmOptions rep))
  /\ increasing (LinkAnalytics.mediums (LinkAnalytics.utmOptions rep))
  /\ increasing (LinkAnalytics.campaigns (LinkAnalytics.utmOptions rep)).
Proof.
  intros Hrep seen increasing. unfold LinkAnalytics.analytics in Hrep.
  destruct (Mongo.findOne (LinkRoutes.mine user id) (links db)) as [link|] eqn:Hf;
    [|discriminate].
  apply findOne_Some in Hf. destruct Hf as [_ Hm]. unfold LinkRoutes.mine in Hm.
  apply andb_true_iff in Hm. destruct Hm as [H1 _]. apply String.eqb_eq in H1.
  injection Hrep as <-. cbn [LinkAnalytics.utmOptions LinkAnalytics.sources
    LinkAnalytics.mediums LinkAnalytics.campaigns]. rewrite H1.
  assert (Hgen : forall get,
             (forall s, In s (LinkAnalytics.options get
                                (fun c => String.eqb (Click.linkId c) id) (clicks db))
                        <-> seen get s)
             /\ increasing (LinkAnalytics.options get
                              (fun c => String.eqb (Click.linkId c) id) (clicks db))).
  { intros get.
    destruct (options_spec get (fun c => String.eqb (Click.linkId c) id) (clicks db))
      as [Hmem Hsorted].
    split; [|exact Hsorted]. intros s. rewrite Hmem. unfold seen.
    split; intros (Hne & c & Hc & Hid & Hp); (split; [exact Hne|]); exists c;
      (split; [exact Hc|]); (split; [|exact Hp]).
    - now apply String.eqb_eq.
    - now apply String.eqb_eq. }
  destruct (Hgen Click.source) as [Hs1 Hs2]. destruct (Hgen Click.medium) as [Hm1 Hm2].
  destruct (Hgen Click.campaign) as [Hc1 Hc2]. auto 10.
Qed.

(** The sources seen on the link [a1] of the sample store. *)
Lemma utm_options_list_the_values_seen_witness :
  exists rep,
    LinkAnalytics.analytics Sample.ext (103 * Sample.day_ms) "u1" "a1" ∅ Sample4.dbTagged
    = LinkAnalytics.ReportJson rep
    /\ In "ads" (LinkAnalytics.sources (LinkAnalytics.utmOptions rep)).
Proof.
  eexists. split; [reflexivity|].
  apply (proj1 (utm_options_list_the_values_seen Sample.ext (103 * Sample.day_ms) "u1" "a1" ∅
                  Sample4.dbTagged _ eq_refl) "ads").
  split; [discriminate|].
  exists (Sample4.tagged "k2" (101 * Sample.day_ms) "ads").
  split; [right; left; reflexivity|]. split; reflexivity.
Defined.

(* ================================================================== *)
(** * From the link routes to the redirect *)
(* ================================================================== *)

Lemma findOne_unique_code (db : Db) (doc : Link.t) :
  Links.UniqueCodes db -> In doc (links db) ->
  Mongo.findOne (fun l => String.eqb (Link.code l) (Link.code doc)) (links db) = Some doc.
Proof.
  intros Hu Hin.
  destruct (Mongo.findOne _ (links db)) as [d|] eqn:Hf.
  - apply findOne_Some in Hf. destruct Hf as [Hd Heq]. apply String.eqb_eq in Heq.
    f_equal. apply (NoDup_key_inj Link.code (links db)); auto; now apply list_elem_of_In.
  - rewrite findOne_None_iff in Hf. specialize (Hf doc Hin).
    rewrite String.eqb_refl in Hf. discriminate.
Qed.

Section CreateThenFollow.
Variable ext : Externals.

Lemma create_appends (fuel : nat) (gen : nat -> string) (meta : Links.PageMeta)
      (user newId : ObjectId) (now : Z) (v : Links.CreateValue) (db : Db)
      (doc : Link.t) (url : string) (db' : Db) :
  Links.create ext fuel gen meta user newId now (Valid v) db
  = Some (Links.LinkJson doc url, db') ->
  Validators.isSafeUrl (Links.c_longUrl v) = true
  /\ Links.codeTaken (Link.code doc) db = None
  /\ doc = Links.newLink ext user newId now (Link.code doc) meta v
  /\ url = Links.buildShortUrl ext doc
  /\ links db' = links db ++ [doc].
Proof.
  unfold Links.create.
  destruct (Validators.isSafeUrl (Links.c_longUrl v)) eqn:Hu; simpl negb; cbv iota;
    [|discriminate].
  destruct (negb (Js.truthy (Js.trim (Js.or_else (Links.c_code v) "")))).
  - destruct (Links.genLoop fuel gen 0 db) as [c|] eqn:Hg; [|discriminate].
    intros [= <- <- <-]. simpl. apply genLoop_fresh in Hg. auto.
  - destruct (Links.codeTaken _ db) eqn:Ht; [discriminate|].
    intros [= <- <- <-]. simpl. auto.
Qed.

(** X26. A link just created is served.  When [POST /api/links] answers
    with the new link (for a body with [maxClicks >= 0], as the schema
    demands, and a fresh [_id]), then [GET /api/links/:id] gives the
    same document and short URL back to its owner, the stored URL is the
    one sent and passes the safety check, and [GET /r/<code>] before
    the expiry date answers: for a link without password, 302 to the
    long URL with a click logged for the new link; for a link with a
    password, 302 to the unlock page when the request has neither the
    cookie nor [pw]. *)
Theorem created_link_is_served (fuel : nat) (gen : nat -> string) (meta : Links.PageMeta)
        (user newId : ObjectId) (now : Z) (v : Links.CreateValue) (db : Db)
        (doc : Link.t) (url : string) (db' : Db) :
  Links.create ext fuel gen meta user newId now (Valid v) db
  = Some (Links.LinkJson doc url, db') ->
  0 <= Links.c_maxClicks v ->
  (forall l, In l (links db) -> Link._id l <> newId) ->
  LinkRoutes.read ext user newId db' = Links.LinkJson doc url
  /\ Link.longUrl doc = Links.c_longUrl v
  /\ Validators.isSafeUrl (Link.longUrl doc) = true
  /\ (forall now' req,
         Js.trim (Redirect.params_code req) = Link.code doc ->
         (forall e, Links.c_expiresAt v = Some e -> now' <= e) ->
         (Js.truthy_opt (Links.c_password v) = false ->
          Redirect.handler ext now' req db'
          = {| Redirect.response := Redirect.RedirectTo 302 (Links.c_longUrl v);
               Redirect.setCookie := None;
               Redirect.enqueued := Some (Redirect.clickPayload ext now' req doc) |}
          /\ Click.p_linkId (Redirect.clickPayload ext now' req doc) = newId)
         /\ (Js.truthy_opt (Links.c_password v) = true ->
             Js.truthy (Utils.hashPassword ext (Js.or_else (Links.c_password v) "")) = true ->
             Redirect.signedCookies req !! Redirect.cookieKey doc <> Some "1" ->
             Redirect.query req !! "pw" = None ->
             Redirect.handler ext now' req db'
             = Redirect.respond
                 (Redirect.RedirectTo 302 ("/r/" +:+ Link.code doc +:+ "/unlock")))).
Proof.
  intros Hcreate Hmax Hfresh.
  destruct (create_appends _ _ _ _ _ _ _ _ _ _ _ Hcreate) as (Hsafe & Hcode & Hdoc & Hurl & Hl).
  assert (Hid : Link._id doc = newId) by (rewrite Hdoc; reflexivity).
  assert (Hown : Link.ownerId doc = user) by (rewrite Hdoc; reflexivity).
  assert (Hlong : Link.longUrl doc = Links.c_longUrl v) by (rewrite Hdoc; reflexivity).
  split; [|split; [exact Hlong|split; [now rewrite Hlong|]]].
  - unfold LinkRoutes.read. rewrite Hl.
    rewrite (findOne_snoc_fresh (LinkRoutes.mine user newId) (links db) doc).
    + now rewrite Hurl.
    + apply findOne_None_iff. intros d Hd. unfold LinkRoutes.mine.
      apply andb_false_iff. left. apply String.eqb_neq. exact (Hfresh d Hd).
    + unfold LinkRoutes.mine. rewrite Hid, Hown, !String.eqb_refl. reflexivity.
  - intros now' req Hreq Hexp.
    assert (Hfind : Mongo.findOne
                      (fun l => String.eqb (Link.code l) (Js.trim (Redirect.params_code req)))
                      (links db') = Some doc).
    { rewrite Hreq, Hl. apply findOne_snoc_fresh; [exact Hcode | apply String.eqb_refl]. }
    assert (Hgate : Redirect.handler ext now' req db'
                    = match Redirect.passwordGate ext (Link.code doc) req doc with
                      | Some early => early
                      | None =>
                          {| Redirect.response := Redirect.RedirectTo 302 (Link.longUrl doc);
                             Redirect.setCookie := None;
                             Redirect.enqueued :=
                               Some (Redirect.clickPayload ext now' req doc) |}
                      end).
    { rewrite handler_unfold, Hfind, Hreq.
      assert (Hact : Link.isActive doc = true) by (rewrite Hdoc; reflexivity).
      assert (Hexp' : match Link.expiresAt doc with Some e => e <? now' | None => false end
                      = false).
      { rewrite Hdoc. simpl. destruct (Links.c_expiresAt v) as [e|]; [|reflexivity].
        apply Z.ltb_ge. now apply Hexp. }
      assert (Hcap : Js.truthy_num (Link.maxClicks doc)
                     && (Link.maxClicks doc <=? Link.clicksCount doc) = false).
      { rewrite Hdoc. simpl. unfold Js.truthy_num.
        destruct (Z.eqb_spec (Links.c_maxClicks v) 0) as [-> | Hne]; [reflexivity|].
        simpl. apply Z.leb_gt. lia. }
      now rewrite Hact, Hexp', Hcap. }
    split.
    + intros Hnopw. rewrite Hgate. unfold Redirect.passwordGate.
      assert (Hh : Js.truthy_opt (Link.passwordHash doc) = false)
        by (rewrite Hdoc; simpl; now rewrite Hnopw).
      rewrite Hh, Hlong. split; [reflexivity|]. exact Hid.
    + intros Hpw Hhash Hck Hq. rewrite Hgate. unfold Redirect.passwordGate.
      assert (Hh : Js.truthy_opt (Link.passwordHash doc) = true)
        by (rewrite Hdoc; simpl; now rewrite Hpw).
      rewrite Hh, (okCookie_false req doc Hck).
      unfold Redirect.okPw, Redirect.query_pw. rewrite Hq. reflexivity.
Qed.

End CreateThenFollow.

(** A link created with a generated code and then followed. *)
Lemma created_link_is_served_witness :
  LinkRoutes.read Sample.ext "u1" "b9" 
    (set_links (fun ls => ls ++ [Links.newLink Sample.ext "u1" "b9" 2000 "x7Kp2Qa"
                                   Sample.noPageMeta
                                   (Sample.newLinkBody "https://example.com/new" None)])
       Sample.db0)
  = Links.LinkJson
      (Links.newLink Sample.ext "u1" "b9" 2000 "x7Kp2Qa" Sample.noPageMeta
         (Sample.newLinkBody "https://example.com/new" None))
      "https://sho.rt/r/x7Kp2Qa".
Proof.
  refine (proj1 (created_link_is_served Sample.ext 5 Sample.codes Sample.noPageMeta "u1" "b9"
                   2000 (Sample.newLinkBody "https://example.com/new" None) Sample.db0
                   _ _ _ eq_refl _ _)).
  - simpl. lia.
  - intros l Hl. simpl in Hl.
    repeat (destruct Hl as [<- | Hl]; [discriminate|]). destruct Hl.
Defined.

Lemma updateOne_has_update {A} (q : A -> bool) (f : A -> A) (l : list A) (u : A) :
  Mongo.findOne q l = Some u -> In (f u) (Mongo.updateOne q f l).
Proof.
  unfold Mongo.findOne. induction l as [|d rest IH]; simpl; [discriminate|].
  destruct (q d); [intros [= ->]; now left | intros H; right; now apply IH].
Qed.

Section UpdateThenFollow.
Variable ext : Externals.

(** X27. The redirect sees an update at once.  When [PATCH /api/links/:id]
    answers with the updated link (unique ids and codes, a body that
    passed the schema), the link is the caller's link changed by the
    body, and [GET /r/<code>] finds it under its code: if the code was
    renamed the old code answers 404, if the body set [isActive] to
    false the link answers 404, and an active, unexpired, uncapped link
    without password redirects to its (possibly new) long URL. *)
Theorem update_is_seen_by_the_redirect (fetched : option Links.PageMeta) (user id : ObjectId)
        (now : Z) (v : Links.UpdateValue) (db : Db) (doc : Link.t) (url : string) (db' : Db) :
  Links.UniqueIds db ->
  Links.UniqueCodes db ->
  Links.codeIsSlug v ->
  Links.update ext fetched user id now (Valid v) db = (Links.LinkJson doc url, db') ->
  (exists old,
      In old (links db) /\ Link._id old = id /\ Link.ownerId old = user
      /\ doc = Links.applySet ext now fetched v old
      /\ (Link.code doc <> Link.code old ->
          forall now' req,
            Js.trim (Redirect.params_code req) = Link.code old ->
            Redirect.handler ext now' req db' = Redirect.respond Redirect.notFound))
  /\ Mongo.findOne (fun l => String.eqb (Link.code l) (Link.code doc)) (links db') = Some doc
  /\ (Links.u_isActive v = Some false ->
      forall now' req,
        Js.trim (Redirect.params_code req) = Link.code doc ->
        Redirect.handler ext now' req db' = Redirect.respond Redirect.notFound)
  /\ (forall now' req,
        Js.trim (Redirect.params_code req) = Link.code doc ->
        Link.isActive doc = true ->
        (forall e, Link.expiresAt doc = Some e -> now' <= e) ->
        Link.maxClicks doc = 0 \/ Link.clicksCount doc < Link.maxClicks doc ->
        Js.truthy_opt (Link.passwordHash doc) = false ->
        Redirect.handler ext now' req db'
        = {| Redirect.response := Redirect.RedirectTo 302 (Link.longUrl doc);
             Redirect.setCookie := None;
             Redirect.enqueued := Some (Redirect.clickPayload ext now' req doc) |}).
Proof.
  intros Hids Hcodes Hslug Hupd.
  destruct (update_keeps_unique ext fetched user id now (Valid v) db Hids Hcodes)
    as [Hcodes' Hids']; [intros v' [= <-]; exact Hslug|].
  rewrite Hupd in Hcodes', Hids'. simpl in Hcodes', Hids'.
  unfold Links.update in Hupd.
  destruct (_ && _) in Hupd; [discriminate|].
  match type of Hupd with context [if ?c then (Links.Error 409 _, _) else _] =>
    destruct c end; [discriminate|].
  change (fun l : Link.t => String.eqb (Link._id l) id && String.eqb (Link.ownerId l) user)
    with (LinkRoutes.mine user id) in Hupd.
  destruct (Mongo.findOne (LinkRoutes.mine user id) (links db)) as [old|] eqn:Hf;
    [|discriminate].
  injection Hupd as Hdoc Hurl Hdb'.
  pose proof (findOne_Some _ _ _ Hf) as [Hold Hmine].
  unfold LinkRoutes.mine in Hmine. apply andb_true_iff in Hmine.
  destruct Hmine as [Hm1 Hm2]. apply String.eqb_eq in Hm1, Hm2.
  assert (Hlinks : links db'
                   = map (fun d => if LinkRoutes.mine user id d
                                   then Links.applySet ext now fetched v d else d) (links db)).
  { rewrite <- Hdb'. simpl. apply (updateOne_pointwise Link._id id); [|exact Hids].
    intros d Hd. unfold LinkRoutes.mine in Hd. apply andb_true_iff in Hd.
    destruct Hd as [Hd _]. now apply String.eqb_eq in Hd. }
  assert (Hin : In doc (links db')).
  { rewrite <- Hdb', <- Hdoc. simpl. now apply updateOne_has_update. }
  assert (Hfind : Mongo.findOne (fun l => String.eqb (Link.code l) (Link.code doc)) (links db')
                  = Some doc) by (now apply findOne_unique_code).
  assert (Hserve : forall now' req,
             Js.trim (Redirect.params_code req) = Link.code doc ->
             Redirect.handler ext now' req db'
             = if negb (Link.isActive doc) then Redirect.respond Redirect.notFound
               else if match Link.expiresAt doc with Some e => e <? now' | None => false end
               then Redirect.respond Redirect.expired
               else if Js.truthy_num (Link.maxClicks doc)
                       && (Link.maxClicks doc <=? Link.clicksCount doc)
               then Redirect.respond Redirect.maxReached
               else match Redirect.passwordGate ext (Link.code doc) req doc with
                    | Some early => early
                    | None =>
                        {| Redirect.response := Redirect.RedirectTo 302 (Link.longUrl doc);
                           Redirect.setCookie := None;
                           Redirect.enqueued :=
                             Some (Redirect.clickPayload ext now' req doc) |}
                    end).
  { intros now' req Hreq. now rewrite handler_unfold, Hreq, Hfind. }
  split; [|split; [exact Hfind|split]].
  - exists old. repeat split; auto.
    intros Hne now' req Hreq. rewrite handler_unfold, Hreq.
    assert (Hnone : Mongo.findOne (fun l => String.eqb (Link.code l) (Link.code old))
                      (links db') = None).
    { apply findOne_None_iff. intros d' Hd'. rewrite Hlinks in Hd'.
      apply in_map_iff in Hd'. destruct Hd' as (d & <- & Hd).
      apply String.eqb_neq. destruct (LinkRoutes.mine user id d) eqn:Hmd.
      - assert (d = old).
        { apply (NoDup_key_inj Link._id (links db)); auto; try now apply list_elem_of_In.
          unfold LinkRoutes.mine in Hmd. apply andb_true_iff in Hmd. destruct Hmd as [Hmd _].
          apply String.eqb_eq in Hmd. congruence. }
        subst d. now rewrite Hdoc.
      - intros Heq. assert (d = old).
        { apply (NoDup_key_inj Link.code (links db)); auto; now apply list_elem_of_In. }
        subst d. unfold LinkRoutes.mine in Hmd. rewrite Hm1, Hm2, !String.eqb_refl in Hmd.
        discriminate. }
    now rewrite Hnone.
  - intros Hoff now' req Hreq. rewrite (Hserve now' req Hreq).
    assert (Hact : Link.isActive doc = false) by (rewrite <- Hdoc; simpl; now rewrite Hoff).
    now rewrite Hact.
  - intros now' req Hreq Hact Hexp Hcap Hpw. rewrite (Hserve now' req Hreq), Hact. simpl negb.
    cbv iota.
    assert (Hexp' : match Link.expiresAt doc with Some e => e <? now' | None => false end
                    = false).
    { destruct (Link.expiresAt doc) as [e|]; [|reflexivity]. apply Z.ltb_ge. now apply Hexp. }
    assert (Hcap' : Js.truthy_num (Link.maxClicks doc)
                    && (Link.maxClicks doc <=? Link.clicksCount doc) = false).
    { destruct Hcap as [-> | Hlt]; [reflexivity|]. apply andb_false_iff. right.
      apply Z.leb_gt. exact Hlt. }
    rewrite Hexp', Hcap'. unfold Redirect.passwordGate. now rewrite Hpw.
Qed.

End UpdateThenFollow.

(** The link [docs] of the sample store renamed to [handbook]. *)
Lemma update_is_seen_by_the_redirect_witness :
  Redirect.handler Sample.ext 2000 (Sample.get "docs" [] [])
    (snd (Links.update Sample.ext None "u1" "a1" 2000 (Valid (Sample.rename "handbook"))
            Sample.db0))
  = Redirect.respond Redirect.notFound.
Proof.
  assert (Hid : Links.UniqueIds Sample.db0).
  { apply (bool_decide_unpack _). vm_compute. reflexivity. }
  assert (Hc : Links.UniqueCodes Sample.db0).
  { apply (bool_decide_unpack _). vm_compute. reflexivity. }
  assert (Hs : Links.codeIsSlug (Sample.rename "handbook")).
  { intros c [= <-]. reflexivity. }
  destruct (update_is_seen_by_the_redirect Sample.ext None "u1" "a1" 2000
              (Sample.rename "handbook") Sample.db0 _ _ _ Hid Hc Hs eq_refl)
    as [(old & Hold & Hi & _ & _ & Hgone) _].
  assert (old = Sample.plain).
  { simpl in Hold. destruct Hold as [<- | [<- | [<- | [<- | [<- | []]]]]];
      try reflexivity; discriminate. }
  subst old. apply Hgone; [discriminate | reflexivity].
Defined.

(* ================================================================== *)
(** * The key of the per-link rate limiter *)
(* ================================================================== *)

Lemma trimStart_app_spaces (s ws : string) :
  Validators.all_chars Js.is_space ws = true ->
  exists ws', Validators.all_chars Js.is_space ws' = true
              /\ Js.trimStart (s +:+ ws) = Js.trimStart s +:+ ws'.
Proof.
  intros Hws. induction s as [|c s IH].
  - exists "". split; [reflexivity|]. simpl. clear -Hws.
    induction ws as [|c ws IH]; [reflexivity|]. simpl in *.
    apply andb_true_iff in Hws. destruct Hws as [-> Hws]. now apply IH.
  - rewrite append_cons. simpl. destruct (Js.is_space c); [exact IH|].
    exists ws. split; [exact Hws | reflexivity].
Qed.

Lemma trim_app_spaces (s ws : string) :
  Validators.all_chars Js.is_space ws = true -> Js.trim (s +:+ ws) = Js.trim s.
Proof.
  intros Hws. unfold Js.trim.
  destruct (trimStart_app_spaces s ws Hws) as (ws' & Hws' & ->).
  now apply trimEnd_spaces.
Qed.

Lemma or_else_self (s : string) : Js.or_else (Some s) "" = s.
Proof. destruct s; reflexivity. Qed.

Lemma no_bar_prefix (a b x y : string) :
  Validators.all_chars (fun c => negb (Ascii.eqb c "|")) a = true ->
  Validators.all_chars (fun c => negb (Ascii.eqb c "|")) b = true ->
  a +:+ "|" +:+ x = b +:+ "|" +:+ y -> a = b /\ x = y.
Proof.
  revert b. induction a as [|c a IH]; intros [|d b] Ha Hb H.
  - simpl in H. injection H as H. auto.
  - exfalso. rewrite append_cons in H. simpl in H. injection H as H _. subst d.
    simpl in Hb. discriminate.
  - exfalso. rewrite append_cons in H. simpl in H. injection H as H _. subst c.
    simpl in Ha. discriminate.
  - rewrite !append_cons in H. injection H as -> H. simpl in Ha, Hb.
    apply andb_true_iff in Ha, Hb. destruct (IH b (proj2 Ha) (proj2 Hb) H) as [-> ->]. auto.
Qed.

(** X28. The per-link rate limiter counts by route parameter and client
    address.  For codes without a bar (every slug), two requests share
    a key exactly when they agree on the parameter as sent and on the
    client address, and that address is the one whose digest the click
    log stores.  The key takes the parameter as sent while the handler
    trims it: a request for a code followed by white space is answered
    exactly like the request for the code, but counted under another
    key. *)
Theorem limiter_key_is_code_and_address (ext : Externals) :
  (forall r1 r2,
      Validators.all_chars (fun c => negb (Ascii.eqb c "|")) (Redirect.params_code r1) = true ->
      Validators.all_chars (fun c => negb (Ascii.eqb c "|")) (Redirect.params_code r2) = true ->
      (RateLimit.keyGenerator r1 = RateLimit.keyGenerator r2
       <-> Redirect.params_code r1 = Redirect.params_code r2
           /\ Redirect.client_ip r1 = Redirect.client_ip r2))
  /\ (forall now req link,
        Click.p_ipHash (Redirect.clickPayload ext now req link)
        = Utils.ipHash ext now (Redirect.client_ip req)
        /\ RateLimit.keyGenerator req
           = Redirect.params_code req +:+ "|" +:+ Redirect.client_ip req)
  /\ (forall now req db ws,
        ws <> "" ->
        Validators.all_chars Js.is_space ws = true ->
        let padded := RateLimit.withCode (Redirect.params_code req +:+ ws) req in
        Redirect.handler ext now padded db = Redirect.handler ext now req db
        /\ RateLimit.keyGenerator padded <> RateLimit.keyGenerator req).
Proof.
  split; [|split].
  - intros r1 r2 H1 H2. unfold RateLimit.keyGenerator. rewrite !or_else_self. split.
    + now apply no_bar_prefix.
    + intros [-> ->]. reflexivity.
  - intros now req link. split; [reflexivity|]. unfold RateLimit.keyGenerator.
    now rewrite or_else_self.
  - intros now req db ws Hne Hws padded. split.
    + unfold Redirect.handler. subst padded. cbn [RateLimit.withCode Redirect.params_code].
      rewrite (trim_app_spaces _ ws Hws).
      destruct (Mongo.findOne _ (links db)) as [link|]; [|reflexivity].
      reflexivity.
    + subst padded. unfold RateLimit.keyGenerator. rewrite !or_else_self.
      cbn [RateLimit.withCode Redirect.params_code]. unfold Redirect.client_ip.
      cbn [Redirect.headers Redirect.remoteAddress].
      set (ip := if Js.truthy _ then _ else _). rewrite append_assoc.
      intros H. apply String.app_inj in H.
      destruct ws as [|c ws]; [contradiction|]. rewrite append_cons in H.
      simpl in H. injection H as Hc _. subst c. simpl in Hws. discriminate.
Qed.

(* ================================================================== *)
(** * Saved views and annotations: create, list, delete *)
(* ================================================================== *)

Lemma deleteOne_snoc_fresh {A} (p : A -> bool) (l : list A) (x : A) :
  (forall d, In d l -> p d = false) -> p x = true -> Mongo.deleteOne p (l ++ [x]) = l.
Proof.
  induction l as [|d rest IH]; intros Hl Hx; simpl; [now rewrite Hx|].
  rewrite (Hl d) by (left; reflexivity). f_equal. apply IH; [|exact Hx].
  intros d' Hd'. apply Hl. now right.
Qed.

(** X29. A saved view or an annotation that was created is listed, and
    deleting it undoes the creation.  When [POST /analytics/views]
    answers with an id, the name stored is the trimmed, non-empty name
    of the body, the next [GET /analytics/views] of the same user lists
    the old views and the new one, each once, and a [DELETE] of that id
    by the same user leaves the collection as it was before (for a fresh
    id).  Likewise for annotations, which [GET /analytics/annotations]
    lists when their date lies in the window asked for. *)
Theorem created_views_and_annotations_are_listed (user newId : ObjectId) (db : Db) :
  (forall v, In v (savedViews db) -> SavedView._id v <> newId) ->
  (forall a, In a (annotations db) -> Annotation._id a <> newId) ->
  (forall now b r db',
      Analytics.createView user newId now b db = (r, db') ->
      r = Analytics.Created newId ->
      exists v,
        savedViews db' = savedViews db ++ [v]
        /\ SavedView._id v = newId /\ SavedView.ownerId v = user
        /\ SavedView.name v <> "" /\ SavedView.name v = Js.trim (Js.or_else (Analytics.b_name b) "")
        /\ (exists rows,
               Analytics.listViews user db' = Analytics.Views rows
               /\ Permutation rows
                    (Analytics.viewRow v :: map Analytics.viewRow (Analytics.viewsOf user db)))
        /\ snd (Analytics.deleteView user newId db') = db)
  /\ (forall b r db',
         Analytics.createAnnotation user newId b db = (r, db') ->
         r = Analytics.Created newId ->
         exists a,
           annotations db' = annotations db ++ [a]
           /\ Annotation._id a = newId /\ Annotation.ownerId a = user
           /\ Annotation.label a <> ""
           /\ (forall now range,
                 Analytics.windowStart (Analytics.parseRange range) now <= Annotation.ts a ->
                 exists rows,
                   Analytics.listAnnotations now user range db' = Analytics.Annotations rows
                   /\ In (Analytics.annotationRow a) rows)
           /\ snd (Analytics.deleteAnnotation user newId db') = db).
Proof.
  intros Hv Ha. split.
  - intros now b r db' Hcreate Hr. unfold Analytics.createView in Hcreate.
    destruct (negb (Js.truthy_opt (Analytics.b_name b))
              || negb (Js.truthy (Js.trim (Js.or_else (Analytics.b_name b) "")))) eqn:Hname;
      [injection Hcreate as <- _; discriminate|].
    destruct (_ && _) in Hcreate; [|injection Hcreate as <- _; discriminate].
    injection Hcreate as _ <-.
    apply orb_false_iff in Hname. destruct Hname as [_ Hname].
    apply negb_false_iff in Hname.
    eexists. split; [reflexivity|]. split; [reflexivity|]. split; [reflexivity|].
    split; [now apply truthy_nonempty|]. split; [reflexivity|]. split.
    + eexists. split; [reflexivity|]. simpl savedViews. rewrite find_all_snoc.
      cbn [SavedView.ownerId]. rewrite String.eqb_refl.
      rewrite (Permutation_map Analytics.viewRow (sort_by_perm _ _)).
      rewrite map_app. simpl map. unfold Analytics.viewsOf.
      rewrite <- Permutation_cons_append. reflexivity.
    + unfold Analytics.deleteView. simpl. destruct db as [ls cs us vs ans]. simpl in *.
      unfold set_savedViews. simpl. f_equal. apply deleteOne_snoc_fresh.
      * intros d Hd. apply andb_false_iff. left. apply String.eqb_neq. exact (Hv d Hd).
      * simpl. now rewrite !String.eqb_refl.
  - intros b r db' Hcreate Hr. unfold Analytics.createAnnotation in Hcreate.
    destruct (Analytics.b_ts b) as [date|]; [|injection Hcreate as <- _; discriminate].
    destruct (Js.truthy_opt (Analytics.b_label b)) eqn:Hlabel;
      [|injection Hcreate as <- _; discriminate].
    destruct date as [ts|]; [|injection Hcreate as <- _; discriminate].
    injection Hcreate as _ <-.
    eexists. split; [reflexivity|]. split; [reflexivity|]. split; [reflexivity|].
    split.
    { simpl. destruct (Analytics.b_label b) as [[|c l]|]; discriminate. }
    split.
    + intros now range Hwin. eexists. split; [reflexivity|]. apply in_map.
      eapply Permutation_in; [symmetry; apply sort_by_perm|].
      simpl annotations. rewrite find_all_snoc. apply in_or_app. right.
      cbn [Annotation.ownerId Annotation.ts]. rewrite String.eqb_refl.
      simpl in Hwin. apply Z.leb_le in Hwin. rewrite Hwin. now left.
    + unfold Analytics.deleteAnnotation. simpl. destruct db as [ls cs us vs ans]. simpl in *.
      unfold set_annotations. simpl. f_equal. apply deleteOne_snoc_fresh.
      * intros d Hd. apply andb_false_iff. left. apply String.eqb_neq. exact (Ha d Hd).
      * simpl. now rewrite !String.eqb_refl.
Qed.

Lemma created_views_and_annotations_are_listed_witness :
  snd (Analytics.deleteView "u1" "v9"
         (snd (Analytics.createView "u1" "v9" 40
                 {| Analytics.b_name := Some " Weekly "; Analytics.b_range := None;
                    Analytics.b_compare := false; Analytics.b_filters := None;
                    Analytics.b_breakdown := Some "device" |} Sample.dbViews)))
  = Sample.dbViews.
Proof.
  assert (Hv : forall v, In v (savedViews Sample.dbViews) -> SavedView._id v <> "v9").
  { intros v Hin. simpl in Hin. destruct Hin as [<- | [<- | [<- | []]]]; discriminate. }
  assert (Ha : forall a, In a (annotations Sample.dbViews) -> Annotation._id a <> "v9").
  { intros a Hin. simpl in Hin. destruct Hin as [<- | [<- | []]]; discriminate. }
  destruct (proj1 (created_views_and_annotations_are_listed "u1" "v9" Sample.dbViews Hv Ha)
              40 {| Analytics.b_name := Some " Weekly "; Analytics.b_range := None;
                    Analytics.b_compare := false; Analytics.b_filters := None;
                    Analytics.b_breakdown := Some "device" |} _ _ eq_refl eq_refl)
    as (v & _ & _ & _ & _ & _ & _ & Hdel).
  exact Hdel.
Defined.

(* ================================================================== *)
(** * Properties of the shared overview *)
(* ================================================================== *)

Section SharedOverview.
Variable ext : Externals.
Variable jwt_verify : string -> option Share.Claims.
Variable toObjectId : string -> option ObjectId.

(** X30. A share link shows the overview of the account that issued it.
    The route answers with an overview only for a token that verifies,
    carries the scope [analytics:share] and names an account id; every
    other token (one that does not verify, a session token, which has no
    scope, a subject that is no ObjectId) gets 400. The overview is the
    one of the account named in the token, with the filters of the token,
    whatever the query string says; range, comparison and breakdown come
    from the query string when it sets them and from the token when it
    does not. For a query that sets the three and asks for the same
    filters as the token, the overview is exactly what
    [GET /analytics/overview] gives that account. *)
Theorem shared_overview_is_the_owners (now : Z) (token : string) (q : gmap string string)
        (db : Db) :
  (forall o,
      Share.overview ext true jwt_verify toObjectId now token q db = Share.Shared o ->
      exists d owner range compare tzMin breakdown,
        jwt_verify token = Some d
        /\ Share.scope d = Some "analytics:share"
        /\ toObjectId (Share.sub d) = Some owner
        /\ o = Analytics.buildOverviewPayload ext now owner range compare tzMin
                 (Share.claimFilter (Share.filters d)) breakdown db)
  /\ (jwt_verify token = None ->
      Share.overview ext true jwt_verify toObjectId now token q db
      = Share.Invalid 400 "Invalid or expired share token")
  /\ (forall d,
        jwt_verify token = Some d ->
        (Share.scope d <> Some "analytics:share" ->
         Share.overview ext true jwt_verify toObjectId now token q db
         = Share.Invalid 400 "Invalid or expired share token")
        /\ (toObjectId (Share.sub d) = None ->
            Share.overview ext true jwt_verify toObjectId now token q db
            = Share.Invalid 400 "Invalid or expired share token")
        /\ (forall owner,
              Share.scope d = Some "analytics:share" ->
              toObjectId (Share.sub d) = Some owner ->
              Share.overview ext true jwt_verify toObjectId now token q db
              = Share.Shared
                  (Analytics.buildOverviewPayload ext now owner
                     (if Js.truthy_opt (q !! "range") then q !! "range" else Share.range d)
                     (String.eqb
                        (if Js.truthy_opt (q !! "compare") then Js.or_else (q !! "compare") ""
                         else if Share.compare d then "1" else "0")
                        "1")
                     (Js.parseInt_or0 (q !! "tz"))
                     (Share.claimFilter (Share.filters d))
                     (if Js.truthy_opt (q !! "breakdown") then Js.or_else (q !! "breakdown") ""
                      else Js.or_else (Share.breakdown d) "")
                     db)
              /\ (Js.truthy_opt (q !! "range") = true ->
                  Js.truthy_opt (q !! "compare") = true ->
                  Js.truthy_opt (q !! "breakdown") = true ->
                  Analytics.commonFiltersFromQuery q = Share.claimFilter (Share.filters d) ->
                  Share.overview ext true jwt_verify toObjectId now token q db
                  = Share.Shared (Analytics.getOverview ext now owner q db))))
  /\ (forall q', Share.overview ext false jwt_verify toObjectId now token q' db
                 = Share.NotConfigured 501 "JWT not configured on server").
Proof.
  split; [|split; [|split]].
  - intros o. unfold Share.overview. simpl negb at 1. cbv iota.
    destruct (jwt_verify token) as [d|] eqn:Hv; [|discriminate].
    destruct (Redirect.opt_is (Share.scope d) "analytics:share") eqn:E; [|discriminate].
    apply opt_is_iff in E. simpl negb. cbv iota.
    destruct (toObjectId (Share.sub d)) as [owner|] eqn:Ho; [|discriminate].
    intros [= <-]. exists d, owner. do 4 eexists. now repeat split.
  - intros Hv. unfold Share.overview. now rewrite Hv.
  - intros d Hv. split; [|split].
    + intros Hscope. unfold Share.overview. rewrite Hv. simpl negb at 1. cbv iota.
      destruct (Redirect.opt_is (Share.scope d) "analytics:share") eqn:E; [|reflexivity].
      apply opt_is_iff in E. contradiction.
    + intros Ho. unfold Share.overview. rewrite Hv, Ho. simpl negb at 1. cbv iota.
      destruct (negb (Redirect.opt_is (Share.scope d) "analytics:share")); reflexivity.
    + intros owner Hscope Ho. unfold Share.overview. rewrite Hv, Hscope, Ho. simpl. split.
      * reflexivity.
      * intros Hr Hc Hb Hf. unfold Analytics.getOverview. rewrite Hr, Hc, Hb, Hf.
        destruct (q !! "range") as [r|]; [|discriminate].
        destruct (q !! "compare") as [c|]; [|discriminate].
        destruct (q !! "breakdown") as [b|]; [|discriminate].
        simpl in Hr, Hc, Hb. unfold Js.or_else. rewrite Hr, Hc, Hb. reflexivity.
  - intros q'. reflexivity.
Qed.

End SharedOverview.

Lemma shared_overview_is_the_owners_witness :
  Share.overview Sample.ext true Sample5.jwt_verify Some (103 * Sample.day_ms) "share.u1"
    Sample5.query Sample.dbClicks
  = Share.Shared (Analytics.getOverview Sample.ext (103 * Sample.day_ms) "u1" Sample5.query
                    Sample.dbClicks)
  /\ Share.overview Sample.ext true Sample5.jwt_verify Some (103 * Sample.day_ms) "jwt.u1.alice"
       Sample5.query Sample.dbClicks
     = Share.Invalid 400 "Invalid or expired share token".
Proof.
  pose proof (shared_overview_is_the_owners Sample.ext Sample5.jwt_verify Some
                (103 * Sample.day_ms) "share.u1" Sample5.query Sample.dbClicks)
    as (_ & _ & Hshare & _).
  pose proof (shared_overview_is_the_owners Sample.ext Sample5.jwt_verify Some
                (103 * Sample.day_ms) "jwt.u1.alice" Sample5.query Sample.dbClicks)
    as (_ & Hnone & _).
  split; [|exact (Hnone eq_refl)].
  destruct (Hshare _ eq_refl) as (_ & _ & Hown).
  destruct (Hown "u1" eq_refl eq_refl) as [_ Hsame].
  apply Hsame; reflexivity.
Defined.
